(* ===== verification/_CoqProject ===== *)
-Q . S2P
Prelude.v
GoInt.v
GoStrings.v
GoUtf8.v
GoBase64.v
GoTime.v
GoDuration.v
GoTemplate.v
Types.v
Effects.v
Libs.v
Util.v
NodeClass.v
UserData.v
InstanceTypes.v
Instance.v
KubeletCert.v
CloudProvider.v
NodeClassController.v
NodeClaimTTL.v
Operator.v
DeepCopy.v
Convergence.v
Fleet.v
Recycling.v
Drift.v
Interference.v
EntryPoints.v
