(* ===== verification/Prelude.v ===== *)
(** * Karpenter provider for UpCloud: a verification library

    The program (Go, under src/) is the UpCloud provider of the Karpenter node
    autoscaler.  Karpenter calls its cloud provider to create, delete, find and
    judge nodes; two controllers of its own keep the UpCloudNodeClass objects up
    to date and recycle old nodes.  This library models that code as executable
    Gallina functions and proves what makes each part correct.

    ** Layers

    - Go's runtime and standard library, as far as the program uses it:
      [Prelude] (bytes, strings, lists, tactics), [GoInt] (64-bit integers,
      %d and %016x), [GoStrings], [GoUtf8], [GoBase64], [GoTime] (instants,
      RFC 3339), [GoDuration] (ParseDuration), [GoTemplate] (text/template with
      fields only).
    - [Types]: the API objects, apis/v1alpha2 first, and of Kubernetes, Karpenter
      and UpCloud objects the fields the program touches.  Pointers that may be
      nil are options.
    - [Effects]: errors, and programs that call the outside.  A [prog] is a
      finite tree of calls; [runs p tr o] holds when [p], with some answers of
      the environment, makes the calls of the trace [tr] and ends with [o].
      Nothing is assumed about the environment, so a theorem over [runs] covers
      every failure of every call.  [exec] runs a program against a concrete
      environment, in the witnesses and examples.
    - [Libs]: third-party code as a class of parameters, with separate classes
      for the documented laws some theorems need, and one instance that has them
      all ([refLibs]).
    - The components, below.

    ** Components

    - [Util]: pkg/util/helpers.go, what a plan name says.
    - [NodeClass]: the hash and conditions of apis/v1alpha2.
    - [InstanceTypes]: pkg/providers/instancetypes, the catalogue of plans and
      the price cache; [Step] is the interleaving of concurrent refreshes at the
      granularity of the mutex.
    - [UserData]: pkg/providers/userdata, the cloud-init document.
    - [Instance]: pkg/providers/instance, the calls to the UpCloud service.
    - [KubeletCert]: pkg/cloudprovider/helpers.go, the node's certificate.
    - [CloudProvider]: pkg/cloudprovider/cloudprovider.go and pkg/events, the
      methods Karpenter calls; it uses all of the above.
    - [NodeClassController] and [NodeClaimTTL]: the two controllers.
    - [Operator]: pkg/providers/options.go and cmd/karpenter-upcloud/main.go;
      making the operator and running the manager are calls, and what [run] does
      before the manager is [prepare].
    - [DeepCopy]: the generated deep copies of apis/v1alpha2, over a heap; the
      other models copy values.

    ** The parts together

    These files run the components over a state.  Each states what it needs of the
    outside as an interface (a class over any state) and has an instance in
    memory.

    - [Fleet]: the servers of the account.  The specification is a small labelled
      machine ([FleetStep]: launch, halt, settle, remove); [ServerCloud] is a
      service whose calls may fail before or after they took effect and whose
      machines settle on their own, [ReliableCloud] one that works; the cloud
      provider refines the specification over the first ([Worked] is the work a
      Delete may have done).
    - [Convergence]: passes of the NodeClass controller over an [ApiServer].
    - [Drift]: such passes mixed with edits of the NodeClass and new claims.
    - [Recycling]: passes of the TTL controller over a [TTLServer] with a clock,
      pods coming and going in between.
    - [Interference]: the reads and patches of both controllers on one claim, in
      any order, with merge patches ([MergePatch]), each computed from any past
      version of the claim, as a cache may show it.
    - [EntryPoints]: the number of calls of every operation.

    A Go method is the definition of the same name in its component's file; the
    object a call writes back replaces the one the code goes on with; a loop that
    makes calls is a structural Fixpoint over its list.

    ** What is shown

    - Servers: at most one is created per Create, nothing is left behind by a
      failure before that, what is asked for is what NodeClaim and NodeClass say,
      and Delete removes only the claim's own, stopped server.  Over time: servers
      without the managed label are never touched (the code looks at no other
      label, so that of the cluster does not matter), and over a working cloud a
      node's life (create, find, delete, gone) leaves the fleet as it was.
    - Identity: provider IDs lead back to the server in Create, Get and List; the
      labels Karpenter is told agree with the catalogue, as do CPU, memory and
      pods, while the GPUs the catalogue lists are in no claim.
    - Drift: Create's claims drift exactly when the digest of the NodeClass
      changes; re-baselining never changes a verdict and writes exactly the due
      claims; the digest is insensitive to list order; every verdict, after any
      history, is traced to the stamp it comes from; the two controllers'
      patches never undo each other, and the last hash stamped counts as long as
      no stamp was made from an outdated copy of a certain kind, for which there
      is a counterexample.
    - NodeClass controller: finalizer, Ready condition and status hash; two
      passes bring a valid NodeClass and its claims to rest.
    - Copies: a deep copy is isolated from its original but for Spec.Storage.
    - TTL controller: a claim is deleted only when it is over its time, idle and
      unwanted; timing bounds with Go's overflow; agreement with the scheduler's
      semantics where the code has it, and examples where it does not; over time,
      every pass asks to be run again in time, an idle node is recycled at the
      next examination, and never before its TTL.
    - User data: accepted input cannot leave its line or its shell word, and the
      files the document writes read back.
    - Certificates: approval only of undecided requests, bundles only with the
      certificate of the request submitted, for the generated key.
    - Catalogue: both maps always agree under concurrency, capacities never wrap,
      the price cache calls out only when a TTL has passed since it last
      succeeded.
    - Start-up: nothing is changed before the manager is started, and what it is
      started with comes from the variables and the cluster read.
    - Every operation makes a bounded number of calls and returns, without a
      panic but for Create's on a UUID that is too short; the process ends when
      the manager does.

    ** Bounds and fuel

    Every model is total.  Fuel appears where Go loops over bytes (UTF-8
    decoding, template parsing, ParseDuration, PEM lines): it is the length of
    the text, and each round consumes at least one byte.  [poll_n] in [Libs]
    bounds a poll by the evaluations the clock allows; theorems hold for every
    bound, and [operations_end] uses the documented one.

    ** Not modelled

    Logging, contexts and cancellation; registration with the scheme; Karpenter's
    own controllers and all that runs inside the manager; the transition times of
    conditions, which move only with their status; RSA, X.509 and YAML encodings,
    which are parameters or answers of the environment.
    Planned next: the optimistic locks of the status patches.

    This file holds what every other one shares: notations, byte and string
    lemmas, and the tactics [bool_hyps] and [zdiv]. *)

From stdpp Require Export base option list strings gmap sorting.
From Stdlib Require Export ZArith Lia.
From Stdlib Require Import Ascii.

(** ** Notations and literals *)

Declare Scope go_scope.
Delimit Scope go_scope with go.

(** Single bytes that a literal cannot show. *)
Definition chr (n : nat) : string := String (ascii_of_nat n) EmptyString.
Definition LF : string := chr 10.
Definition DQ : string := chr 34.

(** The value of a byte, as the integer Go compares. *)
Definition byte_val (c : ascii) : Z := Z.of_N (N_of_ascii c).

Lemma byte_val_range c : (0 <= byte_val c < 256)%Z.
Proof. pose proof (N_ascii_bounded c). unfold byte_val. lia. Qed.

Lemma byte_val_inj c d : byte_val c = byte_val d -> c = d.
Proof.
  unfold byte_val. intros H%N2Z.inj.
  by rewrite <-(ascii_N_embedding c), <-(ascii_N_embedding d), H.
Qed.

(** The byte of a value (taken mod 256, as a Go conversion to byte does). *)
Definition byte_of (z : Z) : ascii := ascii_of_N (Z.to_N (z mod 256)).

Lemma byte_val_of z : (0 <= z < 256)%Z -> byte_val (byte_of z) = z.
Proof.
  intros Hz. unfold byte_val, byte_of. rewrite Z.mod_small by done.
  rewrite N_ascii_embedding; lia.
Qed.

Lemma byte_of_val c : byte_of (byte_val c) = c.
Proof. apply byte_val_inj, byte_val_of, byte_val_range. Qed.

(** ** Strings as byte sequences *)

Lemma sapp_nil_l s : "" +:+ s = s.
Proof. done. Qed.
Lemma sapp_cons c s t : String c s +:+ t = String c (s +:+ t).
Proof. done. Qed.
Lemma sapp_nil_r s : s +:+ "" = s.
Proof. induction s; [done|]. rewrite sapp_cons. by f_equal. Qed.
Lemma sapp_assoc s t u : (s +:+ t) +:+ u = s +:+ t +:+ u.
Proof. induction s; [done|]. rewrite !sapp_cons. by f_equal. Qed.
Lemma sapp_inj_l s t u : s +:+ t = s +:+ u -> t = u.
Proof. induction s; [done|]. rewrite !sapp_cons. intros [=]; auto. Qed.
Lemma slen_app s t : String.length (s +:+ t) = String.length s + String.length t.
Proof. induction s; [done|]. rewrite sapp_cons. simpl. by f_equal. Qed.

(** Every byte of a string satisfies a test. *)
Fixpoint sforall (f : ascii -> bool) (s : string) : bool :=
  match s with
  | EmptyString => true
  | String c s => f c && sforall f s
  end.

Lemma sforall_app f s t : sforall f (s +:+ t) = sforall f s && sforall f t.
Proof.
  induction s as [|c s IH]; [done|].
  rewrite sapp_cons. simpl. by rewrite IH, andb_assoc.
Qed.

Lemma sforall_impl (f g : ascii -> bool) s :
  (forall c, f c = true -> g c = true) -> sforall f s = true -> sforall g s = true.
Proof.
  intros Hfg. induction s as [|c s IH]; [done|]. simpl.
  rewrite !andb_true_iff. intros [? ?]. auto.
Qed.

Create HintDb gostr.
#[export] Hint Rewrite sapp_nil_l sapp_nil_r sapp_cons sapp_assoc sforall_app : gostr.

(** ** Shared tactics *)

(** Turn boolean connectives and comparisons in the context into propositions. *)
Ltac bool_hyps :=
  repeat match goal with
  | H : _ && _ = true |- _ => apply andb_true_iff in H; destruct H
  | H : _ || _ = false |- _ => apply orb_false_iff in H; destruct H
  | H : negb _ = true |- _ => apply negb_true_iff in H
  | H : negb _ = false |- _ => apply negb_false_iff in H
  | H : bool_decide _ = true |- _ => apply bool_decide_eq_true in H
  | H : bool_decide _ = false |- _ => apply bool_decide_eq_false in H
  | H : (_ <? _)%Z = true |- _ => apply Z.ltb_lt in H
  | H : (_ <? _)%Z = false |- _ => apply Z.ltb_ge in H
  | H : (_ <=? _)%Z = true |- _ => apply Z.leb_le in H
  | H : (_ <=? _)%Z = false |- _ => apply Z.leb_gt in H
  | H : (_ =? _)%Z = true |- _ => apply Z.eqb_eq in H
  | H : (_ =? _)%Z = false |- _ => apply Z.eqb_neq in H
  end.

(** Linear arithmetic with division and remainder by constants. *)
Ltac zdiv := Z.to_euclidean_division_equations; lia.

(** ** Lists *)

Lemma existsb_false {A} (f : A -> bool) (l : list A) :
  existsb f l = false <-> forall x, x ∈ l -> f x = false.
Proof.
  induction l as [|y l IH]; simpl; [set_solver|].
  rewrite orb_false_iff, IH. set_solver.
Qed.

Lemma existsb_true {A} (f : A -> bool) (l : list A) :
  existsb f l = true <-> exists x, x ∈ l /\ f x = true.
Proof.
  rewrite existsb_exists. by setoid_rewrite list_elem_of_In.
Qed.

Lemma forallb_true {A} (f : A -> bool) (l : list A) :
  forallb f l = true <-> forall x, x ∈ l -> f x = true.
Proof. rewrite forallb_forall. by setoid_rewrite list_elem_of_In. Qed.
