(* ===== verification/GoInt.v ===== *)
(** * Go's fixed-width integers

    [int] and [int64] are 64-bit two's complement: arithmetic wraps, written
    out with [wrap64].  [fmt_d] and [fmt_016x] are the [%d] and [%016x] verbs
    of [fmt.Sprintf] on the arguments the program gives them. *)

From S2P Require Import Prelude.
From stdpp Require Import pretty.
From Stdlib Require Import Ascii.

Local Open Scope Z_scope.

Definition MaxInt64 : Z := 9223372036854775807.
Definition MinInt64 : Z := -9223372036854775808.

(** A value an [int64] variable can hold. *)
Definition int64_ok (z : Z) : Prop := MinInt64 <= z <= MaxInt64.
#[export] Instance int64_ok_dec z : Decision (int64_ok z) := _.

(** The result of an [int64] operation whose mathematical value is [z]. *)
Definition wrap64 (z : Z) : Z := (z + 2 ^ 63) mod 2 ^ 64 - 2 ^ 63.

Lemma wrap64_id z : int64_ok z -> wrap64 z = z.
Proof.
  unfold int64_ok, MinInt64, MaxInt64, wrap64. intros.
  rewrite Z.mod_small; lia.
Qed.

Lemma wrap64_ok z : int64_ok (wrap64 z).
Proof.
  unfold int64_ok, MinInt64, MaxInt64, wrap64.
  pose proof (Z.mod_pos_bound (z + 2 ^ 63) (2 ^ 64)). lia.
Qed.

(** One turn around: the sum left the range by less than [2^64]. *)
Lemma wrap64_over z : MaxInt64 < z <= MaxInt64 + 2 ^ 64 -> wrap64 z = z - 2 ^ 64.
Proof.
  unfold MaxInt64, wrap64. intros.
  replace (z + 2 ^ 63) with ((z - 2 ^ 63) + 1 * 2 ^ 64) by lia.
  rewrite Z.mod_add, Z.mod_small; lia.
Qed.

Lemma wrap64_mul_l a b : wrap64 (wrap64 a * b) = wrap64 (a * b).
Proof.
  assert (Hm : forall x, wrap64 x mod 2 ^ 64 = x mod 2 ^ 64).
  { intros x. unfold wrap64.
    rewrite Zminus_mod_idemp_l. f_equal. lia. }
  unfold wrap64 at 1 3. f_equal.
  rewrite <-(Zplus_mod_idemp_l (wrap64 a * b)), <-(Zplus_mod_idemp_l (a * b)).
  rewrite <-(Zmult_mod_idemp_l (wrap64 a)), Hm, Zmult_mod_idemp_l. done.
Qed.

(** ** Formatting *)

Definition fmt_d (z : Z) : string := pretty z.

#[export] Instance fmt_d_inj : Inj (=) (=) fmt_d.
Proof. apply _. Qed.

Definition hex_digit (z : Z) : ascii :=
  if z <? 10 then byte_of (48 + z) else byte_of (87 + z).

(** The [n] low hexadecimal digits of [z], most significant first. *)
Fixpoint hex_digits (n : nat) (z : Z) : string :=
  match n with
  | O => ""
  | S n => hex_digits n (z / 16) +:+ String (hex_digit (z mod 16)) ""
  end.

(** [fmt.Sprintf("%016x", h)] for a [uint64]: sixteen digits always suffice. *)
Definition fmt_016x (h : Z) : string := hex_digits 16 h.

Definition hex_val (c : ascii) : Z :=
  let b := byte_val c in if b <? 58 then b - 48 else b - 87.

Fixpoint unhex (acc : Z) (s : string) : Z :=
  match s with
  | EmptyString => acc
  | String c s => unhex (16 * acc + hex_val c) s
  end.

Lemma hex_val_digit z : 0 <= z < 16 -> hex_val (hex_digit z) = z.
Proof.
  intros Hz. unfold hex_digit, hex_val.
  destruct (Z.ltb_spec z 10); rewrite byte_val_of by lia;
    case_match; bool_hyps; lia.
Qed.

Lemma unhex_app acc s t : unhex acc (s +:+ t) = unhex (unhex acc s) t.
Proof. revert acc. induction s as [|c s IH]; intros acc; [done|]. apply IH. Qed.

Lemma unhex_digits n z : 0 <= z < 16 ^ Z.of_nat n -> unhex 0 (hex_digits n z) = z.
Proof.
  revert z. induction n as [|n IH]; intros z Hz; simpl in *; [lia|].
  rewrite unhex_app. simpl.
  rewrite Nat2Z.inj_succ, Z.pow_succ_r in Hz by lia.
  rewrite IH by (split; [apply Z.div_pos|apply Z.div_lt_upper_bound]; lia).
  rewrite hex_val_digit by (apply Z.mod_pos_bound; lia).
  symmetry. apply Z.div_mod. lia.
Qed.

Lemma hex_digits_length n z : String.length (hex_digits n z) = n.
Proof.
  revert z. induction n as [|n IH]; intros z; [done|]. simpl.
  rewrite slen_app, IH. simpl. lia.
Qed.
