(* ===== verification/GoStrings.v ===== *)
(** * The parts of Go's [strings] and [sort] packages the program calls

    A Go string is a byte sequence, here a [string] of [ascii]. *)

From S2P Require Import Prelude.
From Stdlib Require Import Ascii.

(** ** Prefixes *)

Fixpoint strip_prefix (p s : string) : option string :=
  match p, s with
  | EmptyString, _ => Some s
  | String c p, String d s => if decide (c = d) then strip_prefix p s else None
  | String _ _, EmptyString => None
  end.

(** [strings.HasPrefix] and [strings.TrimPrefix]. *)
Definition HasPrefix (s p : string) : bool := bool_decide (is_Some (strip_prefix p s)).
Definition TrimPrefix (s p : string) : string := default s (strip_prefix p s).

Lemma strip_prefix_Some p s r : strip_prefix p s = Some r <-> s = p +:+ r.
Proof.
  revert s. induction p as [|c p IH]; intros s; simpl.
  - rewrite sapp_nil_l. split; congruence.
  - rewrite sapp_cons. destruct s as [|d s]; [done|].
    case_decide; subst; [rewrite IH|]; naive_solver.
Qed.

Lemma HasPrefix_true s p : HasPrefix s p = true <-> exists r, s = p +:+ r.
Proof.
  unfold HasPrefix. rewrite bool_decide_eq_true. unfold is_Some.
  by setoid_rewrite strip_prefix_Some.
Qed.

Lemma TrimPrefix_app p r : TrimPrefix (p +:+ r) p = r.
Proof. unfold TrimPrefix. by rewrite (proj2 (strip_prefix_Some p _ r)). Qed.

Lemma TrimPrefix_id s p : HasPrefix s p = false -> TrimPrefix s p = s.
Proof.
  unfold HasPrefix, TrimPrefix. intros H%bool_decide_eq_false.
  destruct (strip_prefix p s); [|done]. by destruct H.
Qed.

(** ** Searching *)

(** [strings.Contains]. *)
Fixpoint Contains (s sub : string) : bool :=
  HasPrefix s sub ||
  match s with
  | EmptyString => false
  | String _ s => Contains s sub
  end.

Lemma Contains_true s sub :
  Contains s sub = true <-> exists a b, s = a +:+ sub +:+ b.
Proof.
  induction s as [|c s IH]; simpl; rewrite orb_true_iff, HasPrefix_true.
  - split; [intros [[r ->]|[=]]; by exists "", r|].
    intros (a & b & H). left. destruct a; [by exists b|done].
  - rewrite IH. split.
    + intros [[r ->]|(a & b & ->)]; [by exists "", r|by exists (String c a), b].
    + intros (a & b & H). destruct a as [|d a]; [left; by exists b|].
      rewrite sapp_cons in H. injection H as -> ->. right. eauto.
Qed.

(** [strings.IndexAny s chars] for a set [chars] of ASCII bytes: the first byte
    of [s] that is in the set. *)
Fixpoint IndexAny (s : string) (chars : list ascii) : option ascii :=
  match s with
  | EmptyString => None
  | String c s => if decide (c ∈ chars) then Some c else IndexAny s chars
  end.

Lemma IndexAny_None s chars :
  IndexAny s chars = None <->
  sforall (fun c => bool_decide (c ∉ chars)) s = true.
Proof.
  induction s as [|c s IH]; [done|]. simpl.
  rewrite andb_true_iff, <-IH, bool_decide_eq_true.
  case_decide; naive_solver.
Qed.

(** ** Rewriting *)

(** [strings.ReplaceAll s old new] for a non-empty [old]: [skip] counts the
    bytes of a match still to be passed over. *)
Fixpoint replace_go (old new s : string) (skip : nat) : string :=
  match s with
  | EmptyString => ""
  | String c s' =>
      match skip with
      | S k => replace_go old new s' k
      | O => if HasPrefix s old
             then new +:+ replace_go old new s' (Nat.pred (String.length old))
             else String c (replace_go old new s' O)
      end
  end.
Definition ReplaceAll (s old new : string) : string := replace_go old new s O.

(** For a one-byte [old], [ReplaceAll] works byte by byte. *)
Lemma ReplaceAll_byte c d s new :
  ReplaceAll (String c s) (String d "") new =
  (if decide (c = d) then new else String c "") +:+ ReplaceAll s (String d "") new.
Proof.
  unfold ReplaceAll. simpl.
  assert (HasPrefix (String c s) (String d "") = bool_decide (c = d)) as ->.
  { unfold HasPrefix. apply bool_decide_ext. simpl.
    destruct (decide (d = c)); unfold is_Some; naive_solver. }
  destruct (decide (c = d)) as [->|Hn]; [by rewrite bool_decide_eq_true_2|].
  by rewrite bool_decide_eq_false_2.
Qed.

Lemma ReplaceAll_nil old new : ReplaceAll "" old new = "".
Proof. done. Qed.

(** [strings.ToUpper] on one ASCII byte. *)
Definition upper_byte (c : ascii) : ascii :=
  let b := byte_val c in
  if (97 <=? b)%Z && (b <=? 122)%Z then byte_of (b - 32) else c.

Fixpoint smap (f : ascii -> ascii) (s : string) : string :=
  match s with
  | EmptyString => ""
  | String c s => String (f c) (smap f s)
  end.

(** ** Splitting and joining *)

(** [strings.Join]. *)
Fixpoint Join (l : list string) (sep : string) : string :=
  match l with
  | [] => ""
  | [x] => x
  | x :: l => x +:+ sep +:+ Join l sep
  end.

(** [strings.Split s sep] for a one-byte separator. *)
Fixpoint split_byte (c : ascii) (s : string) : list string :=
  match s with
  | EmptyString => [""]
  | String d s =>
      if decide (d = c) then "" :: split_byte c s
      else match split_byte c s with
           | [] => [String d ""]
           | x :: l => String d x :: l
           end
  end.

Definition no_byte (c : ascii) (s : string) : bool :=
  sforall (fun d => bool_decide (d <> c)) s.

Lemma split_byte_nonempty c s : split_byte c s <> [].
Proof. destruct s; simpl; [done|]. case_decide; [done|]. by destruct (split_byte c s). Qed.

Lemma Join_cons x l sep : l <> [] -> Join (x :: l) sep = x +:+ sep +:+ Join l sep.
Proof. by destruct l. Qed.

Lemma Join_split c s : Join (split_byte c s) (String c "") = s.
Proof.
  induction s as [|d s IH]; [done|]. simpl.
  pose proof (split_byte_nonempty c s) as Hne. case_decide as Hd.
  - subst d. rewrite Join_cons by done. by rewrite IH.
  - destruct (split_byte c s) as [|x l]; [done|].
    rewrite <-IH. destruct l; [done|]. rewrite !Join_cons by done. done.
Qed.

Lemma split_byte_app_sep c x s :
  no_byte c x = true -> split_byte c (x +:+ String c s) = x :: split_byte c s.
Proof.
  induction x as [|d x IH]; [intros _; rewrite sapp_nil_l; simpl; by case_decide|].
  rewrite sapp_cons. unfold no_byte. simpl. rewrite andb_true_iff, bool_decide_eq_true.
  intros [Hd Hx]. rewrite IH by done. by case_decide.
Qed.

Lemma split_byte_single c x : no_byte c x = true -> split_byte c x = [x].
Proof.
  induction x as [|d x IH]; [done|]. unfold no_byte. simpl.
  rewrite andb_true_iff, bool_decide_eq_true. intros [Hd Hx].
  rewrite IH by done. by case_decide.
Qed.

(** Pieces free of the separator survive a join and split. *)
Lemma split_Join c l :
  l <> [] -> Forall (fun x => no_byte c x = true) l ->
  split_byte c (Join l (String c "")) = l.
Proof.
  intros Hne Hl. induction Hl as [|x l Hx Hl IH]; [done|].
  destruct (decide (l = [])) as [->|Hl'].
  - simpl. by apply split_byte_single.
  - rewrite Join_cons by done. rewrite sapp_cons, sapp_nil_l.
    rewrite split_byte_app_sep by done. by rewrite IH.
Qed.

Lemma split_pieces_free c s : Forall (fun x => no_byte c x = true) (split_byte c s).
Proof.
  induction s as [|d s IH]; simpl; [by constructor|].
  case_decide as Hd; [by constructor|].
  destruct (split_byte c s) as [|x l]; inversion_clear IH; constructor; try done.
  - unfold no_byte. simpl. by rewrite bool_decide_eq_true_2.
  - unfold no_byte in *. simpl. by rewrite bool_decide_eq_true_2.
Qed.

(** [strings.Repeat]. *)
Fixpoint Repeat (s : string) (n : nat) : string :=
  match n with O => "" | S n => s +:+ Repeat s n end.

(** ** Sorting *)

(** [sort.Strings]: ascending byte order.  The order is total and
    antisymmetric, so any correct sort returns this list. *)
Definition sort_Strings (l : list string) : list string := merge_sort String.le l.

Lemma sort_Strings_perm l : sort_Strings l ≡ₚ l.
Proof. apply merge_sort_Permutation. Qed.

Lemma sort_Strings_sorted l : StronglySorted String.le (sort_Strings l).
Proof. apply StronglySorted_merge_sort; apply _. Qed.

Lemma sort_Strings_proper l1 l2 : l1 ≡ₚ l2 -> sort_Strings l1 = sort_Strings l2.
Proof.
  intros H. apply (StronglySorted_unique String.le); try apply sort_Strings_sorted.
  by rewrite !sort_Strings_perm.
Qed.
