(* ===== verification/GoUtf8.v ===== *)
(** * UTF-8 as Go reads it

    [utf8.ValidString] and the rune iteration of [for _, r := range s].  A
    position that does not start a well-formed sequence is one invalid byte
    ([None] below; the loop sees it as the rune U+FFFD). *)

From S2P Require Import Prelude.
From Stdlib Require Import Ascii.

Local Open Scope Z_scope.

Definition between (lo hi b : Z) : bool := (lo <=? b) && (b <=? hi).
Definition cont (b : Z) : bool := between 128 191 b.

(** The range of the second byte of a three and a four byte sequence: no
    overlong forms, no surrogates, nothing above U+10FFFF. *)
Definition second3 (b0 b1 : Z) : bool :=
  between (if b0 =? 224 then 160 else 128) (if b0 =? 237 then 159 else 191) b1.
Definition second4 (b0 b1 : Z) : bool :=
  between (if b0 =? 240 then 144 else 128) (if b0 =? 244 then 143 else 191) b1.

(** The first rune of a non-empty string, and what follows it. *)
Definition next_rune (c : ascii) (s : string) : option Z * string :=
  let b0 := byte_val c in
  if b0 <? 128 then (Some b0, s) else
  match s with
  | EmptyString => (None, s)
  | String c1 s1 =>
    let b1 := byte_val c1 in
    if between 194 223 b0 && cont b1
    then (Some ((b0 - 192) * 64 + (b1 - 128)), s1) else
    match s1 with
    | EmptyString => (None, s)
    | String c2 s2 =>
      let b2 := byte_val c2 in
      if between 224 239 b0 && second3 b0 b1 && cont b2
      then (Some (((b0 - 224) * 64 + (b1 - 128)) * 64 + (b2 - 128)), s2) else
      match s2 with
      | EmptyString => (None, s)
      | String c3 s3 =>
        let b3 := byte_val c3 in
        if between 240 244 b0 && second4 b0 b1 && cont b2 && cont b3
        then (Some ((((b0 - 240) * 64 + (b1 - 128)) * 64 + (b2 - 128)) * 64 + (b3 - 128)), s3)
        else (None, s)
      end
    end
  end.

Fixpoint decode_fuel (n : nat) (s : string) : list (option Z) :=
  match n, s with
  | S n, String c s => let '(r, s') := next_rune c s in r :: decode_fuel n s'
  | _, _ => []
  end.

(** Every step consumes a byte, so the length of the string is fuel enough. *)
Definition decode (s : string) : list (option Z) := decode_fuel (String.length s) s.

Definition ValidString (s : string) : bool := forallb (fun r => bool_decide (is_Some r)) (decode s).
Definition RuneError : Z := 65533.
Definition range_runes (s : string) : list Z := (fun r => default RuneError r) <$> decode s.

(** ** Facts *)

(** What a step consumes: the bytes before the rest. *)
Lemma next_rune_split c s r s' :
  next_rune c s = (r, s') ->
  exists p, s = p +:+ s' /\
    (byte_val c < 128 /\ p = "" /\ r = Some (byte_val c) \/
     128 <= byte_val c /\ sforall (fun d => 128 <=? byte_val d) p = true).
Proof.
  unfold next_rune, cont, second3, second4, between.
  pose proof (byte_val_range c). intros Hn.
  destruct (Z.ltb_spec (byte_val c) 128).
  { simplify_eq. exists "". rewrite sapp_nil_l. auto. }
  assert (Hlow : forall d, 128 <= byte_val d -> (128 <=? byte_val d) = true)
    by (intros; by apply Z.leb_le).
  destruct s as [|c1 s1]; [simplify_eq; exists ""; auto|].
  case_match eqn:E1; [simplify_eq; exists (String c1 ""); bool_hyps|clear E1].
  { split; [done|]. right. split; [lia|]. simpl. rewrite Hlow by lia. done. }
  destruct s1 as [|c2 s2]; [simplify_eq; exists ""; auto|].
  case_match eqn:E2; [simplify_eq; exists (String c1 (String c2 "")); bool_hyps|clear E2].
  { split; [done|]. right. split; [lia|]. simpl.
    rewrite !Hlow; [done|lia|]. destruct (byte_val c =? 224); lia. }
  destruct s2 as [|c3 s3]; [simplify_eq; exists ""; auto|].
  case_match eqn:E3; simplify_eq; [|by exists ""; auto].
  exists (String c1 (String c2 (String c3 ""))). bool_hyps.
  split; [done|]. right. split; [lia|]. simpl.
  rewrite !Hlow; [done|lia|lia|]. destruct (byte_val c =? 240); lia.
Qed.

Lemma next_rune_length c s : (String.length (snd (next_rune c s)) <= String.length s)%nat.
Proof.
  destruct (next_rune c s) as [r s'] eqn:E. apply next_rune_split in E as (p & -> & _).
  simpl. rewrite slen_app. lia.
Qed.

Lemma decode_fuel_enough n m s :
  (String.length s <= n)%nat -> (String.length s <= m)%nat -> decode_fuel n s = decode_fuel m s.
Proof.
  revert m s. induction n as [|n IH]; intros m s Hn Hm.
  - destruct s; [by destruct m|simpl in Hn; lia].
  - destruct s as [|c s]; [by destruct m|]. destruct m as [|m]; simpl in *; [lia|].
    pose proof (next_rune_length c s). destruct (next_rune c s) as [r s']; simpl in *.
    f_equal. apply IH; lia.
Qed.

Lemma decode_cons c s :
  decode (String c s) = fst (next_rune c s) :: decode (snd (next_rune c s)).
Proof.
  unfold decode. simpl. pose proof (next_rune_length c s).
  destruct (next_rune c s) as [r s']; simpl in *. f_equal. apply decode_fuel_enough; lia.
Qed.

(** Induction along the runes of a string. *)
Lemma rune_ind (P : string -> Prop) :
  P "" -> (forall c s, P (snd (next_rune c s)) -> P (String c s)) -> forall s, P s.
Proof.
  intros H0 HS s. remember (String.length s) as n eqn:Hn.
  revert s Hn. induction n as [n IH] using lt_wf_ind. intros s ->.
  destruct s as [|c s]; [done|]. apply HS. eapply IH; [|done].
  pose proof (next_rune_length c s). simpl. lia.
Qed.

(** A byte below 0x80 is never part of a longer sequence: the loop sees it as
    a rune of its own. *)
Lemma ascii_byte_seen f s :
  Forall (fun r => forall c, r = Some (byte_val c) -> f c = true) (decode s) ->
  (forall c, 128 <= byte_val c -> f c = true) ->
  sforall f s = true.
Proof.
  intros Hs Hhigh. induction s as [|c s IH] using rune_ind; [done|].
  rewrite decode_cons in Hs. inversion_clear Hs as [|? ? Hc Hr].
  destruct (next_rune c s) as [r s'] eqn:E. simpl in *.
  apply next_rune_split in E as (p & -> & [(Hb & -> & ->)|(Hb & Hp)]).
  - rewrite sapp_nil_l. simpl. rewrite Hc by done. by apply IH.
  - simpl. rewrite Hhigh by done. simpl. rewrite sforall_app, IH by done.
    rewrite andb_true_r. eapply sforall_impl; [|done].
    intros d Hd%Z.leb_le. by apply Hhigh.
Qed.

(** ** Encoding *)

(** The UTF-8 encoding of a scalar value. *)
Definition encode_rune (r : Z) : string :=
  if r <? 128 then String (byte_of r) ""
  else if r <? 2048 then
    String (byte_of (192 + r / 64)) (String (byte_of (128 + r mod 64)) "")
  else if r <? 65536 then
    String (byte_of (224 + r / 4096)) (String (byte_of (128 + r / 64 mod 64))
      (String (byte_of (128 + r mod 64)) ""))
  else
    String (byte_of (240 + r / 262144)) (String (byte_of (128 + r / 4096 mod 64))
      (String (byte_of (128 + r / 64 mod 64)) (String (byte_of (128 + r mod 64)) ""))).

Lemma byte_of_eq c z : byte_val c = z -> byte_of z = c.
Proof. intros <-. apply byte_of_val. Qed.

(** A valid step decodes exactly the bytes its rune encodes to. *)
Lemma next_rune_encode c s r s' :
  next_rune c s = (Some r, s') -> String c s = encode_rune r +:+ s'.
Proof.
  unfold next_rune, cont, second3, second4, between, encode_rune.
  pose proof (byte_val_range c).
  destruct (Z.ltb_spec (byte_val c) 128).
  { intros [= <- <-]. rewrite (proj2 (Z.ltb_lt _ _)), byte_of_val by lia. done. }
  destruct s as [|c1 s1]; [done|]. pose proof (byte_val_range c1).
  case_match eqn:E1.
  { intros [= <- <-]. bool_hyps.
    rewrite (proj2 (Z.ltb_ge _ _)), (proj2 (Z.ltb_lt _ _)) by lia.
    rewrite !sapp_cons, sapp_nil_l.
    rewrite (byte_of_eq c), (byte_of_eq c1) by zdiv. done. }
  clear E1. destruct s1 as [|c2 s2]; [done|]. pose proof (byte_val_range c2).
  case_match eqn:E2.
  { intros [= <- <-]. bool_hyps.
    destruct (Z.eqb_spec (byte_val c) 224), (Z.eqb_spec (byte_val c) 237);
    (rewrite (proj2 (Z.ltb_ge _ 128)), (proj2 (Z.ltb_ge _ 2048)), (proj2 (Z.ltb_lt _ _)) by lia;
     rewrite !sapp_cons, sapp_nil_l;
     rewrite (byte_of_eq c), (byte_of_eq c1), (byte_of_eq c2) by zdiv; done). }
  clear E2. destruct s2 as [|c3 s3]; [done|]. pose proof (byte_val_range c3).
  case_match eqn:E3; [|done].
  intros [= <- <-]. bool_hyps.
  destruct (Z.eqb_spec (byte_val c) 240), (Z.eqb_spec (byte_val c) 244);
  (rewrite (proj2 (Z.ltb_ge _ 128)), (proj2 (Z.ltb_ge _ 2048)), (proj2 (Z.ltb_ge _ 65536)) by lia;
   rewrite !sapp_cons, sapp_nil_l;
   rewrite (byte_of_eq c), (byte_of_eq c1), (byte_of_eq c2), (byte_of_eq c3) by zdiv; done).
Qed.

Fixpoint encode_runes (l : list Z) : string :=
  match l with [] => "" | r :: l => encode_rune r +:+ encode_runes l end.

(** Decoding a valid string loses nothing. *)
Lemma encode_range s : ValidString s = true -> encode_runes (range_runes s) = s.
Proof.
  unfold ValidString, range_runes. induction s as [|c s IH] using rune_ind; [done|].
  rewrite decode_cons, fmap_cons. cbn [forallb encode_runes].
  rewrite andb_true_iff, bool_decide_eq_true.
  destruct (next_rune c s) as [r s'] eqn:E. cbn [fst snd] in *. intros [[x ->] Hv].
  rewrite IH by done. by apply next_rune_encode in E as ->.
Qed.
