(* ===== verification/GoBase64.v ===== *)
(** * [base64.StdEncoding]

    The encoder the program calls, and the decoder of RFC 4648 that cloud-init
    applies to the files marked [encoding: b64]. *)

From S2P Require Import Prelude.
From Stdlib Require Import Ascii.

Local Open Scope Z_scope.

(** The alphabet: A-Z, a-z, 0-9, plus, slash. *)
Definition b64_char (i : Z) : ascii :=
  byte_of (if i <? 26 then 65 + i else if i <? 52 then 71 + i
           else if i <? 62 then i - 4 else if i =? 62 then 43 else 47).

Definition b64_pad : ascii := "="%char.

Fixpoint EncodeToString (s : string) : string :=
  match s with
  | EmptyString => ""
  | String a EmptyString =>
      let a := byte_val a in
      String (b64_char (a / 4)) (String (b64_char (a mod 4 * 16))
        (String b64_pad (String b64_pad "")))
  | String a (String b EmptyString) =>
      let a := byte_val a in let b := byte_val b in
      String (b64_char (a / 4)) (String (b64_char (a mod 4 * 16 + b / 16))
        (String (b64_char (b mod 16 * 4)) (String b64_pad "")))
  | String a (String b (String c s)) =>
      let a := byte_val a in let b := byte_val b in let c := byte_val c in
      String (b64_char (a / 4)) (String (b64_char (a mod 4 * 16 + b / 16))
        (String (b64_char (b mod 16 * 4 + c / 64)) (String (b64_char (c mod 64))
          (EncodeToString s))))
  end.

Definition b64_val (c : ascii) : option Z :=
  let b := byte_val c in
  if (65 <=? b) && (b <=? 90) then Some (b - 65)
  else if (97 <=? b) && (b <=? 122) then Some (b - 71)
  else if (48 <=? b) && (b <=? 57) then Some (b + 4)
  else if b =? 43 then Some 62 else if b =? 47 then Some 63 else None.

(** Decoding by groups of four; padding only closes the text. *)
Fixpoint DecodeString (s : string) : option string :=
  match s with
  | EmptyString => Some ""
  | String w (String x (String y (String z s))) =>
      w ← b64_val w; x ← b64_val x;
      if decide (y = b64_pad /\ z = b64_pad /\ s = EmptyString)
      then Some (String (byte_of (w * 4 + x / 16)) "")
      else
        y ← b64_val y;
        if decide (z = b64_pad /\ s = EmptyString)
        then Some (String (byte_of (w * 4 + x / 16)) (String (byte_of (x mod 16 * 16 + y / 4)) ""))
        else
          z ← b64_val z; t ← DecodeString s;
          Some (String (byte_of (w * 4 + x / 16)) (String (byte_of (x mod 16 * 16 + y / 4))
                 (String (byte_of (y mod 4 * 64 + z)) t)))
  | _ => None
  end.

Lemma b64_val_char i : 0 <= i < 64 -> b64_val (b64_char i) = Some i.
Proof.
  intros Hi. unfold b64_val, b64_char.
  destruct (Z.ltb_spec i 26), (Z.ltb_spec i 52), (Z.ltb_spec i 62), (Z.eqb_spec i 62);
    rewrite byte_val_of by lia; repeat case_match; bool_hyps; try lia;
    f_equal; try lia; repeat match goal with H : _ && _ = false |- _ =>
      apply andb_false_iff in H as [?|?] end; bool_hyps; lia.
Qed.

Lemma b64_char_not_pad i : 0 <= i < 64 -> b64_char i <> b64_pad.
Proof. intros Hi E. pose proof (b64_val_char i Hi) as H. by rewrite E in H. Qed.

Lemma byte_eq c z : z = byte_val c -> byte_of z = c.
Proof. intros ->. apply byte_of_val. Qed.

(** Induction by groups of three bytes, as the encoder recurses. *)
Lemma triple_ind (P : string -> Prop) :
  P "" -> (forall a, P (String a "")) -> (forall a b, P (String a (String b ""))) ->
  (forall a b c s, P s -> P (String a (String b (String c s)))) -> forall s, P s.
Proof.
  intros H0 H1 H2 H3. fix IH 1.
  intros [|a [|b [|c s]]]; [apply H0|apply H1|apply H2|apply H3, IH].
Qed.

(** One full group decodes to the three bytes it came from. *)
Lemma decode_group a b c s t :
  DecodeString s = Some t ->
  DecodeString (String (b64_char (byte_val a / 4))
    (String (b64_char (byte_val a mod 4 * 16 + byte_val b / 16))
    (String (b64_char (byte_val b mod 16 * 4 + byte_val c / 64))
    (String (b64_char (byte_val c mod 64)) s)))) =
  Some (String a (String b (String c t))).
Proof.
  intros Hs.
  pose proof (byte_val_range a). pose proof (byte_val_range b). pose proof (byte_val_range c).
  cbn [DecodeString]. rewrite Hs.
  rewrite !b64_val_char by zdiv. cbn [mbind option_bind].
  rewrite decide_False by (intros (E & _); revert E; apply b64_char_not_pad; zdiv).
  rewrite decide_False by (intros (E & _); revert E; apply b64_char_not_pad; zdiv).
  by rewrite (byte_eq a), (byte_eq b), (byte_eq c) by zdiv.
Qed.

Lemma decode_encode s : DecodeString (EncodeToString s) = Some s.
Proof.
  induction s as [|a|a b|a b c s IH] using triple_ind; [done|..].
  - pose proof (byte_val_range a). cbn [EncodeToString DecodeString].
    rewrite !b64_val_char by zdiv. cbn [mbind option_bind].
    rewrite decide_True by done. by rewrite (byte_eq a) by zdiv.
  - pose proof (byte_val_range a). pose proof (byte_val_range b).
    cbn [EncodeToString DecodeString].
    rewrite !b64_val_char by zdiv. cbn [mbind option_bind].
    rewrite decide_False by (intros (E & _); revert E; apply b64_char_not_pad; zdiv).
    rewrite decide_True by done. by rewrite (byte_eq a), (byte_eq b) by zdiv.
  - apply (decode_group a b c), IH.
Qed.

(** The bytes an encoding is made of: letters, digits, plus, slash, equals. *)
Definition b64_byte (c : ascii) : bool :=
  bool_decide (is_Some (b64_val c)) || bool_decide (c = b64_pad).

Lemma b64_byte_char i : 0 <= i < 64 -> b64_byte (b64_char i) = true.
Proof. intros Hi. unfold b64_byte. by rewrite b64_val_char. Qed.

Lemma encode_bytes s : sforall b64_byte (EncodeToString s) = true.
Proof.
  induction s as [|a|a b|a b c s IH] using triple_ind; [done|..];
    pose proof (byte_val_range a); cbn [EncodeToString sforall].
  - by rewrite !b64_byte_char by zdiv.
  - pose proof (byte_val_range b). by rewrite !b64_byte_char by zdiv.
  - pose proof (byte_val_range b). pose proof (byte_val_range c).
    by rewrite !b64_byte_char by zdiv.
Qed.
