(* ===== verification/GoTime.v ===== *)
(** * Go's [time] package, as far as the program uses it

    Instants, durations with their saturation, the proleptic Gregorian
    calendar, and [Format]/[Parse] with the layout [time.RFC3339]. *)

From S2P Require Import Prelude GoInt.
From Stdlib Require Import Ascii.

Local Open Scope Z_scope.

(** ** Durations: [int64] nanoseconds *)

Definition Nanosecond : Z := 1.
Definition Microsecond : Z := 1000.
Definition Millisecond : Z := 1000000.
Definition Second : Z := 1000000000.
Definition Minute : Z := 60 * Second.
Definition Hour : Z := 60 * Minute.

(** ** Instants *)

(** A [time.Time]: seconds since 1970-01-01T00:00:00Z, the nanosecond within
    the second, and the offset of its location in seconds east of UTC. *)
Record Time := mkTime { t_unix : Z; t_nsec : Z; t_offset : Z }.

#[export] Instance Time_eq_dec : EqDecision Time.
Proof. solve_decision. Defined.

(** January 1, year 1, 00:00:00 UTC, the zero value. *)
Definition zeroTime : Time := mkTime (-62135596800) 0 0.

Definition IsZero (t : Time) : bool :=
  (t_unix t =? t_unix zeroTime) && (t_nsec t =? 0).

(** Nanoseconds since the epoch, as a mathematical integer. *)
Definition instant (t : Time) : Z := t_unix t * Second + t_nsec t.

(** [t.Sub u] saturates at the ends of the [int64] range. *)
Definition Sub (t u : Time) : Z :=
  Z.max MinInt64 (Z.min MaxInt64 (instant t - instant u)).

Lemma Sub_exact t u : int64_ok (instant t - instant u) -> Sub t u = instant t - instant u.
Proof. unfold Sub, int64_ok. lia. Qed.

(** The instant with the fraction of its second dropped. *)
Definition truncSecond (t : Time) : Time := mkTime (t_unix t) 0 (t_offset t).

(** ** The calendar *)

(** Days of a year that starts in March, summed over the [y] years before. *)
Definition year_days (y : Z) : Z := 365 * y + y / 4 - y / 100 + y / 400.

(** The number of days from 1970-01-01 to the given date.  Eras of 400 years
    have 146097 days; 719468 days separate 0000-03-01 from 1970-01-01. *)
Definition days_from_civil (y m d : Z) : Z :=
  let y' := if m <=? 2 then y - 1 else y in
  let mp := if m <=? 2 then m + 9 else m - 3 in
  (y' / 400) * 146097 + year_days (y' mod 400) + ((153 * mp + 2) / 5 + d - 1) - 719468.

(** Year within the era, from the day within the era: the estimate [doe/366]
    is at most one short. *)
Definition year_of_era (doe : Z) : Z :=
  let y := doe / 366 in if year_days (y + 1) <=? doe then y + 1 else y.

Definition civil_from_days (n : Z) : Z * Z * Z :=
  let n := n + 719468 in
  let doe := n mod 146097 in
  let yoe := year_of_era doe in
  let doy := doe - year_days yoe in
  let mp := (5 * doy + 2) / 153 in
  let d := doy - (153 * mp + 2) / 5 + 1 in
  let m := if mp <? 10 then mp + 3 else mp - 9 in
  let y := yoe + (n / 146097) * 400 in
  (if m <=? 2 then y + 1 else y, m, d).

Definition isLeap (y : Z) : bool :=
  (y mod 4 =? 0) && (negb (y mod 100 =? 0) || (y mod 400 =? 0)).

Definition daysIn (m y : Z) : Z :=
  if m =? 2 then (if isLeap y then 29 else 28)
  else if (m =? 4) || (m =? 6) || (m =? 9) || (m =? 11) then 30 else 31.

Lemma year_of_era_spec doe :
  0 <= doe < 146097 ->
  0 <= year_of_era doe < 400 /\
  year_days (year_of_era doe) <= doe < year_days (year_of_era doe + 1).
Proof.
  intros Hd. unfold year_of_era.
  assert (0 <= doe / 366 < 400) by zdiv.
  destruct (Z.leb_spec (year_days (doe / 366 + 1)) doe) as [Hl|Hl];
    unfold year_days in *; zdiv.
Qed.

Lemma civil_from_days_spec n y m d :
  civil_from_days n = (y, m, d) ->
  days_from_civil y m d = n /\ 1 <= m <= 12 /\ 1 <= d <= daysIn m y.
Proof.
  unfold civil_from_days. set (n' := n + 719468).
  assert (0 <= n' mod 146097 < 146097) as Hdoe by zdiv.
  pose proof (year_of_era_spec _ Hdoe) as [Hyoe Hin].
  assert (Hn : n' = n' / 146097 * 146097 + n' mod 146097) by zdiv.
  set (doe := n' mod 146097) in *. set (era := n' / 146097) in *.
  set (yoe := year_of_era doe) in *. clearbody doe era yoe.
  set (doy := doe - year_days yoe) in *.
  assert (Hleap : doy = 365 -> isLeap (yoe + 1 + era * 400) = true).
  { unfold doy, year_days, isLeap in *. intros H.
    destruct (Z.eqb_spec ((yoe + 1 + era * 400) mod 4) 0),
      (Z.eqb_spec ((yoe + 1 + era * 400) mod 100) 0),
      (Z.eqb_spec ((yoe + 1 + era * 400) mod 400) 0); simpl; try done; zdiv. }
  assert (0 <= doy <= 365) by (unfold doy, year_days in *; zdiv).
  assert (Hdoe' : doe = doy + year_days yoe) by (unfold doy; lia).
  clearbody doy. intros [= <- <- <-].
  assert (0 <= (5 * doy + 2) / 153 <= 11) by zdiv.
  set (mp := (5 * doy + 2) / 153) in *.
  assert ((153 * mp + 2) / 5 <= doy < (153 * (mp + 1) + 2) / 5) by (unfold mp; zdiv).
  clearbody mp.
  unfold days_from_civil, daysIn.
  destruct (Z.ltb_spec mp 10).
  - rewrite !(proj2 (Z.leb_gt (mp + 3) 2)) by lia.
    replace ((yoe + era * 400) / 400) with era by zdiv.
    replace ((yoe + era * 400) mod 400) with yoe by zdiv.
    replace (mp + 3 - 3) with mp by lia.
    rewrite (proj2 (Z.eqb_neq (mp + 3) 2)) by lia.
    destruct (Z.eqb_spec (mp + 3) 4), (Z.eqb_spec (mp + 3) 6),
      (Z.eqb_spec (mp + 3) 9), (Z.eqb_spec (mp + 3) 11); simpl;
      repeat split; try zdiv.
  - rewrite !(proj2 (Z.leb_le (mp - 9) 2)) by lia.
    replace (yoe + era * 400 + 1 - 1) with (yoe + era * 400) by lia.
    replace (yoe + 1 + era * 400) with (yoe + era * 400 + 1) in Hleap by lia.
    replace ((yoe + era * 400) / 400) with era by zdiv.
    replace ((yoe + era * 400) mod 400) with yoe by zdiv.
    replace (mp - 9 + 9) with mp by lia.
    destruct (Z.eqb_spec (mp - 9) 2); [assert (mp = 11) as -> by lia|assert (mp = 10) as -> by lia];
      simpl; [|repeat split; zdiv].
    destruct (isLeap _) eqn:E; [repeat split; zdiv|].
    assert (doy <> 365) by (intros E'; specialize (Hleap E'); congruence).
    repeat split; zdiv.
Qed.

(** ** Formatting and parsing with [time.RFC3339] *)

Definition digit (z : Z) : ascii := byte_of (48 + z).
Definition digit_val (c : ascii) : option Z :=
  let b := byte_val c in if (48 <=? b) && (b <=? 57) then Some (b - 48) else None.

Definition pad2 (z : Z) (s : string) : string :=
  String (digit (z / 10)) (String (digit (z mod 10)) s).
Definition pad4 (z : Z) (s : string) : string :=
  pad2 (z / 100) (pad2 (z mod 100) s).

(** The zone: [Z] for UTC, else the signed hours and minutes of the offset. *)
Definition FormatZone (offset : Z) : string :=
  let zone := Z.quot offset 60 in
  if offset =? 0 then "Z"
  else String (if zone <? 0 then "-"%char else "+"%char)
         (pad2 (Z.abs zone / 60) (String ":" (pad2 (Z.abs zone mod 60) ""))).

(** [t.Format(time.RFC3339)] for a year of four digits: date, time of day and
    zone of the local clock; fractions of a second and of a minute of the
    offset are not written. *)
Definition FormatRFC3339 (t : Time) : string :=
  let local := t_unix t + t_offset t in
  let sod := local mod 86400 in
  let '(y, m, d) := civil_from_days (local / 86400) in
  pad4 y (String "-" (pad2 m (String "-" (pad2 d (String "T"
    (pad2 (sod / 3600) (String ":" (pad2 (sod / 60 mod 60) (String ":" (pad2 (sod mod 60)
      (FormatZone (t_offset t)))))))))))).

(** [time.Parse] reads the layout chunk by chunk; each reader returns the value
    and what is left. *)
Definition getnum (fixed : bool) (s : string) : option (Z * string) :=
  match s with
  | String c s =>
      x ← digit_val c;
      match s with
      | String d r =>
          match digit_val d with
          | Some y => Some (10 * x + y, r)
          | None => if fixed then None else Some (x, s)
          end
      | EmptyString => if fixed then None else Some (x, s)
      end
  | EmptyString => None
  end.

Definition skip (c : ascii) (s : string) : option string :=
  match s with String d s => if decide (d = c) then Some s else None | EmptyString => None end.

Definition getyear (s : string) : option (Z * string) :=
  '(a, s) ← getnum true s; '(b, s) ← getnum true s; Some (100 * a + b, s).

(** [stdZeroMonth], [stdHour], ...: a number and its range. *)
Definition getrange (fixed : bool) (lo hi : Z) (s : string) : option (Z * string) :=
  '(x, r) ← getnum fixed s; if (lo <=? x) && (x <=? hi) then Some (x, r) else None.

Fixpoint span_digits (s : string) : list Z * string :=
  match s with
  | String c r => match digit_val c with
                  | Some x => let '(l, t) := span_digits r in (x :: l, t)
                  | None => ([], s)
                  end
  | EmptyString => ([], s)
  end.

(** An optional fraction after the seconds, at most nine digits counted. *)
Definition getfrac (s : string) : Z * string :=
  match s with
  | String c r =>
      if decide (c = "."%char \/ c = ","%char) then
        match span_digits r with
        | ([], _) => (0, s)
        | (l, t) =>
            (fold_left (fun a x => 10 * a + x) (take 9 l) 0
               * 10 ^ (9 - Z.of_nat (length (take 9 l))), t)
        end
      else (0, s)
  | EmptyString => (0, s)
  end.

(** [stdISO8601ColonTZ]: the range tests allow 24 hours and 60 minutes. *)
Definition getzone (s : string) : option (Z * string) :=
  match s with
  | String c r =>
      if decide (c = "Z"%char) then Some (0, r) else
      '(h, r) ← getrange true 0 24 r; r ← skip ":" r; '(m, r) ← getrange true 0 60 r;
      if decide (c = "+"%char) then Some ((h * 60 + m) * 60, r)
      else if decide (c = "-"%char) then Some (- ((h * 60 + m) * 60), r)
      else None
  | EmptyString => None
  end.

(** [time.Parse(time.RFC3339, value)]; the errors are not distinguished. *)
Definition ParseRFC3339 (value : string) : option Time :=
  '(y, s) ← getyear value;
  s ← skip "-" s; '(m, s) ← getrange true 1 12 s;
  s ← skip "-" s; '(d, s) ← getnum true s;
  s ← skip "T" s; '(hh, s) ← getrange false 0 23 s;
  s ← skip ":" s; '(mi, s) ← getrange true 0 59 s;
  s ← skip ":" s; '(ss, s) ← getrange true 0 59 s;
  let '(ns, s) := getfrac s in
  '(off, s) ← getzone s;
  if (bool_decide (s = EmptyString)) && (1 <=? d) && (d <=? daysIn m y)
  then Some (mkTime (days_from_civil y m d * 86400 + hh * 3600 + mi * 60 + ss - off) ns off)
  else None.

Arguments getnum : simpl never.
Arguments getrange : simpl never.
Arguments getyear : simpl never.
Arguments pad2 : simpl never.
Arguments pad4 : simpl never.

Lemma digit_val_digit z : 0 <= z < 10 -> digit_val (digit z) = Some z.
Proof.
  intros Hz. unfold digit_val, digit. rewrite byte_val_of by lia.
  rewrite (proj2 (Z.leb_le _ _)), (proj2 (Z.leb_le _ _)) by lia. simpl. f_equal. lia.
Qed.

Lemma getnum_pad2 f z s : 0 <= z < 100 -> getnum f (pad2 z s) = Some (z, s).
Proof.
  intros Hz. unfold getnum, pad2. rewrite !digit_val_digit by zdiv. simpl.
  do 2 f_equal. zdiv.
Qed.

Lemma getyear_pad4 z s : 0 <= z < 10000 -> getyear (pad4 z s) = Some (z, s).
Proof.
  intros Hz. unfold getyear, pad4. rewrite getnum_pad2 by zdiv. simpl.
  rewrite getnum_pad2 by zdiv. simpl. do 2 f_equal. zdiv.
Qed.

Lemma getrange_pad2 f lo hi z s :
  0 <= z < 100 -> lo <= z <= hi -> getrange f lo hi (pad2 z s) = Some (z, s).
Proof.
  intros Hz Hr. unfold getrange. rewrite getnum_pad2 by done. simpl.
  by rewrite (proj2 (Z.leb_le _ _)), (proj2 (Z.leb_le _ _)) by lia.
Qed.

(** An offset of whole minutes, less than a day; a year of four digits. *)
Definition rfc3339_ok (t : Time) : Prop :=
  t_offset t mod 60 = 0 /\ -86400 < t_offset t < 86400 /\
  -62167219200 <= t_unix t + t_offset t < 253402300800.
#[export] Instance rfc3339_ok_dec t : Decision (rfc3339_ok t).
Proof. unfold rfc3339_ok. apply _. Defined.

(** A clock reading that RFC 3339 can write. *)
Definition timely (t : Time) : Prop := rfc3339_ok t /\ 0 <= t_nsec t < Second.
#[export] Instance timely_dec t : Decision (timely t).
Proof. unfold timely. apply _. Defined.

(** Dropping fractions keeps the order of instants. *)
Lemma truncSecond_mono t u :
  timely t -> timely u -> instant t <= instant u -> instant (truncSecond t) <= instant (truncSecond u).
Proof. intros [_ Ht] [_ Hu]. unfold instant, Second in *. simpl. lia. Qed.

Lemma civil_year_range n y m d :
  civil_from_days n = (y, m, d) -> -719528 <= n < 2932897 -> 0 <= y < 10000.
Proof.
  unfold civil_from_days. intros Hc Hn.
  assert (0 <= (n + 719468) mod 146097 < 146097) as Hdoe by zdiv.
  pose proof (year_of_era_spec _ Hdoe) as [Hyoe Hin].
  assert (Hsum : n + 719468 = (n + 719468) / 146097 * 146097 + (n + 719468) mod 146097) by zdiv.
  set (doe := (n + 719468) mod 146097) in *. set (era := (n + 719468) / 146097) in *.
  set (yoe := year_of_era doe) in *. clearbody doe era yoe.
  set (mp := (5 * (doe - year_days yoe) + 2) / 153) in *.
  assert (0 <= mp <= 11) by (unfold mp, year_days in *; zdiv).
  assert (10 <= mp -> 306 <= doe - year_days yoe) by (unfold mp; zdiv).
  assert (mp < 10 -> doe - year_days yoe < 306) by (unfold mp; zdiv).
  clearbody mp. injection Hc as <- _ _. unfold year_days in *.
  destruct (Z.ltb_spec mp 10).
  - rewrite (proj2 (Z.leb_gt (mp + 3) 2)) by lia. zdiv.
  - rewrite (proj2 (Z.leb_le (mp - 9) 2)) by lia. zdiv.
Qed.

Lemma getfrac_plain c s : c <> "."%char -> c <> ","%char -> getfrac (String c s) = (0, String c s).
Proof. intros. unfold getfrac. by rewrite decide_False by naive_solver. Qed.

Lemma getzone_format t :
  t_offset t mod 60 = 0 -> -86400 < t_offset t < 86400 ->
  getfrac (FormatZone (t_offset t)) = (0, FormatZone (t_offset t)) /\
  getzone (FormatZone (t_offset t)) = Some (t_offset t, "").
Proof.
  intros Hm Hr. unfold FormatZone. set (zone := Z.quot (t_offset t) 60).
  destruct (Z.eqb_spec (t_offset t) 0) as [H0|H0].
  { split; [done|]. by rewrite H0. }
  assert (Hq : t_offset t = 60 * zone) by (unfold zone; zdiv).
  assert (Z.abs zone < 1440) by lia. clearbody zone. split.
  { apply getfrac_plain; by destruct (zone <? 0). }
  unfold getzone. rewrite decide_False by (by destruct (zone <? 0)).
  rewrite getrange_pad2 by zdiv. simpl.
  rewrite getrange_pad2 by zdiv. simpl.
  destruct (Z.ltb_spec zone 0).
  - rewrite decide_False, decide_True by done. do 2 f_equal. zdiv.
  - rewrite decide_True by done. do 2 f_equal. zdiv.
Qed.

(** Writing an instant and reading it back drops the fraction of its second
    and nothing else. *)
Lemma Parse_Format t : rfc3339_ok t -> ParseRFC3339 (FormatRFC3339 t) = Some (truncSecond t).
Proof.
  intros (Hm & Ho & Hy). unfold FormatRFC3339.
  set (local := t_unix t + t_offset t) in *.
  destruct (civil_from_days (local / 86400)) as [[y m] d] eqn:Hc.
  pose proof (civil_year_range _ _ _ _ Hc ltac:(zdiv)).
  apply civil_from_days_spec in Hc as (Hd & Hmm & Hdd).
  assert (d <= 31) by (unfold daysIn in *; repeat case_match; lia).
  unfold ParseRFC3339.
  rewrite getyear_pad4 by done; simpl. rewrite getrange_pad2 by lia; simpl.
  rewrite getnum_pad2 by lia; simpl. rewrite getrange_pad2 by zdiv; simpl.
  rewrite getrange_pad2 by zdiv; simpl. rewrite getrange_pad2 by zdiv; simpl.
  pose proof (getzone_format t Hm Ho) as [Hf Hz].
  rewrite Hf, Hz. simpl.
  rewrite (proj2 (Z.leb_le _ _)), (proj2 (Z.leb_le _ _)) by lia. simpl.
  unfold truncSecond. do 2 f_equal. rewrite Hd. unfold local. zdiv.
Qed.

(** Two instants that are written alike are in the same second. *)
Lemma Format_inj t u :
  rfc3339_ok t -> rfc3339_ok u -> FormatRFC3339 t = FormatRFC3339 u -> truncSecond t = truncSecond u.
Proof. intros Ht Hu E. pose proof (Parse_Format t Ht) as H. rewrite E, Parse_Format in H by done. congruence. Qed.

Example parse_format_example :
  FormatRFC3339 (mkTime 1709210096 5 7200) = "2024-02-29T14:34:56+02:00".
Proof. reflexivity. Qed.
