(* ===== verification/GoDuration.v ===== *)
(** * [time.ParseDuration]

    A sign and a sequence of decimal numbers, each with an optional fraction
    and a unit, with the overflow checks of the Go implementation; fractions go
    through [float64] arithmetic, for which
    the executable specification of the Standard Library is used. *)

From S2P Require Import Prelude GoInt GoTime.
From Stdlib Require Import Ascii.
From Corelib Require Import SpecFloat.

Local Open Scope Z_scope.

(** ** [float64] *)

Definition float64 : Type := spec_float.
Definition f64_of_Z (z : Z) : float64 := binary_normalize 53 1024 z 0 false.
Definition f64_mul : float64 -> float64 -> float64 := SFmul 53 1024.
Definition f64_div : float64 -> float64 -> float64 := SFdiv 53 1024.

(** [math.MaxFloat64]. *)
Definition MaxFloat64 : float64 := S754_finite false 9007199254740991 971.

(** [uint64(x)] for a non-negative [x] in range. *)
Definition f64_trunc (x : float64) : Z :=
  match x with
  | S754_finite false m e => if 0 <=? e then Zpos m * 2 ^ e else Zpos m / 2 ^ (- e)
  | _ => 0
  end.

#[export] Instance float64_eq_dec : EqDecision float64.
Proof. solve_decision. Defined.

(** ** The parser *)

Definition two63 : Z := 9223372036854775808.

(** [leadingInt]: the value of the digits read, [None] on overflow. *)
Fixpoint leadingInt (x : Z) (s : string) : option (Z * string) :=
  match s with
  | String c r =>
      match digit_val c with
      | Some d =>
          if two63 / 10 <? x then None
          else let x := x * 10 + d in if two63 <? x then None else leadingInt x r
      | None => Some (x, s)
      end
  | EmptyString => Some (x, s)
  end.

(** [leadingFraction]: digits past the precision are skipped. *)
Fixpoint leadingFraction (x : Z) (scale : float64) (overflow : bool) (s : string)
    : Z * float64 * string :=
  match s with
  | String c r =>
      match digit_val c with
      | Some d =>
          if overflow || ((two63 - 1) / 10 <? x) then leadingFraction x scale true r
          else let y := x * 10 + d in
               if two63 <? y then leadingFraction x scale true r
               else leadingFraction y (f64_mul scale (f64_of_Z 10)) false r
      | None => (x, scale, s)
      end
  | EmptyString => (x, scale, s)
  end.

(** The unit: the bytes up to the next digit or dot. *)
Fixpoint span_unit (s : string) : string * string :=
  match s with
  | String c r =>
      if bool_decide (c = "."%char) || bool_decide (is_Some (digit_val c)) then ("", s)
      else let '(u, t) := span_unit r in (String c u, t)
  | EmptyString => ("", "")
  end.

(** The two spellings of microseconds outside ASCII are U+00B5 and U+03BC. *)
Definition micro_b5 : string := chr 194 +:+ chr 181 +:+ "s".
Definition micro_bc : string := chr 206 +:+ chr 188 +:+ "s".

Definition unitMap (u : string) : option Z :=
  if decide (u = "ns") then Some Nanosecond
  else if decide (u = "us" \/ u = micro_b5 \/ u = micro_bc) then Some Microsecond
  else if decide (u = "ms") then Some Millisecond
  else if decide (u = "s") then Some Second
  else if decide (u = "m") then Some Minute
  else if decide (u = "h") then Some Hour
  else None.

(** One term of the sum: integer part, fraction and unit. *)
Definition duration_term (s : string) : option (Z * string) :=
  '(v, s1) ← leadingInt 0 s;
  let pre := bool_decide (s1 <> s) in
  let '(f, scale, s2, post) :=
    match s1 with
    | String "." r =>
        let '(f, scale, t) := leadingFraction 0 (f64_of_Z 1) false r in
        (f, scale, t, bool_decide (t <> r))
    | _ => (0, f64_of_Z 1, s1, false)
    end in
  if negb pre && negb post then None else
  let '(u, s3) := span_unit s2 in
  if bool_decide (u = "") then None else
  unit ← unitMap u;
  if two63 / unit <? v then None else
  let v := v * unit in
  let v := if 0 <? f
           then v + f64_trunc (f64_mul (f64_of_Z f) (f64_div (f64_of_Z unit) scale))
           else v in
  if two63 <? v then None else Some (v, s3).

Fixpoint duration_terms (fuel : nat) (d : Z) (s : string) : option Z :=
  match s, fuel with
  | EmptyString, _ => Some d
  | _, O => None
  | _, S n =>
      '(v, s) ← duration_term s;
      let d := (d + v) mod 2 ^ 64 in
      if two63 <? d then None else duration_terms n d s
  end.

(** Each term consumes at least one byte: the length is fuel enough. *)
Definition ParseDuration (s : string) : option Z :=
  let '(neg, s) :=
    match s with
    | String "-" r => (true, r)
    | String "+" r => (false, r)
    | _ => (false, s)
    end in
  if bool_decide (s = "0") then Some 0
  else if bool_decide (s = "") then None
  else
    d ← duration_terms (String.length s) 0 s;
    if (neg : bool) then Some (wrap64 (- wrap64 d))
    else if two63 - 1 <? d then None else Some d.

Example duration_30m : ParseDuration "30m" = Some (30 * Minute).
Proof. vm_compute. reflexivity. Qed.
Example duration_mixed : ParseDuration "-1h1.5m" = Some (- (Hour + 90 * Second)).
Proof. vm_compute. reflexivity. Qed.
Example duration_no_unit : ParseDuration "30" = None.
Proof. vm_compute. reflexivity. Qed.

Lemma leadingInt_nonneg x s v r : 0 <= x -> leadingInt x s = Some (v, r) -> 0 <= v.
Proof.
  revert x. induction s as [|c s IH]; intros x Hx; simpl; [naive_solver|].
  destruct (digit_val c) as [d|] eqn:Hd; [|naive_solver].
  repeat case_match; try done. intros H'. eapply IH; [|done].
  unfold digit_val in Hd. case_match; simplify_eq. bool_hyps. lia.
Qed.

Lemma f64_trunc_nonneg x : 0 <= f64_trunc x.
Proof.
  destruct x as [| | |[] m e]; simpl; try lia. case_match; [lia|].
  apply Z.div_pos; [lia|]. bool_hyps. apply Z.pow_pos_nonneg; lia.
Qed.

Lemma duration_term_nonneg s v r : duration_term s = Some (v, r) -> 0 <= v.
Proof.
  unfold duration_term. destruct (leadingInt 0 s) as [[v0 s1]|] eqn:E; [|done].
  apply leadingInt_nonneg in E; [|lia]. cbn [mbind option_bind].
  destruct (match s1 with String "." _ => _ | _ => _ end) as [[[f sc] s2] po].
  case_match; [done|]. destruct (span_unit s2) as [u s3].
  case_match; [done|]. destruct (unitMap u) as [un|] eqn:Hu; [|done]. cbn [mbind option_bind].
  assert (0 < un) by (unfold unitMap in Hu; repeat case_decide; simplify_eq; done).
  case_match; [done|].
  pose proof (f64_trunc_nonneg (f64_mul (f64_of_Z f) (f64_div (f64_of_Z un) sc))).
  repeat case_match; try done; intros [= <- <-]; nia.
Qed.

Lemma duration_terms_range n d s x :
  0 <= d <= two63 -> duration_terms n d s = Some x -> 0 <= x <= two63.
Proof.
  revert d s. induction n as [|n IH]; intros d [|c s] Hd; simpl; try naive_solver.
  destruct (duration_term _) as [[v r]|]; [|done]. cbn [mbind option_bind].
  case_match; [done|]. bool_hyps. apply IH.
  pose proof (Z.mod_pos_bound (d + v) (2 ^ 64)). lia.
Qed.

(** A parsed duration is an [int64]. *)
Lemma ParseDuration_ok s d : ParseDuration s = Some d -> int64_ok d.
Proof.
  unfold ParseDuration.
  destruct (match s with String "-" r => _ | String "+" r => _ | _ => _ end) as [neg t].
  case_match; [intros [= <-]; done|]. case_match; [done|].
  destruct (duration_terms _ _ _) as [x|] eqn:E; [|done]. cbn [mbind option_bind].
  apply duration_terms_range in E; [|done].
  destruct neg; [intros [= <-]; apply wrap64_ok|]. case_match; [done|]. intros [= <-].
  bool_hyps. unfold int64_ok, MinInt64, MaxInt64, two63 in *. lia.
Qed.
