(* ===== verification/GoTemplate.v ===== *)
(** * The fragment of [text/template] the program uses

    Templates whose actions all have the form [{{ .Field }}], executed on a
    [map[string]string]. *)

From S2P Require Import Prelude GoStrings.
From Stdlib Require Import Ascii.

(** [strings.Cut]: around the first occurrence of [sep]. *)
Fixpoint cut (sep s : string) : option (string * string) :=
  match strip_prefix sep s with
  | Some r => Some ("", r)
  | None =>
      match s with
      | EmptyString => None
      | String c s => '(a, b) ← cut sep s; Some (String c a, b)
      end
  end.

Inductive seg := Text (s : string) | Field (name : string).

(** [template.Parse]; every action consumes bytes, so the length is fuel. *)
Fixpoint parse_segs (fuel : nat) (s : string) : option (list seg) :=
  match cut "{{ ." s, fuel with
  | None, _ => Some [Text s]
  | Some _, O => None
  | Some (a, r), S n =>
      '(name, r) ← cut " }}" r;
      l ← parse_segs n r;
      Some (Text a :: Field name :: l)
  end.

Definition Parse (s : string) : option (list seg) := parse_segs (String.length s) s.

(** A field missing from a [map[string]string] prints as the empty string. *)
Definition exec_seg (data : gmap string string) (x : seg) : string :=
  match x with Text s => s | Field n => default "" (data !! n) end.

Fixpoint exec_segs (data : gmap string string) (l : list seg) : string :=
  match l with [] => "" | x :: l => exec_seg data x +:+ exec_segs data l end.

(** [template.Must(template.New(name).Parse(text)).Execute(buf, data)]: the
    program's templates are constants that parse. *)
Definition Execute (text : string) (data : gmap string string) : string :=
  match Parse text with Some l => exec_segs data l | None => "" end.

(** ** Line by line

    Cut into single bytes and fields, a template can be compared with the
    concatenation of its lines. *)
Inductive tok := Byte (c : ascii) | Sub (name : string).
#[export] Instance tok_eq_dec : EqDecision tok.
Proof. solve_decision. Defined.

Fixpoint bytes (s : string) : list tok :=
  match s with EmptyString => [] | String c s => Byte c :: bytes s end.

Fixpoint toks (l : list seg) : list tok :=
  match l with
  | [] => []
  | Text s :: l => bytes s ++ toks l
  | Field n :: l => Sub n :: toks l
  end.

Fixpoint exec_toks (data : gmap string string) (l : list tok) : string :=
  match l with
  | [] => ""
  | Byte c :: l => String c (exec_toks data l)
  | Sub n :: l => default "" (data !! n) +:+ exec_toks data l
  end.

Lemma exec_toks_app data l1 l2 : exec_toks data (l1 ++ l2) = exec_toks data l1 +:+ exec_toks data l2.
Proof.
  induction l1 as [|[c|n] l1 IH]; simpl; [done|..]; rewrite IH.
  - by rewrite sapp_cons.
  - by rewrite sapp_assoc.
Qed.

Lemma exec_bytes data s : exec_toks data (bytes s) = s.
Proof. induction s as [|c s IH]; simpl; [done|]. by rewrite IH. Qed.

Lemma exec_segs_toks data l : exec_segs data l = exec_toks data (toks l).
Proof.
  induction l as [|[s|n] l IH]; simpl; [done|..]; rewrite IH.
  - by rewrite exec_toks_app, exec_bytes.
  - done.
Qed.

(** The tokens of a template, none when it does not parse. *)
Definition tokens (s : string) : list tok := from_option toks [] (Parse s).

Lemma Execute_tokens s data : Execute s data = exec_toks data (tokens s).
Proof. unfold Execute, tokens. destruct (Parse s); [apply exec_segs_toks|done]. Qed.

Fixpoint join_toks (ls : list (list tok)) : list tok :=
  match ls with
  | [] => []
  | [l] => l
  | l :: ls => l ++ Byte "010" :: join_toks ls
  end.

Lemma exec_join data ls : exec_toks data (join_toks ls) = Join (exec_toks data <$> ls) LF.
Proof.
  induction ls as [|l ls IH]; [done|]. destruct ls as [|l' ls]; [done|].
  change (join_toks (l :: l' :: ls)) with (l ++ Byte "010" :: join_toks (l' :: ls)).
  rewrite exec_toks_app. cbn [exec_toks]. rewrite IH.
  rewrite (fmap_cons _ l), (Join_cons (exec_toks data l)) by done.
  unfold LF, chr. by rewrite sapp_cons, sapp_nil_l.
Qed.

(** When no field spans a line break, executing a template is executing its
    lines one by one; the premise is decided by evaluation. *)
Lemma Execute_lines ls data :
  tokens (Join ls LF) = join_toks (tokens <$> ls) ->
  Execute (Join ls LF) data = Join ((fun l => Execute l data) <$> ls) LF.
Proof.
  intros H. rewrite Execute_tokens, H, exec_join. f_equal.
  rewrite <-list_fmap_compose. apply list_fmap_ext. intros i l _. simpl.
  by rewrite Execute_tokens.
Qed.
