(* ===== verification/Types.v ===== *)
(** * The data the program works on

    The UpCloudNodeClass API of apis/v1alpha2, and of the Kubernetes, Karpenter
    and UpCloud API objects the fields the program reads or writes.  A Go
    pointer that may be nil is an [option]; a slice or map whose nil-ness the
    program can see is an [option] too, with [elems] and [entries] for what
    [range] and indexing see of it. *)

From S2P Require Import Prelude GoTime.

Definition elems {A} (s : option (list A)) : list A := default [] s.
Definition entries {V} (m : option (gmap string V)) : gmap string V := default ∅ m.

(** Reading a [map[string]string]: a missing key yields the zero value. *)
Definition mapGet (m : option (gmap string string)) (k : string) : string :=
  default "" (entries m !! k).

(** ** apis/v1alpha2 *)

Module v1alpha2.
Definition Group : string := "karpenter.k8s.upcloud".
Definition Version : string := "v1alpha2".

(* annotations.go *)
Definition NodeClaimTTLResetAnnotationKey : string := "karpenter.k8s.upcloud/ttl-reset-at".
Definition DecommissioningTaintKey : string := "karpenter.k8s.upcloud/decommissioning".

(* constants.go *)
Definition ProviderIDPrefix : string := "upcloud:////".
Definition ResourceNvidiaGPU : string := "nvidia.com/gpu".
Definition NodeClassDrifted : string := "NodeClassDrifted".

(* finalizers.go *)
Definition NodeClassFinalizer : string := "upcloud.com/nodeclass-finalizer".

(* labels.go *)
Definition LabelDomain : string := "karpenter.k8s.upcloud".
Definition LabelInstanceFamily : string := LabelDomain +:+ "/instance-family".
Definition LabelInstanceCPU : string := LabelDomain +:+ "/instance-cpu".
Definition LabelInstanceMemory : string := LabelDomain +:+ "/instance-memory".
Definition LabelInstanceStorageSize : string := LabelDomain +:+ "/instance-storage-size".
Definition LabelInstanceGPUCount : string := LabelDomain +:+ "/instance-gpu-count".
Definition LabelInstanceGPUModel : string := LabelDomain +:+ "/instance-gpu-model".
Definition ServerManagedLabelKey : string := "managed_by".
Definition ServerManagedLabelValue : string := "karpenter".
Definition ServerClusterIDLabelKey : string := "capu_cluster_id".
Definition ServerClusterNameLabelKey : string := "capu_cluster_name".
Definition ServerGeneratedNameLabelKey : string := "capu_generated_name".

(* upcloudnodeclass_hash.go *)
Definition NodeClassHashAnnotationKey : string := "karpenter.k8s.upcloud/nodeclass-hash".
Definition NodeClassHashVersionAnnotationKey : string :=
  "karpenter.k8s.upcloud/nodeclass-hash-version".
Definition NodeClassHashVersion : string := "v2".
End v1alpha2.

(** Label keys and values of k8s.io/api and Karpenter. *)
Definition LabelInstanceTypeStable : string := "node.kubernetes.io/instance-type".
Definition LabelArchStable : string := "kubernetes.io/arch".
Definition LabelOSStable : string := "kubernetes.io/os".
Definition LabelTopologyZone : string := "topology.kubernetes.io/zone".
Definition CapacityTypeLabelKey : string := "karpenter.sh/capacity-type".
Definition CapacityTypeOnDemand : string := "on-demand".
Definition CapacityTypeSpot : string := "spot".

(** ** Object metadata and conditions *)

Record OwnerReference := { or_Kind : string; or_Name : string }.

Record ObjectMeta := mkMeta {
  Name : string;
  UID : string;
  Labels : option (gmap string string);
  Annotations : option (gmap string string);
  Finalizers : list string;
  DeletionTimestamp : option Time;
  CreationTimestamp : Time;
  OwnerReferences : list OwnerReference;
  Generation : Z;
}.

(** [!DeletionTimestamp.IsZero()]: the pointer is set and the time is not zero. *)
Definition Deleting (m : ObjectMeta) : bool :=
  match DeletionTimestamp m with None => false | Some t => negb (IsZero t) end.

(** The conditions of every kind; those of requests and pods observe no generation.
    Transition times only move when the status does, and are left out. *)
Record Condition := mkCondition {
  cond_Type : string;
  cond_Status : string;
  cond_Reason : string;
  cond_Message : string;
  cond_ObservedGeneration : Z;
}.

Definition IsTrue (c : Condition) : bool := bool_decide (cond_Status c = "True").

Record Taint := mkTaint { Taint_Key : string; Taint_Value : string; Taint_Effect : string }.

Definition TaintEffectNoSchedule : string := "NoSchedule".
Definition TaintEffectNoExecute : string := "NoExecute".

(** ** UpCloudNodeClass *)

Record KubernetesTaint := mkKubernetesTaint { kt_Effect : string; kt_Key : string; kt_Value : string }.
Record KubernetesKubeletArg := mkKubeletArg { ka_Key : string; ka_Value : string }.

Record StorageSpec := mkStorage {
  Size : Z;
  Tier : string;
  Encrypted : option bool;
}.

Record UpCloudNodeClassSpec := mkSpec {
  Spec_Zone : string;
  Spec_Plan : string;
  Spec_Storage : option StorageSpec;
  Spec_SSHKeys : option (list string);
  Spec_KubeletArgs : option (list KubernetesKubeletArg);
  Spec_Labels : option (gmap string string);
  Spec_Taints : option (list KubernetesTaint);
  Spec_ServerGroupUUID : string;
  Spec_UtilityNetworkAccess : option bool;
}.

Record UpCloudNodeClassStatus := mkStatus {
  Status_Conditions : option (list Condition);
  Status_Hash : string;
}.

Record UpCloudNodeClass := mkNodeClass {
  nc_Meta : ObjectMeta;
  nc_Spec : UpCloudNodeClassSpec;
  nc_Status : UpCloudNodeClassStatus;
}.

(** ** Quantities and resource lists *)

Inductive QuantityFormat := DecimalSI | BinarySI.
Record Quantity := NewQuantity { q_Value : Z; q_Format : QuantityFormat }.

Definition ResourceCPU : string := "cpu".
Definition ResourceMemory : string := "memory".
Definition ResourcePods : string := "pods".

(** ** NodeClaim *)

Record NodeClassReference := mkRef { ref_Kind : string; ref_Name : string; ref_Group : string }.
Record NodeSelectorRequirement := mkReq {
  req_Key : string; req_Operator : string; req_Values : list string }.

Record NodeClaimSpec := mkClaimSpec {
  Claim_NodeClassRef : option NodeClassReference;
  Claim_Requirements : list NodeSelectorRequirement;
  Claim_Taints : list Taint;
}.

Record NodeClaimStatus := mkClaimStatus {
  ProviderID : string;
  NodeName : string;
  Capacity : gmap string Quantity;
  Allocatable : gmap string Quantity;
  Claim_Conditions : list Condition;
}.

Record NodeClaim := mkClaim {
  claim_Meta : ObjectMeta;
  claim_Spec : NodeClaimSpec;
  claim_Status : NodeClaimStatus;
}.

(** ** Pod and Node *)

Record Toleration := mkToleration {
  tol_Key : string; tol_Operator : string; tol_Value : string; tol_Effect : string }.

Record NodeSelectorTerm := mkTerm { MatchExpressions : list NodeSelectorRequirement }.
Record NodeSelector := mkSelector { NodeSelectorTerms : option (list NodeSelectorTerm) }.
Record NodeAffinity := mkNodeAffinity {
  RequiredDuringSchedulingIgnoredDuringExecution : option NodeSelector }.
Record Affinity := mkAffinity { aff_NodeAffinity : option NodeAffinity }.

Record Pod := mkPod {
  pod_Meta : ObjectMeta;
  pod_NodeName : string;
  pod_NodeSelector : option (gmap string string);
  pod_Tolerations : list Toleration;
  pod_Affinity : option Affinity;
  pod_Phase : string;
  pod_Conditions : list Condition;
}.

Record Node := mkNode {
  node_Meta : ObjectMeta;
  node_Taints : list Taint;
}.

Record ConfigMap := mkConfigMap { cm_Data : option (gmap string string) }.

(** ** UpCloud API *)

Record Label := mkLabel { lbl_Key : string; lbl_Value : string }.

(** The embedded [upcloud.Server] and the labels of [upcloud.ServerDetails]. *)
Record ServerDetails := mkServer {
  srv_UUID : string;
  srv_Hostname : string;
  srv_Plan : string;
  srv_CoreNumber : Z;
  srv_MemoryAmount : Z;
  srv_Zone : string;
  srv_Labels : list Label;
}.

Record Plan := mkPlan {
  plan_Name : string;
  plan_CoreNumber : Z;
  plan_MemoryAmount : Z;
  plan_StorageSize : Z;
  plan_StorageTier : string;
  plan_GPUAmount : Z;
  plan_GPUModel : string;
}.

(** ** Decidable equality *)

#[export] Instance OwnerReference_eq_dec : EqDecision OwnerReference.
Proof. solve_decision. Defined.
#[export] Instance ObjectMeta_eq_dec : EqDecision ObjectMeta.
Proof. solve_decision. Defined.
#[export] Instance Condition_eq_dec : EqDecision Condition.
Proof. solve_decision. Defined.
#[export] Instance Taint_eq_dec : EqDecision Taint.
Proof. solve_decision. Defined.
#[export] Instance KubernetesTaint_eq_dec : EqDecision KubernetesTaint.
Proof. solve_decision. Defined.
#[export] Instance KubeletArg_eq_dec : EqDecision KubernetesKubeletArg.
Proof. solve_decision. Defined.
#[export] Instance StorageSpec_eq_dec : EqDecision StorageSpec.
Proof. solve_decision. Defined.
#[export] Instance NodeClassSpec_eq_dec : EqDecision UpCloudNodeClassSpec.
Proof. solve_decision. Defined.
#[export] Instance NodeClassStatus_eq_dec : EqDecision UpCloudNodeClassStatus.
Proof. solve_decision. Defined.
#[export] Instance NodeClass_eq_dec : EqDecision UpCloudNodeClass.
Proof. solve_decision. Defined.
#[export] Instance QuantityFormat_eq_dec : EqDecision QuantityFormat.
Proof. solve_decision. Defined.
#[export] Instance Quantity_eq_dec : EqDecision Quantity.
Proof. solve_decision. Defined.
#[export] Instance NodeClassReference_eq_dec : EqDecision NodeClassReference.
Proof. solve_decision. Defined.
#[export] Instance Requirement_eq_dec : EqDecision NodeSelectorRequirement.
Proof. solve_decision. Defined.
#[export] Instance NodeClaimSpec_eq_dec : EqDecision NodeClaimSpec.
Proof. solve_decision. Defined.
#[export] Instance NodeClaimStatus_eq_dec : EqDecision NodeClaimStatus.
Proof. solve_decision. Defined.
#[export] Instance NodeClaim_eq_dec : EqDecision NodeClaim.
Proof. solve_decision. Defined.
#[export] Instance Label_eq_dec : EqDecision Label.
Proof. solve_decision. Defined.
#[export] Instance ServerDetails_eq_dec : EqDecision ServerDetails.
Proof. solve_decision. Defined.
#[export] Instance Plan_eq_dec : EqDecision Plan.
Proof. solve_decision. Defined.

(** ** Field updates *)

Definition with_Annotations (a : option (gmap string string)) (m : ObjectMeta) : ObjectMeta :=
  mkMeta (Name m) (UID m) (Labels m) a (Finalizers m) (DeletionTimestamp m)
    (CreationTimestamp m) (OwnerReferences m) (Generation m).
Definition with_Finalizers (f : list string) (m : ObjectMeta) : ObjectMeta :=
  mkMeta (Name m) (UID m) (Labels m) (Annotations m) f (DeletionTimestamp m)
    (CreationTimestamp m) (OwnerReferences m) (Generation m).
Definition claim_with_Annotations (a : option (gmap string string)) (c : NodeClaim) : NodeClaim :=
  mkClaim (with_Annotations a (claim_Meta c)) (claim_Spec c) (claim_Status c).
Definition node_with_Taints (t : list Taint) (n : Node) : Node := mkNode (node_Meta n) t.
Definition nc_with_Meta (m : ObjectMeta) (n : UpCloudNodeClass) : UpCloudNodeClass :=
  mkNodeClass m (nc_Spec n) (nc_Status n).
Definition nc_with_Status (s : UpCloudNodeClassStatus) (n : UpCloudNodeClass) : UpCloudNodeClass :=
  mkNodeClass (nc_Meta n) (nc_Spec n) s.

(** The metadata of an object literal that sets no field. *)
Definition emptyMeta : ObjectMeta := mkMeta "" "" None None [] None zeroTime [] 0.

(** [ann[k] = v] after [if ann == nil { ann = map[string]string{} }]. *)
Definition setAnnotation (k v : string) (a : option (gmap string string))
    : option (gmap string string) :=
  Some (<[k := v]> (entries a)).

Lemma mapGet_set_eq k v a : mapGet (setAnnotation k v a) k = v.
Proof. unfold mapGet, setAnnotation. simpl. by rewrite lookup_insert_eq. Qed.
Lemma mapGet_set_ne k k' v a : k <> k' -> mapGet (setAnnotation k v a) k' = mapGet a k'.
Proof. intros. unfold mapGet, setAnnotation. simpl. by rewrite lookup_insert_ne. Qed.
