(* ===== verification/Effects.v ===== *)
(** * Errors, outside calls, and programs that make them

    Go code that talks to the outside is modelled as a [prog]: a finite tree
    whose nodes are the calls the code makes (the Kubernetes client, the UpCloud
    service, the clock, randomness, the environment) and whose branches are the
    answers.  [runs] says which executions a program has when the environment
    may answer anything; [exec] runs a program against a given environment. *)

From S2P Require Import Prelude GoTime GoDuration Types.

(** ** Errors *)

(** A Go [error]: a plain message, a message in front of a wrapped error
    ([%w]), or an error value of a library with its type, its status reason and
    its text, possibly around another error. *)
Inductive error :=
| Errorf (msg : string)
| Wrapf (msg : string) (cause : error)
| LibError (ty reason msg : string)
| LibWrap (ty msg : string) (cause : error).

#[export] Instance error_eq_dec : EqDecision error.
Proof. solve_decision. Defined.

(** [err.Error()]. *)
Fixpoint ErrorText (e : error) : string :=
  match e with
  | Errorf m => m
  | Wrapf m c => m +:+ ": " +:+ ErrorText c
  | LibError _ _ m => m
  | LibWrap _ m c => m +:+ ErrorText c
  end.

(** A Go result pair [(A, error)], of which the program only ever uses one half. *)
Inductive result (A : Type) :=
| Ok (a : A)
| Err (e : error).
Arguments Ok {A} _.
Arguments Err {A} _.

#[export] Instance result_eq_dec `{EqDecision A} : EqDecision (result A).
Proof. solve_decision. Defined.

Definition is_Ok {A} (r : result A) : bool := match r with Ok _ => true | Err _ => false end.

(** ** Requests and objects of the outside services *)

Record CreateServerStorageDevice := mkDevice {
  dev_Action : string;
  dev_Storage : string;
  dev_Title : string;
  dev_Size : Z;
  dev_Tier : string;
  dev_Encrypted : option bool;
}.

Record CreateServerInterface := mkInterface {
  if_Type : string;
  if_Network : string;
  if_IPFamilies : list string;
}.

Record CreateServerRequest := mkCreateServer {
  cs_Labels : list Label;
  cs_Zone : string;
  cs_Hostname : string;
  cs_Title : string;
  cs_Plan : string;
  cs_ServerGroup : string;
  cs_StorageDevices : list CreateServerStorageDevice;
  cs_Interfaces : list CreateServerInterface;
  cs_UserData : string;
  cs_Metadata : bool;
}.

Record CertificateSigningRequest := mkCSR {
  csr_Name : string;
  csr_Request : string;
  csr_SignerName : string;
  csr_Usages : list string;
  csr_Conditions : list Condition;
  csr_Certificate : string;
}.

Record Event := mkEvent {
  ev_InvolvedObject : NodeClaim;
  ev_Type : string;
  ev_Reason : string;
  ev_Message : string;
  ev_DedupeValues : list string;
}.

(** The cluster object of the UpCloud API. *)
Record KubernetesCluster := mkCluster {
  cluster_Zone : string;
  cluster_Network : string;
  cluster_Name : string;
}.

(** The [reconcile.Result] of a controller. *)
Record Result := mkResult { Requeue : bool; RequeueAfter : Z }.
Definition emptyResult : Result := mkResult false 0.
Definition requeueNow : Result := mkResult true 0.
Definition requeueAfter (d : Z) : Result := mkResult false d.

(** What a controller tells the builder of controller-runtime: the kind it
    watches, how many passes may run at once (zero: the default), and the filters
    on the events that wake it. *)
Record Registration := mkRegistration {
  reg_For : string;
  reg_MaxConcurrentReconciles : Z;
  reg_EventFilters : list string;
}.

(** ** Calls

    Each constructor is one call the program makes, indexed by its answer. *)
Inductive api : Type -> Type :=
(* the Kubernetes API through controller-runtime's client *)
| GetNodeClass (name : string) : api (result UpCloudNodeClass)
| UpdateNodeClass (obj : UpCloudNodeClass) : api (result UpCloudNodeClass)
| StatusPatchNodeClass (base obj : UpCloudNodeClass) : api (result UpCloudNodeClass)
| ListNodeClaimsFor (nc : UpCloudNodeClass) : api (result (list NodeClaim))
| GetNodeClaim (name : string) : api (result NodeClaim)
| PatchNodeClaim (base obj : NodeClaim) : api (result NodeClaim)
| DeleteNodeClaim (obj : NodeClaim) : api (result unit)
| ListPods : api (result (list Pod))
| GetNode (name : string) : api (result Node)
| PatchNode (base obj : Node) : api (result Node)
| GetConfigMap (namespace name : string) : api (result ConfigMap)
(* certificate signing requests through the clientset *)
| CsrCreate (csr : CertificateSigningRequest) : api (result CertificateSigningRequest)
| CsrGet (name : string) : api (result CertificateSigningRequest)
| CsrUpdateApproval (name : string) (csr : CertificateSigningRequest)
    : api (result CertificateSigningRequest)
(* the event recorder *)
| Publish (ev : Event) : api unit
(* the UpCloud service *)
| CreateServer (req : CreateServerRequest) : api (result ServerDetails)
| DeleteServerAndStorages (uuid : string) : api (result unit)
| GetServerDetails (uuid : string) : api (result ServerDetails)
| GetServers : api (result (list string))
| StopServer (uuid stopType : string) (timeout : Z) : api (result ServerDetails)
| WaitForServerState (uuid desired : string) : api (result ServerDetails)
| GetPlans : api (result (list Plan))
| GetPricesByZone : api (result (gmap string (gmap string float64)))
| GetKubernetesCluster (uuid : string) : api (result KubernetesCluster)
| GetKubernetesKubeconfig (uuid : string) : api (result string)
(* Karpenter's operator: what NewOperator reads and makes, and the manager, whose
   Start blocks until the process is told to stop *)
| NewOperator : api unit
| StartManager : api unit
(* clock, randomness, cryptography and environment of the process *)
| Now : api Time
| NewUUID : api string
| GenerateKey (bits : Z) : api (result string)
| CreateCertificateRequest (commonName : string) (organization : list string) (key : string)
    : api (result string)
| Getenv (key : string) : api string.

(** A call together with its answer. *)
Inductive event :=
| Ev (X : Type) (c : api X) (r : X).
Arguments Ev {X} _ _.

(** ** Programs *)

Inductive prog (A : Type) : Type :=
| Ret (a : A)
| Panic (msg : string)
| Call {X : Type} (c : api X) (k : X -> prog A).
Arguments Ret {A} _.
Arguments Panic {A} _.
Arguments Call {A X} _ _.

Definition call {X} (c : api X) : prog X := Call c Ret.

Fixpoint bind {A B} (p : prog A) (k : A -> prog B) : prog B :=
  match p with
  | Ret a => k a
  | Panic m => Panic m
  | Call c f => Call c (fun x => bind (f x) k)
  end.

(** [x, err := p; if err != nil { return wrap(err) }; k]. *)
Definition bindE {A B} (wrap : error -> error) (p : prog (result A))
    (k : A -> prog (result B)) : prog (result B) :=
  bind p (fun r => match r with Ok a => k a | Err e => Ret (Err (wrap e)) end).

Notation "'let!' x := p 'in' k" := (bind p (fun x => k))
  (at level 200, x binder, p at level 200, k at level 200) : go_scope.
Notation "'let?' x := p 'or' w 'in' k" := (bindE w p (fun x => k))
  (at level 200, x binder, p at level 200, w at level 99, k at level 200) : go_scope.
Notation "'do!' p 'in' k" := (bind p (fun _ => k))
  (at level 200, p at level 200, k at level 200) : go_scope.
Open Scope go_scope.

(** What an execution ends with. *)
Inductive outcome (A : Type) :=
| Done (a : A)
| Panicked (msg : string).
Arguments Done {A} _.
Arguments Panicked {A} _.

(** [runs p tr o]: with some environment, [p] makes the calls of [tr], in that
    order and with those answers, and ends with [o]. *)
Fixpoint runs {A} (p : prog A) (tr : list event) (o : outcome A) : Prop :=
  match p with
  | Ret a => tr = [] /\ o = Done a
  | Panic m => tr = [] /\ o = Panicked m
  | @Call _ X c k => exists (r : X) tr', tr = Ev c r :: tr' /\ runs (k r) tr' o
  end.

(** An environment with state [W], and the execution it determines. *)
Definition handler (W : Type) : Type := forall X, api X -> W -> X * W.

Fixpoint exec {W A} (h : handler W) (p : prog A) (w : W) : outcome A * W * list event :=
  match p with
  | Ret a => (Done a, w, [])
  | Panic m => (Panicked m, w, [])
  | Call c k =>
      let '(r, w1) := h _ c w in
      let '(o, w2, tr) := exec h (k r) w1 in
      (o, w2, Ev c r :: tr)
  end.

Definition exec_outcome {W A} (h : handler W) (p : prog A) (w : W) : outcome A :=
  fst (fst (exec h p w)).
Definition exec_world {W A} (h : handler W) (p : prog A) (w : W) : W := snd (fst (exec h p w)).
Definition exec_trace {W A} (h : handler W) (p : prog A) (w : W) : list event := snd (exec h p w).

Lemma exec_runs {W A} (h : handler W) (p : prog A) w :
  runs p (exec_trace h p w) (exec_outcome h p w).
Proof.
  unfold exec_trace, exec_outcome. revert w.
  induction p as [a|m|X c k IH]; intros w; simpl; [done..|].
  destruct (h X c w) as [r w1]. specialize (IH r w1).
  destruct (exec h (k r) w1) as [[o w2] tr]. simpl in *. eauto.
Qed.

Lemma runs_bind {A B} (p : prog A) (k : A -> prog B) tr o :
  runs (bind p k) tr o <->
  (exists a tr1 tr2, tr = tr1 ++ tr2 /\ runs p tr1 (Done a) /\ runs (k a) tr2 o) \/
  (exists m, runs p tr (Panicked m) /\ o = Panicked m).
Proof.
  revert tr. induction p as [a|m|X c f IH]; intros tr; simpl.
  - split; [intros H; left; by exists a, [], tr|].
    intros [(b & tr1 & tr2 & -> & (-> & [= ->]) & Hk)|(m & [_ [=]] & _)]. done.
  - split; [intros [-> ->]; right; eauto|].
    intros [(b & tr1 & tr2 & -> & (_ & [=]) & _)|(m' & [-> [= ->]] & ->)]. done.
  - setoid_rewrite IH. split.
    + intros (r & tr' & -> & [(a & t1 & t2 & -> & ? & ?)|(m & ? & ->)]);
        [left; exists a, (Ev c r :: t1), t2|right]; eauto 10.
    + intros [(a & t1 & t2 & -> & (r & t1' & -> & ?) & ?)|(m & (r & t' & -> & ?) & ->)];
        exists r; eexists; (split; [done|]); eauto 10.
Qed.

Lemma exec_bind {W A B} (h : handler W) (p : prog A) (k : A -> prog B) w :
  exec h (bind p k) w =
  let '(o, w1, t1) := exec h p w in
  match o with
  | Done a => let '(o2, w2, t2) := exec h (k a) w1 in (o2, w2, t1 ++ t2)
  | Panicked m => (Panicked m, w1, t1)
  end.
Proof.
  revert w. induction p as [a|m|X c f IH]; intros w; simpl.
  - by destruct (exec h (k a) w) as [[o w1] t].
  - done.
  - destruct (h X c w) as [r w1]. rewrite IH.
    destruct (exec h (f r) w1) as [[[a|m] w2] t1]; [|done].
    by destruct (exec h (k a) w2) as [[o w3] t2].
Qed.

(** ** Reasoning about executions *)

(** Expose the next call of a [runs] hypothesis and name its answer, or the end
    of the execution. *)
Tactic Notation "run_call" hyp(H) "as" simple_intropattern(r) :=
  cbn [runs bind bindE call] in H;
  let t := fresh "rest" in destruct H as (r & t & -> & H);
  cbn [runs bind bindE call] in H.
Tactic Notation "run_ret" hyp(H) :=
  cbn [runs bind bindE call] in H;
  let E := fresh "Eo" in destruct H as [-> E]; simplify_eq.

(** Every call a program can make satisfies [P]. *)
Fixpoint calls_ok {A} (P : forall X, api X -> Prop) (p : prog A) : Prop :=
  match p with
  | Ret _ | Panic _ => True
  | Call c k => P _ c /\ forall x, calls_ok P (k x)
  end.

Definition ev_ok (P : forall X, api X -> Prop) (e : event) : Prop :=
  match e with Ev c _ => P _ c end.

Lemma calls_ok_runs {A} P (p : prog A) tr o :
  calls_ok P p -> runs p tr o -> Forall (ev_ok P) tr.
Proof.
  revert tr. induction p as [a|m|X c k IH]; intros tr; simpl.
  - intros _ [-> _]. constructor.
  - intros _ [-> _]. constructor.
  - intros [Hc Hk] (r & tr' & -> & Hr). constructor; [done|]. eapply IH; eauto.
Qed.

Lemma calls_ok_bind {A B} P (p : prog A) (k : A -> prog B) :
  calls_ok P p -> (forall a, calls_ok P (k a)) -> calls_ok P (bind p k).
Proof. induction p as [a|m|X c f IH]; simpl; naive_solver. Qed.

Lemma calls_ok_bindE {A B} P w (p : prog (result A)) (k : A -> prog (result B)) :
  calls_ok P p -> (forall a, calls_ok P (k a)) -> calls_ok P (bindE w p k).
Proof. intros. apply calls_ok_bind; [done|]. by intros [a|e]. Qed.

(** The parts of an execution of a sequence. *)
Lemma exec_outcome_bind {W A B} (h : handler W) (p : prog A) (k : A -> prog B) w :
  exec_outcome h (bind p k) w =
  match exec_outcome h p w with
  | Done a => exec_outcome h (k a) (exec_world h p w)
  | Panicked m => Panicked m
  end.
Proof.
  unfold exec_outcome, exec_world. rewrite exec_bind.
  destruct (exec h p w) as [[[a|m] w1] t]; [|done]. simpl. by destruct (exec h (k a) w1) as [[]].
Qed.

Lemma exec_world_bind {W A B} (h : handler W) (p : prog A) (k : A -> prog B) w :
  exec_world h (bind p k) w =
  match exec_outcome h p w with
  | Done a => exec_world h (k a) (exec_world h p w)
  | Panicked _ => exec_world h p w
  end.
Proof.
  unfold exec_outcome, exec_world. rewrite exec_bind.
  destruct (exec h p w) as [[[a|m] w1] t]; [|done]. simpl. by destruct (exec h (k a) w1) as [[]].
Qed.

Lemma exec_outcome_call {W X} (h : handler W) (c : api X) w :
  exec_outcome h (call c) w = Done (fst (h X c w)).
Proof. unfold exec_outcome. simpl. by destruct (h X c w). Qed.

Lemma exec_world_call {W X} (h : handler W) (c : api X) w : exec_world h (call c) w = snd (h X c w).
Proof. unfold exec_world. simpl. by destruct (h X c w). Qed.

Lemma exec_outcome_Ret {W A} (h : handler W) (a : A) w : exec_outcome h (Ret a) w = Done a.
Proof. done. Qed.
Lemma exec_world_Ret {W A} (h : handler W) (a : A) w : exec_world h (Ret a) w = w.
Proof. done. Qed.

Create HintDb exec.
#[export] Hint Rewrite @exec_outcome_bind @exec_world_bind @exec_outcome_call @exec_world_call
  @exec_outcome_Ret @exec_world_Ret : exec.
Ltac exec_steps := repeat (progress (autorewrite with exec; cbn beta iota)).

(** A view of the state that no call of a program changes is kept. *)
Lemma exec_keeps {W F A} (view : W -> F) (h : handler W) (P : forall X, api X -> Prop) (p : prog A) w :
  (forall X (c : api X) w, P X c -> view (snd (h X c w)) = view w) ->
  calls_ok P p -> view (exec_world h p w) = view w.
Proof.
  intros Hv. unfold exec_world. revert w. induction p as [a|m|X c k IH]; intros w; simpl; [done..|].
  intros [Hc Hk]. specialize (Hv X c w Hc). destruct (h X c w) as [r w1]. simpl in Hv.
  specialize (IH r w1 (Hk r)). destruct (exec h (k r) w1) as [[o w2] tr]. simpl in *. congruence.
Qed.

(** ** How long a program runs

    [within panics n p]: [p] makes at most [n] calls, and panics only if that is
    allowed. *)
Fixpoint within {A} (panics : bool) (n : nat) (p : prog A) {struct p} : Prop :=
  match p with
  | Ret _ => True
  | Panic _ => panics = true
  | Call c k => match n with O => False | S n => forall x, within panics n (k x) end
  end.

Lemma within_mono {A} b n m (p : prog A) : n <= m -> within b n p -> within b m p.
Proof.
  revert n m. induction p as [a|msg|X c k IH]; intros n m Hle; cbn [within]; [done..|].
  destruct n as [|n]; [done|]. destruct m as [|m]; [lia|]. intros H x. apply (IH x n); [lia|done].
Qed.

Lemma within_bind {A B} b n m (p : prog A) (k : A -> prog B) :
  within b n p -> (forall a, within b m (k a)) -> within b (n + m) (bind p k).
Proof.
  revert n. induction p as [a|msg|X c f IH]; intros n; cbn [within bind].
  - intros _ Hk. apply (within_mono b m); [lia|done].
  - done.
  - destruct n as [|n]; [done|]. intros Hp Hk x. by apply IH.
Qed.

Lemma within_bindE {A B} b n m w (p : prog (result A)) (k : A -> prog (result B)) :
  within b n p -> (forall a, within b m (k a)) -> within b (n + m) (bindE w p k).
Proof. intros Hp Hk. apply within_bind; [done|]. by intros [a|e]. Qed.

Lemma within_call {X} b (c : api X) : within b 1 (call c).
Proof. by intros x. Qed.

Lemma within_runs {A} n (p : prog A) tr o :
  within false n p -> runs p tr o -> length tr <= n /\ exists a, o = Done a.
Proof.
  revert n tr. induction p as [a|msg|X c k IH]; intros n tr; cbn [within runs].
  - intros _ [-> ->]. split; [simpl; lia|eauto].
  - done.
  - destruct n as [|n]; [done|]. intros Hw (r & tr' & -> & Hr).
    destruct (IH r n tr' (Hw r) Hr) as [Hl Ho]. split; [simpl; lia|done].
Qed.

Lemma within_length {A} b n (p : prog A) tr o : within b n p -> runs p tr o -> length tr <= n.
Proof.
  revert n tr. induction p as [a|msg|X c k IH]; intros n tr; cbn [within runs].
  - intros _ [-> _]. simpl. lia.
  - intros _ [-> _]. simpl. lia.
  - destruct n as [|n]; [done|]. intros Hw (r & tr' & -> & Hr).
    specialize (IH r n tr' (Hw r) Hr). simpl. lia.
Qed.

(** ** Environments for concrete runs *)

(** Services that are all down, with a clock at zero. *)
Definition unavailable {X} (c : api X) : X :=
  let down {A} : result A := Err (Errorf "unavailable") in
  match c in api X return X with
  | GetNodeClass _ => down
  | UpdateNodeClass _ => down
  | StatusPatchNodeClass _ _ => down
  | ListNodeClaimsFor _ => down
  | GetNodeClaim _ => down
  | PatchNodeClaim _ _ => down
  | DeleteNodeClaim _ => down
  | ListPods => down
  | GetNode _ => down
  | PatchNode _ _ => down
  | GetConfigMap _ _ => down
  | CsrCreate _ => down
  | CsrGet _ => down
  | CsrUpdateApproval _ _ => down
  | Publish _ => tt
  | CreateServer _ => down
  | DeleteServerAndStorages _ => down
  | GetServerDetails _ => down
  | GetServers => down
  | StopServer _ _ _ => down
  | WaitForServerState _ _ => down
  | GetPlans => down
  | GetPricesByZone => down
  | GetKubernetesCluster _ => down
  | GetKubernetesKubeconfig _ => down
  | NewOperator => tt
  | StartManager => tt
  | Now => zeroTime
  | NewUUID => ""
  | GenerateKey _ => down
  | CreateCertificateRequest _ _ _ => down
  | Getenv _ => ""
  end.

(** An environment without state: some calls answered, the others unavailable. *)
Definition answering (f : forall X, api X -> option X) : handler unit :=
  fun X c w => (default (unavailable c) (f X c), w).

Lemma exec_done {W A} (h : handler W) (p : prog A) w a :
  exec_outcome h p w = Done a -> runs p (exec_trace h p w) (Done a).
Proof. intros <-. apply exec_runs. Qed.
