(* ===== verification/Libs.v ===== *)
(** * Third-party code the program calls

    Code outside the repository has no definition here: it is a parameter.
    [Libs] lists the functions, the [...Laws] classes state the documented
    behaviour some theorems rely on.  [refLibs], at the end, is one choice of
    all parameters that satisfies every law; the witnesses evaluate with it. *)

From S2P Require Import Prelude GoInt GoStrings GoTime GoDuration Types Effects.

(** What the YAML encoder is given for one taint (see userdata.go). *)
Record taintEntry := mkTaintEntry { te_Key : string; te_Value : string; te_Effect : string }.

Class Libs := {
  (* github.com/samber/lo *)
  lo_Assign : list (option (gmap string string)) -> gmap string string;
  lo_Map : forall {A B : Type}, list A -> (A -> nat -> B) -> list B;
  lo_Values : forall {V : Type}, gmap string V -> list V;
  (* the order in which the Go runtime ranges over a map *)
  range_map : forall {V : Type}, gmap string V -> list (string * V);
  (* Unicode tables: upper case outside ASCII, and the quoting of %q *)
  unicode_ToUpper : Z -> Z;
  Quote : string -> string;
  QuoteRune : Z -> string;
  (* gopkg.in/yaml.v3, encoding taintsConfig with an indent of two *)
  yaml_EncodeTaints : list taintEntry -> result string;
  (* sigs.k8s.io/yaml: the server field of each cluster of a kubeconfig *)
  yaml_KubeconfigServers : string -> result (list string);
  (* github.com/mitchellh/hashstructure/v2, FormatV2 with SlicesAsSets and
     IgnoreZeroValue, applied to the spec *)
  hashstructure_Hash : UpCloudNodeClassSpec -> result Z;
  (* k8s.io/apimachinery and controller-runtime errors *)
  IsNotFound : error -> bool;
  IsConflict : error -> bool;
  NewNotFound : string -> string -> string -> error;
  IgnoreNotFound : error -> option error;
  (* Karpenter's cloudprovider errors *)
  NewNodeClaimNotFoundError : error -> error;
  NewInsufficientCapacityError : error -> error;
  IsNodeClaimNotFoundError : error -> bool;
  IsInsufficientCapacityError : error -> bool;
  IgnoreNodeClaimNotFoundError : error -> option error;
  (* github.com/awslabs/operatorpkg/status: what a condition set does to the
     conditions of its object, which has a generation; [None] when it leaves
     them alone *)
  ConditionSet_SetTrue : Z -> string -> list Condition -> option (list Condition);
  ConditionSet_SetFalse : Z -> string -> string -> string -> list Condition ->
    option (list Condition);
  ConditionSet_Get : string -> list Condition -> option Condition;
  (* the conditions a NodeClaim has once its StatusConditions() were asked for *)
  NodeClaim_StatusConditions : list Condition -> list Condition;
  (* k8s.io/apimachinery/pkg/api/equality *)
  SemanticDeepEqual : UpCloudNodeClass -> UpCloudNodeClass -> bool;
  (* k8s.io/apimachinery/pkg/util/wait: interval, timeout, immediate, and the
     condition with the variables it captures *)
  PollUntilContextTimeout : forall {S : Type},
    Z -> Z -> bool -> (S -> prog (result bool * S)) -> S -> prog (option error * S);
  (* crypto/x509: the DER form of a private key *)
  MarshalPKCS1PrivateKey : string -> string;
}.

(** ** Laws *)

(** [lo.Assign] merges from left to right, later maps winning; the callback of
    [lo.Map] is applied in order with the index; [lo.Values] lists every value. *)
Class LoLaws (L : Libs) : Prop := {
  lo_Assign_nil : lo_Assign [] = ∅;
  lo_Assign_snoc ms m : lo_Assign (ms ++ [m]) = entries m ∪ lo_Assign ms;
  lo_Map_spec A B (l : list A) (f : A -> nat -> B) : lo_Map l f = imap (flip f) l;
  lo_Values_perm V (m : gmap string V) : lo_Values m ≡ₚ (map_to_list m).*2;
}.

(** Ranging visits every entry once, in some order. *)
Class RangeLaws (L : Libs) : Prop := {
  range_map_perm V (m : gmap string V) : range_map m ≡ₚ map_to_list m;
}.

(** [IsNotFound] looks through [%w]; [NewNotFound] makes such an error;
    [IgnoreNotFound] keeps all others. *)
Class K8sErrorLaws (L : Libs) : Prop := {
  IsNotFound_new g r n : IsNotFound (NewNotFound g r n) = true;
  IsNotFound_wrap m e : IsNotFound (Wrapf m e) = IsNotFound e;
  IgnoreNotFound_spec e : IgnoreNotFound e = if IsNotFound e then None else Some e;
}.

(** Karpenter's two error types are told apart by their predicates. *)
Class KarpenterErrorLaws (L : Libs) : Prop := {
  IsNodeClaimNotFound_new e : IsNodeClaimNotFoundError (NewNodeClaimNotFoundError e) = true;
  IsInsufficientCapacity_new e :
    IsInsufficientCapacityError (NewInsufficientCapacityError e) = true;
  IgnoreNodeClaimNotFound_spec e :
    IgnoreNodeClaimNotFoundError e = if IsNodeClaimNotFoundError e then None else Some e;
}.

(** [hashstructure] hashes slices as sets and skips zero values. *)
Definition same_set_spec (s t : UpCloudNodeClassSpec) : Prop :=
  Spec_Zone s = Spec_Zone t /\ Spec_Plan s = Spec_Plan t /\ Spec_Storage s = Spec_Storage t /\
  elems (Spec_SSHKeys s) ≡ₚ elems (Spec_SSHKeys t) /\
  elems (Spec_KubeletArgs s) ≡ₚ elems (Spec_KubeletArgs t) /\
  Spec_Labels s = Spec_Labels t /\
  elems (Spec_Taints s) ≡ₚ elems (Spec_Taints t) /\
  Spec_ServerGroupUUID s = Spec_ServerGroupUUID t /\
  Spec_UtilityNetworkAccess s = Spec_UtilityNetworkAccess t /\
  (Spec_SSHKeys s = None <-> Spec_SSHKeys t = None) /\
  (Spec_KubeletArgs s = None <-> Spec_KubeletArgs t = None) /\
  (Spec_Taints s = None <-> Spec_Taints t = None).

Class HashLaws (L : Libs) : Prop := {
  hash_order s t : same_set_spec s t -> hashstructure_Hash s = hashstructure_Hash t;
  hash_uint64 s h : hashstructure_Hash s = Ok h -> (0 <= h < 2 ^ 64)%Z;
}.

(** Setting a condition makes it readable as it was set, at the generation of the
    object, and setting it again at that generation changes nothing.  Initialising
    the other conditions of a NodeClaim does not change one that is there. *)
Class StatusLaws (L : Libs) : Prop := {
  SetTrue_Get g t cs : exists c,
    ConditionSet_Get t (default cs (ConditionSet_SetTrue g t cs)) = Some c /\ IsTrue c = true /\
    cond_ObservedGeneration c = g;
  SetTrue_again g t cs cs' : ConditionSet_SetTrue g t cs = Some cs' ->
    ConditionSet_SetTrue g t cs' = None;
  SetFalse_Get g t r m cs :
    ConditionSet_Get t (default cs (ConditionSet_SetFalse g t r m cs)) =
      Some (mkCondition t "False" r m g);
  NodeClaim_Get t cs c : ConditionSet_Get t cs = Some c ->
    ConditionSet_Get t (NodeClaim_StatusConditions cs) = Some c;
}.

(** Semantic equality contains equality, and tells statuses apart but for the
    difference between no conditions and an empty list of them. *)
Class EqualityLaws (L : Libs) : Prop := {
  SemanticDeepEqual_refl n : SemanticDeepEqual n n = true;
  SemanticDeepEqual_status n m : SemanticDeepEqual n m = true ->
    elems (Status_Conditions (nc_Status n)) = elems (Status_Conditions (nc_Status m)) /\
    Status_Hash (nc_Status n) = Status_Hash (nc_Status m);
}.

(** Polling evaluates the condition again and again until it is true, fails, or
    the time is over; [n] is the number of evaluations the clock allows. *)
Fixpoint poll_n {S : Type} (n : nat) (timeout : error) (cond : S -> prog (result bool * S)) (s : S)
    : prog (option error * S) :=
  match n with
  | O => Ret (Some timeout, s)
  | Datatypes.S n =>
      let! rs := cond s in
      match rs with
      | (Err e, s) => Ret (Some e, s)
      | (Ok true, s) => Ret (None, s)
      | (Ok false, s) => poll_n n timeout cond s
      end
  end.

Class PollLaws (L : Libs) : Prop := {
  Poll_spec (S : Type) i t (cond : S -> prog (result bool * S)) s : exists n timeout,
    PollUntilContextTimeout i t true cond s = poll_n (Datatypes.S n) timeout cond s;
}.

(** A poll that starts at once and then waits for the interval each time has
    room for one evaluation more than intervals fit the time. *)
Class PollTimeLaws (L : Libs) : Prop := {
  Poll_bound (S : Type) i t (cond : S -> prog (result bool * S)) s :
    exists n timeout, (n <= Z.to_nat (t / i))%nat /\
      PollUntilContextTimeout i t true cond s = poll_n (Datatypes.S n) timeout cond s;
}.

(** Such a poll is a poll. *)
Lemma PollTime_Poll (L : Libs) : PollTimeLaws L -> PollLaws L.
Proof.
  intros H. split. intros S i t cond s. destruct (Poll_bound S i t cond s) as (n & timeout & _ & E). eauto.
Qed.

(** ** Facts *)

Section lo_facts.
Context `{L : Libs} `{!LoLaws L}.

Lemma lo_Assign_one m : lo_Assign [m] = entries m.
Proof.
  pose proof (lo_Assign_snoc [] m) as H. simpl in H.
  rewrite H, lo_Assign_nil. apply (right_id_L ∅ (∪)).
Qed.

(** A key takes its value from the last map that has it. *)
Lemma lo_Assign_lookup3 a b c k :
  lo_Assign [a; b; c] !! k =
  match entries c !! k with
  | Some v => Some v
  | None => match entries b !! k with Some v => Some v | None => entries a !! k end
  end.
Proof.
  pose proof (lo_Assign_snoc [a; b] c) as H1. pose proof (lo_Assign_snoc [a] b) as H2.
  simpl in H1, H2. rewrite H1, H2, lo_Assign_one, !lookup_union.
  by destruct (entries c !! k), (entries b !! k), (entries a !! k).
Qed.

Lemma lo_Map_fmap {A B} (l : list A) (f : A -> B) : lo_Map l (fun x _ => f x) = f <$> l.
Proof.
  rewrite lo_Map_spec. revert f. induction l as [|x l IH]; intros f; [done|].
  rewrite imap_cons. simpl. f_equal. apply (IH f).
Qed.
End lo_facts.

(** ** A reference choice of the parameters *)

Module Ref.
Fixpoint assign (ms : list (option (gmap string string))) (acc : gmap string string)
    : gmap string string :=
  match ms with [] => acc | m :: ms => assign ms (entries m ∪ acc) end.

Lemma assign_snoc ms m acc : assign (ms ++ [m]) acc = entries m ∪ assign ms acc.
Proof. revert acc. induction ms as [|x ms IH]; intros acc; [done|]. apply IH. Qed.

Definition hasReason (r : string) : error -> bool :=
  fix go e := match e with
              | LibError _ r' _ => bool_decide (r' = r)
              | Wrapf _ e | LibWrap _ _ e => go e
              | Errorf _ => false
              end.

Definition hasType (t : string) : error -> bool :=
  fix go e := match e with
              | LibError t' _ _ => bool_decide (t' = t)
              | LibWrap t' _ e => bool_decide (t' = t) || go e
              | Wrapf _ e => go e
              | Errorf _ => false
              end.

(** Sums over the elements: insensitive to their order. *)
Fixpoint str_num (s : string) : Z :=
  match s with EmptyString => 7 | String c s => (byte_val c + 257 * str_num s) mod (2 ^ 61) end.
Definition sum {A} (f : A -> Z) (l : list A) : Z := foldr (fun x a => f x + a)%Z 0%Z l.
Definition opt_num {A} (f : A -> Z) (o : option A) : Z :=
  match o with None => 11 | Some x => 13 + 17 * f x end%Z.
Definition bool_num (b : bool) : Z := if b then 3 else 5.

Definition hash (s : UpCloudNodeClassSpec) : Z :=
  ((str_num (Spec_Zone s) + 3 * str_num (Spec_Plan s) +
    5 * opt_num (fun st => Size st + str_num (Tier st) + opt_num bool_num (Encrypted st)) (Spec_Storage s) +
    7 * opt_num (sum str_num) (Spec_SSHKeys s) +
    11 * opt_num (sum (fun a => str_num (ka_Key a) + 3 * str_num (ka_Value a))) (Spec_KubeletArgs s) +
    13 * opt_num (fun m => sum (fun kv => str_num kv.1 + 3 * str_num kv.2) (map_to_list m)) (Spec_Labels s) +
    17 * opt_num (sum (fun t => str_num (kt_Key t) + 3 * str_num (kt_Value t) + 7 * str_num (kt_Effect t)))
           (Spec_Taints s) +
    19 * str_num (Spec_ServerGroupUUID s) +
    23 * opt_num bool_num (Spec_UtilityNetworkAccess s)) mod 2 ^ 64)%Z.

Lemma sum_perm {A} (f : A -> Z) l1 l2 : l1 ≡ₚ l2 -> sum f l1 = sum f l2.
Proof. induction 1; simpl; lia. Qed.

Lemma opt_sum {A} (f : A -> Z) (o1 o2 : option (list A)) :
  elems o1 ≡ₚ elems o2 -> (o1 = None <-> o2 = None) ->
  opt_num (sum f) o1 = opt_num (sum f) o2.
Proof.
  intros Hp Hn. destruct o1, o2; simpl in *; try naive_solver.
  by rewrite (sum_perm f _ _ Hp).
Qed.

Definition cond_eqb (t : string) (c : Condition) : bool := bool_decide (cond_Type c = t).
Definition get (t : string) (cs : list Condition) : option Condition := find (cond_eqb t) cs.
Definition set (c : Condition) (cs : list Condition) : option (list Condition) :=
  if decide (get (cond_Type c) cs = Some c) then None
  else Some (c :: List.filter (fun d => negb (cond_eqb (cond_Type c) d)) cs).

Lemma get_set c cs : get (cond_Type c) (default cs (set c cs)) = Some c.
Proof.
  unfold set. case_decide; [done|]. simpl. unfold cond_eqb at 1.
  by rewrite bool_decide_eq_true_2.
Qed.

Lemma set_again c cs cs' : set c cs = Some cs' -> set c cs' = None.
Proof.
  intros H. pose proof (get_set c cs) as G. rewrite H in G. simpl in G.
  unfold set. by rewrite decide_True.
Qed.

Definition taintLine (t : taintEntry) : string :=
  "  - key: " +:+ te_Key t +:+ LF +:+
  (if decide (te_Value t = "") then "" else "    value: " +:+ te_Value t +:+ LF) +:+
  "    effect: " +:+ te_Effect t +:+ LF.
End Ref.

#[export] Instance refLibs : Libs := {|
  lo_Assign ms := Ref.assign ms ∅;
  lo_Map A B l f := imap (flip f) l;
  lo_Values V m := (map_to_list m).*2;
  range_map V m := map_to_list m;
  unicode_ToUpper r := if decide (r = 383%Z) then 83%Z else r;
  Quote s := DQ +:+ s +:+ DQ;
  QuoteRune r := "'U+" +:+ hex_digits 4 r +:+ "'";
  yaml_EncodeTaints l :=
    Ok ("registerWithTaints:" +:+ LF +:+ foldr (fun t s => Ref.taintLine t +:+ s) "" l);
  yaml_KubeconfigServers s := Ok [s];
  hashstructure_Hash s := Ok (Ref.hash s);
  IsNotFound := Ref.hasReason "NotFound";
  IsConflict := Ref.hasReason "Conflict";
  NewNotFound g r n := LibError "StatusError" "NotFound" (r +:+ "." +:+ g +:+ " not found");
  IgnoreNotFound e := if Ref.hasReason "NotFound" e then None else Some e;
  NewNodeClaimNotFoundError := LibWrap "NodeClaimNotFoundError" "nodeclaim not found, ";
  NewInsufficientCapacityError := LibWrap "InsufficientCapacityError" "insufficient capacity, ";
  IsNodeClaimNotFoundError := Ref.hasType "NodeClaimNotFoundError";
  IsInsufficientCapacityError := Ref.hasType "InsufficientCapacityError";
  IgnoreNodeClaimNotFoundError e := if Ref.hasType "NodeClaimNotFoundError" e then None else Some e;
  ConditionSet_SetTrue g t := Ref.set (mkCondition t "True" t "" g);
  ConditionSet_SetFalse g t r m := Ref.set (mkCondition t "False" r m g);
  ConditionSet_Get := Ref.get;
  NodeClaim_StatusConditions cs := cs;
  SemanticDeepEqual a b := bool_decide (a = b);
  PollUntilContextTimeout S i t b cond s :=
    poll_n (Datatypes.S (Z.to_nat (t / i)))
      (LibError "ctx" "DeadlineExceeded" "context deadline exceeded") cond s;
  MarshalPKCS1PrivateKey k := k;
|}.

#[export] Instance refLo : LoLaws refLibs.
Proof. split; simpl; intros; [done|apply Ref.assign_snoc|done|done]. Qed.
#[export] Instance refRange : RangeLaws refLibs.
Proof. by split. Qed.
#[export] Instance refK8sError : K8sErrorLaws refLibs.
Proof. by split. Qed.
#[export] Instance refKarpenterError : KarpenterErrorLaws refLibs.
Proof. by split. Qed.
#[export] Instance refHash : HashLaws refLibs.
Proof.
  split.
  - intros s t (Hz & Hp & Hs & Hk & Ha & Hl & Ht & Hg & Hu & Hk' & Ha' & Ht').
    simpl. unfold Ref.hash.
    by rewrite Hz, Hp, Hs, Hl, Hg, Hu, (Ref.opt_sum _ _ _ Hk Hk'), (Ref.opt_sum _ _ _ Ha Ha'),
      (Ref.opt_sum _ _ _ Ht Ht').
  - intros s h [= <-]. by apply Z.mod_pos_bound.
Qed.
#[export] Instance refStatus : StatusLaws refLibs.
Proof.
  split; simpl.
  - intros g t cs. exists (mkCondition t "True" t "" g). split; [|done].
    apply (Ref.get_set (mkCondition t "True" t "" g)).
  - intros g t cs cs'. apply Ref.set_again.
  - intros g t r m cs. apply (Ref.get_set (mkCondition t "False" r m g)).
  - done.
Qed.
#[export] Instance refEquality : EqualityLaws refLibs.
Proof.
  split; simpl.
  - intros n. by apply bool_decide_eq_true_2.
  - by intros n m ->%bool_decide_eq_true.
Qed.
#[export] Instance refPoll : PollLaws refLibs.
Proof. split. intros S i t cond s. eexists _, _. reflexivity. Qed.
#[export] Instance refPollTime : PollTimeLaws refLibs.
Proof. split. intros S i t cond s. eexists _, _. split; [|reflexivity]. done. Qed.

(** The same parameters with another order of ranging over maps. *)
Definition with_range (r : forall V, gmap string V -> list (string * V)) (L : Libs) : Libs := {|
  lo_Assign := @lo_Assign L;
  lo_Map := @lo_Map L;
  lo_Values := @lo_Values L;
  range_map := r;
  unicode_ToUpper := @unicode_ToUpper L;
  Quote := @Quote L;
  QuoteRune := @QuoteRune L;
  yaml_EncodeTaints := @yaml_EncodeTaints L;
  yaml_KubeconfigServers := @yaml_KubeconfigServers L;
  hashstructure_Hash := @hashstructure_Hash L;
  IsNotFound := @IsNotFound L;
  IsConflict := @IsConflict L;
  NewNotFound := @NewNotFound L;
  IgnoreNotFound := @IgnoreNotFound L;
  NewNodeClaimNotFoundError := @NewNodeClaimNotFoundError L;
  NewInsufficientCapacityError := @NewInsufficientCapacityError L;
  IsNodeClaimNotFoundError := @IsNodeClaimNotFoundError L;
  IsInsufficientCapacityError := @IsInsufficientCapacityError L;
  IgnoreNodeClaimNotFoundError := @IgnoreNodeClaimNotFoundError L;
  ConditionSet_SetTrue := @ConditionSet_SetTrue L;
  ConditionSet_SetFalse := @ConditionSet_SetFalse L;
  ConditionSet_Get := @ConditionSet_Get L;
  NodeClaim_StatusConditions := @NodeClaim_StatusConditions L;
  SemanticDeepEqual := @SemanticDeepEqual L;
  PollUntilContextTimeout := @PollUntilContextTimeout L;
  MarshalPKCS1PrivateKey := @MarshalPKCS1PrivateKey L;
|}.

(** Map iteration in the opposite order of [refLibs]. *)
Definition revLibs : Libs := with_range (fun V m => rev (map_to_list m)) refLibs.

Lemma revRange : RangeLaws revLibs.
Proof. split. intros V m. simpl. by rewrite <-Permutation_rev. Qed.
