(* ===== verification/Util.v ===== *)
(** * pkg/util/helpers.go: what a plan name says about the plan *)

From S2P Require Import Prelude GoStrings GoUtf8 Types Effects Libs.
From Stdlib Require Import Ascii.

Section Util.
Context `{L : Libs}.

(** [unicode.ToUpper] and [strings.ToUpper]: byte by byte on ASCII, rune by
    rune otherwise. *)
Definition upper_rune (r : Z) : Z :=
  if (r <? 128)%Z then byte_val (upper_byte (byte_of r)) else unicode_ToUpper r.

Definition ToUpper (s : string) : string :=
  if sforall (fun c => (byte_val c <? 128)%Z) s then smap upper_byte s
  else encode_runes (upper_rune <$> range_runes s).

(** IsSpotPlan *)
Definition IsSpotPlan (name : string) : bool := Contains (ToUpper name) "SPOT".

(** InstanceFamily: the first known prefix, tried with and without a dash. *)
Definition families : list string := ["CLOUDNATIVE"; "GPU"; "STARTER"; "PREMIUM"].

Fixpoint firstFamily (prefixes : list string) (name : string) : string :=
  match prefixes with
  | [] => "UNKNOWN"
  | prefix :: rest =>
      if HasPrefix name (prefix +:+ "-") || HasPrefix name prefix then prefix
      else firstFamily rest name
  end.

Definition InstanceFamily (name : string) : string := firstFamily families name.

(** The capacity type every component derives from a plan name. *)
Definition capacityTypeOf (plan : string) : string :=
  if IsSpotPlan plan then CapacityTypeSpot else CapacityTypeOnDemand.

(** ** Facts *)

Lemma smap_app f s t : smap f (s +:+ t) = smap f s +:+ smap f t.
Proof. induction s as [|c s IH]; [done|]. rewrite !sapp_cons. simpl. by rewrite IH. Qed.

Lemma smap_split f s a b :
  smap f s = a +:+ b -> exists s1 s2, s = s1 +:+ s2 /\ smap f s1 = a /\ smap f s2 = b.
Proof.
  revert s. induction a as [|c a IH]; intros s H.
  - exists "", s. done.
  - destruct s as [|d s]; [done|]. rewrite sapp_cons in H. simpl in H.
    injection H as Hd Hs. apply IH in Hs as (s1 & s2 & -> & <- & <-).
    exists (String d s1), s2. simpl. by rewrite Hd.
Qed.

Lemma HasPrefix_dash name p : HasPrefix name (p +:+ "-") = true -> HasPrefix name p = true.
Proof.
  rewrite !HasPrefix_true. intros [r ->]. exists ("-" +:+ r). by rewrite sapp_assoc.
Qed.

Lemma firstFamily_cons p ps name :
  firstFamily (p :: ps) name = if HasPrefix name p then p else firstFamily ps name.
Proof.
  simpl. destruct (HasPrefix name (p +:+ "-")) eqn:E; [|done].
  by rewrite (HasPrefix_dash _ _ E).
Qed.

(** No family is a prefix of a name that starts with another one. *)
Lemma families_disjoint p q name :
  p ∈ families -> q ∈ families ->
  HasPrefix name p = true -> HasPrefix name q = true -> p = q.
Proof.
  unfold families. rewrite !elem_of_cons, !HasPrefix_true.
  intros Hp Hq [r ->] [t Ht].
  destruct_or!; subst; try done; try (by apply not_elem_of_nil in Hp);
    try (by apply not_elem_of_nil in Hq); by rewrite !sapp_cons in Ht.
Qed.

(** What the loop returns: a prefix of the list that fits, or UNKNOWN. *)
Lemma firstFamily_cases ps name :
  (firstFamily ps name = "UNKNOWN" /\ forall p, p ∈ ps -> HasPrefix name p = false) \/
  (firstFamily ps name ∈ ps /\ HasPrefix name (firstFamily ps name) = true).
Proof.
  induction ps as [|q ps IH]; [left; split; [done|set_solver]|].
  rewrite firstFamily_cons. destruct (HasPrefix name q) eqn:E; [right; set_solver|].
  destruct IH as [[-> H]|[H1 H2]]; [left|right; set_solver].
  split; [done|]. intros p. rewrite elem_of_cons. naive_solver.
Qed.

Lemma UNKNOWN_not_family : "UNKNOWN" ∉ families.
Proof. apply (bool_decide_unpack _). by vm_compute. Qed.

Lemma firstFamily_iff ps name p :
  ps ≡ₚ families -> p ∈ families -> firstFamily ps name = p <-> HasPrefix name p = true.
Proof.
  intros Hps Hp. assert (Hin : forall q, q ∈ ps <-> q ∈ families) by (intros; by rewrite Hps).
  destruct (firstFamily_cases ps name) as [[-> H]|[H1 H2]].
  - rewrite H by (by apply Hin). pose proof UNKNOWN_not_family. split; [congruence|done].
  - apply Hin in H1. split; [congruence|]. intros Hn.
    by apply (families_disjoint _ _ name).
Qed.

(** ** Properties *)

(** On an ASCII plan name, IsSpotPlan holds exactly when some stretch of the
    name spells SPOT in any mixture of upper and lower case. *)
Lemma IsSpotPlan_spec name :
  sforall (fun c => (byte_val c <? 128)%Z) name = true ->
  IsSpotPlan name = true <->
  exists a sub b, name = a +:+ sub +:+ b /\ smap upper_byte sub = "SPOT".
Proof.
  intros Hascii. unfold IsSpotPlan, ToUpper. rewrite Hascii, Contains_true. split.
  - intros (a & b & H). apply smap_split in H as (s1 & s2 & -> & _ & H).
    apply smap_split in H as (s3 & s4 & -> & H & _). by exists s1, s3, s4.
  - intros (a & sub & b & -> & H). rewrite !smap_app, H. eauto.
Qed.

(** InstanceFamily returns a known family exactly when the plan name starts
    with it, and UNKNOWN exactly when it starts with none; the order in which
    the prefixes are tried does not matter. *)
Lemma InstanceFamily_spec name :
  (forall p, p ∈ families -> InstanceFamily name = p <-> HasPrefix name p = true) /\
  (InstanceFamily name = "UNKNOWN" <-> forall p, p ∈ families -> HasPrefix name p = false) /\
  (forall ps, ps ≡ₚ families -> firstFamily ps name = InstanceFamily name).
Proof.
  pose proof UNKNOWN_not_family. unfold InstanceFamily. split_and!.
  - intros p Hp. by apply firstFamily_iff.
  - destruct (firstFamily_cases families name) as [[-> H1]|[H1 H2]]; [done|].
    split; [congruence|]. intros Hn. rewrite Hn in H2; done.
  - intros ps Hps. assert (Hin : forall q, q ∈ ps <-> q ∈ families) by (intros; by rewrite Hps).
    destruct (firstFamily_cases ps name) as [[-> H1]|[H1 H2]].
    + destruct (firstFamily_cases families name) as [[-> _]|[H3 H4]]; [done|].
      rewrite H1 in H4; [done|by apply Hin].
    + apply Hin in H1. symmetry. by apply firstFamily_iff.
Qed.
End Util.

Lemma IsSpotPlan_spec_witness :
  IsSpotPlan (L := refLibs) "GPU-spot-8xCPU" = true.
Proof.
  apply (IsSpotPlan_spec (L := refLibs) "GPU-spot-8xCPU"); [vm_compute; reflexivity|].
  exists "GPU-", "spot", "-8xCPU". split; vm_compute; reflexivity.
Defined.

(** Outside ASCII the Unicode tables decide: the long s is an S. *)
Example IsSpotPlan_long_s : IsSpotPlan (L := refLibs) (chr 197 +:+ chr 191 +:+ "pot") = true.
Proof. vm_compute. reflexivity. Qed.
