(* ===== verification/NodeClass.v ===== *)
(** * apis/v1alpha2: the hash and the conditions of an UpCloudNodeClass

    upcloudnodeclass_hash.go and upcloudnodeclass_status.go. *)

From S2P Require Import Prelude GoInt GoStrings Types Effects Libs.

Section NodeClass.
Context `{L : Libs}.

(** ** Hash *)

(** [if len(x) == 0 { x = nil }] for slices and maps. *)
Definition nilIfEmpty {A} (s : option (list A)) : option (list A) :=
  match s with Some [] => None | _ => s end.
Definition nilIfEmptyMap (m : option (gmap string string)) : option (gmap string string) :=
  if decide (entries m = ∅) then None else m.

(** The spec Hash hands to hashstructure. *)
Definition normalize (s : UpCloudNodeClassSpec) : UpCloudNodeClassSpec :=
  {| Spec_Zone := Spec_Zone s;
     Spec_Plan := Spec_Plan s;
     Spec_Storage := Spec_Storage s;
     Spec_SSHKeys := nilIfEmpty (Spec_SSHKeys s);
     Spec_KubeletArgs := nilIfEmpty (Spec_KubeletArgs s);
     Spec_Labels := nilIfEmptyMap (Spec_Labels s);
     Spec_Taints := nilIfEmpty (Spec_Taints s);
     Spec_ServerGroupUUID := Spec_ServerGroupUUID s;
     Spec_UtilityNetworkAccess := Spec_UtilityNetworkAccess s |}.

Definition HashSpec (s : UpCloudNodeClassSpec) : string :=
  match hashstructure_Hash (normalize s) with
  | Err _ => ""
  | Ok h => fmt_016x h
  end.

Definition Hash (u : UpCloudNodeClass) : string := HashSpec (nc_Spec u).

(** ** Conditions *)

Definition ConditionTypeReady : string := "Ready".

Definition GetConditions (u : UpCloudNodeClass) : list Condition :=
  elems (Status_Conditions (nc_Status u)).

Definition SetConditions (conditions : list Condition) (u : UpCloudNodeClass) : UpCloudNodeClass :=
  nc_with_Status (mkStatus (Some conditions) (Status_Hash (nc_Status u))) u.

(** [u.StatusConditions().SetTrue(t)]: the condition set reads the conditions
    with GetConditions and the generation with GetGeneration and, unless nothing
    changes, writes the conditions back. *)
Definition StatusConditions_SetTrue (t : string) (u : UpCloudNodeClass) : UpCloudNodeClass :=
  match ConditionSet_SetTrue (Generation (nc_Meta u)) t (GetConditions u) with
  | None => u
  | Some cs => SetConditions cs u
  end.

Definition StatusConditions_SetFalse (t reason message : string) (u : UpCloudNodeClass)
    : UpCloudNodeClass :=
  match ConditionSet_SetFalse (Generation (nc_Meta u)) t reason message (GetConditions u) with
  | None => u
  | Some cs => SetConditions cs u
  end.

Definition StatusConditions_Get (t : string) (u : UpCloudNodeClass) : option Condition :=
  ConditionSet_Get t (GetConditions u).

(** [nodeClass.Status.Hash = h] *)
Definition setStatusHash (h : string) (u : UpCloudNodeClass) : UpCloudNodeClass :=
  nc_with_Status (mkStatus (Status_Conditions (nc_Status u)) h) u.

(** ** Equivalent specs

    The same desired state: the list fields up to the order of their elements,
    empty and absent lists and maps alike. *)
Definition spec_equiv (s t : UpCloudNodeClassSpec) : Prop :=
  Spec_Zone s = Spec_Zone t /\ Spec_Plan s = Spec_Plan t /\ Spec_Storage s = Spec_Storage t /\
  elems (Spec_SSHKeys s) ≡ₚ elems (Spec_SSHKeys t) /\
  elems (Spec_KubeletArgs s) ≡ₚ elems (Spec_KubeletArgs t) /\
  entries (Spec_Labels s) = entries (Spec_Labels t) /\
  elems (Spec_Taints s) ≡ₚ elems (Spec_Taints t) /\
  Spec_ServerGroupUUID s = Spec_ServerGroupUUID t /\
  Spec_UtilityNetworkAccess s = Spec_UtilityNetworkAccess t.

#[export] Instance spec_equiv_equivalence : Equivalence spec_equiv.
Proof.
  unfold spec_equiv. split.
  - done.
  - intros s t H. destruct_and!. split_and!; by symmetry.
  - intros s t u H1 H2. destruct_and!. split_and!; by etrans.
Qed.

Lemma nilIfEmpty_elems {A} (s : option (list A)) : elems (nilIfEmpty s) = elems s.
Proof. by destruct s as [[|]|]. Qed.

Lemma nilIfEmpty_None {A} (s : option (list A)) : nilIfEmpty s = None <-> elems s = [].
Proof. by destruct s as [[|]|]. Qed.

Lemma nilIfEmpty_perm {A} (s t : option (list A)) :
  elems s ≡ₚ elems t -> nilIfEmpty s = None <-> nilIfEmpty t = None.
Proof.
  intros H. rewrite !nilIfEmpty_None. split; intros E; rewrite E in H.
  - by apply Permutation_nil in H.
  - by symmetry in H; apply Permutation_nil in H.
Qed.

Lemma nilIfEmptyMap_entries m m' : entries m = entries m' -> nilIfEmptyMap m = nilIfEmptyMap m'.
Proof.
  unfold nilIfEmptyMap. intros H. rewrite H. case_decide; [done|].
  destruct m, m'; simpl in *; congruence.
Qed.

Lemma normalize_equiv s t : spec_equiv s t -> same_set_spec (normalize s) (normalize t).
Proof.
  intros (Hz & Hp & Hs & Hk & Ha & Hl & Ht & Hg & Hu).
  unfold same_set_spec. simpl. rewrite !nilIfEmpty_elems.
  split_and!; try done; try (by apply nilIfEmpty_perm). by apply nilIfEmptyMap_entries.
Qed.

(** Equivalent specs have the same hash: setoid rewriting under [HashSpec]. *)
#[export] Instance HashSpec_proper `{!HashLaws L} : Proper (spec_equiv ==> (=)) HashSpec.
Proof.
  intros s t H. unfold HashSpec. by rewrite (hash_order _ _ (normalize_equiv _ _ H)).
Qed.

Lemma HashSpec_cases `{!HashLaws L} s :
  (exists h, hashstructure_Hash (normalize s) = Ok h /\ HashSpec s = fmt_016x h /\
             (0 <= h < 2 ^ 64)%Z) \/
  (exists e, hashstructure_Hash (normalize s) = Err e /\ HashSpec s = "").
Proof.
  unfold HashSpec. destruct (hashstructure_Hash (normalize s)) as [h|e] eqn:E; [left|right; eauto].
  exists h. split_and!; try done; by eapply hash_uint64.
Qed.

Lemma SetConditions_frame cs u :
  nc_Meta (SetConditions cs u) = nc_Meta u /\ nc_Spec (SetConditions cs u) = nc_Spec u /\
  Status_Hash (nc_Status (SetConditions cs u)) = Status_Hash (nc_Status u) /\
  GetConditions (SetConditions cs u) = cs.
Proof. done. Qed.

(** After SetTrue the condition reads true and nothing but the conditions moved. *)
Lemma SetTrue_ready `{!StatusLaws L} t u :
  let u' := StatusConditions_SetTrue t u in
  nc_Meta u' = nc_Meta u /\ nc_Spec u' = nc_Spec u /\
  (exists c, StatusConditions_Get t u' = Some c /\ IsTrue c = true /\
     cond_ObservedGeneration c = Generation (nc_Meta u)).
Proof.
  unfold StatusConditions_SetTrue, StatusConditions_Get.
  pose proof (SetTrue_Get (Generation (nc_Meta u)) t (GetConditions u)) as [c Hc].
  destruct (ConditionSet_SetTrue _ t (GetConditions u)); simpl in *; eauto.
Qed.

Lemma SetFalse_ready `{!StatusLaws L} t r m u :
  let u' := StatusConditions_SetFalse t r m u in
  nc_Meta u' = nc_Meta u /\ nc_Spec u' = nc_Spec u /\
  Status_Hash (nc_Status u') = Status_Hash (nc_Status u) /\
  StatusConditions_Get t u' = Some (mkCondition t "False" r m (Generation (nc_Meta u))).
Proof.
  unfold StatusConditions_SetFalse, StatusConditions_Get.
  pose proof (SetFalse_Get (Generation (nc_Meta u)) t r m (GetConditions u)) as Hc.
  destruct (ConditionSet_SetFalse _ t r m (GetConditions u)); simpl in *; eauto 10.
Qed.

(** Setting a condition that is already set the same way is the identity. *)
Lemma SetTrue_twice `{!StatusLaws L} t u :
  StatusConditions_SetTrue t (StatusConditions_SetTrue t u) = StatusConditions_SetTrue t u.
Proof.
  unfold StatusConditions_SetTrue at 2 3.
  destruct (ConditionSet_SetTrue (Generation (nc_Meta u)) t (GetConditions u)) as [cs|] eqn:E.
  - unfold StatusConditions_SetTrue. simpl. unfold GetConditions. simpl.
    by rewrite (SetTrue_again _ _ _ _ E).
  - unfold StatusConditions_SetTrue. by rewrite E.
Qed.

(** ** Properties *)

(** Hash depends only on the desired state: reordering SSH keys, kubelet
    arguments or taints, and writing an empty list or map instead of omitting
    it, leave the digest unchanged. *)
Lemma Hash_insensitive `{!HashLaws L} (u v : UpCloudNodeClass) :
  spec_equiv (nc_Spec u) (nc_Spec v) -> Hash u = Hash v.
Proof. intros H. unfold Hash. by rewrite H. Qed.

(** A digest is empty exactly when hashstructure fails; otherwise it is
    sixteen hexadecimal digits that read back as the 64-bit hash, so two
    NodeClasses have the same digest exactly when they have the same hash. *)
Lemma Hash_format `{!HashLaws L} (u : UpCloudNodeClass) :
  (Hash u = "" <-> is_Ok (hashstructure_Hash (normalize (nc_Spec u))) = false) /\
  (forall h, hashstructure_Hash (normalize (nc_Spec u)) = Ok h ->
     String.length (Hash u) = 16 /\ unhex 0 (Hash u) = h /\
     forall v h', hashstructure_Hash (normalize (nc_Spec v)) = Ok h' ->
       Hash u = Hash v <-> h = h').
Proof.
  assert (Hv : forall v h, hashstructure_Hash (normalize (nc_Spec v)) = Ok h ->
    String.length (Hash v) = 16 /\ unhex 0 (Hash v) = h).
  { intros v h Eh. unfold Hash. destruct (HashSpec_cases (nc_Spec v)) as
      [(h' & Eh' & -> & Hr)|(e & Ee & _)]; [|congruence].
    assert (h' = h) as -> by congruence.
    split; [apply hex_digits_length|by apply unhex_digits]. }
  split.
  - unfold Hash. destruct (HashSpec_cases (nc_Spec u)) as [(h & E & -> & _)|(e & E & ->)];
      rewrite E; [|done]. split; [|done]. intros H.
    pose proof (hex_digits_length 16 h) as Hl. unfold fmt_016x in H. by rewrite H in Hl.
  - intros h Eh. destruct (Hv _ _ Eh) as [Hl Hu]. split_and!; [done|done|].
    intros v h' Eh'. destruct (Hv _ _ Eh') as [_ Hw]. split; [congruence|].
    intros ->. unfold Hash, HashSpec. by rewrite Eh, Eh'.
Qed.
End NodeClass.

Definition sampleSpec : UpCloudNodeClassSpec :=
  mkSpec "de-fra1" "GPU-4xCPU-8GB" None (Some ["a"; "b"]) None None (Some []) "" None.
Definition sampleClass : UpCloudNodeClass := mkNodeClass emptyMeta sampleSpec (mkStatus None "").
Definition sampleSpec' : UpCloudNodeClassSpec :=
  mkSpec "de-fra1" "GPU-4xCPU-8GB" None (Some ["b"; "a"]) (Some []) (Some ∅) None "" None.
Definition sampleClass' : UpCloudNodeClass := mkNodeClass emptyMeta sampleSpec' (mkStatus None "").

Lemma Hash_insensitive_witness :
  Hash (L := refLibs) sampleClass = Hash (L := refLibs) sampleClass'.
Proof.
  apply (Hash_insensitive (L := refLibs)). unfold spec_equiv. simpl.
  split_and!; try reflexivity. apply Permutation_swap.
Defined.

Lemma Hash_format_witness :
  String.length (Hash (L := refLibs) sampleClass) = 16.
Proof.
  destruct (Hash_format (L := refLibs) sampleClass) as [_ H].
  destruct (H (Ref.hash (normalize sampleSpec)) eq_refl) as [Hl _]. exact Hl.
Defined.
