(* ===== verification/UserData.v ===== *)
(** * pkg/providers/userdata: the cloud-init document of a node *)

From S2P Require Import Prelude GoStrings GoUtf8 GoBase64 GoTemplate Types Effects Libs.
From Stdlib Require Import Ascii.

(** ** Templates, line by line as in userdata.go *)

Definition kubeletConfigTemplateLines : list string := [
  "apiVersion: kubelet.config.k8s.io/v1beta1";
  "kind: KubeletConfiguration";
  "address: ADDRESS_PLACEHOLDER";
  "providerID: PROVIDER_ID_PLACEHOLDER";
  "authentication:";
  "  anonymous:";
  "    enabled: false";
  "  webhook:";
  "    cacheTTL: 0s";
  "    enabled: true";
  "  x509:";
  "    clientCAFile: /etc/kubernetes/pki/ca.crt";
  "authorization:";
  "  mode: Webhook";
  "  webhook:";
  "    cacheAuthorizedTTL: 0s";
  "    cacheUnauthorizedTTL: 0s";
  "cgroupDriver: systemd";
  "clusterDNS:";
  "- 10.96.0.10";
  "clusterDomain: cluster.local";
  "containerRuntimeEndpoint: unix:///var/run/containerd/containerd.sock";
  "healthzBindAddress: 127.0.0.1";
  "healthzPort: 10248";
  "imageGCHighThresholdPercent: 85";
  "logging:";
  "  verbosity: 0";
  "resolvConf: /run/systemd/resolve/resolv.conf";
  "rotateCertificates: true";
  "staticPodPath: /etc/kubernetes/manifests";
  "{{ .TaintsYAML }}";
  ""].
Definition kubeletConfigTemplate : string := Join kubeletConfigTemplateLines LF.

Definition cloudInitTemplateLines : list string := [
  "#cloud-config";
  "";
  "manage_etc_hosts: false";
  "";
  "write_files:";
  "  - path: /etc/kubernetes/pki/ca.crt";
  "    encoding: b64";
  "    content: {{ .CACertB64 }}";
  "  - path: /var/lib/kubelet/pki/kubelet-client.crt";
  "    encoding: b64";
  "    content: {{ .KubeletCertB64 }}";
  "  - path: /var/lib/kubelet/pki/kubelet-client.key";
  "    encoding: b64";
  "    content: {{ .KubeletKeyB64 }}";
  "    permissions: " +:+ DQ +:+ "0600" +:+ DQ;
  "  - path: /etc/kubernetes/kubelet.conf";
  "    content: |";
  "      apiVersion: v1";
  "      kind: Config";
  "      clusters:";
  "      - cluster:";
  "          certificate-authority: /etc/kubernetes/pki/ca.crt";
  "          server: {{ .ClusterEndpoint }}";
  "        name: default-cluster";
  "      contexts:";
  "      - context:";
  "          cluster: default-cluster";
  "          namespace: default";
  "          user: default-auth";
  "        name: default-context";
  "      current-context: default-context";
  "      users:";
  "      - name: default-auth";
  "        user:";
  "          client-certificate: /var/lib/kubelet/pki/kubelet-client-current.pem";
  "          client-key: /var/lib/kubelet/pki/kubelet-client-current.pem";
  "  - path: /var/lib/kubelet/config.yaml";
  "    content: |";
  "{{ .KubeletConfig }}";
  "runcmd:";
  "  - |";
  "    # Combine cert + key (UKS convention)";
  "    cat /var/lib/kubelet/pki/kubelet-client.crt /var/lib/kubelet/pki/kubelet-client.key \";
  "      > /var/lib/kubelet/pki/kubelet-client-current.pem";
  "    chmod 600 /var/lib/kubelet/pki/kubelet-client-current.pem";
  "";
  "    # Discover private IP via metadata service";
  "    for i in $(curl -s http://169.254.169.254/metadata/v1/network/interfaces/); do";
  "      if [ " +:+ DQ +:+ "$(curl -s http://169.254.169.254/metadata/v1/network/interfaces/$i/type)" +:+ DQ +:+ " = " +:+ DQ +:+ "private" +:+ DQ +:+ " ]; then";
  "        PRIVATE_IP=$(curl -s http://169.254.169.254/metadata/v1/network/interfaces/$i/ip_addresses/1/address)";
  "        break";
  "      fi";
  "    done";
  "";
  "    PROVIDER_ID=" +:+ DQ +:+ "upcloud:////$(curl -s http://169.254.169.254/metadata/v1/instance_id)" +:+ DQ;
  "    NODE_LABELS={{ .NodeLabels }}";
  "";
  "    if ! grep -q " +:+ DQ +:+ "$(hostname)" +:+ DQ +:+ " /etc/hosts; then";
  "      echo " +:+ DQ +:+ "$PRIVATE_IP  $(hostname)" +:+ DQ +:+ " >> /etc/hosts";
  "    fi";
  "";
  "    sed -i " +:+ DQ +:+ "s|PROVIDER_ID_PLACEHOLDER|$PROVIDER_ID|" +:+ DQ +:+ " /var/lib/kubelet/config.yaml";
  "    sed -i " +:+ DQ +:+ "s|ADDRESS_PLACEHOLDER|$PRIVATE_IP|" +:+ DQ +:+ " /var/lib/kubelet/config.yaml";
  "";
  "    KUBELET_EXTRA=" +:+ DQ +:+ "--cloud-provider=external" +:+ DQ;
  "    if [ -n " +:+ DQ +:+ "$NODE_LABELS" +:+ DQ +:+ " ]; then";
  "      KUBELET_EXTRA=" +:+ DQ +:+ "$KUBELET_EXTRA --node-labels=$NODE_LABELS" +:+ DQ;
  "    fi";
  "";
  "    echo " +:+ DQ +:+ "KUBELET_EXTRA_ARGS=\" +:+ DQ +:+ "$KUBELET_EXTRA\" +:+ DQ +:+ DQ +:+ " > /etc/default/kubelet";
  "";
  "    systemctl daemon-reload";
  "    systemctl restart kubelet";
  ""].
Definition cloudInitTemplate : string := Join cloudInitTemplateLines LF.

(** ** Operations *)

Record Options := mkOptions {
  ClusterEndpoint : string;
  CACertPEM : string;
  KubeletClientCert : string;
  KubeletClientKey : string;
  opt_Labels : option (gmap string string);
  opt_Taints : list Taint;
}.

Section UserData.
Context `{L : Libs}.

(** The runes validateSingleLine refuses. *)
Definition disallowed (r : Z) : bool :=
  (((r <? 32) && negb (r =? 9)) || (r =? 127) || ((128 <=? r) && (r <=? 159)) ||
   (r =? 8232) || (r =? 8233) || (r =? 65534) || (r =? 65535))%Z.

Fixpoint firstDisallowed (rs : list Z) : option Z :=
  match rs with
  | [] => None
  | r :: rs => if disallowed r then Some r else firstDisallowed rs
  end.

(** validateSingleLine: [None] is a nil error. *)
Definition validateSingleLine (what s : string) : option error :=
  if negb (ValidString s) then Some (Errorf (what +:+ " contains invalid UTF-8"))
  else match firstDisallowed (range_runes s) with
       | Some r => Some (Errorf (what +:+ " contains a disallowed control character " +:+ QuoteRune r))
       | None => None
       end.

Definition shellSingleQuote (s : string) : string :=
  "'" +:+ ReplaceAll s "'" "'\''" +:+ "'".

(** The double quote, the dollar, the backtick and the backslash. *)
Definition shellSignificant : list ascii := ["034"; "$"; "`"; "\"]%char.

Definition validateShellSafe (what s : string) : option error :=
  match IndexAny s shellSignificant with
  | Some c => Some (Errorf (what +:+ " contains a shell-significant character " +:+
                            QuoteRune (byte_val c)))
  | None => None
  end.

Definition serializeLabels (labels : option (gmap string string)) : string :=
  if decide (size (entries labels) = 0) then ""
  else
    let keys := sort_Strings ((range_map (entries labels)).*1) in
    Join ((fun k => k +:+ "=" +:+ mapGet labels k) <$> keys) ",".

Definition taintEntries (taints : list Taint) : list taintEntry :=
  (fun t => mkTaintEntry (Taint_Key t) (Taint_Value t) (Taint_Effect t)) <$> taints.

Definition serializeTaintsYAML (taints : list Taint) : result string :=
  if decide (length taints = 0) then Ok ""
  else yaml_EncodeTaints (taintEntries taints).

Definition indentLines (s : string) (spaces : nat) : string :=
  let prefix := Repeat " " spaces in
  Join ((fun line => if decide (line <> "") then prefix +:+ line else line) <$> split_byte "010" s)
    LF.

(** The first error among the fields of the taints, in order. *)
Fixpoint firstError (fields : list (string * string)) : option error :=
  match fields with
  | [] => None
  | (what, value) :: rest =>
      match validateSingleLine what value with
      | Some err => Some err
      | None => firstError rest
      end
  end.

Definition taintFields (taint : Taint) : list (string * string) :=
  [("taint key", Taint_Key taint); ("taint value", Taint_Value taint);
   ("taint effect", Taint_Effect taint)].

Fixpoint validateTaints (taints : list Taint) : option error :=
  match taints with
  | [] => None
  | taint :: rest =>
      match firstError (taintFields taint) with
      | Some err => Some err
      | None => validateTaints rest
      end
  end.

(** The two templates filled in. *)
Definition kubeletConfig (taintsYAML : string) : string :=
  Execute kubeletConfigTemplate {[ "TaintsYAML" := taintsYAML ]}.

Definition cloudInitData (opts : Options) (nodeLabels taintsYAML : string) : gmap string string :=
  list_to_map [
    ("CACertB64", EncodeToString (CACertPEM opts));
    ("KubeletCertB64", EncodeToString (KubeletClientCert opts));
    ("KubeletKeyB64", EncodeToString (KubeletClientKey opts));
    ("ClusterEndpoint", ClusterEndpoint opts);
    ("KubeletConfig", indentLines (kubeletConfig taintsYAML) 6);
    ("NodeLabels", shellSingleQuote nodeLabels)].

(** Generate *)
Definition Generate (opts : Options) : result string :=
  match validateSingleLine "cluster endpoint" (ClusterEndpoint opts) with
  | Some err => Err err
  | None =>
  let nodeLabels := serializeLabels (opt_Labels opts) in
  match validateSingleLine "node labels" nodeLabels with
  | Some err => Err err
  | None =>
  match validateShellSafe "node labels" nodeLabels with
  | Some err => Err err
  | None =>
  match validateTaints (opt_Taints opts) with
  | Some err => Err err
  | None =>
  match serializeTaintsYAML (opt_Taints opts) with
  | Err terr => Err (Wrapf "serializing taints" terr)
  | Ok taintsYAML => Ok (Execute cloudInitTemplate (cloudInitData opts nodeLabels taintsYAML))
  end end end end end.
(** ** Facts *)

(** *** Validation *)

(** What validateSingleLine accepts. *)
Definition single_line (s : string) : Prop :=
  ValidString s = true /\ Forall (fun r => disallowed r = false) (range_runes s).

(** The bytes a validated value is made of: tabs, and what is neither a C0
    control nor DEL. *)
Definition plain_byte (c : ascii) : bool :=
  ((byte_val c =? 9) || ((32 <=? byte_val c) && negb (byte_val c =? 127)))%Z.

Definition shell_safe (s : string) : Prop :=
  sforall (fun c => bool_decide (c ∉ shellSignificant)) s = true.

Lemma firstDisallowed_None rs :
  firstDisallowed rs = None <-> Forall (fun r => disallowed r = false) rs.
Proof.
  induction rs as [|r rs IH]; simpl; [by split|]. rewrite Forall_cons, <-IH.
  destruct (disallowed r); naive_solver.
Qed.

Lemma validateSingleLine_None what s : validateSingleLine what s = None <-> single_line s.
Proof.
  unfold validateSingleLine, single_line. destruct (ValidString s); simpl; [|naive_solver].
  destruct (firstDisallowed (range_runes s)) eqn:E; rewrite <-firstDisallowed_None; naive_solver.
Qed.

Lemma disallowed_ascii c :
  (byte_val c < 128)%Z -> disallowed (byte_val c) = false -> plain_byte c = true.
Proof.
  intros Hc. unfold disallowed, plain_byte. intros H. bool_hyps.
  rewrite (proj2 (Z.eqb_neq (byte_val c) 127)) by done. simpl.
  destruct (Z.eqb_spec (byte_val c) 9); [done|]. simpl in *.
  apply andb_false_iff in H as [H|H]; bool_hyps; [|done].
  rewrite (proj2 (Z.leb_le _ _)) by lia. done.
Qed.

(** Neither line breaks nor other controls survive validation. *)
Lemma single_line_bytes s : single_line s -> sforall plain_byte s = true.
Proof.
  intros [Hv Hd]. apply ascii_byte_seen.
  - unfold range_runes in Hd. rewrite Forall_fmap in Hd.
    eapply Forall_impl; [exact Hd|]. intros r Hr c ->. simpl in Hr.
    pose proof (byte_val_range c). destruct (Z.ltb_spec (byte_val c) 128).
    + by apply disallowed_ascii.
    + unfold plain_byte. rewrite (proj2 (Z.leb_le 32 _)), (proj2 (Z.eqb_neq _ 127)) by lia.
      apply orb_true_r.
  - intros c Hc. unfold plain_byte.
    rewrite (proj2 (Z.leb_le 32 _)), (proj2 (Z.eqb_neq _ 127)) by lia. apply orb_true_r.
Qed.

Lemma plain_no_LF s : sforall plain_byte s = true -> no_byte "010" s = true.
Proof.
  apply sforall_impl. intros c Hc. apply bool_decide_eq_true. by intros ->.
Qed.

Lemma validateShellSafe_None what s : validateShellSafe what s = None <-> shell_safe s.
Proof.
  unfold validateShellSafe, shell_safe. rewrite <-IndexAny_None.
  destruct (IndexAny s shellSignificant); naive_solver.
Qed.

Definition taint_ok (t : Taint) : Prop :=
  single_line (Taint_Key t) /\ single_line (Taint_Value t) /\ single_line (Taint_Effect t).

Lemma validateTaints_None ts : validateTaints ts = None <-> Forall taint_ok ts.
Proof.
  induction ts as [|t ts IH]; [by split|]. rewrite Forall_cons, <-IH. unfold taint_ok.
  cbn [validateTaints taintFields firstError].
  rewrite <-(validateSingleLine_None "taint key"), <-(validateSingleLine_None "taint value"),
    <-(validateSingleLine_None "taint effect").
  repeat case_match; naive_solver.
Qed.

(** The inputs Generate accepts. *)
Definition accepted (opts : Options) : Prop :=
  single_line (ClusterEndpoint opts) /\
  single_line (serializeLabels (opt_Labels opts)) /\
  shell_safe (serializeLabels (opt_Labels opts)) /\
  Forall taint_ok (opt_Taints opts).

Lemma Generate_Ok opts out :
  Generate opts = Ok out <->
  accepted opts /\ exists y, serializeTaintsYAML (opt_Taints opts) = Ok y /\
    out = Execute cloudInitTemplate (cloudInitData opts (serializeLabels (opt_Labels opts)) y).
Proof.
  unfold Generate, accepted.
  rewrite <-(validateSingleLine_None "cluster endpoint"), <-(validateSingleLine_None "node labels"),
    <-(validateShellSafe_None "node labels"), <-validateTaints_None.
  repeat case_match; naive_solver.
Qed.

(** *** The shell *)

(** The word a POSIX shell reads: [q] says whether the reader is between single
    quotes.  A word ends at a blank, a line break or an operator; expansions and
    double quotes are outside this reader. *)
Definition expanding : list ascii := ["$"; "`"; "034"]%char.
Definition word_end : list ascii := ["010"; " "; "009"; ";"; "&"; "|"; "<"; ">"; "("; ")"]%char.

Fixpoint sh_word (q : bool) (s : string) : option (string * string) :=
  match s with
  | EmptyString => if q then None else Some ("", "")
  | String c r =>
      if q then
        if decide (c = "'"%char) then sh_word false r
        else '(w, t) ← sh_word true r; Some (String c w, t)
      else if decide (c = "'"%char) then sh_word true r
      else if decide (c = "\"%char) then
        match r with
        | EmptyString => None
        | String d r => '(w, t) ← sh_word false r; Some (String d w, t)
        end
      else if decide (c ∈ word_end) then Some ("", s)
      else if decide (c ∈ expanding) then None
      else '(w, t) ← sh_word false r; Some (String c w, t)
  end.

(** Text inside double quotes, up to the closing one.  POSIX lets three bytes keep
    a meaning there: a dollar sign and a backtick expand, a backslash escapes; this
    reader gives up on them. *)
Fixpoint dq_text (s : string) : option (string * string) :=
  match s with
  | EmptyString => None
  | String c r =>
      if decide (c = "034"%char) then Some ("", r)
      else if decide (c = "$"%char \/ c = "`"%char \/ c = "\"%char) then None
      else '(w, t) ← dq_text r; Some (String c w, t)
  end.

Lemma sh_word_quoted s rest :
  sh_word true (ReplaceAll s "'" "'\''" +:+ String "'" rest) =
  '(w, t) ← sh_word false rest; Some (s +:+ w, t).
Proof.
  induction s as [|c s IH].
  - rewrite ReplaceAll_nil, sapp_nil_l. simpl.
    destruct (sh_word false rest) as [[w t]|]; done.
  - rewrite ReplaceAll_byte, sapp_assoc. destruct (decide (c = "'"%char)) as [->|Hc].
    + rewrite !sapp_cons, sapp_nil_l. simpl. rewrite IH.
      destruct (sh_word false rest) as [[w t]|]; done.
    + rewrite sapp_cons, sapp_nil_l. simpl. rewrite decide_False by done. rewrite IH.
      destruct (sh_word false rest) as [[w t]|]; done.
Qed.

Lemma sh_word_single_quote s rest :
  sh_word false (shellSingleQuote s +:+ LF +:+ rest) = Some (s, LF +:+ rest).
Proof.
  unfold shellSingleQuote. rewrite !sapp_assoc.
  change (sh_word true (ReplaceAll s "'" "'\''" +:+ String "'" (String "010" rest)) =
          Some (s, LF +:+ rest)).
  rewrite sh_word_quoted. simpl. by rewrite sapp_nil_r.
Qed.

Lemma dq_text_safe s rest :
  shell_safe s -> dq_text (s +:+ DQ +:+ rest) = Some (s, rest).
Proof.
  unfold shell_safe. induction s as [|c s IH]; [done|].
  rewrite sapp_cons. cbn [sforall dq_text].
  rewrite andb_true_iff, bool_decide_eq_true. intros [Hc Hs].
  rewrite decide_False by (intros ->; apply Hc; unfold shellSignificant; set_solver).
  rewrite decide_False by (intros [-> |[-> | ->]]; apply Hc; unfold shellSignificant; set_solver).
  by rewrite IH.
Qed.

Lemma no_byte_quote c s :
  c <> "'"%char -> c <> "\"%char -> no_byte c s = true -> no_byte c (shellSingleQuote s) = true.
Proof.
  intros H1 H2 Hs. unfold shellSingleQuote, no_byte. rewrite !sforall_app. cbn [sforall].
  rewrite (bool_decide_eq_true_2 _ (not_eq_sym H1)). simpl. rewrite andb_true_r.
  induction s as [|d s IH]; [done|]. rewrite ReplaceAll_byte, sforall_app.
  unfold no_byte in Hs. cbn [sforall] in Hs. apply andb_true_iff in Hs as [Hd Hs].
  rewrite IH by done. destruct (decide (d = "'"%char)); cbn [sforall].
  - by rewrite !(bool_decide_eq_true_2 _ (not_eq_sym H1)), (bool_decide_eq_true_2 _ (not_eq_sym H2)).
  - by rewrite Hd.
Qed.

(** *** Labels *)

(** What a reader of [--node-labels] sees: the pairs between the commas. *)
Definition parseLabels (s : string) : list (string * string) :=
  omap (cut "=") (split_byte "," s).

(** Keys without comma and equals sign, values without comma. *)
Definition label_syntax (m : gmap string string) : Prop :=
  map_Forall (fun k v => no_byte "," k = true /\ no_byte "=" k = true /\ no_byte "," v = true) m.

Lemma cut_byte c k v :
  no_byte c k = true -> cut (String c "") (k +:+ String c v) = Some (k, v).
Proof.
  unfold no_byte. induction k as [|d k IH].
  - intros _. rewrite sapp_nil_l. cbn. by rewrite decide_True.
  - cbn [sforall]. rewrite andb_true_iff, bool_decide_eq_true. intros [Hd Hk].
    rewrite sapp_cons. cbn [cut strip_prefix]. rewrite decide_False by done.
    by rewrite IH.
Qed.

Lemma sorted_keys_perm `{!RangeLaws L} (m : gmap string string) :
  sort_Strings ((range_map m).*1) ≡ₚ (map_to_list m).*1.
Proof. by rewrite sort_Strings_perm, range_map_perm. Qed.

Lemma sorted_keys_dom `{!RangeLaws L} (m : gmap string string) k :
  k ∈ sort_Strings ((range_map m).*1) <-> is_Some (m !! k).
Proof.
  rewrite sorted_keys_perm, list_elem_of_fmap. split.
  - intros ([k' v] & -> & Hk%elem_of_map_to_list). simpl. eauto.
  - intros [v Hv]. exists (k, v). split; [done|]. by apply elem_of_map_to_list.
Qed.

Lemma sorted_keys_NoDup `{!RangeLaws L} (m : gmap string string) :
  NoDup (sort_Strings ((range_map m).*1)).
Proof. rewrite sorted_keys_perm. apply NoDup_fst_map_to_list. Qed.

Lemma list_to_map_keys (m : gmap string string) ks :
  NoDup ks -> (forall k, k ∈ ks <-> is_Some (m !! k)) ->
  list_to_map ((fun k => (k, mapGet (Some m) k)) <$> ks) = m.
Proof.
  intros Hnd Hks. apply map_eq. intros k.
  destruct (m !! k) as [v|] eqn:E.
  - apply elem_of_list_to_map.
    + rewrite <-list_fmap_compose. by rewrite list_fmap_id.
    + apply list_elem_of_fmap. exists k. unfold mapGet. simpl. rewrite E. split; [done|].
      apply Hks. eauto.
  - apply not_elem_of_list_to_map. rewrite <-list_fmap_compose, list_fmap_id.
    rewrite Hks, E. by intros [? ?].
Qed.

Lemma parse_pieces (m : gmap string string) ks :
  Forall (fun k => no_byte "=" k = true) ks ->
  omap (cut "=") ((fun k => k +:+ "=" +:+ mapGet (Some m) k) <$> ks) =
  (fun k => (k, mapGet (Some m) k)) <$> ks.
Proof.
  intros Hk. induction Hk as [|k ks Hk Hks IH]; [done|].
  rewrite !fmap_cons. cbn [omap list_omap].
  rewrite sapp_cons, sapp_nil_l, cut_byte by done. f_equal. exact IH.
Qed.

Lemma serializeLabels_nonempty m :
  m <> ∅ -> serializeLabels (Some m) =
    Join ((fun k => k +:+ "=" +:+ mapGet (Some m) k) <$> sort_Strings ((range_map m).*1)) ",".
Proof.
  intros Hm. unfold serializeLabels. simpl. rewrite decide_False; [done|].
  by rewrite map_size_empty_iff.
Qed.

Lemma serialize_pieces `{!RangeLaws L} m :
  m <> ∅ -> label_syntax m ->
  split_byte "," (serializeLabels (Some m)) =
  (fun k => k +:+ "=" +:+ mapGet (Some m) k) <$> sort_Strings ((range_map m).*1).
Proof.
  intros Hm Hs. rewrite serializeLabels_nonempty by done. apply split_Join.
  - intros H%fmap_nil_inv. apply Hm, map_eq. intros k. rewrite lookup_empty.
    apply eq_None_not_Some. rewrite <-sorted_keys_dom, H. apply not_elem_of_nil.
  - apply Forall_fmap, Forall_forall. intros k Hk%sorted_keys_dom.
    destruct Hk as [v Hv]. specialize (Hs k v Hv) as (H1 & H2 & H3). simpl.
    unfold no_byte in *. rewrite !sforall_app, H1.
    unfold mapGet. simpl. rewrite Hv. simpl. by rewrite H3.
Qed.

(** *** The document *)

Lemma kubelet_tokens :
  tokens cloudInitTemplate = join_toks (tokens <$> cloudInitTemplateLines).
Proof. vm_compute. reflexivity. Qed.

Definition configLine : nat := 38.
Definition linesBefore : list string := take configLine cloudInitTemplateLines.
Definition linesAfter : list string := drop (S configLine) cloudInitTemplateLines.

Lemma template_split :
  cloudInitTemplateLines = linesBefore ++ ["{{ .KubeletConfig }}"] ++ linesAfter.
Proof. reflexivity. Qed.

Definition lineFields : list string :=
  ["CACertB64"; "KubeletCertB64"; "KubeletKeyB64"; "ClusterEndpoint"; "NodeLabels"].

(** A template line all of whose fields hold single lines. *)
Definition safe_tok (t : tok) : bool :=
  match t with
  | Byte c => bool_decide (c <> "010"%char)
  | Sub n => bool_decide (n ∈ lineFields)
  end.

Lemma template_lines_safe :
  forallb (fun l => forallb safe_tok (tokens l)) (linesBefore ++ linesAfter) = true.
Proof. vm_compute. reflexivity. Qed.

Lemma safe_toks_no_LF (data : gmap string string) ts :
  (forall n, n ∈ lineFields -> no_byte "010" (default "" (data !! n)) = true) ->
  forallb safe_tok ts = true -> no_byte "010" (exec_toks data ts) = true.
Proof.
  intros Hd. unfold no_byte in *. induction ts as [|[c|n] ts IH]; [done|..]; cbn [forallb safe_tok];
    rewrite andb_true_iff; intros [Hc Hts]; cbn [exec_toks].
  - cbn [sforall]. by rewrite Hc, IH.
  - rewrite sforall_app, IH by done. rewrite andb_true_r. apply Hd.
    by apply bool_decide_eq_true in Hc.
Qed.

Lemma b64_no_LF s : no_byte "010" (EncodeToString s) = true.
Proof.
  eapply sforall_impl; [|apply encode_bytes]. intros c Hc. apply bool_decide_eq_true.
  intros ->. by vm_compute in Hc.
Qed.

Lemma six_fields (a b c d e f : string) :
  let m : gmap string string := list_to_map [
    ("CACertB64", a); ("KubeletCertB64", b); ("KubeletKeyB64", c);
    ("ClusterEndpoint", d); ("KubeletConfig", e); ("NodeLabels", f)] in
  m !! "CACertB64" = Some a /\ m !! "KubeletCertB64" = Some b /\
  m !! "KubeletKeyB64" = Some c /\ m !! "ClusterEndpoint" = Some d /\
  m !! "KubeletConfig" = Some e /\ m !! "NodeLabels" = Some f.
Proof. vm_compute. repeat split. Qed.

Lemma cloudInitData_fields opts labels y :
  cloudInitData opts labels y !! "KubeletConfig" = Some (indentLines (kubeletConfig y) 6) /\
  cloudInitData opts labels y !! "NodeLabels" = Some (shellSingleQuote labels).
Proof.
  unfold cloudInitData.
  generalize (indentLines (kubeletConfig y) 6), (shellSingleQuote labels),
    (EncodeToString (CACertPEM opts)), (EncodeToString (KubeletClientCert opts)),
    (EncodeToString (KubeletClientKey opts)), (ClusterEndpoint opts).
  intros e f a b c d. vm_compute. by split.
Qed.

Lemma cloudInitData_no_LF opts y n :
  accepted opts -> n ∈ lineFields ->
  no_byte "010"
    (default "" (cloudInitData opts (serializeLabels (opt_Labels opts)) y !! n)) = true.
Proof.
  intros (He & Hl & _ & _). unfold lineFields. rewrite !elem_of_cons, elem_of_nil.
  unfold cloudInitData.
  match goal with |- context [list_to_map [(_, ?a); (_, ?b); (_, ?c); (_, ?d); (_, ?e); (_, ?f)]] =>
    pose proof (six_fields a b c d e f) as (H1 & H2 & H3 & H4 & H5 & H6) end.
  intros [-> |[-> |[-> |[-> |[-> |[]]]]]]; rewrite ?H1, ?H2, ?H3, ?H4, ?H6;
    cbn [default from_option id]; try apply b64_no_LF.
  - apply plain_no_LF. by apply single_line_bytes.
  - apply no_byte_quote; [done|done|]. apply plain_no_LF. by apply single_line_bytes.
Qed.

Lemma Join_splice a b c sep :
  b <> [] -> Join (a ++ [Join b sep] ++ c) sep = Join (a ++ b ++ c) sep.
Proof.
  intros Hb. induction a as [|x a IH].
  - cbn [app]. revert c. induction b as [|y b IH]; [done|]. intros c.
    destruct (decide (b = [])) as [->|Hb']; [done|].
    rewrite (Join_cons y b) by done. cbn [app].
    rewrite (Join_cons y (b ++ c)) by (by destruct b).
    destruct c as [|z c]; [by rewrite app_nil_r|].
    specialize (IH Hb' (z :: c)). cbn [app] in IH.
    rewrite (Join_cons (Join b sep)) in IH by done.
    rewrite Join_cons, !sapp_assoc by done. by rewrite IH.
  - change ((x :: a) ++ [Join b sep] ++ c) with (x :: (a ++ [Join b sep] ++ c)).
    change ((x :: a) ++ b ++ c) with (x :: (a ++ b ++ c)).
    rewrite (Join_cons x (a ++ [Join b sep] ++ c)) by (by destruct a).
    rewrite (Join_cons x (a ++ b ++ c)) by (by destruct a, b). by rewrite IH.
Qed.

Definition indentLine (n : nat) (line : string) : string :=
  if decide (line <> "") then Repeat " " n +:+ line else line.

Lemma indentLines_split s n :
  split_byte "010" (indentLines s n) = indentLine n <$> split_byte "010" s.
Proof.
  unfold indentLines. apply split_Join.
  - intros H%fmap_nil_inv. by apply split_byte_nonempty in H.
  - apply Forall_fmap. eapply Forall_impl; [apply split_pieces_free|].
    intros x Hx. change (no_byte "010" (indentLine n x) = true).
    unfold indentLine. case_decide; [|done]. unfold no_byte in *.
    rewrite sforall_app, Hx, andb_true_r. induction n as [|n IH]; [done|].
    cbn [Repeat]. by rewrite sforall_app, IH.
Qed.

(** Strip the indentation again. *)
Definition dedentLine (n : nat) (line : string) : string := TrimPrefix line (Repeat " " n).

Lemma dedent_indent n line : dedentLine n (indentLine n line) = line.
Proof.
  unfold dedentLine, indentLine. case_decide as H; [apply TrimPrefix_app|].
  subst. unfold TrimPrefix. by destruct n.
Qed.

(** The lines of an accepted document. *)
Lemma document_lines opts y :
  accepted opts ->
  let data := cloudInitData opts (serializeLabels (opt_Labels opts)) y in
  split_byte "010" (Execute cloudInitTemplate data) =
  ((fun l => Execute l data) <$> linesBefore) ++
  (indentLine 6 <$> split_byte "010" (kubeletConfig y)) ++
  ((fun l => Execute l data) <$> linesAfter).
Proof.
  intros Ha. cbv zeta.
  set (data := cloudInitData opts (serializeLabels (opt_Labels opts)) y).
  unfold cloudInitTemplate. rewrite (Execute_lines _ _ kubelet_tokens), template_split.
  rewrite !fmap_app, list_fmap_singleton.
  assert (Execute "{{ .KubeletConfig }}" data = indentLines (kubeletConfig y) 6) as ->.
  { rewrite Execute_tokens. change (tokens "{{ .KubeletConfig }}") with [Sub "KubeletConfig"].
    cbn [exec_toks]. rewrite sapp_nil_r. unfold data.
    by rewrite (proj1 (cloudInitData_fields opts _ y)). }
  rewrite <-(Join_split "010" (indentLines _ _)), indentLines_split.
  rewrite Join_splice by (intros H%fmap_nil_inv; by apply split_byte_nonempty in H).
  apply split_Join; [done|].
  assert (Hfill : Forall (fun l => no_byte "010" (Execute l data) = true) (linesBefore ++ linesAfter)).
  { pose proof template_lines_safe as Hs. rewrite forallb_true in Hs.
    apply Forall_forall. intros l Hl. rewrite Execute_tokens. apply safe_toks_no_LF; [|by apply Hs].
    intros n Hn. by apply cloudInitData_no_LF. }
  apply Forall_app in Hfill as [Hb Ht].
  apply Forall_app; split; [by apply Forall_fmap|]. apply Forall_app; split; [|by apply Forall_fmap].
  rewrite <-indentLines_split. apply split_pieces_free.
Qed.

Lemma labels_line data :
  Execute "    NODE_LABELS={{ .NodeLabels }}" data =
  "    NODE_LABELS=" +:+ default "" (data !! "NodeLabels").
Proof.
  rewrite Execute_tokens.
  change (tokens "    NODE_LABELS={{ .NodeLabels }}") with
    (bytes "    NODE_LABELS=" ++ [Sub "NodeLabels"]).
  rewrite exec_toks_app, exec_bytes. cbn [exec_toks]. by rewrite sapp_nil_r.
Qed.

(** *** The files cloud-init writes

    A reader of the document's [write_files] section: the file of a path is the
    base64 text under its entry, or the literal block there, which ends at the
    first line that is neither empty nor indented by six spaces.  (YAML also drops
    surplus empty lines at the end of a block.) *)

Fixpoint entryOf (path : string) (lines : list string) : option (list string) :=
  match lines with
  | [] => None
  | line :: rest => if decide (line = "  - path: " +:+ path) then Some rest else entryOf path rest
  end.

Fixpoint literalBlock (lines : list string) : list string :=
  match lines with
  | [] => []
  | line :: rest =>
      if decide (line = "") then "" :: literalBlock rest else
      match strip_prefix "      " line with
      | Some text => text :: literalBlock rest
      | None => []
      end
  end.

Definition writtenFile (path document : string) : option string :=
  match entryOf path (split_byte "010" document) with
  | Some (kind :: line :: rest) =>
      if decide (kind = "    encoding: b64")
      then strip_prefix "    content: " line ≫= DecodeString
      else if decide (kind = "    content: |") then Some (Join (literalBlock (line :: rest)) LF)
      else None
  | _ => None
  end.

Definition caPath : string := "/etc/kubernetes/pki/ca.crt".
Definition certPath : string := "/var/lib/kubelet/pki/kubelet-client.crt".
Definition keyPath : string := "/var/lib/kubelet/pki/kubelet-client.key".
Definition kubeconfigPath : string := "/etc/kubernetes/kubelet.conf".
Definition configPath : string := "/var/lib/kubelet/config.yaml".

Definition slice (i j : nat) : list string := take (j - i) (drop i cloudInitTemplateLines).

Lemma fill_plain ls (data : gmap string string) :
  forallb (fun l => bool_decide (tokens l = bytes l)) ls = true ->
  (fun l => Execute l data) <$> ls = ls.
Proof.
  rewrite forallb_true. intros H. rewrite <-(list_fmap_id ls) at 2.
  apply list_fmap_ext. intros i l Hl%list_elem_of_lookup_2%H%bool_decide_eq_true.
  by rewrite Execute_tokens, Hl, exec_bytes.
Qed.

(** A line that ends with its only field. *)
Lemma fill_field l pre n (data : gmap string string) :
  tokens l = bytes pre ++ [Sub n] -> Execute l data = pre +:+ default "" (data !! n).
Proof.
  intros H. rewrite Execute_tokens, H, exec_toks_app, exec_bytes. cbn [exec_toks].
  by rewrite sapp_nil_r.
Qed.

Lemma linesBefore_fields : linesBefore =
  slice 0 7 ++ ["    content: {{ .CACertB64 }}"] ++ slice 8 10 ++
  ["    content: {{ .KubeletCertB64 }}"] ++ slice 11 13 ++ ["    content: {{ .KubeletKeyB64 }}"] ++
  slice 14 22 ++ ["          server: {{ .ClusterEndpoint }}"] ++ slice 23 38.
Proof. reflexivity. Qed.

Lemma filled_before (data : gmap string string) :
  (fun l => Execute l data) <$> linesBefore =
  slice 0 7 ++ ["    content: " +:+ default "" (data !! "CACertB64")] ++
  slice 8 10 ++ ["    content: " +:+ default "" (data !! "KubeletCertB64")] ++
  slice 11 13 ++ ["    content: " +:+ default "" (data !! "KubeletKeyB64")] ++
  slice 14 22 ++ ["          server: " +:+ default "" (data !! "ClusterEndpoint")] ++ slice 23 38.
Proof.
  rewrite linesBefore_fields, !fmap_app, !list_fmap_singleton, !fill_plain by (vm_compute; reflexivity).
  rewrite (fill_field "    content: {{ .CACertB64 }}" "    content: " "CACertB64"),
    (fill_field "    content: {{ .KubeletCertB64 }}" "    content: " "KubeletCertB64"),
    (fill_field "    content: {{ .KubeletKeyB64 }}" "    content: " "KubeletKeyB64"),
    (fill_field "          server: {{ .ClusterEndpoint }}" "          server: " "ClusterEndpoint")
    by (vm_compute; reflexivity).
  reflexivity.
Qed.

Lemma literalBlock_indent ls rest :
  literalBlock ((indentLine 6 <$> ls) ++ rest) = ls ++ literalBlock rest.
Proof.
  induction ls as [|l ls IH]; [done|]. rewrite fmap_cons. cbn [app literalBlock].
  rewrite IH. destruct (decide (l = "")) as [->|Hl]; [done|].
  unfold indentLine. rewrite (decide_True (P := l <> "")) by done.
  rewrite decide_False by done. change (Repeat " " 6) with "      ".
  by rewrite (proj2 (strip_prefix_Some _ _ l) eq_refl).
Qed.

Lemma cloudInitData_values opts labels y :
  let data := cloudInitData opts labels y in
  data !! "CACertB64" = Some (EncodeToString (CACertPEM opts)) /\
  data !! "KubeletCertB64" = Some (EncodeToString (KubeletClientCert opts)) /\
  data !! "KubeletKeyB64" = Some (EncodeToString (KubeletClientKey opts)) /\
  data !! "ClusterEndpoint" = Some (ClusterEndpoint opts).
Proof.
  cbv zeta. unfold cloudInitData.
  match goal with |- context [list_to_map [(_, ?a); (_, ?b); (_, ?c); (_, ?d); (_, ?e); (_, ?f)]] =>
    pose proof (six_fields a b c d e f) as (H1 & H2 & H3 & H4 & _) end.
  by split_and!.
Qed.

(** Where the document's entries are, whatever follows the part with the keys. *)
Lemma entries_found a b c d rest :
  let lines := slice 0 7 ++ ["    content: " +:+ a] ++ slice 8 10 ++ ["    content: " +:+ b] ++
    slice 11 13 ++ ["    content: " +:+ c] ++ slice 14 22 ++ ["          server: " +:+ d] ++
    slice 23 38 ++ rest in
  (exists l, entryOf caPath lines = Some ("    encoding: b64" :: ("    content: " +:+ a) :: l)) /\
  (exists l, entryOf certPath lines = Some ("    encoding: b64" :: ("    content: " +:+ b) :: l)) /\
  (exists l, entryOf keyPath lines = Some ("    encoding: b64" :: ("    content: " +:+ c) :: l)) /\
  entryOf kubeconfigPath lines =
    Some ("    content: |" :: slice 17 22 ++ ["          server: " +:+ d] ++ slice 23 38 ++ rest) /\
  entryOf configPath lines = Some ("    content: |" :: rest).
Proof. cbv zeta. split_and!; try eexists; vm_compute; reflexivity. Qed.

(** The kubeconfig's lines, the endpoint filled in. *)
Definition kubeconfigLines (endpoint : string) : list string :=
  (dedentLine 6 <$> slice 17 22) ++ ["    server: " +:+ endpoint] ++ (dedentLine 6 <$> slice 23 36).

Lemma kubeconfig_block d rest :
  literalBlock (slice 17 22 ++ ["          server: " +:+ d] ++ slice 23 38 ++ rest) = kubeconfigLines d.
Proof. vm_compute. reflexivity. Qed.

Lemma kubeconfigLines_free d :
  no_byte "010" d = true -> Forall (fun l => no_byte "010" l = true) (kubeconfigLines d).
Proof.
  intros Hd. unfold kubeconfigLines. rewrite !Forall_app. split_and!.
  - apply Forall_forall, forallb_true. by vm_compute.
  - constructor; [|constructor]. unfold no_byte in *. rewrite sforall_app, Hd. reflexivity.
  - apply Forall_forall, forallb_true. by vm_compute.
Qed.

Lemma writtenFile_b64 path doc l s :
  entryOf path (split_byte "010" doc) =
    Some ("    encoding: b64" :: ("    content: " +:+ EncodeToString s) :: l) ->
  writtenFile path doc = Some s.
Proof.
  intros H. unfold writtenFile. rewrite H, decide_True by done.
  rewrite (proj2 (strip_prefix_Some _ _ (EncodeToString s)) eq_refl). apply decode_encode.
Qed.

Lemma writtenFile_block path doc l :
  l <> [] -> entryOf path (split_byte "010" doc) = Some ("    content: |" :: l) ->
  writtenFile path doc = Some (Join (literalBlock l) LF).
Proof.
  intros Hl H. unfold writtenFile. rewrite H. by destruct l.
Qed.

(** The kubelet configuration is a fixed text, the taints, and a line break. *)
Definition configHead : string := Join (take 30 kubeletConfigTemplateLines) LF +:+ LF.

Lemma kubeletConfig_text y : kubeletConfig y = configHead +:+ y +:+ LF.
Proof.
  unfold kubeletConfig. rewrite Execute_tokens.
  replace (tokens kubeletConfigTemplate) with (bytes configHead ++ Sub "TaintsYAML" :: bytes LF)
    by (vm_compute; reflexivity).
  rewrite exec_toks_app, exec_bytes. cbn [exec_toks]. by rewrite exec_bytes, lookup_singleton_eq.
Qed.

Lemma config_nonempty y rest : (indentLine 6 <$> split_byte "010" (kubeletConfig y)) ++ rest <> [].
Proof. intros [H%fmap_nil_inv _]%app_nil. by apply split_byte_nonempty in H. Qed.

Lemma literalBlock_after (data : gmap string string) :
  literalBlock ((fun l => Execute l data) <$> linesAfter) = [].
Proof.
  change linesAfter with ("runcmd:" :: drop 40 cloudInitTemplateLines). rewrite fmap_cons.
  by rewrite Execute_tokens, (eq_refl : tokens "runcmd:" = bytes "runcmd:"), exec_bytes.
Qed.

(** ** Properties *)

(** C23: The files of an accepted document: a reader of its [write_files] section
    finds the CA certificate, the client certificate and the client key, byte for
    byte, each under its path; a kubeconfig that names the endpoint as its server,
    on a line of its own; and the kubelet configuration, the fixed text followed by
    the YAML of the taints. *)
Theorem Generate_files opts out :
  Generate opts = Ok out ->
  writtenFile caPath out = Some (CACertPEM opts) /\
  writtenFile certPath out = Some (KubeletClientCert opts) /\
  writtenFile keyPath out = Some (KubeletClientKey opts) /\
  (exists text, writtenFile kubeconfigPath out = Some text /\
     split_byte "010" text = kubeconfigLines (ClusterEndpoint opts)) /\
  (exists y, serializeTaintsYAML (opt_Taints opts) = Ok y /\
     writtenFile configPath out = Some (configHead +:+ y +:+ LF)).
Proof.
  intros (Ha & y & Hy & ->)%Generate_Ok. pose proof Ha as (He & _).
  pose proof (document_lines opts y Ha) as Hdoc. cbv zeta in Hdoc.
  destruct (cloudInitData_values opts (serializeLabels (opt_Labels opts)) y) as (H1 & H2 & H3 & H4).
  rewrite filled_before, H1, H2, H3, H4 in Hdoc. cbn [default from_option id] in Hdoc.
  rewrite <-!app_assoc in Hdoc.
  match type of Hdoc with _ = slice 0 7 ++ [_ +:+ ?a] ++ _ ++ [_ +:+ ?b] ++ _ ++ [_ +:+ ?c] ++ _ ++
      [_ +:+ ?d] ++ _ ++ ?rest =>
    destruct (entries_found a b c d rest) as ([l1 E1] & [l2 E2] & [l3 E3] & E4 & E5) end.
  rewrite <-Hdoc in E1, E2, E3, E4, E5. split_and!.
  - by apply (writtenFile_b64 _ _ l1).
  - by apply (writtenFile_b64 _ _ l2).
  - by apply (writtenFile_b64 _ _ l3).
  - eexists. split; [by apply writtenFile_block in E4|].
    rewrite kubeconfig_block. apply split_Join; [done|]. apply kubeconfigLines_free.
    apply plain_no_LF. by apply single_line_bytes.
  - exists y. split; [done|]. rewrite <-kubeletConfig_text.
    rewrite (writtenFile_block _ _ _ (config_nonempty _ _) E5), literalBlock_indent.
    by rewrite literalBlock_after, app_nil_r, (Join_split "010").
Qed.

(** C25: Generate succeeds exactly when the endpoint, the serialized labels and
    every taint field are single-line UTF-8 values, the labels hold no
    shell-significant byte, and the YAML encoder succeeds; in particular no
    accepted value holds a control byte other than a tab. *)
Theorem Generate_accepts opts :
  (is_Ok (Generate opts) = true <->
   accepted opts /\ is_Ok (serializeTaintsYAML (opt_Taints opts)) = true) /\
  (accepted opts ->
   Forall (fun s => sforall plain_byte s = true)
     (ClusterEndpoint opts :: serializeLabels (opt_Labels opts) ::
      concat ((fun t => (taintFields t).*2) <$> opt_Taints opts))).
Proof.
  split.
  - pose proof (Generate_Ok opts) as HG. split.
    + destruct (Generate opts) as [out|e]; [|done]. intros _.
      destruct (proj1 (HG out) eq_refl) as (Ha & y & -> & _). done.
    + intros [Ha Hy]. destruct (serializeTaintsYAML _) as [y|e] eqn:E; [|done].
      destruct (HG (Execute cloudInitTemplate
        (cloudInitData opts (serializeLabels (opt_Labels opts)) y))) as [_ H2].
      rewrite H2; [done|]. eauto.
  - intros (He & Hl & _ & Ht). repeat constructor; try by apply single_line_bytes.
    induction Ht as [|t ts (H1 & H2 & H3) Hts IH]; [constructor|].
    cbn. repeat constructor; try (by apply single_line_bytes). done.
Qed.

(** C24: The generated document keeps the line structure of the template: outside
    the kubelet configuration every template line stays one line, with its
    fields filled in, and the configuration block is the kubelet configuration
    with every non-empty line indented by six spaces, from which it reads back. *)
Theorem Generate_lines opts out :
  Generate opts = Ok out ->
  exists y, serializeTaintsYAML (opt_Taints opts) = Ok y /\
    let fill l := Execute l (cloudInitData opts (serializeLabels (opt_Labels opts)) y) in
    let block := indentLine 6 <$> split_byte "010" (kubeletConfig y) in
    split_byte "010" out = (fill <$> linesBefore) ++ block ++ (fill <$> linesAfter) /\
    Join (dedentLine 6 <$> block) LF = kubeletConfig y.
Proof.
  intros (Ha & y & Hy & ->)%Generate_Ok. exists y. split; [done|]. cbv zeta.
  set (data := cloudInitData opts (serializeLabels (opt_Labels opts)) y).
  split; cycle 1.
  { rewrite <-list_fmap_compose.
    rewrite (list_fmap_ext (dedentLine 6 ∘ indentLine 6) id) by (intros; apply dedent_indent).
    rewrite list_fmap_id. apply (Join_split "010"). }
  by apply document_lines.
Qed.

(** C10: The node labels reach kubelet as one literal word: in an accepted
    document the NODE_LABELS line is read by the shell back to the serialized
    labels, and those pass unchanged through the double-quoted text that ends
    up in /etc/default/kubelet. *)
Theorem Generate_labels_literal opts out rest :
  Generate opts = Ok out ->
  let labels := serializeLabels (opt_Labels opts) in
  ("    NODE_LABELS=" +:+ shellSingleQuote labels) ∈ split_byte "010" out /\
  sh_word false (shellSingleQuote labels +:+ LF +:+ rest) = Some (labels, LF +:+ rest) /\
  dq_text (("--cloud-provider=external --node-labels=" +:+ labels) +:+ DQ +:+ rest) =
    Some ("--cloud-provider=external --node-labels=" +:+ labels, rest).
Proof.
  intros (Ha & y & Hy & ->)%Generate_Ok labels. pose proof Ha as (_ & _ & Hs & _). split_and!.
  - rewrite document_lines by done. fold labels. apply elem_of_app. right.
    apply elem_of_app. right. apply list_elem_of_fmap.
    exists "    NODE_LABELS={{ .NodeLabels }}". split.
    + by rewrite labels_line, (proj2 (cloudInitData_fields opts labels y)).
    + apply (bool_decide_unpack _). by vm_compute.
  - apply sh_word_single_quote.
  - apply dq_text_safe. unfold shell_safe. rewrite sforall_app. unfold labels.
    by rewrite Hs, andb_true_r.
Qed.

End UserData.

(** C38: serializeLabels does not depend on the iteration order of the map,
    lists the keys in ascending order, and, for labels in Kubernetes syntax, is
    read back to the same labels. *)
Theorem serializeLabels_roundtrip (L : Libs) (HL : RangeLaws L) (m : gmap string string) :
  m <> ∅ -> label_syntax m ->
  list_to_map (parseLabels (serializeLabels (Some m))) = m /\
  StronglySorted String.le (parseLabels (serializeLabels (Some m))).*1 /\
  forall L' : Libs, RangeLaws L' ->
    serializeLabels (L := L') (Some m) = serializeLabels (L := L) (Some m).
Proof.
  intros Hm Hs. unfold parseLabels. rewrite serialize_pieces by done.
  rewrite parse_pieces; cycle 1.
  { apply Forall_forall. intros k [v Hv]%sorted_keys_dom. by apply (Hs k v Hv). }
  split_and!.
  - apply list_to_map_keys; [apply sorted_keys_NoDup|apply sorted_keys_dom].
  - rewrite <-list_fmap_compose, list_fmap_id. apply sort_Strings_sorted.
  - intros L' HL'. rewrite !serializeLabels_nonempty by done. do 2 f_equal.
    apply sort_Strings_proper. by rewrite !range_map_perm.
Qed.


Definition sampleOptions : Options :=
  mkOptions "https://10.0.0.1:6443" "CA" "crt" "key"
    (Some {[ "evil" := "x'y"; "b" := "1" ]}) [mkTaint "dedicated" "gpu" "NoSchedule"].

Definition sampleDocument : string :=
  match Generate (L := refLibs) sampleOptions with Ok out => out | Err _ => "" end.

Example Generate_labels_example :
  Contains sampleDocument "NODE_LABELS='b=1,evil=x'\''y'" = true.
Proof. vm_compute. reflexivity. Qed.

Lemma Generate_lines_witness :
  exists y, serializeTaintsYAML (L := refLibs) (opt_Taints sampleOptions) = Ok y.
Proof.
  destruct (Generate_lines sampleOptions sampleDocument) as (y & Hy & _);
    [vm_compute; reflexivity|]. exists y. exact Hy.
Defined.

Lemma Generate_files_witness :
  writtenFile caPath sampleDocument = Some "CA" /\
  writtenFile certPath sampleDocument = Some "crt" /\
  writtenFile keyPath sampleDocument = Some "key" /\
  exists text, writtenFile kubeconfigPath sampleDocument = Some text /\
    ("    server: https://10.0.0.1:6443") ∈ split_byte "010" text.
Proof.
  destruct (Generate_files (L := refLibs) sampleOptions sampleDocument)
    as (H1 & H2 & H3 & (text & H4 & H5) & _); [vm_compute; reflexivity|].
  split_and!; [exact H1|exact H2|exact H3|]. exists text. split; [exact H4|]. rewrite H5.
  apply (bool_decide_unpack _). vm_compute. exact I.
Defined.

Lemma Generate_labels_literal_witness :
  sh_word false (shellSingleQuote (serializeLabels (L := refLibs) (opt_Labels sampleOptions))
    +:+ LF +:+ "") = Some ("b=1,evil=x'y", LF +:+ "").
Proof.
  destruct (Generate_labels_literal (L := refLibs) sampleOptions sampleDocument "")
    as (_ & H & _); [vm_compute; reflexivity|].
  rewrite H. vm_compute. reflexivity.
Defined.

Lemma Generate_accepts_witness :
  is_Ok (Generate (L := refLibs) sampleOptions) = true /\ accepted (L := refLibs) sampleOptions.
Proof.
  destruct (Generate_accepts (L := refLibs) sampleOptions) as [H _].
  assert (Hok : is_Ok (Generate (L := refLibs) sampleOptions) = true)
    by (vm_compute; reflexivity).
  split; [exact Hok|]. apply H. exact Hok.
Defined.

Lemma serializeLabels_roundtrip_witness :
  list_to_map (parseLabels (serializeLabels (L := refLibs) (Some {[ "b" := "1"; "a" := "2" ]}))) =
    ({[ "b" := "1"; "a" := "2" ]} : gmap string string).
Proof.
  apply (serializeLabels_roundtrip refLibs refRange); [done|].
  apply (bool_decide_unpack _). vm_compute. exact I.
Defined.
