(* ===== verification/InstanceTypes.v ===== *)
(** * pkg/providers/instancetypes: the plan catalogue and its cache *)

From S2P Require Import Prelude GoInt GoStrings GoTime GoDuration Types Effects Libs Util.

Local Open Scope Z_scope.

(** ** Karpenter's instance types, as the provider fills them in

    [scheduling.NewRequirements] collects the requirements it is given; they are
    kept as that list.  The overhead is always the empty struct. *)
Record Offering := mkOffering {
  off_Requirements : list NodeSelectorRequirement;
  off_Price : float64;
  off_Available : bool;
}.

Record InstanceType := mkInstanceType {
  it_Name : string;
  it_Requirements : list NodeSelectorRequirement;
  it_Offerings : list Offering;
  it_Capacity : gmap string Quantity;
}.

(** The provider: its service is the environment, its mutex is in [Step] below. *)
Record Provider := mkProvider {
  zone : string;
  instanceTypesByName : gmap string InstanceType;
  plansByName : gmap string Plan;
  prices : gmap string float64;
  lastFetch : Time;
  cacheTTL : Z;
}.

(** NewProvider *)
Definition NewProvider (zone : string) : Provider :=
  mkProvider zone ∅ ∅ ∅ zeroTime (30 * Minute).

Definition setPrices (ps : gmap string float64) (t : Time) (p : Provider) : Provider :=
  mkProvider (zone p) (instanceTypesByName p) (plansByName p) ps t (cacheTTL p).
Definition setCatalogue (its : gmap string InstanceType) (plans : gmap string Plan) (p : Provider)
    : Provider :=
  mkProvider (zone p) its plans (prices p) (lastFetch p) (cacheTTL p).

Definition serverPlanPrefix : string := "server_plan_".

(** [scheduling.NewRequirement(key, In, value)] *)
Definition NewRequirement (key value : string) : NodeSelectorRequirement :=
  mkReq key "In" [value].

Section InstanceTypes.
Context `{L : Libs}.

(** ** Conversion of a plan *)

Definition memoryBytesOf (memoryMB : Z) : Z :=
  if memoryMB <=? MaxInt64 / (1024 * 1024)
  then wrap64 (wrap64 (memoryMB * 1024) * 1024) else MaxInt64.

Definition planResources (plan : Plan) : gmap string Quantity :=
  let cores := Z.max (plan_CoreNumber plan) 0 in
  let memoryMB := Z.max (plan_MemoryAmount plan) 0 in
  let gpuAmount := Z.max (plan_GPUAmount plan) 0 in
  let resources := <[ResourcePods := NewQuantity 110 DecimalSI]>
    (<[ResourceMemory := NewQuantity (memoryBytesOf memoryMB) BinarySI]>
    {[ ResourceCPU := NewQuantity cores DecimalSI ]}) in
  if 0 <? gpuAmount
  then <[v1alpha2.ResourceNvidiaGPU := NewQuantity gpuAmount DecimalSI]> resources
  else resources.

Definition planRequirements (zone : string) (plan : Plan) : list NodeSelectorRequirement :=
  let cores := Z.max (plan_CoreNumber plan) 0 in
  let memoryMB := Z.max (plan_MemoryAmount plan) 0 in
  let gpuAmount := Z.max (plan_GPUAmount plan) 0 in
  [ NewRequirement LabelInstanceTypeStable (plan_Name plan);
    NewRequirement LabelArchStable "amd64";
    NewRequirement LabelOSStable "linux";
    NewRequirement LabelTopologyZone zone;
    NewRequirement CapacityTypeLabelKey (capacityTypeOf (plan_Name plan));
    NewRequirement v1alpha2.LabelInstanceFamily (InstanceFamily (plan_Name plan));
    NewRequirement v1alpha2.LabelInstanceCPU (fmt_d cores);
    NewRequirement v1alpha2.LabelInstanceMemory (fmt_d memoryMB);
    NewRequirement v1alpha2.LabelInstanceStorageSize (fmt_d (plan_StorageSize plan)) ] ++
  (if 0 <? gpuAmount
   then [ NewRequirement v1alpha2.LabelInstanceGPUCount (fmt_d gpuAmount);
          NewRequirement v1alpha2.LabelInstanceGPUModel (plan_GPUModel plan) ]
   else []).

(** buildInstanceTypeWithPrices; the pointer it returns is never nil. *)
Definition buildInstanceTypeWithPrices (zone : string) (plan : Plan) (prices : gmap string float64)
    : InstanceType :=
  let price := default MaxFloat64 (prices !! plan_Name plan) in
  mkInstanceType (plan_Name plan) (planRequirements zone plan)
    [mkOffering [NewRequirement CapacityTypeLabelKey (capacityTypeOf (plan_Name plan))] price true]
    (planResources plan).

(** ** Prices *)

(** One round of the loop over the zone's price items. *)
Definition addPrice (ps : gmap string float64) (item : string * float64) : gmap string float64 :=
  let '(itemName, price) := item in
  let name := TrimPrefix itemName serverPlanPrefix in
  let ps := <[name := price]> ps in
  if decide (name = itemName) then <[serverPlanPrefix +:+ name := price]> ps else ps.

Definition priceMap (zonePrices : gmap string float64) : gmap string float64 :=
  foldl addPrice ∅ (range_map zonePrices).

(** The provider's zone, else the first zone the runtime happens to yield. *)
Definition pickZone (zone : string) (pricesByZone : gmap string (gmap string float64))
    : gmap string float64 :=
  match pricesByZone !! zone with
  | Some zp => zp
  | None => match range_map pricesByZone with (_, zp) :: _ => zp | [] => ∅ end
  end.

(** refreshPrices: the provider afterwards and the error, if any. *)
Definition refreshPrices (p : Provider) : prog (Provider * option error) :=
  let! now := call Now in
  if Sub now (lastFetch p) <? cacheTTL p then Ret (p, None) else
  let! r := call GetPricesByZone in
  match r with
  | Err err => Ret (p, Some (Wrapf "fetching prices" err))
  | Ok pricesByZone =>
      let ps := priceMap (pickZone (zone p) pricesByZone) in
      let! fetched := call Now in
      Ret (setPrices ps fetched p, None)
  end.

(** ** Refresh *)

(** The copy of the price map made under the read lock. *)
Definition copyPrices (ps : gmap string float64) : gmap string float64 :=
  foldl (fun m kv => <[kv.1 := kv.2]> m) ∅ (range_map ps).

Definition buildCatalogue (zone : string) (pricing : gmap string float64) (plans : list Plan)
    : gmap string InstanceType * gmap string Plan :=
  foldl (fun m plan =>
           (<[plan_Name plan := buildInstanceTypeWithPrices zone plan pricing]> m.1,
            <[plan_Name plan := plan]> m.2)) (∅, ∅) plans.

Definition Refresh (p : Provider) : prog (Provider * option error) :=
  let! r := call GetPlans in
  match r with
  | Err err => Ret (p, Some (Wrapf "fetching plans" err))
  | Ok plans =>
      let! pe := refreshPrices p in          (* the error is only logged *)
      let p := pe.1 in
      let pricing := copyPrices (prices p) in
      let '(built, rawPlans) := buildCatalogue (zone p) pricing plans in
      Ret (setCatalogue built rawPlans p, None)
  end.

(** ** Readers *)

Definition List (p : Provider) : list InstanceType := lo_Values (instanceTypesByName p).

(** Get: [None] is the zero plan with false. *)
Definition Get (p : Provider) (name : string) : option Plan := plansByName p !! name.

(** ** Interleaving

    Refreshes and readers on one provider.  A step is one critical section of
    the mutex, or a call made outside it; a refresh in flight is where it
    stands, with what it holds in local variables. *)
Inductive Refreshing :=
| HasPlans (plans : list Plan)                       (* GetPlans answered *)
| HasPrices (plans : list Plan)                      (* refreshPrices returned *)
| HasPricing (plans : list Plan) (pricing : gmap string float64).  (* prices copied *)

Record Shared := mkShared { provider : Provider; inFlight : list Refreshing }.

Inductive Step : Shared -> Shared -> Prop :=
| StepPlans p ts plans :
    Step (mkShared p ts) (mkShared p (HasPlans plans :: ts))
| StepPricesKept p ts1 ts2 plans :                   (* still fresh, or the call failed *)
    Step (mkShared p (ts1 ++ HasPlans plans :: ts2))
         (mkShared p (ts1 ++ HasPrices plans :: ts2))
| StepPricesNew p ts1 ts2 plans pricesByZone now :   (* p.mu.Lock: prices, lastFetch *)
    Step (mkShared p (ts1 ++ HasPlans plans :: ts2))
         (mkShared (setPrices (priceMap (pickZone (zone p) pricesByZone)) now p)
            (ts1 ++ HasPrices plans :: ts2))
| StepCopy p ts1 ts2 plans :                         (* p.mu.RLock: copy *)
    Step (mkShared p (ts1 ++ HasPrices plans :: ts2))
         (mkShared p (ts1 ++ HasPricing plans (copyPrices (prices p)) :: ts2))
| StepSwap p ts1 ts2 plans pricing built rawPlans :  (* p.mu.Lock: both maps *)
    buildCatalogue (zone p) pricing plans = (built, rawPlans) ->
    Step (mkShared p (ts1 ++ HasPricing plans pricing :: ts2))
         (mkShared (setCatalogue built rawPlans p) (ts1 ++ ts2)).

(** What every reader can rely on: each listed type was built from the raw plan
    kept under its name, and the two maps have the same names. *)
Definition Consistent (p : Provider) : Prop :=
  forall name, match instanceTypesByName p !! name, plansByName p !! name with
  | Some it, Some plan => plan_Name plan = name /\
      exists pricing, it = buildInstanceTypeWithPrices (zone p) plan pricing
  | None, None => True
  | _, _ => False
  end.

(** ** Lemmas *)

(** What the catalogue is expected to hold for a name: the last plan of the
    answer that bears it. *)
Definition lastPlan (name : string) (plans : list Plan) : option Plan :=
  find (fun plan => bool_decide (plan_Name plan = name)) (rev plans).

Lemma lastPlan_snoc name plans plan :
  lastPlan name (plans ++ [plan]) =
  if decide (plan_Name plan = name) then Some plan else lastPlan name plans.
Proof.
  unfold lastPlan. rewrite rev_unit. simpl.
  destruct (decide (plan_Name plan = name)); [by rewrite bool_decide_eq_true_2|].
  by rewrite bool_decide_eq_false_2.
Qed.

Lemma lastPlan_Some name plans plan :
  lastPlan name plans = Some plan -> plan_Name plan = name /\ plan ∈ plans.
Proof.
  intros H%find_some. destruct H as [Hin Hn]. bool_hyps.
  by rewrite <-in_rev, <-list_elem_of_In in Hin.
Qed.

Lemma buildCatalogue_lookup zone pricing plans name :
  (buildCatalogue zone pricing plans).2 !! name = lastPlan name plans /\
  (buildCatalogue zone pricing plans).1 !! name =
    (fun plan => buildInstanceTypeWithPrices zone plan pricing) <$> lastPlan name plans.
Proof.
  induction plans as [|plan plans IH] using rev_ind; [done|].
  unfold buildCatalogue in *. rewrite foldl_app, lastPlan_snoc. simpl.
  destruct IH as [IH1 IH2]. destruct (decide (plan_Name plan = name)) as [<-|Hn].
  - by rewrite !lookup_insert_eq.
  - by rewrite !lookup_insert_ne.
Qed.

Lemma foldl_insert {V} (l : list (string * V)) (m : gmap string V) :
  NoDup l.*1 -> foldl (fun m kv => <[kv.1 := kv.2]> m) m l = list_to_map l ∪ m.
Proof.
  revert m. induction l as [|[k v] l IH]; intros m; simpl.
  - intros _. by rewrite (left_id_L ∅ (∪)).
  - intros [Hk Hl]%NoDup_cons. rewrite (IH _ Hl), <-insert_union_r, insert_union_l; [done|].
    by apply not_elem_of_list_to_map_1.
Qed.

Lemma copyPrices_id `{!RangeLaws L} ps : copyPrices ps = ps.
Proof.
  unfold copyPrices. assert (Hd : NoDup (range_map ps).*1).
  { rewrite (range_map_perm _ ps). apply NoDup_fst_map_to_list. }
  rewrite (foldl_insert _ _ Hd), (right_id_L ∅ (∪)).
  rewrite <-(list_to_map_to_list ps) at 2.
  apply list_to_map_proper; [done|apply range_map_perm].
Qed.

(** Saturation replaces the wrap-around of the two multiplications. *)
Lemma memoryBytesOf_min mem :
  0 <= mem -> memoryBytesOf mem = Z.min MaxInt64 (mem * 2 ^ 20).
Proof.
  intros H. unfold memoryBytesOf.
  change (MaxInt64 / (1024 * 1024)) with 8796093022207.
  destruct (Z.leb_spec mem 8796093022207); [|unfold MaxInt64; lia].
  rewrite wrap64_mul_l, wrap64_id; unfold int64_ok, MinInt64, MaxInt64; lia.
Qed.

(** Where the prices of a plan name without the prefix come from. *)
Lemma addPrice_fold l name :
  HasPrefix name serverPlanPrefix = false ->
  match foldl addPrice ∅ l !! name with
  | Some v => (name, v) ∈ l \/ (serverPlanPrefix +:+ name, v) ∈ l
  | None => forall v, (name, v) ∉ l /\ (serverPlanPrefix +:+ name, v) ∉ l
  end.
Proof.
  intros Hn. induction l as [|[item price] l IH] using rev_ind.
  { simpl. rewrite lookup_empty. intros v. split; apply not_elem_of_nil. }
  rewrite foldl_app. simpl. set (ps := foldl addPrice ∅ l) in *. clearbody ps.
  set (short := TrimPrefix item serverPlanPrefix).
  assert (Hmine : short = name -> item = name \/ item = serverPlanPrefix +:+ name).
  { unfold short. intros E. destruct (HasPrefix item serverPlanPrefix) eqn:Hp.
    - apply HasPrefix_true in Hp as [r ->]. rewrite TrimPrefix_app in E. subst. by right.
    - rewrite TrimPrefix_id in E by done. by left. }
  assert (Hother : short <> name -> item <> name /\ item <> serverPlanPrefix +:+ name).
  { unfold short. intros Hne. split; intros ->.
    - by rewrite TrimPrefix_id in Hne.
    - by rewrite TrimPrefix_app in Hne. }
  assert (Hlong : serverPlanPrefix +:+ short <> name).
  { intros E. assert (HasPrefix name serverPlanPrefix = true); [|congruence].
    apply HasPrefix_true. by exists short. }
  assert (Hps : (if decide (short = item) then <[serverPlanPrefix +:+ short := price]>
      (<[short := price]> ps) else <[short := price]> ps) !! name = <[short := price]> ps !! name).
  { destruct (decide (short = item)); [by rewrite lookup_insert_ne|done]. }
  rewrite Hps. destruct (decide (short = name)) as [E|Hne].
  - rewrite E, lookup_insert_eq. rewrite !elem_of_app, !list_elem_of_singleton.
    destruct (Hmine E) as [-> | ->]; auto.
  - rewrite lookup_insert_ne by done. destruct (Hother Hne).
    destruct (ps !! name); [|intros v; specialize (IH v)];
      rewrite !elem_of_app, !list_elem_of_singleton; naive_solver.
Qed.

Lemma range_map_lookup `{!RangeLaws L} {V} (m : gmap string V) k v :
  (k, v) ∈ range_map m <-> m !! k = Some v.
Proof. rewrite (range_map_perm _ m). apply elem_of_map_to_list. Qed.

(** ** Properties *)

(** C36: For every plan whose numbers fit Go's int, the capacity handed to the
    scheduler is exact and never negative: cores and GPUs clamped at zero, memory
    the mathematical product in bytes saturated at MaxInt64 with no wrap-around,
    110 pods, and a GPU entry exactly when the plan has a GPU. *)
Theorem capacity_bounds zone plan prices :
  int64_ok (plan_CoreNumber plan) -> int64_ok (plan_MemoryAmount plan) ->
  int64_ok (plan_GPUAmount plan) ->
  let cap := it_Capacity (buildInstanceTypeWithPrices zone plan prices) in
  cap !! ResourceCPU = Some (NewQuantity (Z.max (plan_CoreNumber plan) 0) DecimalSI) /\
  cap !! ResourceMemory = Some (NewQuantity
    (Z.min MaxInt64 (Z.max (plan_MemoryAmount plan) 0 * 2 ^ 20)) BinarySI) /\
  cap !! ResourcePods = Some (NewQuantity 110 DecimalSI) /\
  cap !! v1alpha2.ResourceNvidiaGPU =
    (if 0 <? plan_GPUAmount plan
     then Some (NewQuantity (plan_GPUAmount plan) DecimalSI) else None) /\
  (forall r q, cap !! r = Some q -> 0 <= q_Value q <= MaxInt64).
Proof.
  intros Hc Hm Hg cap. unfold cap. simpl.
  set (mem := Z.max (plan_MemoryAmount plan) 0).
  assert (Hmem : memoryBytesOf mem = Z.min MaxInt64 (mem * 2 ^ 20)).
  { apply memoryBytesOf_min. unfold mem. unfold int64_ok, MinInt64, MaxInt64 in *. lia. }
  assert (Hbytes : 0 <= Z.min MaxInt64 (mem * 2 ^ 20) <= MaxInt64).
  { unfold mem, MaxInt64. lia. }
  unfold planResources. fold mem. rewrite Hmem.
  generalize dependent (Z.min MaxInt64 (mem * 2 ^ 20)). intros bytes _ Hbytes.
  assert (Hgpu : (0 <? Z.max (plan_GPUAmount plan) 0) = (0 <? plan_GPUAmount plan)).
  { apply Bool.eq_iff_eq_true. rewrite !Z.ltb_lt. lia. }
  rewrite Hgpu. unfold int64_ok, MinInt64, MaxInt64 in *.
  destruct (Z.ltb_spec 0 (plan_GPUAmount plan)); split_and!;
    rewrite ?lookup_insert; simpl; try done;
    [by rewrite Z.max_l by lia|..]; intros r q;
    rewrite !lookup_insert_Some, lookup_singleton_Some; intros Hq;
    naive_solver (simpl in *; lia).
Qed.

(** Every price kept for a plan name comes from the zone's item of that name
    or from its [server_plan_] item, and a plan with such an item has a price;
    when the two items do not contradict each other the price is determined,
    whatever order the runtime ranges in. *)
Lemma priceMap_lookup `{!RangeLaws L} zonePrices name :
  HasPrefix name serverPlanPrefix = false ->
  let plain := zonePrices !! name in
  let prefixed := zonePrices !! (serverPlanPrefix +:+ name) in
  (forall v, priceMap zonePrices !! name = Some v -> plain = Some v \/ prefixed = Some v) /\
  (priceMap zonePrices !! name = None <-> plain = None /\ prefixed = None) /\
  ((forall v w, plain = Some v -> prefixed = Some w -> v = w) ->
   priceMap zonePrices !! name = match plain with Some v => Some v | None => prefixed end).
Proof.
  intros Hn plain prefixed. unfold plain, prefixed, priceMap.
  pose proof (addPrice_fold (range_map zonePrices) name Hn) as H.
  destruct (foldl addPrice ∅ (range_map zonePrices) !! name) as [v|].
  - rewrite !range_map_lookup in H. split_and!; [intros ? [= <-]; done|naive_solver|].
    intros Hagree. destruct (zonePrices !! name) eqn:E1, (zonePrices !! (serverPlanPrefix +:+ name)) eqn:E2;
      naive_solver.
  - assert (Hnone : zonePrices !! name = None /\ zonePrices !! (serverPlanPrefix +:+ name) = None).
    { split; apply eq_None_not_Some; intros [v Hv]; destruct (H v) as [H1 H2];
        [apply H1|apply H2]; by apply range_map_lookup. }
    destruct Hnone as [-> ->]. done.
Qed.

(** What [refreshPrices] does on each answer of the environment. *)
Lemma refreshPrices_runs p tr o :
  runs (refreshPrices p) tr o ->
  exists now, (Sub now (lastFetch p) < cacheTTL p /\
               tr = [Ev Now now] /\ o = Done (p, None)) \/
    (cacheTTL p <= Sub now (lastFetch p) /\
     ((exists err, tr = [Ev Now now; Ev GetPricesByZone (Err err)] /\
                   o = Done (p, Some (Wrapf "fetching prices" err))) \/
      (exists pbz now', tr = [Ev Now now; Ev GetPricesByZone (Ok pbz); Ev Now now'] /\
         o = Done (setPrices (priceMap (pickZone (zone p) pbz)) now' p, None)))).
Proof.
  unfold refreshPrices. intros H. run_call H as now. exists now.
  destruct (Sub now (lastFetch p) <? cacheTTL p) eqn:E; bool_hyps.
  - left. run_ret H. done.
  - right. split; [done|]. run_call H as [pbz|err].
    + right. run_call H as now'. run_ret H. eauto.
    + left. run_ret H. eauto.
Qed.

(** C37: The price cache: within the TTL of the last fetch no price call is made
    and nothing changes; after it there is exactly one call, whose failure keeps
    the cached prices and their age, and whose success replaces both. *)
Theorem refreshPrices_cache p tr p' err :
  runs (refreshPrices p) tr (Done (p', err)) ->
  exists now rest, tr = Ev Now now :: rest /\
  (Sub now (lastFetch p) < cacheTTL p -> rest = [] /\ p' = p /\ err = None) /\
  (cacheTTL p <= Sub now (lastFetch p) ->
   (exists e, rest = [Ev GetPricesByZone (Err e)] /\ p' = p /\
              err = Some (Wrapf "fetching prices" e)) \/
   (exists pbz now', rest = [Ev GetPricesByZone (Ok pbz); Ev Now now'] /\ err = None /\
      prices p' = priceMap (pickZone (zone p) pbz) /\ lastFetch p' = now' /\
      instanceTypesByName p' = instanceTypesByName p /\ plansByName p' = plansByName p)).
Proof.
  intros (now & H)%refreshPrices_runs. exists now.
  destruct H as [(? & -> & [= -> ->])|(? & [(e & -> & [= -> ->])|(pbz & now' & -> & [= -> ->])])];
    eexists; (split; [done|]); split; try (intros; lia); intros _; eauto.
  right. exists pbz, now'. done.
Qed.

(** What a finished [Refresh] leaves behind. *)
Lemma Refresh_runs `{!RangeLaws L} p tr o :
  runs (Refresh p) tr o ->
  (exists e, tr = [Ev GetPlans (Err e)] /\ o = Done (p, Some (Wrapf "fetching plans" e))) \/
  (exists plans tr' p1 perr, tr = Ev GetPlans (Ok plans) :: tr' /\
     runs (refreshPrices p) tr' (Done (p1, perr)) /\
     let c := buildCatalogue (zone p1) (prices p1) plans in
     o = Done (setCatalogue c.1 c.2 p1, None)).
Proof.
  unfold Refresh. intros H. run_call H as [plans|e].
  - right. apply runs_bind in H as [([p1 perr] & t1 & t2 & -> & H1 & H2)|(m & H1 & _)].
    + rewrite copyPrices_id in H2. simpl in H2.
      destruct (buildCatalogue (zone p1) (prices p1) plans) as [built raw] eqn:E.
      run_ret H2. rewrite app_nil_r. exists plans, t1, p1, perr. by rewrite E.
    + apply refreshPrices_runs in H1. naive_solver.
  - left. run_ret H. eauto.
Qed.

Lemma refreshPrices_zone p tr p1 perr :
  runs (refreshPrices p) tr (Done (p1, perr)) -> zone p1 = zone p.
Proof. intros (now & H)%refreshPrices_runs. naive_solver. Qed.

(** C19: Refresh either reports the failure of GetPlans and leaves the provider as
    it was, or succeeds (a failing price call included) and the catalogue is then
    exactly the answer: under each name the last plan that bears it, as raw plan
    and as the instance type built from it with the prices held after the fetch. *)
Theorem Refresh_catalogue `{!RangeLaws L} p tr p' err :
  runs (Refresh p) tr (Done (p', err)) ->
  (exists e, tr = [Ev GetPlans (Err e)] /\ p' = p /\ err = Some (Wrapf "fetching plans" e)) \/
  (err = None /\ exists plans tr', tr = Ev GetPlans (Ok plans) :: tr' /\
   forall name,
     Get p' name = lastPlan name plans /\
     instanceTypesByName p' !! name =
       (fun plan => buildInstanceTypeWithPrices (zone p) plan (prices p')) <$> lastPlan name plans).
Proof.
  intros [(e & -> & [= -> ->])|(plans & tr' & p1 & perr & -> & H1 & [= -> ->])]%Refresh_runs;
    [left; eauto|right].
  split; [done|]. exists plans, tr'. split; [done|]. intros name.
  apply refreshPrices_zone in H1. rewrite <-H1. apply buildCatalogue_lookup.
Qed.

Lemma Consistent_catalogue p pricing plans :
  let c := buildCatalogue (zone p) pricing plans in
  Consistent (setCatalogue c.1 c.2 p).
Proof.
  intros c name. unfold c, setCatalogue. cbn [instanceTypesByName plansByName zone].
  destruct (buildCatalogue_lookup (zone p) pricing plans name) as [-> ->].
  destruct (lastPlan name plans) as [plan|] eqn:E; simpl; [|done].
  apply lastPlan_Some in E as [? _]. eauto.
Qed.

Lemma Step_Consistent s1 s2 :
  Step s1 s2 -> Consistent (provider s1) -> Consistent (provider s2).
Proof.
  intros H Hc. destruct H as [| | | |p ts1 ts2 plans pricing built raw E]; try done.
  simpl. pose proof (Consistent_catalogue p pricing plans) as G. by rewrite E in G.
Qed.

(** C18: Whatever refreshes run at the same time and however their critical
    sections interleave, a reader always finds the two maps of the provider in
    agreement: same names, every listed type built from the raw plan kept under
    its name. *)
Theorem Consistent_reachable zone s :
  rtc Step (mkShared (NewProvider zone) []) s -> Consistent (provider s).
Proof.
  intros H. remember (mkShared (NewProvider zone) []) as s0 eqn:E.
  assert (H0 : Consistent (provider s0)) by (subst; intros name; simpl; by rewrite !lookup_empty).
  clear E. induction H as [|s1 s2 s3 H12 H23 IH]; [done|].
  apply IH. by eapply Step_Consistent.
Qed.

(** A refresh that runs alone is one of the interleavings: the provider it
    leaves is reached by its steps, and it leaves nothing in flight. *)
Lemma Refresh_refines_Step `{!RangeLaws L} p tr p' err ts :
  runs (Refresh p) tr (Done (p', err)) ->
  rtc Step (mkShared p ts) (mkShared p' ts).
Proof.
  intros [(e & -> & [= -> ->])|(plans & tr' & p1 & perr & -> & H1 & [= -> ->])]%Refresh_runs; [done|].
  apply rtc_l with (mkShared p (HasPlans plans :: ts)); [constructor|].
  apply rtc_l with (mkShared p1 (HasPrices plans :: ts)).
  { apply refreshPrices_runs in H1 as (now & H1).
    destruct H1 as [(? & -> & [= -> ->])|(? & [(e & -> & [= -> ->])|(pbz & now' & -> & [= -> ->])])].
    1, 2: apply (StepPricesKept p [] ts). apply (StepPricesNew p [] ts). }
  apply rtc_l with (mkShared p1 (HasPricing plans (prices p1) :: ts)).
  { pose proof (StepCopy p1 [] ts plans) as G. by rewrite copyPrices_id in G. }
  apply rtc_once, (StepSwap p1 [] ts plans (prices p1)).
  by destruct (buildCatalogue (zone p1) (prices p1) plans).
Qed.
End InstanceTypes.

(** ** Concrete runs *)

Definition samplePlan : Plan := mkPlan "SPOT-2xCPU-4GB" 2 4096 80 "maxiops" 0 "".
Definition samplePrices : gmap string float64 :=
  {[ "server_plan_SPOT-2xCPU-4GB" := f64_of_Z 3 ]}.
Definition sampleNow : Time := mkTime 1735689600 0 0.
Definition sampleAnswers : handler unit := answering (fun X c =>
  match c in api X return option X with
  | Now => Some sampleNow
  | GetPlans => Some (Ok [samplePlan])
  | GetPricesByZone => Some (Ok {[ "de-fra1" := samplePrices ]})
  | _ => None
  end).

Definition sampleProvider : Provider := NewProvider "fi-hel1".

Lemma capacity_bounds_witness :
  it_Capacity (buildInstanceTypeWithPrices (L := refLibs) "fi-hel1" samplePlan samplePrices)
    !! ResourceMemory = Some (NewQuantity 4294967296 BinarySI).
Proof.
  destruct (capacity_bounds (L := refLibs) "fi-hel1" samplePlan samplePrices) as (_ & H & _);
    [by apply (bool_decide_unpack _); vm_compute ..|].
  exact H.
Defined.

Lemma priceMap_lookup_witness :
  priceMap (L := refLibs) samplePrices !! "SPOT-2xCPU-4GB" = Some (f64_of_Z 3).
Proof.
  destruct (priceMap_lookup (L := refLibs) samplePrices "SPOT-2xCPU-4GB") as (_ & _ & H);
    [reflexivity|].
  rewrite H; [reflexivity|]. intros v w Hv. discriminate Hv.
Defined.

Lemma refreshPrices_cache_witness :
  exists now rest,
    exec_trace sampleAnswers (refreshPrices (L := refLibs) (setPrices ∅ sampleNow sampleProvider)) tt
      = Ev Now now :: rest /\
    (Sub now sampleNow < 30 * Minute -> rest = []).
Proof.
  destruct (refreshPrices_cache (L := refLibs) (setPrices ∅ sampleNow sampleProvider)
    (exec_trace sampleAnswers (refreshPrices (L := refLibs) (setPrices ∅ sampleNow sampleProvider)) tt)
    (setPrices ∅ sampleNow sampleProvider) None) as (now & rest & E & Hin & _);
    [apply exec_done; vm_compute; reflexivity|].
  exists now, rest. split; [exact E|]. intros H. apply (Hin H).
Defined.

(** A successful refresh of the sample provider. *)
Definition sampleRefresh : prog (Provider * option error) := Refresh (L := refLibs) sampleProvider.
Definition refreshed : Provider :=
  match exec_outcome sampleAnswers sampleRefresh tt with
  | Done (p, _) => p
  | Panicked _ => sampleProvider
  end.

Lemma sampleRefresh_done : exec_outcome sampleAnswers sampleRefresh tt = Done (refreshed, None).
Proof. vm_compute. reflexivity. Qed.

Lemma Refresh_catalogue_witness :
  exists plans, Get refreshed "SPOT-2xCPU-4GB" = lastPlan "SPOT-2xCPU-4GB" plans.
Proof.
  destruct (Refresh_catalogue (L := refLibs) sampleProvider _ refreshed None
    (exec_done _ _ _ _ sampleRefresh_done)) as [(e & _ & _ & E)|(_ & plans & tr' & _ & H)].
  - discriminate E.
  - exists plans. apply (H "SPOT-2xCPU-4GB").
Defined.

Example refreshed_plan : Get refreshed "SPOT-2xCPU-4GB" = Some samplePlan.
Proof. vm_compute. reflexivity. Qed.

(** Two refreshes at once: the second gets its plans while the first is under way,
    but is the first to swap its maps in; the first then replaces them by its own. *)
Definition latePlan : Plan := mkPlan "4xCPU-8GB" 4 8192 160 "maxiops" 0 "".
Definition priced : Provider := setPrices (priceMap (L := refLibs) samplePrices) sampleNow sampleProvider.
Definition swapped (plans : list Plan) (p : Provider) : Provider :=
  let c := buildCatalogue (L := refLibs) (zone p) (copyPrices (L := refLibs) (prices priced)) plans in
  setCatalogue c.1 c.2 p.
Definition raced : Provider := swapped [samplePlan] (swapped [latePlan] priced).

Lemma raced_reachable :
  rtc (Step (L := refLibs)) (mkShared (NewProvider "fi-hel1") []) (mkShared raced []).
Proof.
  eapply rtc_l; [apply (StepPlans _ _ [samplePlan])|].
  eapply rtc_l; [apply (StepPlans _ _ [latePlan])|].
  eapply rtc_l; [apply (StepPricesNew sampleProvider [HasPlans [latePlan]] [] [samplePlan]
    {[ "de-fra1" := samplePrices ]} sampleNow)|].
  eapply rtc_l; [apply (StepPricesKept priced [] [HasPrices [samplePlan]])|].
  eapply rtc_l; [apply (StepCopy priced [HasPrices [latePlan]] [])|].
  eapply rtc_l; [apply (StepCopy priced [])|].
  eapply rtc_l; [apply (StepSwap priced []); apply surjective_pairing|].
  apply rtc_once. apply (StepSwap (swapped [latePlan] priced) [] []). apply surjective_pairing.
Qed.

Lemma Consistent_reachable_witness :
  Consistent (L := refLibs) raced /\
  Get raced "SPOT-2xCPU-4GB" = Some samplePlan /\ Get raced "4xCPU-8GB" = None.
Proof.
  split; [|split; vm_compute; reflexivity].
  exact (Consistent_reachable (L := refLibs) "fi-hel1" (mkShared raced []) raced_reachable).
Defined.

Lemma Refresh_refines_Step_witness :
  rtc (Step (L := refLibs)) (mkShared sampleProvider []) (mkShared refreshed []).
Proof.
  apply (Refresh_refines_Step (L := refLibs) sampleProvider _ refreshed None []
    (exec_done _ _ _ _ sampleRefresh_done)).
Defined.

(** When both keys of a plan have a price and the prices differ, the order in
    which the runtime ranges decides which one the plan gets. *)
Definition twoPrices : gmap string float64 :=
  <["1xCPU-1GB" := f64_of_Z 1]> {[ "server_plan_1xCPU-1GB" := f64_of_Z 2 ]}.

Example priceMap_order_matters :
  priceMap (L := refLibs) twoPrices !! "1xCPU-1GB" <>
  priceMap (L := revLibs) twoPrices !! "1xCPU-1GB".
Proof. by vm_compute. Qed.
