(* ===== verification/Instance.v ===== *)
(** * pkg/providers/instance: the UpCloud servers behind the nodes

    instance.go: creating a server from the template, deleting, stopping,
    waiting for and listing servers.  Every method is one or more calls of the
    UpCloud service. *)

From S2P Require Import Prelude GoTime Types Effects Libs.

(** The provider's configuration; its service is the environment. *)
Record InstanceProvider := mkProvider {
  templateUUID : string;
  networkUUID : string;
  clusterID : string;
  clusterName : string;
}.

(** [_, err := ...]: keep the error of a pair. *)
Definition errOf {A} (r : result A) : option error :=
  match r with Ok _ => None | Err e => Some e end.

(** ** Requests *)

(** The four markers [Create] writes into the label map. *)
Definition markLabels (p : InstanceProvider) (hostname : string) (labels : gmap string string)
    : gmap string string :=
  <[v1alpha2.ServerGeneratedNameLabelKey := hostname]>
  (<[v1alpha2.ServerClusterNameLabelKey := clusterName p]>
  (<[v1alpha2.ServerClusterIDLabelKey := clusterID p]>
  (<[v1alpha2.ServerManagedLabelKey := v1alpha2.ServerManagedLabelValue]> labels))).

(** The root disk: a clone of the template, with what [storage] sets. *)
Definition rootDevice (p : InstanceProvider) (hostname : string) (storage : option StorageSpec)
    : CreateServerStorageDevice :=
  let title := hostname +:+ "-root" in
  match storage with
  | None => mkDevice "clone" (templateUUID p) title 0 "" None
  | Some st =>
      mkDevice "clone" (templateUUID p) title
        (if (0 <? Size st)%Z then Size st else 0%Z)
        (if decide (Tier st = "") then "" else Tier st)
        (match Encrypted st with Some b => Some b | None => None end)
  end.

Definition interfaces (p : InstanceProvider) : list CreateServerInterface :=
  [ mkInterface "private" (networkUUID p) ["IPv4"];
    mkInterface "utility" "" ["IPv4"];
    mkInterface "public" "" ["IPv4"] ].

(** isManaged *)
Definition isManaged (s : ServerDetails) : bool :=
  existsb (fun l => bool_decide (lbl_Key l = v1alpha2.ServerManagedLabelKey) &&
                    bool_decide (lbl_Value l = v1alpha2.ServerManagedLabelValue)) (srv_Labels s).

Definition ServerStopTypeHard : string := "hard".
Definition ServerStateStarted : string := "started".
Definition ServerStateStopped : string := "stopped".

Section Instance.
Context `{L : Libs}.

(** The label slice, in the order the runtime ranges over the map. *)
Definition labelSlice (labels : gmap string string) : list Label :=
  foldl (fun slice kv => slice ++ [mkLabel kv.1 kv.2]) [] (range_map labels).

Definition createRequest (p : InstanceProvider)
    (hostname plan zone userData serverGroupUUID : string)
    (labels : gmap string string) (storage : option StorageSpec) : CreateServerRequest :=
  mkCreateServer (labelSlice labels) zone hostname hostname plan serverGroupUUID
    [rootDevice p hostname storage] (interfaces p) userData true.

(** ** Operations *)

(** Create: the result, and the caller's label map afterwards, since the method
    writes its markers into the map it is given unless that is nil. *)
Definition Create (p : InstanceProvider) (hostname plan zone userData serverGroupUUID : string)
    (labels : option (gmap string string)) (storage : option StorageSpec)
    : prog (result ServerDetails * option (gmap string string)) :=
  let marked := markLabels p hostname (entries labels) in
  let! r := call (CreateServer
    (createRequest p hostname plan zone userData serverGroupUUID marked storage)) in
  Ret (r, match labels with None => None | Some _ => Some marked end).

Definition Delete (p : InstanceProvider) (serverUUID : string) : prog (option error) :=
  let! r := call (DeleteServerAndStorages serverUUID) in Ret (errOf r).

Definition Get (p : InstanceProvider) (serverUUID : string) : prog (result ServerDetails) :=
  call (GetServerDetails serverUUID).

(** The loop of List over the servers of the answer, with the result so far. *)
Fixpoint collectManaged (uuids : list string) (result : list ServerDetails)
    : prog (list ServerDetails) :=
  match uuids with
  | [] => Ret result
  | uuid :: rest =>
      let! r := call (GetServerDetails uuid) in
      match r with
      | Err _ => collectManaged rest result
      | Ok details =>
          collectManaged rest (if isManaged details then result ++ [details] else result)
      end
  end.

Definition List (p : InstanceProvider) : prog (result (list ServerDetails)) :=
  let! r := call GetServers in
  match r with
  | Err err => Ret (Err (Wrapf "listing servers" err))
  | Ok uuids => let! servers := collectManaged uuids [] in Ret (Ok servers)
  end.

Definition Stop (p : InstanceProvider) (serverUUID : string) : prog (option error) :=
  let! r := call (StopServer serverUUID ServerStopTypeHard (30 * Second)) in Ret (errOf r).

Definition WaitForStart (p : InstanceProvider) (serverUUID : string) : prog (option error) :=
  let! r := call (WaitForServerState serverUUID ServerStateStarted) in Ret (errOf r).

Definition WaitForStop (p : InstanceProvider) (serverUUID : string) : prog (option error) :=
  let! r := call (WaitForServerState serverUUID ServerStateStopped) in Ret (errOf r).

(** ** Lemmas *)

Lemma labelSlice_perm `{!RangeLaws L} labels :
  labelSlice labels ≡ₚ (fun kv => mkLabel kv.1 kv.2) <$> map_to_list labels.
Proof.
  rewrite <-range_map_perm. unfold labelSlice.
  assert (H : forall l acc, foldl (fun slice (kv : string * string) => slice ++ [mkLabel kv.1 kv.2]) acc l =
    acc ++ ((fun kv => mkLabel kv.1 kv.2) <$> l)).
  { induction l as [|kv l IH]; intros acc; simpl; [by rewrite app_nil_r|].
    by rewrite IH, <-app_assoc. }
  by rewrite H.
Qed.

(** A label is in the slice exactly when the map has it. *)
Lemma labelSlice_elem `{!RangeLaws L} labels k v :
  mkLabel k v ∈ labelSlice labels <-> labels !! k = Some v.
Proof.
  rewrite labelSlice_perm, list_elem_of_fmap. split.
  - intros ([k' v'] & [= -> ->] & H). by apply elem_of_map_to_list.
  - intros H. exists (k, v). split; [done|]. by apply elem_of_map_to_list.
Qed.

Lemma isManaged_elem s :
  isManaged s = true <->
  mkLabel v1alpha2.ServerManagedLabelKey v1alpha2.ServerManagedLabelValue ∈ srv_Labels s.
Proof.
  unfold isManaged. rewrite existsb_true. split.
  - intros ([k v] & H & Hb). bool_hyps. simpl in *. by subst.
  - intros H. eexists. split; [exact H|]. done.
Qed.

Definition markers (p : InstanceProvider) (hostname : string) : list (string * string) :=
  [ (v1alpha2.ServerManagedLabelKey, v1alpha2.ServerManagedLabelValue);
    (v1alpha2.ServerClusterIDLabelKey, clusterID p);
    (v1alpha2.ServerClusterNameLabelKey, clusterName p);
    (v1alpha2.ServerGeneratedNameLabelKey, hostname) ].

Lemma markLabels_lookup p hostname labels k v :
  markLabels p hostname labels !! k = Some v <->
  (k, v) ∈ markers p hostname \/ (k ∉ (markers p hostname).*1 /\ labels !! k = Some v).
Proof.
  unfold markLabels, markers. cbn [fmap list_fmap fst].
  rewrite !not_elem_of_cons, !elem_of_cons, !pair_equal_spec.
  assert (Hk : k ∉ []) by apply not_elem_of_nil.
  assert (Hkv : (k, v) ∈ [] <-> False) by (split; [apply not_elem_of_nil|done]).
  rewrite Hkv. clear Hkv.
  repeat match goal with
  | |- context [<[?i := _]> _ !! k] =>
      destruct (decide (k = i)) as [->|?];
        [rewrite lookup_insert_eq; naive_solver|rewrite (lookup_insert_ne _ i) by done]
  end.
  naive_solver.
Qed.

Lemma markLabels_managed p hostname labels :
  markLabels p hostname labels !! v1alpha2.ServerManagedLabelKey =
  Some v1alpha2.ServerManagedLabelValue.
Proof. apply markLabels_lookup. left. apply elem_of_cons. by left. Qed.

(** What List keeps of the answers to its details calls. *)
Definition kept (answers : list (result ServerDetails)) : list ServerDetails :=
  List.filter isManaged (omap (fun r => match r with Ok d => Some d | Err _ => None end) answers).

Lemma kept_Ok d answers :
  kept (Ok d :: answers) = (if isManaged d then [d] else []) ++ kept answers.
Proof. unfold kept. simpl. by destruct (isManaged d). Qed.

Lemma kept_Err e answers : kept (Err e :: answers) = kept answers.
Proof. done. Qed.

Lemma collectManaged_runs uuids acc tr o :
  runs (collectManaged uuids acc) tr o <->
  exists answers, length answers = length uuids /\
    tr = zip_with (fun uuid r => Ev (GetServerDetails uuid) r) uuids answers /\
    o = Done (acc ++ kept answers).
Proof.
  revert acc tr. induction uuids as [|uuid uuids IH]; intros acc tr; simpl.
  - split.
    + intros [-> ->]. exists []. by rewrite app_nil_r.
    + intros ([|] & ? & -> & ->); [|done]. by rewrite app_nil_r.
  - split.
    + intros (r & tr' & -> & H). destruct r as [d|e];
        apply IH in H as (answers & Hl & -> & ->); [exists (Ok d :: answers)|exists (Err e :: answers)];
        simpl; rewrite Hl, ?kept_Ok, ?kept_Err; split_and!; try done.
      destruct (isManaged d); [by rewrite <-app_assoc|done].
    + intros ([|r answers] & Hl & -> & ->); [done|]. injection Hl as Hl.
      exists r. eexists. split; [done|]. destruct r as [d|e]; apply IH; exists answers;
        rewrite ?kept_Ok, ?kept_Err; split_and!; try done.
      destruct (isManaged d); [by rewrite <-app_assoc|done].
Qed.

(** ** Properties *)

(** Create makes one CreateServer call and returns its answer.  The request
    carries exactly one label per key: the four markers of this cluster and
    hostname, which win over the caller's labels, and the caller's other labels;
    so a server that gets the requested labels is one List recognises. *)
Lemma Create_request `{!RangeLaws L} p hostname plan zone userData group labels storage tr o :
  runs (Create p hostname plan zone userData group labels storage) tr o ->
  exists req answer,
    tr = [Ev (CreateServer req) answer] /\
    o = Done (answer, markLabels p hostname <$> labels) /\
    NoDup (lbl_Key <$> cs_Labels req) /\
    (forall k v, mkLabel k v ∈ cs_Labels req <->
      (k, v) ∈ markers p hostname \/
      (k ∉ (markers p hostname).*1 /\ entries labels !! k = Some v)) /\
    (forall s, srv_Labels s ≡ₚ cs_Labels req -> isManaged s = true).
Proof.
  intros H. unfold Create in H. run_call H as answer. run_ret H.
  eexists _, answer. split; [done|]. split; [by destruct labels|]. cbn [cs_Labels createRequest].
  assert (Hkeys : lbl_Key <$> labelSlice (markLabels p hostname (entries labels)) ≡ₚ
    (map_to_list (markLabels p hostname (entries labels))).*1).
  { by rewrite labelSlice_perm, <-list_fmap_compose. }
  split_and!.
  - rewrite Hkeys. apply NoDup_fst_map_to_list.
  - intros k v. by rewrite labelSlice_elem, markLabels_lookup.
  - intros s Hs. apply isManaged_elem. rewrite Hs, labelSlice_elem. apply markLabels_managed.
Qed.

(** The root disk is always one clone of the template, titled after the
    host; size, tier and encryption are requested exactly when the storage spec
    sets them (a size at or below zero and an empty tier count as unset). *)
Lemma rootDevice_storage p hostname plan zone userData group labels storage :
  let req := createRequest p hostname plan zone userData group labels storage in
  exists device, cs_StorageDevices req = [device] /\
    dev_Action device = "clone" /\ dev_Storage device = templateUUID p /\
    dev_Title device = hostname +:+ "-root" /\
    dev_Size device = Z.max 0 (from_option Size 0%Z storage) /\
    dev_Tier device = from_option Tier "" storage /\
    dev_Encrypted device = (storage ≫= Encrypted).
Proof.
  eexists. split; [done|]. unfold rootDevice. destruct storage as [st|]; simpl; [|done].
  split_and!; try done.
  - destruct (Z.ltb_spec 0 (Size st)); lia.
  - by case_decide.
  - by destruct (Encrypted st).
Qed.

(** List asks for the server list once and for the details of each server
    once, in order; it fails only if the list call fails, and otherwise returns,
    in the same order, every server whose details came back and carry the
    managed label, and no other. *)
Lemma List_managed p tr o :
  runs (List p) tr o ->
  (exists e, tr = [Ev GetServers (Err e)] /\ o = Done (Err (Wrapf "listing servers" e))) \/
  (exists uuids answers, length answers = length uuids /\
    tr = Ev GetServers (Ok uuids) ::
         zip_with (fun uuid r => Ev (GetServerDetails uuid) r) uuids answers /\
    o = Done (Ok (kept answers)) /\
    forall s, s ∈ kept answers <->
      Ok s ∈ answers /\
      mkLabel v1alpha2.ServerManagedLabelKey v1alpha2.ServerManagedLabelValue ∈ srv_Labels s).
Proof.
  unfold List. intros H. run_call H as [uuids|e]; [right|left; run_ret H; eauto].
  apply runs_bind in H as [(servers & t1 & t2 & -> & H1 & H2)|(m & H1 & _)].
  - apply collectManaged_runs in H1 as (answers & Hl & -> & [= ->]). run_ret H2.
    exists uuids, answers. rewrite app_nil_r. split_and!; try done.
    intros s. unfold kept. rewrite list_elem_of_In, filter_In, <-list_elem_of_In, list_elem_of_omap.
    rewrite isManaged_elem. split.
    + intros [([d|e] & Hin & Hd) Hm]; [|done]. simplify_eq. done.
    + intros [Hin Hm]. split; [|done]. by exists (Ok s).
  - apply collectManaged_runs in H1 as (answers & _ & _ & ?). done.
Qed.
End Instance.

(** ** Concrete runs *)

Definition sampleInstances : InstanceProvider := mkProvider "tmpl" "net" "c-1" "prod".
Definition sampleServer : ServerDetails :=
  mkServer "uuid-1" "node-1" "2xCPU-4GB" 2 4096 "fi-hel1"
    [mkLabel v1alpha2.ServerManagedLabelKey v1alpha2.ServerManagedLabelValue].
Definition instanceAnswers : handler unit := answering (fun X c =>
  match c in api X return option X with
  | GetServers => Some (Ok ["uuid-1"; "uuid-2"])
  | GetServerDetails uuid =>
      if decide (uuid = "uuid-1") then Some (Ok sampleServer) else None
  | CreateServer _ => Some (Ok sampleServer)
  | _ => None
  end).

Lemma Create_request_witness :
  exists req answer,
    exec_trace instanceAnswers (Create (L := refLibs) sampleInstances "node-1" "2xCPU-4GB" "fi-hel1"
      "" "" (Some {[ "managed_by" := "me" ]}) None) tt = [Ev (CreateServer req) answer] /\
    mkLabel "managed_by" "karpenter" ∈ cs_Labels req.
Proof.
  destruct (Create_request (L := refLibs) sampleInstances "node-1" "2xCPU-4GB" "fi-hel1" "" ""
    (Some {[ "managed_by" := "me" ]}) None _ _ (exec_runs instanceAnswers _ tt))
    as (req & answer & Ht & _ & _ & Hl & _).
  exists req, answer. split; [exact Ht|]. apply Hl. left. apply elem_of_cons. left. reflexivity.
Defined.

Lemma List_managed_witness :
  exists (uuids : list string) (answers : list (result ServerDetails)),
    exec_outcome instanceAnswers (List sampleInstances) tt = Done (Ok (kept answers)) /\
    length uuids = length answers.
Proof.
  destruct (List_managed sampleInstances _ _ (exec_runs instanceAnswers _ tt))
    as [(e & _ & E)|(uuids & answers & Hl & _ & E & _)].
  - vm_compute in E. discriminate E.
  - exists uuids, answers. split; [exact E|symmetry; exact Hl].
Defined.

(** A server whose details call fails is left out of the list. *)
Example List_drops_failed :
  exec_outcome instanceAnswers (List sampleInstances) tt = Done (Ok [sampleServer]).
Proof. vm_compute. reflexivity. Qed.
