(* ===== verification/KubeletCert.v ===== *)
(** * pkg/cloudprovider/helpers.go: the cluster's CA and a node's certificate

    getCABundle reads the CA from its ConfigMap.  generateKubeletCert makes a
    key, has a certificate request for the node signed by the cluster, approving
    it itself when nobody has decided yet, and waits for the certificate.  The
    timestamps of the approval condition are not modelled. *)

From S2P Require Import Prelude GoStrings GoBase64 GoTime Types Effects Libs.

(** ** encoding/pem *)

(** The line breaker: pieces of 64 bytes, the rest last, each ended by a line
    feed; [n] bounds the number of pieces. *)
Fixpoint pem_lines (n : nat) (s : string) : list string :=
  match n, s with
  | O, _ | _, EmptyString => []
  | S n, _ => String.substring 0 64 s :: pem_lines n (String.substring 64 (String.length s - 64) s)
  end.

Definition pem_body (data : string) : list string :=
  pem_lines (String.length (EncodeToString data)) (EncodeToString data).

(** [pem.EncodeToMemory] of a block without headers. *)
Definition EncodeToMemory (ty bytes : string) : string :=
  "-----BEGIN " +:+ ty +:+ "-----" +:+ LF +:+
  foldr (fun line rest => line +:+ LF +:+ rest)
    ("-----END " +:+ ty +:+ "-----" +:+ LF) (pem_body bytes).

(** ** getCABundle *)

Definition getCABundle : prog (result string) :=
  let? cm := call (GetConfigMap "kube-system" "kube-root-ca.crt")
    or Wrapf "getting kube-root-ca.crt" in
  match entries (cm_Data cm) !! "ca.crt" with
  | None => Ret (Err (Errorf "ca.crt not found in kube-root-ca.crt"))
  | Some caCert => Ret (Ok caCert)
  end.

(** ** generateKubeletCert *)

Record kubeletCertBundle := mkBundle { ClientCertPEM : string; ClientKeyPEM : string }.

Definition CertificateApproved : string := "Approved".
Definition CertificateDenied : string := "Denied".
Definition KubeAPIServerClientKubeletSignerName : string :=
  "kubernetes.io/kube-apiserver-client-kubelet".

Definition csrNameOf (nodeName : string) : string := "kubelet-" +:+ nodeName.

Definition nodeCSR (nodeName csrPEM : string) : CertificateSigningRequest :=
  mkCSR (csrNameOf nodeName) csrPEM KubeAPIServerClientKubeletSignerName
    ["digital signature"; "key encipherment"; "client auth"] [] "".

(** The loop over the conditions for one type. *)
Definition hasCondition (ty : string) (csr : CertificateSigningRequest) : bool :=
  existsb (fun c => bool_decide (cond_Type c = ty)) (csr_Conditions csr).

Definition approvalCondition : Condition :=
  mkCondition CertificateApproved "True" "KarpenterAutoApproved"
    "Auto-approved by Karpenter UpCloud provider" 0.

Definition withApproval (csr : CertificateSigningRequest) : CertificateSigningRequest :=
  mkCSR (csr_Name csr) (csr_Request csr) (csr_SignerName csr) (csr_Usages csr)
    (csr_Conditions csr ++ [approvalCondition]) (csr_Certificate csr).

(** The polled condition, with the captured [signedCert]. *)
Definition certIssued (csrName : string) (signedCert : string) : prog (result bool * string) :=
  let! r := call (CsrGet csrName) in
  match r with
  | Err err => Ret (Err err, signedCert)
  | Ok updated =>
      if (0 <? String.length (csr_Certificate updated))%nat
      then Ret (Ok true, csr_Certificate updated) else Ret (Ok false, signedCert)
  end.

Section KubeletCert.
Context `{L : Libs}.

(** From the decision on: approve unless approved, then wait for the signature. *)
Definition awaitCert (csrName keyPEM : string) : prog (result kubeletCertBundle) :=
  let! polled := PollUntilContextTimeout (2 * Second) (90 * Second) true (certIssued csrName) "" in
  let '(pollErr, signedCert) := polled in
  match pollErr with
  | Some err => Ret (Err (Wrapf ("waiting for CSR " +:+ csrName +:+ " to be signed") err))
  | None => Ret (Ok (mkBundle signedCert keyPEM))
  end.

Definition approve (csrName : string) (fresh : CertificateSigningRequest) : prog (result unit) :=
  if hasCondition CertificateApproved fresh then Ret (Ok tt) else
  let? _ := call (CsrUpdateApproval csrName (withApproval fresh)) or Wrapf "approving CSR" in
  Ret (Ok tt).

Definition generateKubeletCert (nodeName : string) : prog (result kubeletCertBundle) :=
  let? key := call (GenerateKey 2048) or Wrapf "generating RSA key" in
  let keyPEM := EncodeToMemory "RSA PRIVATE KEY" (MarshalPKCS1PrivateKey key) in
  let? csrDER := call (CreateCertificateRequest ("system:node:" +:+ nodeName) ["system:nodes"] key)
    or Wrapf "creating CSR" in
  let csrPEM := EncodeToMemory "CERTIFICATE REQUEST" csrDER in
  let csrName := csrNameOf nodeName in
  let? _ := call (CsrCreate (nodeCSR nodeName csrPEM)) or Wrapf "creating CSR" in
  let? fresh := call (CsrGet csrName) or Wrapf "getting CSR for approval" in
  if hasCondition CertificateDenied fresh
  then Ret (Err (Errorf ("CSR " +:+ csrName +:+ " was denied"))) else
  let? _ := approve csrName fresh or id in
  awaitCert csrName keyPEM.

(** ** What a trace shows *)

(** The approvals sent, with the name they are sent under. *)
Definition approvalOf (e : event) : option (string * CertificateSigningRequest) :=
  match e with Ev c _ => match c with CsrUpdateApproval n csr => Some (n, csr) | _ => None end end.
(** The certificate requests submitted. *)
Definition createdCSR (e : event) : option CertificateSigningRequest :=
  match e with Ev c _ => match c with CsrCreate csr => Some csr | _ => None end end.
(** The answers to reading the request back. *)
Definition csrAnswer (e : event) : option (result CertificateSigningRequest) :=
  match e with
  | Ev c r => match c in api X return X -> option (result CertificateSigningRequest) with
              | CsrGet _ => Some
              | _ => fun _ => None
              end r
  end.

(** ** Lemmas *)

Definition isCsrGet (name : string) (e : event) : Prop := exists r, e = Ev (CsrGet name) r.

Lemma polls_no_approval name tr :
  Forall (isCsrGet name) tr -> omap approvalOf tr = [] /\ omap createdCSR tr = [].
Proof. induction 1 as [|e tr [r ->] _ IH]; [done|]. exact IH. Qed.

Lemma certIssued_runs name s tr o :
  runs (certIssued name s) tr o ->
  exists r, tr = [Ev (CsrGet name) r] /\
    match r with
    | Err e => o = Done (Err e, s)
    | Ok csr => if decide (csr_Certificate csr = "") then o = Done (Ok false, s)
                else o = Done (Ok true, csr_Certificate csr)
    end.
Proof.
  intros H. unfold certIssued in H. run_call H as [csr|e]; [exists (Ok csr)|exists (Err e)].
  - destruct (csr_Certificate csr) as [|c cert] eqn:E; simpl in H; run_ret H;
      (split; [done|]); by case_decide.
  - run_ret H. done.
Qed.

Lemma poll_certIssued name n timeout s tr o :
  runs (poll_n n timeout (certIssued name) s) tr o ->
  Forall (isCsrGet name) tr /\
  exists err cert, o = Done (err, cert) /\
    (err = None -> cert <> "" /\
      exists csr pre, tr = pre ++ [Ev (CsrGet name) (Ok csr)] /\ csr_Certificate csr = cert).
Proof.
  revert s tr. induction n as [|n IH]; intros s tr H; cbn [poll_n] in H.
  - destruct H as [-> ->]. split; [constructor|]. by eexists _, _.
  - apply runs_bind in H as [([rb s'] & t1 & t2 & -> & H1 & H2)|(m & H1 & _)].
    + apply certIssued_runs in H1 as (r & -> & Hr).
      destruct r as [csr|e]; [destruct (decide (csr_Certificate csr = "")) as [Ec|Ec]|];
        simplify_eq; simpl.
      * apply IH in H2 as (Hf & err & cert & -> & Hn).
        split; [constructor; [by eexists|done]|]. exists err, cert. split; [done|].
        intros He. destruct (Hn He) as (? & csr' & pre & -> & ?). split; [done|].
        by exists csr', (Ev (CsrGet name) (Ok csr) :: pre).
      * run_ret H2. split; [repeat constructor; by eexists|]. eexists _, _. split; [done|].
        intros _. split; [done|]. by exists csr, [].
      * run_ret H2. split; [repeat constructor; by eexists|]. by eexists _, _.
    + apply certIssued_runs in H1 as ([csr|e] & _ & Hr); [by case_decide|done].
Qed.

Lemma awaitCert_runs `{!PollLaws L} name keyPEM tr o :
  runs (awaitCert name keyPEM) tr o ->
  Forall (isCsrGet name) tr /\
  exists r, o = Done r /\ forall b, r = Ok b ->
    ClientKeyPEM b = keyPEM /\ ClientCertPEM b <> "" /\
    exists csr pre, tr = pre ++ [Ev (CsrGet name) (Ok csr)] /\ csr_Certificate csr = ClientCertPEM b.
Proof.
  unfold awaitCert. intros H.
  destruct (Poll_spec string (2 * Second) (90 * Second) (certIssued name) "") as (n & timeout & E).
  rewrite E in H. apply runs_bind in H as [([err cert] & t1 & t2 & -> & H1 & H2)|(m & H1 & _)].
  - apply poll_certIssued in H1 as (Hf & err' & cert' & [= <- <-] & Hn).
    destruct err as [e|]; run_ret H2; rewrite app_nil_r; (split; [done|]); eexists; (split; [done|]).
    + done.
    + intros b [= <-]. simpl. destruct (Hn eq_refl) as (? & csr & pre & ? & ?). eauto.
  - apply poll_certIssued in H1 as (_ & ? & ? & ? & _). done.
Qed.

Lemma approve_runs name fresh tr o :
  runs (approve name fresh) tr o ->
  omap csrAnswer tr = [] /\ omap createdCSR tr = [] /\
  omap approvalOf tr =
    (if hasCondition CertificateApproved fresh then [] else [(name, withApproval fresh)]) /\
  exists r, o = Done r.
Proof.
  unfold approve. intros H. destruct (hasCondition CertificateApproved fresh).
  - run_ret H. eauto.
  - run_call H as [u|e]; run_ret H; eauto.
Qed.

(** The executions of [generateKubeletCert]: an early failure, a denial, or
    the key with the outcome of approval and polling. *)
Lemma generateKubeletCert_runs nodeName tr o :
  runs (generateKubeletCert nodeName) tr o ->
  (exists e, o = Done (Err e) /\ omap approvalOf tr = [] /\
     forall a, a ∈ omap csrAnswer tr -> is_Ok a = false) \/
  (exists key der csr fresh rest,
     tr = Ev (GenerateKey 2048) (Ok key) ::
       Ev (CreateCertificateRequest ("system:node:" +:+ nodeName) ["system:nodes"] key) (Ok der) ::
       Ev (CsrCreate (nodeCSR nodeName (EncodeToMemory "CERTIFICATE REQUEST" der))) (Ok csr) ::
       Ev (CsrGet (csrNameOf nodeName)) (Ok fresh) :: rest /\
     if hasCondition CertificateDenied fresh
     then rest = [] /\ o = Done (Err (Errorf ("CSR " +:+ csrNameOf nodeName +:+ " was denied")))
     else runs (let? _ := approve (csrNameOf nodeName) fresh or id in
                awaitCert (csrNameOf nodeName)
                  (EncodeToMemory "RSA PRIVATE KEY" (MarshalPKCS1PrivateKey key))) rest o).
Proof.
  unfold generateKubeletCert. intros H.
  run_call H as [key|e]; [|left; run_ret H; set_solver].
  run_call H as [der|e]; [|left; run_ret H; set_solver].
  run_call H as [csr|e]; [|left; run_ret H; set_solver].
  run_call H as [fresh|e].
  - right. eexists key, der, csr, fresh, _. split; [done|].
    destruct (hasCondition CertificateDenied fresh); [run_ret H; done|exact H].
  - left. run_ret H. exists (Wrapf "getting CSR for approval" e). split_and!; [done|done|].
    intros a. simpl. by intros ->%list_elem_of_singleton.
Qed.
(** The flow after an undenied request, call by call. *)
Lemma approve_await_runs `{!PollLaws L} name fresh keyPEM tr o :
  runs (let? _ := approve name fresh or id in awaitCert name keyPEM) tr o ->
  omap createdCSR tr = [] /\
  omap approvalOf tr =
    (if hasCondition CertificateApproved fresh then [] else [(name, withApproval fresh)]) /\
  exists r, o = Done r /\ forall b, r = Ok b ->
    ClientKeyPEM b = keyPEM /\ ClientCertPEM b <> "" /\
    exists csr pre, tr = pre ++ [Ev (CsrGet name) (Ok csr)] /\ csr_Certificate csr = ClientCertPEM b.
Proof.
  unfold bindE. intros [(a & t1 & t2 & -> & H1 & H2)|(m & H1 & _)]%runs_bind;
    apply approve_runs in H1 as (Hg & Hc & Ha & r & [= <-]).
  rewrite !omap_app, Hc, Ha. destruct a as [u|e].
  - apply awaitCert_runs in H2 as (Hp & r & -> & Hr).
    destruct (polls_no_approval _ _ Hp) as [-> ->].
    split_and!; [done|by rewrite app_nil_r|]. exists r. split; [done|]. intros b Hb.
    destruct (Hr b Hb) as (? & ? & csr & pre & -> & ?). rewrite app_assoc. eauto 10.
  - run_ret H2. rewrite !app_nil_r. split_and!; [done|done|]. by eexists.
Qed.

(** ** Properties *)

(** C17: The decision of others is respected: the request is approved by the
    provider exactly when reading it back shows neither an approval nor a denial,
    and then once, under its name, by appending the approval condition to what
    was read.  A denied request is reported as an error, without approval and
    without waiting, and so is a request that cannot be read back. *)
Theorem generateKubeletCert_approval `{!PollLaws L} nodeName tr o :
  runs (generateKubeletCert nodeName) tr o ->
  exists r, o = Done r /\
  match omap csrAnswer tr with
  | Ok fresh :: later =>
      omap approvalOf tr =
        (if hasCondition CertificateDenied fresh || hasCondition CertificateApproved fresh
         then [] else [(csrNameOf nodeName, withApproval fresh)]) /\
      (hasCondition CertificateDenied fresh = true -> later = [] /\
         r = Err (Errorf ("CSR " +:+ csrNameOf nodeName +:+ " was denied")))
  | _ => omap approvalOf tr = [] /\ is_Ok r = false
  end.
Proof.
  intros [(e & -> & Ha & Hn)|(key & der & csr & fresh & rest & -> & H)]%generateKubeletCert_runs.
  - eexists. split; [done|]. destruct (omap csrAnswer tr) as [|[a|e'] l]; [done| |done].
    by specialize (Hn (Ok a) (list_elem_of_here _ _)).
  - cbn [omap list_omap approvalOf csrAnswer].
    destruct (hasCondition CertificateDenied fresh) eqn:Ed; simpl.
    + destruct H as [-> ->]. eexists. split; [done|]. done.
    + apply approve_await_runs in H as (_ & Ha & r & -> & _).
      exists r. split; [done|]. by rewrite Ha.
Qed.

(** C33: A certificate bundle is only returned for a request this call submitted:
    one, for the node's own user and the kubelet signer, made with a fresh key;
    the bundle holds that key in PEM form and a non-empty certificate that the
    cluster put on that request, as the last read of it under its name showed. *)
Theorem generateKubeletCert_issued `{!PollLaws L} nodeName tr b :
  runs (generateKubeletCert nodeName) tr (Done (Ok b)) ->
  exists key der created csr mid,
    let sent := nodeCSR nodeName (EncodeToMemory "CERTIFICATE REQUEST" der) in
    tr = [Ev (GenerateKey 2048) (Ok key);
          Ev (CreateCertificateRequest ("system:node:" +:+ nodeName) ["system:nodes"] key) (Ok der);
          Ev (CsrCreate sent) (Ok created)] ++ mid ++ [Ev (CsrGet (csr_Name sent)) (Ok csr)] /\
    omap createdCSR tr = [sent] /\
    ClientKeyPEM b = EncodeToMemory "RSA PRIVATE KEY" (MarshalPKCS1PrivateKey key) /\
    ClientCertPEM b <> "" /\ ClientCertPEM b = csr_Certificate csr.
Proof.
  intros [(e & [=] & _)|(key & der & created & fresh & rest & -> & H)]%generateKubeletCert_runs.
  destruct (hasCondition CertificateDenied fresh); [by destruct H as [_ [=]]|].
  apply approve_await_runs in H as (Hc & _ & r & [= <-] & Hr).
  destruct (Hr b eq_refl) as (Hk & Hne & csr & pre & Htr & Hcert).
  exists key, der, created, csr, (Ev (CsrGet (csrNameOf nodeName)) (Ok fresh) :: pre).
  cbv zeta. cbn [omap list_omap createdCSR]. rewrite Hc. split_and!; try done. by rewrite Htr.
Qed.
End KubeletCert.

(** ** Concrete runs *)

(** A cluster that signs what is approved; its state is the stored request. *)
Definition signingCluster : handler (option CertificateSigningRequest) := fun X c =>
  match c in api X return option CertificateSigningRequest -> X * option CertificateSigningRequest with
  | GenerateKey _ => fun w => (Ok "key", w)
  | CreateCertificateRequest _ _ _ => fun w => (Ok "der", w)
  | CsrCreate csr => fun _ => (Ok csr, Some csr)
  | CsrGet n => fun w => (match w with Some csr => Ok csr | None => Err (Errorf "not found") end, w)
  | CsrUpdateApproval n csr => fun _ =>
      let signed := mkCSR (csr_Name csr) (csr_Request csr) (csr_SignerName csr) (csr_Usages csr)
        (csr_Conditions csr) "CERT" in (Ok signed, Some signed)
  | c => fun w => (unavailable c, w)
  end.

Definition sampleBundle : kubeletCertBundle :=
  mkBundle "CERT" (EncodeToMemory "RSA PRIVATE KEY" "key").

Lemma sampleBundle_done :
  exec_outcome signingCluster (generateKubeletCert (L := refLibs) "n1") None = Done (Ok sampleBundle).
Proof. vm_compute. reflexivity. Qed.

Lemma generateKubeletCert_approval_witness :
  exists r, exec_outcome signingCluster (generateKubeletCert (L := refLibs) "n1") None = Done r /\
    length (omap approvalOf (exec_trace signingCluster (generateKubeletCert (L := refLibs) "n1") None)) = 1.
Proof.
  destruct (generateKubeletCert_approval (L := refLibs) "n1" _ _ (exec_runs signingCluster _ None))
    as (r & E & _).
  exists r. split; [exact E|]. vm_compute. reflexivity.
Defined.

Lemma generateKubeletCert_issued_witness :
  ClientCertPEM sampleBundle <> "" /\
  exists key csr mid, exec_trace signingCluster (generateKubeletCert (L := refLibs) "n1") None =
    Ev (GenerateKey 2048) (Ok key) :: mid ++ [Ev (CsrGet "kubelet-n1") (Ok csr)].
Proof.
  destruct (generateKubeletCert_issued (L := refLibs) "n1" _ sampleBundle
    (exec_done _ _ _ _ sampleBundle_done)) as (key & der & created & csr & mid & E & _ & _ & H & _).
  split; [exact H|]. exists key, csr. eexists (_ :: _ :: mid). exact E.
Defined.
