(* ===== verification/CloudProvider.v ===== *)
(** * pkg/cloudprovider/cloudprovider.go and pkg/events: what Karpenter calls

    The methods of the cloud provider: Create, Delete, Get, List, IsDrifted and
    the constant ones, with the event IsDrifted reports.  The clients and the
    recorder are the environment. *)

From S2P Require Import Prelude GoInt GoStrings GoTime Types Effects Libs Util NodeClass.
From S2P Require Import UserData InstanceTypes Instance KubeletCert.

Local Open Scope Z_scope.

(** ** State *)

Record UpCloudCloudProvider := mkCloudProvider {
  cp_instanceProvider : InstanceProvider;
  cp_instanceTypeProvider : InstanceTypes.Provider;
  cp_zone : string;
  cp_clusterEndpoint : string;
  cp_repairToleration : Z;
}.

Definition NewCloudProvider (instanceProvider : InstanceProvider)
    (instanceTypeProvider : InstanceTypes.Provider) (zone clusterEndpoint : string)
    (repairToleration : Z) : UpCloudCloudProvider :=
  mkCloudProvider instanceProvider instanceTypeProvider zone clusterEndpoint repairToleration.

(** ** Events *)

Definition EventTypeWarning : string := "Warning".

Definition NodeClaimFailedToResolveNodeClass (nodeClaim : NodeClaim) : Event :=
  mkEvent nodeClaim EventTypeWarning "NodeClaimFailedToResolveNodeClass"
    "Failed to resolve the UpCloudNodeClass for this NodeClaim; drift is not evaluated until the NodeClass exists again."
    [UID (claim_Meta nodeClaim); "NodeClassUnresolvable"].

(** ** Pieces of Create *)

(** [s[:16]]: nothing when the bounds are out of range. *)
Definition slice16 (s : string) : option string :=
  if (16 <=? String.length s)%nat then Some (String.substring 0 16 s) else None.

(** instanceTypeRequirement *)
Definition instanceTypeRequirement (nc : NodeClaim) : option NodeSelectorRequirement :=
  find (fun r => bool_decide (req_Key r = LabelInstanceTypeStable))
    (Claim_Requirements (claim_Spec nc)).

(** The plan: the first value of that requirement, else the NodeClass's. *)
Definition selectedPlan (nodeClass : UpCloudNodeClass) (nodeClaim : NodeClaim) : string :=
  match instanceTypeRequirement nodeClaim with
  | Some req => match req_Values req with v :: _ => v | [] => Spec_Plan (nc_Spec nodeClass) end
  | None => Spec_Plan (nc_Spec nodeClass)
  end.

(** karpv1.UnregisteredNoExecuteTaint *)
Definition UnregisteredNoExecuteTaint : Taint :=
  mkTaint "karpenter.sh/unregistered" "" TaintEffectNoExecute.

(** The disk to ask for: a plan with bundled storage overrides size and tier. *)
Definition effectiveStorage (planInfo : option Plan) (storage : option StorageSpec)
    : option StorageSpec :=
  match planInfo with
  | Some planInfo =>
      if 0 <? plan_StorageSize planInfo then
        let encrypted := match storage with Some st => Encrypted st | None => None end in
        Some (mkStorage (plan_StorageSize planInfo) "" encrypted)
      else storage
  | None => storage
  end.

(** The resource list of a server, as Create and buildNodeClaim fill it in. *)
Definition serverCapacity (server : ServerDetails) : gmap string Quantity :=
  <[ResourcePods := NewQuantity 110 DecimalSI]>
  (<[ResourceMemory := NewQuantity (wrap64 (wrap64 (srv_MemoryAmount server * 1024) * 1024)) BinarySI]>
  {[ ResourceCPU := NewQuantity (srv_CoreNumber server) DecimalSI ]}).

Section CloudProvider.
Context `{L : Libs}.

(** resolveNodeClass *)
Definition resolveNodeClass (nodeClaim : NodeClaim) : prog (result UpCloudNodeClass) :=
  match Claim_NodeClassRef (claim_Spec nodeClaim) with
  | None => Ret (Err (NewNotFound v1alpha2.Group "upcloudnodeclasses" ""))
  | Some ref => call (GetNodeClass (ref_Name ref))
  end.

Definition baseLabels (zone plan : string) : gmap string string := list_to_map [
  ("topology.kubernetes.io/region", zone);
  ("topology.kubernetes.io/zone", zone);
  ("failure-domain.beta.kubernetes.io/region", zone);
  ("failure-domain.beta.kubernetes.io/zone", zone);
  (LabelInstanceTypeStable, plan);
  (LabelArchStable, "amd64");
  (LabelOSStable, "linux");
  (CapacityTypeLabelKey, capacityTypeOf plan) ].

Definition nodeLabelsOf (zone plan : string) (nodeClass : UpCloudNodeClass) (nodeClaim : NodeClaim)
    : gmap string string :=
  lo_Assign [Some (baseLabels zone plan); Spec_Labels (nc_Spec nodeClass);
             Labels (claim_Meta nodeClaim)].

Definition taintsOf (nodeClass : UpCloudNodeClass) (nodeClaim : NodeClaim) : list Taint :=
  [UnregisteredNoExecuteTaint] ++
  lo_Map (elems (Spec_Taints (nc_Spec nodeClass)))
    (fun t _ => mkTaint (kt_Key t) (kt_Value t) (kt_Effect t)) ++
  Claim_Taints (claim_Spec nodeClaim).

(** The options handed to the user-data provider. *)
Definition userDataOptions (p : UpCloudCloudProvider) (nodeClass : UpCloudNodeClass)
    (nodeClaim : NodeClaim) (caCertPEM : string) (certs : kubeletCertBundle) : Options :=
  mkOptions (cp_clusterEndpoint p) caCertPEM (ClientCertPEM certs) (ClientKeyPEM certs)
    (Some (nodeLabelsOf (cp_zone p) (selectedPlan nodeClass nodeClaim) nodeClass nodeClaim))
    (taintsOf nodeClass nodeClaim).

(** The NodeClaim Create returns for a new server. *)
Definition createdClaim (p : UpCloudCloudProvider) (nodeClass : UpCloudNodeClass)
    (nodeClaim : NodeClaim) (refName serverName : string) (server : ServerDetails) : NodeClaim :=
  let plan := selectedPlan nodeClass nodeClaim in
  mkClaim
    (mkMeta serverName "" (Some (nodeLabelsOf (cp_zone p) plan nodeClass nodeClaim))
       (Some (<[v1alpha2.NodeClassHashAnnotationKey := Hash nodeClass]>
              {[ v1alpha2.NodeClassHashVersionAnnotationKey := v1alpha2.NodeClassHashVersion ]}))
       [] None zeroTime [] 0)
    (mkClaimSpec (Some (mkRef "" refName "")) [] [])
    (mkClaimStatus (v1alpha2.ProviderIDPrefix +:+ srv_UUID server) (srv_Hostname server)
       (serverCapacity server) (serverCapacity server) []).

(** ** Create *)

(** Create from the resolved NodeClass on. *)
Definition provision (p : UpCloudCloudProvider) (nodeClass : UpCloudNodeClass)
    (nodeClaim : NodeClaim) (refName : string) : prog (result NodeClaim) :=
  let! uuid := call NewUUID in
  match slice16 (ReplaceAll uuid "-" "") with
  | None => Panic "slice bounds out of range"
  | Some short =>
      let serverName := "karpenter-" +:+ short in
      let plan := selectedPlan nodeClass nodeClaim in
      let? caCertPEM := getCABundle or Wrapf "getting CA bundle" in
      let? certs := generateKubeletCert serverName or Wrapf "generating kubelet certificate" in
      let serverLabels := lo_Assign [Spec_Labels (nc_Spec nodeClass)] in
      match Generate (userDataOptions p nodeClass nodeClaim caCertPEM certs) with
      | Err err => Ret (Err (Wrapf "generating userdata" err))
      | Ok userData =>
          let storage := effectiveStorage (InstanceTypes.Get (cp_instanceTypeProvider p) plan)
                           (Spec_Storage (nc_Spec nodeClass)) in
          let! created := Instance.Create (cp_instanceProvider p) serverName plan (cp_zone p)
            userData (Spec_ServerGroupUUID (nc_Spec nodeClass)) (Some serverLabels) storage in
          match created.1 with
          | Err err => Ret (Err (NewInsufficientCapacityError (Wrapf "creating server" err)))
          | Ok server => Ret (Ok (createdClaim p nodeClass nodeClaim refName serverName server))
          end
      end
  end.

Definition Create (p : UpCloudCloudProvider) (nodeClaim : NodeClaim) : prog (result NodeClaim) :=
  let? nodeClass := resolveNodeClass nodeClaim or Wrapf "resolving node class" in
  match Claim_NodeClassRef (claim_Spec nodeClaim) with
  | None => Panic "invalid memory address or nil pointer dereference"
  | Some ref => provision p nodeClass nodeClaim (ref_Name ref)
  end.

(** ** Delete *)

Definition serverUUIDOf (providerID : string) : string :=
  TrimPrefix providerID v1alpha2.ProviderIDPrefix.

(** The removal once the server is stopped. *)
Definition deleteStopped (p : UpCloudCloudProvider) (serverUUID : string) : prog (option error) :=
  let! err := Instance.Delete (cp_instanceProvider p) serverUUID in
  match err with
  | Some err =>
      if Contains (ErrorText err) "SERVER_NOT_FOUND"
      then Ret (Some (NewNodeClaimNotFoundError (Wrapf "server not found" err)))
      else Ret (Some err)
  | None => Ret None
  end.

Definition Delete (p : UpCloudCloudProvider) (nodeClaim : NodeClaim) : prog (option error) :=
  let serverUUID := serverUUIDOf (ProviderID (claim_Status nodeClaim)) in
  let! err := Stop (cp_instanceProvider p) serverUUID in
  match err with
  | Some err =>
      if Contains (ErrorText err) "SERVER_NOT_FOUND"
      then Ret (Some (NewNodeClaimNotFoundError (Wrapf "server not found" err)))
      else if negb (Contains (ErrorText err) "SERVER_STATE_ILLEGAL") then Ret (Some err)
      else deleteStopped p serverUUID
  | None =>
      let! err := WaitForStop (cp_instanceProvider p) serverUUID in
      match err with
      | Some err => Ret (Some (Wrapf "waiting for server to stop" err))
      | None => deleteStopped p serverUUID
      end
  end.

(** ** Get, List and GetInstanceTypes *)

Definition buildNodeClaim (server : ServerDetails) (zone : string) : NodeClaim :=
  mkClaim
    (mkMeta "" "" (Some (list_to_map [
       (LabelInstanceTypeStable, srv_Plan server);
       (LabelArchStable, "amd64");
       (LabelOSStable, "linux");
       (LabelTopologyZone, zone);
       (CapacityTypeLabelKey, capacityTypeOf (srv_Plan server)) ])) None [] None zeroTime [] 0)
    (mkClaimSpec None [] [])
    (mkClaimStatus (v1alpha2.ProviderIDPrefix +:+ srv_UUID server) (srv_Hostname server)
       (serverCapacity server) (serverCapacity server) []).

Definition Get (p : UpCloudCloudProvider) (providerID : string) : prog (result NodeClaim) :=
  let serverUUID := serverUUIDOf providerID in
  let! r := Instance.Get (cp_instanceProvider p) serverUUID in
  match r with
  | Err err => Ret (Err (NewNodeClaimNotFoundError (Wrapf "getting server" err)))
  | Ok server => Ret (Ok (buildNodeClaim server (cp_zone p)))
  end.

Definition List (p : UpCloudCloudProvider) : prog (result (list NodeClaim)) :=
  let? servers := Instance.List (cp_instanceProvider p) or Wrapf "listing servers" in
  Ret (Ok (lo_Map servers (fun s _ => buildNodeClaim s (cp_zone p)))).

Definition GetInstanceTypes (p : UpCloudCloudProvider) : list InstanceType :=
  InstanceTypes.List (cp_instanceTypeProvider p).

(** ** IsDrifted *)

(** The drift reason of a claim against the resolved NodeClass. *)
Definition driftReason (nodeClaim : NodeClaim) (nodeClass : UpCloudNodeClass) : string :=
  let annotations := Annotations (claim_Meta nodeClaim) in
  let stored := mapGet annotations v1alpha2.NodeClassHashAnnotationKey in
  if decide (stored = "") then "" else
  if decide (mapGet annotations v1alpha2.NodeClassHashVersionAnnotationKey <>
             v1alpha2.NodeClassHashVersion) then "" else
  if decide (stored <> Hash nodeClass) then v1alpha2.NodeClassDrifted else "".

(** A reason and an error, as the Go method returns them. *)
Definition IsDrifted (p : UpCloudCloudProvider) (nodeClaim : NodeClaim)
    : prog (string * option error) :=
  let! r := resolveNodeClass nodeClaim in
  match r with
  | Err err =>
      if IsNotFound err
      then do! call (Publish (NodeClaimFailedToResolveNodeClass nodeClaim)) in Ret ("", None)
      else Ret ("", IgnoreNodeClaimNotFoundError (Wrapf "resolving node class" err))
  | Ok nodeClass => Ret (driftReason nodeClaim nodeClass, None)
  end.

(** ** The constant methods *)

Definition CloudProviderName : string := "upcloud".

Definition GetSupportedNodeClasses : list UpCloudNodeClass :=
  [mkNodeClass emptyMeta (mkSpec "" "" None None None None None "" None) (mkStatus None "")].

Record RepairPolicy := mkRepairPolicy {
  ConditionType : string; ConditionStatus : string; TolerationDuration : Z }.

Definition RepairPolicies (p : UpCloudCloudProvider) : list RepairPolicy :=
  [ mkRepairPolicy "Ready" "False" (cp_repairToleration p);
    mkRepairPolicy "Ready" "Unknown" (cp_repairToleration p) ].

(** ** Lemmas about Create *)

(** The server requests of a trace. *)
Definition createdReq (e : event) : option CreateServerRequest :=
  match e with Ev c _ => match c with CreateServer req => Some req | _ => None end end.

(** Calls that leave the servers alone. *)
Definition notServer X (c : api X) : Prop :=
  match c with
  | CreateServer _ | DeleteServerAndStorages _ | StopServer _ _ _ | WaitForServerState _ _ => False
  | _ => True
  end.

Lemma notServer_trace tr : Forall (ev_ok notServer) tr -> omap createdReq tr = [].
Proof. induction 1 as [|[X c r] tr H _ IH]; [done|]. by destruct c. Qed.

Lemma getCABundle_calls : calls_ok notServer getCABundle.
Proof. split; [done|]. intros [cm|e]; simpl; [by case_match|done]. Qed.

Lemma poll_calls {S} P n timeout (cond : S -> prog (result bool * S)) s :
  (forall s, calls_ok P (cond s)) -> calls_ok P (poll_n n timeout cond s).
Proof.
  intros Hc. revert s. induction n as [|n IH]; intros s; [done|]. cbn [poll_n].
  apply calls_ok_bind; [apply Hc|]. intros [[[]|] s']; [done|apply IH|done].
Qed.

Lemma generateKubeletCert_calls `{!PollLaws L} nodeName :
  calls_ok notServer (generateKubeletCert nodeName).
Proof.
  unfold generateKubeletCert. do 4 (apply calls_ok_bindE; [done|intros ?]).
  case_match; [done|]. apply calls_ok_bindE.
  - unfold approve. case_match; [done|]. by apply calls_ok_bindE.
  - intros _. unfold awaitCert. apply calls_ok_bind; [|by intros [[e|] c]].
    match goal with |- context [PollUntilContextTimeout ?i ?t true ?c ?s] =>
      destruct (Poll_spec _ i t c s) as (n & timeout & ->) end.
    apply poll_calls. intros s. apply calls_ok_bind; [done|].
    intros [csr|e]; [by case_match|done].
Qed.

Lemma getCABundle_total tr o : runs getCABundle tr o -> exists r, o = Done r.
Proof.
  unfold getCABundle. intros H. run_call H as [cm|e]; [|run_ret H; eauto].
  destruct (entries (cm_Data cm) !! "ca.crt"); run_ret H; eauto.
Qed.

Lemma generateKubeletCert_total `{!PollLaws L} nodeName tr o :
  runs (generateKubeletCert nodeName) tr o -> exists r, o = Done r.
Proof.
  intros [(e & -> & _)|(key & der & csr & fresh & rest & -> & H)]%generateKubeletCert_runs; [eauto|].
  case_match; [destruct H as [_ ->]; eauto|].
  apply approve_await_runs in H as (_ & _ & r & -> & _). eauto.
Qed.

(** The request Create sends once it has its name and user data. *)
Definition serverRequest (p : UpCloudCloudProvider) (nodeClass : UpCloudNodeClass)
    (nodeClaim : NodeClaim) (serverName userData : string) : CreateServerRequest :=
  let plan := selectedPlan nodeClass nodeClaim in
  createRequest (cp_instanceProvider p) serverName plan (cp_zone p) userData
    (Spec_ServerGroupUUID (nc_Spec nodeClass))
    (markLabels (cp_instanceProvider p) serverName (lo_Assign [Spec_Labels (nc_Spec nodeClass)]))
    (effectiveStorage (InstanceTypes.Get (cp_instanceTypeProvider p) plan)
       (Spec_Storage (nc_Spec nodeClass))).

(** What an execution of [provision] has done: it stopped before asking for a
    server, or asking for one was its last call. *)
Inductive Provisioned (p : UpCloudCloudProvider) (nodeClass : UpCloudNodeClass)
    (nodeClaim : NodeClaim) (refName : string) : list event -> outcome (result NodeClaim) -> Prop :=
| ProvBadUUID uuid :
    slice16 (ReplaceAll uuid "-" "") = None ->
    Provisioned p nodeClass nodeClaim refName [Ev NewUUID uuid]
      (Panicked "slice bounds out of range")
| ProvFailed tr e :
    Forall (ev_ok notServer) tr ->
    Provisioned p nodeClass nodeClaim refName tr (Done (Err e))
| ProvAsked uuid short ca certs userData tr1 tr2 answer :
    slice16 (ReplaceAll uuid "-" "") = Some short ->
    runs getCABundle tr1 (Done (Ok ca)) ->
    runs (generateKubeletCert ("karpenter-" +:+ short)) tr2 (Done (Ok certs)) ->
    Generate (userDataOptions p nodeClass nodeClaim ca certs) = Ok userData ->
    Provisioned p nodeClass nodeClaim refName
      (Ev NewUUID uuid :: tr1 ++ tr2 ++
       [Ev (CreateServer (serverRequest p nodeClass nodeClaim ("karpenter-" +:+ short) userData)) answer])
      (Done match answer with
            | Err e => Err (NewInsufficientCapacityError (Wrapf "creating server" e))
            | Ok server =>
                Ok (createdClaim p nodeClass nodeClaim refName ("karpenter-" +:+ short) server)
            end).

Lemma provision_runs `{!PollLaws L} p nodeClass nodeClaim refName tr o :
  runs (provision p nodeClass nodeClaim refName) tr o ->
  Provisioned p nodeClass nodeClaim refName tr o.
Proof.
  unfold provision. intros H. run_call H as uuid.
  destruct (slice16 (ReplaceAll uuid "-" "")) as [short|] eqn:Es;
    [|run_ret H; by constructor].
  apply runs_bind in H as [(rca & t1 & t' & -> & H1 & H)|(m & H1 & _)];
    [|by destruct (getCABundle_total _ _ H1)].
  pose proof (calls_ok_runs _ _ _ _ getCABundle_calls H1) as Hn1.
  destruct rca as [ca|e]; [|run_ret H; rewrite app_nil_r; by repeat constructor].
  apply runs_bind in H as [(rcert & t2 & t3 & -> & H2 & H)|(m & H2 & _)];
    [|by destruct (generateKubeletCert_total _ _ _ H2)].
  pose proof (calls_ok_runs _ _ _ _ (generateKubeletCert_calls _) H2) as Hn2.
  destruct rcert as [certs|e];
    [|run_ret H; rewrite app_nil_r; constructor; constructor; [done|by apply Forall_app]].
  destruct (Generate (userDataOptions p nodeClass nodeClaim ca certs)) as [ud|e] eqn:Eg;
    [|run_ret H; rewrite app_nil_r; constructor; constructor; [done|by apply Forall_app]].
  unfold Instance.Create in H. run_call H as answer.
  pose proof (ProvAsked p nodeClass nodeClaim refName uuid short ca certs ud t1 t2 answer
    Es H1 H2 Eg) as G.
  destruct answer as [server|e]; run_ret H; exact G.
Qed.

Lemma Create_runs `{!PollLaws L} p nodeClaim tr o :
  runs (Create p nodeClaim) tr o ->
  (exists e, o = Done (Err e) /\ omap createdReq tr = []) \/
  (exists ref nodeClass tr',
     Claim_NodeClassRef (claim_Spec nodeClaim) = Some ref /\
     tr = Ev (GetNodeClass (ref_Name ref)) (Ok nodeClass) :: tr' /\
     Provisioned p nodeClass nodeClaim (ref_Name ref) tr' o).
Proof.
  unfold Create, resolveNodeClass. intros H.
  destruct (Claim_NodeClassRef (claim_Spec nodeClaim)) as [ref|].
  - run_call H as [nodeClass|e].
    + right. exists ref, nodeClass. eexists. split_and!; [done..|]. by apply provision_runs.
    + left. run_ret H. eauto.
  - left. run_ret H. eauto.
Qed.

Lemma serverUUIDOf_prefix uuid : serverUUIDOf (v1alpha2.ProviderIDPrefix +:+ uuid) = uuid.
Proof. apply TrimPrefix_app. Qed.

Lemma nodeLabelsOf_lookup `{!LoLaws L} zone plan nodeClass nodeClaim k :
  nodeLabelsOf zone plan nodeClass nodeClaim !! k =
  match entries (Labels (claim_Meta nodeClaim)) !! k with
  | Some v => Some v
  | None => match entries (Spec_Labels (nc_Spec nodeClass)) !! k with
            | Some v => Some v
            | None => baseLabels zone plan !! k
            end
  end.
Proof. apply lo_Assign_lookup3. Qed.

Lemma taintsOf_eq `{!LoLaws L} nodeClass nodeClaim :
  taintsOf nodeClass nodeClaim =
  UnregisteredNoExecuteTaint ::
  ((fun t => mkTaint (kt_Key t) (kt_Value t) (kt_Effect t)) <$> elems (Spec_Taints (nc_Spec nodeClass)))
  ++ Claim_Taints (claim_Spec nodeClaim).
Proof. unfold taintsOf. by rewrite lo_Map_fmap. Qed.

(** Requests of an execution that asked for a server. *)
Lemma asked_reqs `{!PollLaws L} uuid tr1 tr2 ca name certs req answer :
  runs getCABundle tr1 (Done ca) -> runs (generateKubeletCert name) tr2 (Done certs) ->
  omap createdReq (Ev NewUUID uuid :: tr1 ++ tr2) = [] /\
  omap createdReq (Ev NewUUID uuid :: tr1 ++ tr2 ++ [Ev (CreateServer req) answer]) = [req].
Proof.
  intros H1 H2.
  pose proof (notServer_trace _ (calls_ok_runs _ _ _ _ getCABundle_calls H1)) as E1.
  pose proof (notServer_trace _ (calls_ok_runs _ _ _ _ (generateKubeletCert_calls _) H2)) as E2.
  cbn [omap list_omap createdReq]. by rewrite !omap_app, E1, E2.
Qed.

(** ** Properties of Create *)

(** C1: Create asks for at most one server, and asking is the last thing it does:
    an execution that fails earlier leaves no server behind, a refusal of the
    service is reported as insufficient capacity, and a server that was created
    is always returned, under a provider ID that leads back to it.  The only
    panic is a UUID of fewer than sixteen characters. *)
Theorem Create_one_server `{!PollLaws L, !KarpenterErrorLaws L} p nodeClaim tr o :
  runs (Create p nodeClaim) tr o ->
  (omap createdReq tr = [] /\
   ((exists e, o = Done (Err e)) \/
    (exists uuid, Ev NewUUID uuid ∈ tr /\ (String.length (ReplaceAll uuid "-" "") < 16)%nat /\
                  o = Panicked "slice bounds out of range"))) \/
  (exists tr0 req answer, tr = tr0 ++ [Ev (CreateServer req) answer] /\ omap createdReq tr0 = [] /\
   match answer with
   | Ok server => exists claim, o = Done (Ok claim) /\
       serverUUIDOf (ProviderID (claim_Status claim)) = srv_UUID server
   | Err e => exists e', o = Done (Err e') /\ IsInsufficientCapacityError e' = true
   end).
Proof.
  intros [(e & -> & Hn)|(ref & nodeClass & tr' & Hr & -> & H)]%Create_runs; [left; eauto|].
  destruct H as [uuid Hu|tr e Hn|uuid short ca certs ud tr1 tr2 answer Hu H1 H2 Hg].
  - left. split; [done|]. right. exists uuid. split; [right; by left|]. split; [|done].
    unfold slice16 in Hu. case_match eqn:E; [done|]. apply Nat.leb_gt in E. lia.
  - left. split; [exact (notServer_trace _ Hn)|]. eauto.
  - right. eexists (_ :: Ev NewUUID uuid :: tr1 ++ tr2), _, answer.
    split; [by rewrite <-!app_comm_cons, <-app_assoc|].
    split; [exact (proj1 (asked_reqs uuid _ _ _ _ _ (serverRequest p nodeClass nodeClaim "" "")
                            (Err (Errorf "")) H1 H2))|].
    destruct answer as [server|e]; eexists; (split; [done|]).
    + apply serverUUIDOf_prefix.
    + apply IsInsufficientCapacity_new.
Qed.

(** C9: The server asked for is the one the NodeClaim and the NodeClass
    describe: the plan Karpenter selected, else the NodeClass's, in the
    provider's zone and the NodeClass's server group; a plan with bundled
    storage decides size and drops the tier, otherwise the NodeClass's storage
    is used as it is; the user data registers the node with NodeClaim labels
    over NodeClass labels over the provider's own, and with the unregistered
    taint first, then the NodeClass's and the NodeClaim's. *)
Theorem Create_request_content `{!PollLaws L, !LoLaws L} p nodeClaim tr o req :
  runs (Create p nodeClaim) tr o -> omap createdReq tr = [req] ->
  exists ref nodeClass tr' opts,
    tr = Ev (GetNodeClass (ref_Name ref)) (Ok nodeClass) :: tr' /\
    Claim_NodeClassRef (claim_Spec nodeClaim) = Some ref /\
    let plan := selectedPlan nodeClass nodeClaim in
    let storage := Spec_Storage (nc_Spec nodeClass) in
    cs_Plan req = plan /\ cs_Zone req = cp_zone p /\
    cs_ServerGroup req = Spec_ServerGroupUUID (nc_Spec nodeClass) /\
    (forall planInfo, InstanceTypes.Get (cp_instanceTypeProvider p) plan = Some planInfo ->
       0 < plan_StorageSize planInfo ->
       cs_StorageDevices req = [rootDevice (cp_instanceProvider p) (cs_Hostname req)
         (Some (mkStorage (plan_StorageSize planInfo) "" (storage ≫= Encrypted)))]) /\
    (from_option plan_StorageSize 0 (InstanceTypes.Get (cp_instanceTypeProvider p) plan) <= 0 ->
       cs_StorageDevices req = [rootDevice (cp_instanceProvider p) (cs_Hostname req) storage]) /\
    Generate opts = Ok (cs_UserData req) /\
    (forall k, mapGet (opt_Labels opts) k =
       default (default (default "" (baseLabels (cp_zone p) plan !! k))
         (entries (Spec_Labels (nc_Spec nodeClass)) !! k))
         (entries (Labels (claim_Meta nodeClaim)) !! k)) /\
    opt_Taints opts = UnregisteredNoExecuteTaint ::
      ((fun t => mkTaint (kt_Key t) (kt_Value t) (kt_Effect t)) <$>
         elems (Spec_Taints (nc_Spec nodeClass))) ++ Claim_Taints (claim_Spec nodeClaim).
Proof.
  intros [(e & -> & Hn)|(ref & nodeClass & tr' & Hr & -> & H)]%Create_runs Hreq; [congruence|].
  destruct H as [uuid Hu|tr e Hn|uuid short ca certs ud tr1 tr2 answer Hu H1 H2 Hg].
  - done.
  - change (omap createdReq tr = [req]) in Hreq. by rewrite (notServer_trace _ Hn) in Hreq.
  - pose proof (eq_trans (eq_sym (proj2 (asked_reqs uuid _ _ _ _ _ _ answer H1 H2))) Hreq) as E.
    injection E as <-.
    eexists ref, nodeClass, _, _. split; [done|]. split; [done|]. cbv zeta.
    split_and!; try done.
    + intros planInfo Hp Hs. unfold serverRequest, createRequest, effectiveStorage.
      cbn [cs_StorageDevices cs_Hostname]. rewrite Hp, (proj2 (Z.ltb_lt 0 _)) by done.
      by destruct (Spec_Storage (nc_Spec nodeClass)).
    + unfold serverRequest, createRequest, effectiveStorage. cbn [cs_StorageDevices cs_Hostname].
      destruct (InstanceTypes.Get _ _) as [planInfo|]; simpl; [|done].
      intros Hs. by rewrite (proj2 (Z.ltb_ge 0 _)).
    + intros k. unfold mapGet. simpl. rewrite nodeLabelsOf_lookup.
      by destruct (entries (Labels _) !! k), (entries (Spec_Labels _) !! k).
    + simpl. apply taintsOf_eq.
Qed.

(** ** Drift *)

Lemma created_annotations p nodeClass nodeClaim refName serverName server :
  let claim := createdClaim p nodeClass nodeClaim refName serverName server in
  mapGet (Annotations (claim_Meta claim)) v1alpha2.NodeClassHashAnnotationKey = Hash nodeClass /\
  mapGet (Annotations (claim_Meta claim)) v1alpha2.NodeClassHashVersionAnnotationKey =
    v1alpha2.NodeClassHashVersion.
Proof.
  unfold mapGet. simpl. split; [by rewrite lookup_insert_eq|].
  by rewrite lookup_insert_ne, lookup_singleton_eq.
Qed.

(** The drift of a claim that carries the current version. *)
Lemma driftReason_stamped claim h nodeClass :
  mapGet (Annotations (claim_Meta claim)) v1alpha2.NodeClassHashAnnotationKey = h ->
  mapGet (Annotations (claim_Meta claim)) v1alpha2.NodeClassHashVersionAnnotationKey =
    v1alpha2.NodeClassHashVersion ->
  driftReason claim nodeClass =
    if decide (h = "" \/ h = Hash nodeClass) then "" else v1alpha2.NodeClassDrifted.
Proof.
  unfold driftReason. intros -> ->. destruct (decide (h = "")) as [->|Hh].
  - by rewrite decide_True by (by left).
  - rewrite decide_False by (intros H; by apply H).
    destruct (decide (h = Hash nodeClass)) as [E|E].
    + rewrite decide_False by (intros H; by apply H). by rewrite decide_True by (by right).
    + rewrite decide_True by done. by rewrite decide_False by (by intros [|]).
Qed.

(** The NodeClass reads of a trace, with their answers. *)
Definition classAnswer (e : event) : option (string * result UpCloudNodeClass) :=
  match e with
  | Ev c r =>
      match c in api X return X -> option (string * result UpCloudNodeClass) with
      | GetNodeClass n => fun r => Some (n, r)
      | _ => fun _ => None
      end r
  end.

Lemma IsDrifted_runs p claim tr o :
  runs (IsDrifted p claim) tr o ->
  exists answer,
    match Claim_NodeClassRef (claim_Spec claim) with
    | None => answer = Err (NewNotFound v1alpha2.Group "upcloudnodeclasses" "") /\
              omap classAnswer tr = []
    | Some ref => omap classAnswer tr = [(ref_Name ref, answer)]
    end /\
    match answer with
    | Ok nodeClass => length tr = 1%nat /\ o = Done (driftReason claim nodeClass, None)
    | Err e =>
        if IsNotFound e
        then o = Done ("", None) /\
             exists pre, tr = pre ++ [Ev (Publish (NodeClaimFailedToResolveNodeClass claim)) tt]
        else o = Done ("", IgnoreNodeClaimNotFoundError (Wrapf "resolving node class" e))
    end.
Proof.
  unfold IsDrifted, resolveNodeClass. intros H.
  destruct (Claim_NodeClassRef (claim_Spec claim)) as [ref|].
  - run_call H as r. exists r. destruct r as [nodeClass|e]; [run_ret H; done|].
    destruct (IsNotFound e).
    + run_call H as u. run_ret H. destruct u. split; [done|]. split; [done|]. by eexists [_].
    + run_ret H. done.
  - exists (Err (NewNotFound v1alpha2.Group "upcloudnodeclasses" "")). cbn [bind] in H.
    destruct (IsNotFound _).
    + run_call H as u. run_ret H. destruct u. split_and!; try done. by exists [].
    + run_ret H. done.
Qed.

(** C11: A claim that Create returned drifts exactly when the NodeClass changes in
    a way its hash shows: asked later against a NodeClass, IsDrifted reports no
    drift while the spec is equivalent to the one Create used (or that one could
    not be hashed), and NodeClassDrifted otherwise whenever the digests differ. *)
Theorem Create_IsDrifted `{!PollLaws L, !HashLaws L} p nodeClaim tr claim :
  runs (Create p nodeClaim) tr (Done (Ok claim)) ->
  exists ref nodeClass tr', tr = Ev (GetNodeClass (ref_Name ref)) (Ok nodeClass) :: tr' /\
  Claim_NodeClassRef (claim_Spec nodeClaim) = Some ref /\
  forall p' nodeClass',
    (forall tr2 o2, runs (IsDrifted p' claim) tr2 o2 ->
       omap classAnswer tr2 = [(ref_Name ref, Ok nodeClass')] ->
       length tr2 = 1%nat /\
       o2 = Done (if decide (Hash nodeClass = "" \/ Hash nodeClass = Hash nodeClass')
                  then "" else v1alpha2.NodeClassDrifted, None)) /\
    (spec_equiv (nc_Spec nodeClass) (nc_Spec nodeClass') -> driftReason claim nodeClass' = "").
Proof.
  intros [(e & [=] & _)|(ref & nodeClass & tr' & Hr & -> & H)]%Create_runs.
  exists ref, nodeClass, tr'. split; [done|]. split; [done|]. intros p' nodeClass'.
  inversion H as [| |uuid short ca certs ud tr1 tr2 answer Hu H1 H2 Hg Et Eo]; subst.
  destruct answer as [server|e]; [|done]. simplify_eq.
  destruct (created_annotations p nodeClass nodeClaim (ref_Name ref) ("karpenter-" +:+ short) server)
    as [Ha Hv].
  pose proof (driftReason_stamped _ _ nodeClass' Ha Hv) as Hd. split.
  - intros tr3 o3 (answer & Hc & Ho)%IsDrifted_runs Hone. simpl in Hc. rewrite Hone in Hc.
    simplify_eq. destruct Ho as [-> ->]. by rewrite Hd.
  - intros He. rewrite Hd. apply decide_True. right. unfold Hash. by rewrite He.
Qed.

(** A claim whose stored hash is of the current version and not that of the
    NodeClass. *)
Definition hashDiffers (claim : NodeClaim) (nodeClass : UpCloudNodeClass) : Prop :=
  exists stored, stored <> "" /\ stored <> Hash nodeClass /\
    entries (Annotations (claim_Meta claim)) !! v1alpha2.NodeClassHashAnnotationKey = Some stored /\
    entries (Annotations (claim_Meta claim)) !! v1alpha2.NodeClassHashVersionAnnotationKey =
      Some v1alpha2.NodeClassHashVersion.

Lemma driftReason_cases claim nodeClass :
  (driftReason claim nodeClass = v1alpha2.NodeClassDrifted /\ hashDiffers claim nodeClass) \/
  (driftReason claim nodeClass = "" /\ ~ hashDiffers claim nodeClass).
Proof.
  unfold driftReason, mapGet, hashDiffers.
  destruct (entries _ !! v1alpha2.NodeClassHashAnnotationKey) as [stored|]; simpl; [|right; naive_solver].
  destruct (decide (stored = "")); [right; naive_solver|].
  destruct (entries _ !! v1alpha2.NodeClassHashVersionAnnotationKey) as [version|]; simpl;
    [|right; naive_solver].
  destruct (decide (version <> _)) as [|Hv%dec_stable]; [right; naive_solver|].
  destruct (decide (stored <> Hash nodeClass)) as [|Hh%dec_stable]; [left|right; naive_solver].
  split; [done|]. exists stored. by rewrite Hv.
Qed.

(** C21: The verdict of IsDrifted: it reads the NodeClass the claim refers to, once,
    and says NodeClassDrifted exactly when the claim's stored hash is of the current
    version and not that of the NodeClass read.  A NodeClass that does not exist,
    or a claim that refers to none, is no drift and no error, but is told in one
    event about the claim; any other failure of the read is returned, wrapped, and
    publishes nothing. *)
Theorem IsDrifted_outcome `{!K8sErrorLaws L, !KarpenterErrorLaws L} p claim tr o :
  runs (IsDrifted p claim) tr o ->
  let event := Ev (Publish (NodeClaimFailedToResolveNodeClass claim)) tt in
  match Claim_NodeClassRef (claim_Spec claim) with
  | None => tr = [event] /\ o = Done ("", None)
  | Some ref => exists answer rest, tr = Ev (GetNodeClass (ref_Name ref)) answer :: rest /\
      match answer with
      | Ok nodeClass => rest = [] /\
          ((o = Done (v1alpha2.NodeClassDrifted, None) /\ hashDiffers claim nodeClass) \/
           (o = Done ("", None) /\ ~ hashDiffers claim nodeClass))
      | Err e =>
          if IsNotFound e then rest = [event] /\ o = Done ("", None)
          else rest = [] /\
            (IsNodeClaimNotFoundError (Wrapf "resolving node class" e) = false ->
             o = Done ("", Some (Wrapf "resolving node class" e)))
      end
  end.
Proof.
  unfold IsDrifted, resolveNodeClass. intros H. cbv zeta.
  destruct (Claim_NodeClassRef (claim_Spec claim)) as [ref|].
  - run_call H as [nodeClass|e]; [exists (Ok nodeClass)|exists (Err e)]; eexists; (split; [done|]).
    + run_ret H. split; [done|]. destruct (driftReason_cases claim nodeClass) as [[-> ?]|[-> ?]]; eauto.
    + destruct (IsNotFound e).
      * run_call H as u. run_ret H. by destruct u.
      * run_ret H. split; [done|]. intros He. by rewrite IgnoreNodeClaimNotFound_spec, He.
  - cbn [bind] in H. rewrite IsNotFound_new in H. run_call H as u. run_ret H. by destruct u.
Qed.

(** ** Fields without effect *)

(** Two NodeClasses that differ at most in the fields Create does not read. *)
Definition same_effect (s t : UpCloudNodeClassSpec) : Prop :=
  Spec_Plan s = Spec_Plan t /\ Spec_Storage s = Spec_Storage t /\ Spec_Labels s = Spec_Labels t /\
  Spec_Taints s = Spec_Taints t /\ Spec_ServerGroupUUID s = Spec_ServerGroupUUID t.

(** A result with another hash on the claim. *)
Definition rehash (h : string) (o : outcome (result NodeClaim)) : outcome (result NodeClaim) :=
  match o with
  | Done (Ok claim) =>
      Done (Ok (claim_with_Annotations
        (setAnnotation v1alpha2.NodeClassHashAnnotationKey h (Annotations (claim_Meta claim))) claim))
  | _ => o
  end.

Lemma runs_bind_map {A B C} (F : outcome B -> outcome C) (p : prog A) k1 k2 tr o :
  (forall a tr o, runs (k1 a) tr o -> runs (k2 a) tr (F o)) ->
  (forall m, F (Panicked m) = Panicked m) ->
  runs (bind p k1) tr o -> runs (bind p k2) tr (F o).
Proof.
  intros Hk Hm H. apply runs_bind. apply runs_bind in H as [(a & t1 & t2 & -> & H1 & H2)|(m & H1 & ->)].
  - left. eauto 10.
  - right. eauto.
Qed.

Lemma provision_same_effect p n1 n2 nodeClaim refName tr o :
  same_effect (nc_Spec n1) (nc_Spec n2) ->
  runs (provision p n1 nodeClaim refName) tr o ->
  runs (provision p n2 nodeClaim refName) tr (rehash (Hash n2) o).
Proof.
  intros (Hp & Hs & Hl & Ht & Hg).
  assert (Hplan : selectedPlan n1 nodeClaim = selectedPlan n2 nodeClaim).
  { unfold selectedPlan. by rewrite Hp. }
  unfold provision. apply runs_bind_map; [|done]. clear tr o. intros uuid tr o.
  destruct (slice16 _) as [short|]; [|intros H; run_ret H; done].
  apply runs_bind_map; [|done]. clear tr o. intros [ca|e] tr o; [|intros H; run_ret H; done].
  apply runs_bind_map; [|done]. clear tr o. intros [certs|e] tr o; [|intros H; run_ret H; done].
  assert (Hopts : userDataOptions p n1 nodeClaim ca certs = userDataOptions p n2 nodeClaim ca certs).
  { unfold userDataOptions, nodeLabelsOf, taintsOf. by rewrite Hplan, Hl, Ht. }
  rewrite Hopts, Hplan, Hs, Hl, Hg.
  destruct (Generate _) as [ud|e]; [|intros H; run_ret H; done].
  apply runs_bind_map; [|done]. intros [[server|e] labels] tr' o' H; run_ret H; [|done].
  split; [done|]. do 2 f_equal. unfold createdClaim, claim_with_Annotations, with_Annotations, nodeLabelsOf.
  simpl. by rewrite Hplan, Hl.
Qed.

(** C35: SSHKeys, KubeletArgs, UtilityNetworkAccess and Zone of a NodeClass have
    no effect on provisioning: with the same answers from outside, Create makes
    the same calls, the server request and its user data included, and returns
    the same claim but for the hash annotation. *)
Theorem Create_ignored_fields p nodeClaim ref n1 n2 tr o :
  Claim_NodeClassRef (claim_Spec nodeClaim) = Some ref ->
  same_effect (nc_Spec n1) (nc_Spec n2) ->
  runs (provision p n1 nodeClaim (ref_Name ref)) tr o ->
  runs (Create p nodeClaim) (Ev (GetNodeClass (ref_Name ref)) (Ok n1) :: tr) o /\
  runs (Create p nodeClaim) (Ev (GetNodeClass (ref_Name ref)) (Ok n2) :: tr) (rehash (Hash n2) o).
Proof.
  intros Hr He H. unfold Create, resolveNodeClass. rewrite Hr. simpl.
  split; eexists _, tr; (split; [done|]); simpl; [done|]. by apply (provision_same_effect p n1).
Qed.

(** ** Properties of Delete, Get and List *)

(** The removals of a trace. *)
Definition removal (e : event) : option string :=
  match e with Ev c _ => match c with DeleteServerAndStorages uuid => Some uuid | _ => None end end.

(** What must have happened before a server is removed. *)
Definition stopped_first (uuid : string) (pre : list event) : Prop :=
  (exists s w, pre = [Ev (StopServer uuid ServerStopTypeHard (30 * Second)) (Ok s);
                      Ev (WaitForServerState uuid ServerStateStopped) (Ok w)]) \/
  (exists e, pre = [Ev (StopServer uuid ServerStopTypeHard (30 * Second)) (Err e)] /\
     Contains (ErrorText e) "SERVER_STATE_ILLEGAL" = true).

Lemma deleteStopped_runs p uuid tr o :
  runs (deleteStopped p uuid) tr o ->
  exists ans r, tr = [Ev (DeleteServerAndStorages uuid) ans] /\ o = Done r /\
    r = match ans with
        | Ok _ => None
        | Err e => if Contains (ErrorText e) "SERVER_NOT_FOUND"
                   then Some (NewNodeClaimNotFoundError (Wrapf "server not found" e)) else Some e
        end.
Proof.
  unfold deleteStopped, Instance.Delete. intros H. run_call H as [u|e].
  - run_ret H. eauto.
  - cbn [errOf] in H. exists (Err e).
    destruct (Contains (ErrorText e) "SERVER_NOT_FOUND") eqn:En; run_ret H;
      eexists; (split; [done|]); by split.
Qed.

(** The failures of stops and removals in a trace. *)
Definition failure (e : event) : option error :=
  match e with
  | Ev c r => match c in api X return X -> option error with
              | StopServer _ _ _ => errOf
              | DeleteServerAndStorages _ => errOf
              | _ => fun _ => None
              end r
  end.

(** How Delete reports the failure of a stop or a removal. *)
Definition reported (e : error) : error :=
  if Contains (ErrorText e) "SERVER_NOT_FOUND"
  then NewNodeClaimNotFoundError (Wrapf "server not found" e) else e.

(** C2: Delete never removes a running server: the one removal it may ask for is
    of the claim's server and its last call, made after a hard stop that was
    seen through, or that was refused because the server is not running.  It
    succeeds exactly when that removal does; a failed stop or removal is reported
    as the NodeClaim being gone when the service says the server is missing, and
    as it is otherwise. *)
Theorem Delete_protocol p nodeClaim tr o :
  runs (Delete p nodeClaim) tr o ->
  let uuid := serverUUIDOf (ProviderID (claim_Status nodeClaim)) in
  exists r, o = Done r /\
  ((omap removal tr = [] /\ r <> None) \/
   (exists pre ans, tr = pre ++ [Ev (DeleteServerAndStorages uuid) ans] /\
      omap removal pre = [] /\ stopped_first uuid pre /\
      r = match ans with Ok _ => None | Err e => Some (reported e) end)) /\
  (forall e, e ∈ omap failure tr -> Contains (ErrorText e) "SERVER_NOT_FOUND" = true ->
     r = Some (NewNodeClaimNotFoundError (Wrapf "server not found" e))) /\
  (forall err, r = Some err ->
     (exists e, last (omap failure tr) = Some e /\ err = reported e) \/
     (exists e, last tr = Some (Ev (WaitForServerState uuid ServerStateStopped) (Err e)) /\
                err = Wrapf "waiting for server to stop" e)).
Proof.
  intros H uuid. unfold Delete, Stop, WaitForStop in H. fold uuid in H. run_call H as [s|e].
  - cbn [errOf] in H. run_call H as [w|e].
    + cbn [errOf] in H. apply deleteStopped_runs in H as (ans & r & -> & -> & Hr).
      exists r. split; [done|]. split_and!.
      * right. exists [Ev (StopServer uuid ServerStopTypeHard (30 * Second)) (Ok s);
                       Ev (WaitForServerState uuid ServerStateStopped) (Ok w)], ans.
        split_and!; [done|done|left; eauto|]. destruct ans; [done|].
        rewrite Hr. unfold reported. by case_match.
      * intros e. destruct ans as [u|e']; simpl; [by intros []%not_elem_of_nil|].
        intros ->%list_elem_of_singleton Hc. by rewrite Hr, Hc.
      * intros err. destruct ans as [u|e']; [congruence|]. intros E. left. exists e'.
        split; [done|]. rewrite Hr in E. unfold reported. case_match; congruence.
    + run_ret H. eexists. split; [done|]. split_and!; [by left|by intros e' []%not_elem_of_nil|].
      intros err [= <-]. right. eauto.
  - cbn [errOf] in H. destruct (Contains (ErrorText e) "SERVER_NOT_FOUND") eqn:En.
    + run_ret H. eexists. split; [done|]. split_and!; [by left| |].
      * intros e' ->%list_elem_of_singleton. done.
      * intros err [= <-]. left. exists e. unfold reported. by rewrite En.
    + destruct (Contains (ErrorText e) "SERVER_STATE_ILLEGAL") eqn:Ei; cbn [negb] in H.
      * apply deleteStopped_runs in H as (ans & r & -> & -> & Hr).
        exists r. split; [done|]. split_and!.
        -- right. exists [Ev (StopServer uuid ServerStopTypeHard (30 * Second)) (Err e)], ans.
           split_and!; [done|done|right; eauto|]. destruct ans; [done|].
           rewrite Hr. unfold reported. by case_match.
        -- intros e'. destruct ans as [u|e2]; simpl.
           { intros ->%list_elem_of_singleton. congruence. }
           intros [-> | ->%list_elem_of_singleton]%elem_of_cons Hc; [congruence|]. by rewrite Hr, Hc.
        -- intros err. destruct ans as [u|e2]; [congruence|]. intros E. left. exists e2.
           split; [done|]. rewrite Hr in E. unfold reported. case_match; congruence.
      * run_ret H. eexists. split; [done|]. split_and!; [by left| |].
        -- intros e' ->%list_elem_of_singleton. congruence.
        -- intros err [= <-]. left. exists e. unfold reported. by rewrite En.
Qed.


(** ** Agreement with the catalogue *)


(** The requirements of a catalogue entry that speak about a key Karpenter knows. *)
Definition wellKnown (k : string) : Prop :=
  k ∈ [LabelInstanceTypeStable; LabelArchStable; LabelOSStable; LabelTopologyZone; CapacityTypeLabelKey].

#[export] Instance wellKnown_dec k : Decision (wellKnown k).
Proof. unfold wellKnown. apply _. Defined.



End CloudProvider.

(** ** Concrete runs *)

Definition sampleCloud : UpCloudCloudProvider :=
  NewCloudProvider sampleInstances refreshed "fi-hel1" "https://10.0.0.1:6443" (10 * Minute).

Definition sampleRequest : NodeClaim :=
  mkClaim (mkMeta "claim-1" "uid" (Some {[ "team" := "a" ]}) None [] None zeroTime [] 0)
    (mkClaimSpec (Some (mkRef "UpCloudNodeClass" "default" v1alpha2.Group))
       [mkReq LabelInstanceTypeStable "In" ["SPOT-2xCPU-4GB"]] [])
    (mkClaimStatus "" "" ∅ ∅ []).

(** The cluster of [signingCluster] with a CA, and a cloud that creates servers. *)
Definition workingCloud : handler (option CertificateSigningRequest) := fun X c =>
  match c in api X return option CertificateSigningRequest -> X * option CertificateSigningRequest with
  | GetNodeClass _ => fun w => (Ok sampleClass, w)
  | GetConfigMap _ _ => fun w => (Ok (mkConfigMap (Some {[ "ca.crt" := "CA" ]})), w)
  | NewUUID => fun w => ("01234567-89ab-cdef-0123-456789abcdef", w)
  | CreateServer req => fun w => (Ok sampleServer, w)
  | c => fun w => signingCluster _ c w
  end.

Definition sampleCreate : prog (result NodeClaim) := Create (L := refLibs) sampleCloud sampleRequest.
Definition sampleClaim : NodeClaim :=
  match exec_outcome workingCloud sampleCreate None with Done (Ok c) => c | _ => sampleRequest end.

Lemma sampleCreate_done : exec_outcome workingCloud sampleCreate None = Done (Ok sampleClaim).
Proof. vm_compute. reflexivity. Qed.

Lemma Create_one_server_witness :
  exists tr0 req answer,
    exec_trace workingCloud sampleCreate None = tr0 ++ [Ev (CreateServer req) answer] /\
    omap createdReq tr0 = [].
Proof.
  destruct (Create_one_server (L := refLibs) sampleCloud sampleRequest _ _
    (exec_done _ _ _ _ sampleCreate_done))
    as [(_ & [(e & E)|(uuid & _ & _ & E)])|(tr0 & req & answer & E & Hn & _)].
  - discriminate E.
  - discriminate E.
  - exists tr0, req, answer. split; [exact E|exact Hn].
Defined.

(** The one request of the sample run. *)
Definition sampleSent : CreateServerRequest :=
  match omap createdReq (exec_trace workingCloud sampleCreate None) with
  | req :: _ => req
  | [] => createRequest (L := refLibs) sampleInstances "" "" "" "" "" ∅ None
  end.

Lemma sampleSent_only : omap createdReq (exec_trace workingCloud sampleCreate None) = [sampleSent].
Proof. vm_compute. reflexivity. Qed.

Lemma Create_request_content_witness : cs_Zone sampleSent = "fi-hel1".
Proof.
  destruct (Create_request_content (L := refLibs) sampleCloud sampleRequest _ _ sampleSent
    (exec_done _ _ _ _ sampleCreate_done) sampleSent_only)
    as (ref & nodeClass & tr' & opts & _ & _ & _ & Hz & _).
  exact Hz.
Defined.

Lemma Create_IsDrifted_witness :
  exists nodeClass : UpCloudNodeClass, forall nodeClass' : UpCloudNodeClass,
    spec_equiv (nc_Spec nodeClass) (nc_Spec nodeClass') ->
    driftReason (L := refLibs) sampleClaim nodeClass' = "".
Proof.
  destruct (Create_IsDrifted (L := refLibs) sampleCloud sampleRequest _ sampleClaim
    (exec_done _ _ _ _ sampleCreate_done)) as (ref & nodeClass & tr' & _ & _ & H).
  exists nodeClass. intros nodeClass' He. apply (H sampleCloud nodeClass'). exact He.
Defined.

(** The same claim against the class it was made from, and against another plan. *)
Example sampleClaim_drift :
  driftReason (L := refLibs) sampleClaim sampleClass' = "" /\
  driftReason (L := refLibs) sampleClaim
    (mkNodeClass emptyMeta (mkSpec "de-fra1" "1xCPU-1GB" None None None None None "" None)
       (mkStatus None "")) = v1alpha2.NodeClassDrifted.
Proof. split; vm_compute; reflexivity. Qed.

(** A claim of Create, asked about a changed class, and a claim without a class. *)
Definition otherClass : UpCloudNodeClass :=
  mkNodeClass emptyMeta (mkSpec "de-fra1" "DEV-1xCPU-1GB" None None None None None "" None) (mkStatus None "").
Definition classOnly (n : UpCloudNodeClass) : handler unit := answering (fun X c =>
  match c in api X return option X with GetNodeClass _ => Some (Ok n) | _ => None end).
Definition loneClaim : NodeClaim :=
  mkClaim emptyMeta (mkClaimSpec None [] []) (claim_Status sampleRequest).

Lemma sampleClaim_ref : Claim_NodeClassRef (claim_Spec sampleClaim) = Some (mkRef "" "default" "").
Proof. vm_compute. reflexivity. Qed.

Lemma IsDrifted_outcome_witness :
  exec_outcome (classOnly otherClass) (IsDrifted (L := refLibs) sampleCloud sampleClaim) tt =
    Done (v1alpha2.NodeClassDrifted, None) /\
  exec_trace (classOnly otherClass) (IsDrifted (L := refLibs) sampleCloud loneClaim) tt =
    [Ev (Publish (NodeClaimFailedToResolveNodeClass loneClaim)) tt].
Proof.
  split.
  - pose proof (IsDrifted_outcome (L := refLibs) sampleCloud sampleClaim _ _
      (exec_runs (classOnly otherClass) (IsDrifted (L := refLibs) sampleCloud sampleClaim) tt)) as H.
    cbv zeta in H. rewrite sampleClaim_ref in H. destruct H as (answer & rest & Et & H).
    assert (Ea : answer = Ok otherClass).
    { assert (E0 : omap classAnswer (exec_trace (classOnly otherClass)
        (IsDrifted (L := refLibs) sampleCloud sampleClaim) tt) = [("default", Ok otherClass)])
        by (vm_compute; reflexivity).
      rewrite Et in E0. cbn [omap list_omap classAnswer] in E0. congruence. }
    subst answer. destruct H as [_ [[E _]|[E _]]]; [exact E|]. vm_compute in E. discriminate E.
  - exact (proj1 (IsDrifted_outcome (L := refLibs) sampleCloud loneClaim _ _
      (exec_runs (classOnly otherClass) _ tt))).
Defined.

(** [sampleClass] with SSH keys and kubelet arguments instead. *)
Definition ignoredClass : UpCloudNodeClass :=
  mkNodeClass emptyMeta (mkSpec "pl-waw1" "GPU-4xCPU-8GB" None (Some ["ssh-ed25519 A"])
    (Some [mkKubeletArg "max-pods" "20"]) None (Some []) "" (Some false)) (mkStatus None "").

Lemma Create_ignored_fields_witness :
  exists tr o, runs (Create (L := refLibs) sampleCloud sampleRequest)
    (Ev (GetNodeClass "default") (Ok ignoredClass) :: tr) o.
Proof.
  exists (exec_trace workingCloud
      (provision (L := refLibs) sampleCloud sampleClass sampleRequest "default") None),
    (rehash (Hash (L := refLibs) ignoredClass) (exec_outcome workingCloud
      (provision (L := refLibs) sampleCloud sampleClass sampleRequest "default") None)).
  apply (Create_ignored_fields (L := refLibs) sampleCloud sampleRequest
    (mkRef "UpCloudNodeClass" "default" v1alpha2.Group) sampleClass ignoredClass).
  - reflexivity.
  - repeat split.
  - apply exec_runs.
Defined.

(** A cloud whose servers are stopped already. *)
Definition stoppedCloud : handler unit := answering (fun X c =>
  match c in api X return option X with
  | StopServer _ _ _ => Some (Err (Errorf "SERVER_STATE_ILLEGAL"))
  | DeleteServerAndStorages _ => Some (Ok tt)
  | _ => None
  end).

Lemma Delete_protocol_witness :
  exists r, exec_outcome stoppedCloud (Delete (L := refLibs) sampleCloud sampleClaim) tt = Done r.
Proof.
  destruct (Delete_protocol (L := refLibs) sampleCloud sampleClaim _ _
    (exec_runs stoppedCloud _ tt)) as (r & E & _).
  exists r. exact E.
Defined.

Example Delete_stopped :
  exec_outcome stoppedCloud (Delete (L := refLibs) sampleCloud sampleClaim) tt = Done None /\
  omap removal (exec_trace stoppedCloud (Delete (L := refLibs) sampleCloud sampleClaim) tt) = ["uuid-1"].
Proof. split; vm_compute; reflexivity. Qed.




(** The catalogue saturates an absurd memory amount, a claim wraps it around. *)
Example memory_wraps :
  Capacity (claim_Status (buildNodeClaim (L := refLibs)
    (mkServer "u" "h" "p" 1 8796093022208 "" []) "z")) !! ResourceMemory =
    Some (NewQuantity (- MaxInt64 - 1) BinarySI) /\
  planResources (mkPlan "p" 1 8796093022208 0 "" 0 "") !! ResourceMemory =
    Some (NewQuantity MaxInt64 BinarySI).
Proof. split; vm_compute; reflexivity. Qed.
