(* ===== verification/NodeClassController.v ===== *)
(** * pkg/controllers/nodeclass: keeping an UpCloudNodeClass up to date

    controller.go: the finalizer, the validation, the Ready condition and the
    status hash of a NodeClass, and the hash annotations of its NodeClaims.  The
    object a client call returns replaces the one the code goes on with. *)

From S2P Require Import Prelude GoTime Types Effects Libs NodeClass InstanceTypes Instance CloudProvider.
Local Open Scope Z_scope.

(** ** Pieces *)

(** validateSpec *)
Definition validateSpec (nodeClass : UpCloudNodeClass) : option error :=
  if decide (Spec_Zone (nc_Spec nodeClass) = "") then Some (Errorf "zone is required")
  else if decide (Spec_Plan (nc_Spec nodeClass) = "") then Some (Errorf "plan is required")
  else None.

Definition isFinalizer (s : string) : bool := bool_decide (s = v1alpha2.NodeClassFinalizer).

(** [slices.Contains(nodeClass.Finalizers, NodeClassFinalizer)] *)
Definition hasFinalizer (nodeClass : UpCloudNodeClass) : bool :=
  existsb isFinalizer (Finalizers (nc_Meta nodeClass)).

Definition withFinalizers (fs : list string) (nodeClass : UpCloudNodeClass) : UpCloudNodeClass :=
  nc_with_Meta (with_Finalizers fs (nc_Meta nodeClass)) nodeClass.

Definition ConditionTypeDrifted : string := "Drifted".

Section NodeClassController.
Context `{L : Libs}.

(** ** handleDeletion *)

Definition handleDeletion (nodeClass : UpCloudNodeClass) : prog (Result * option error) :=
  if negb (hasFinalizer nodeClass) then Ret (emptyResult, None) else
  let nodeClass := withFinalizers
    (List.filter (fun s => negb (isFinalizer s)) (Finalizers (nc_Meta nodeClass))) nodeClass in
  let! r := call (UpdateNodeClass nodeClass) in
  match r with
  | Err err => Ret (emptyResult, Some err)
  | Ok _ => Ret (emptyResult, None)
  end.

(** ** rebaselineClaimHashes *)

Definition hasHash (claim : NodeClaim) : bool :=
  bool_decide (is_Some (entries (Annotations (claim_Meta claim)) !! v1alpha2.NodeClassHashAnnotationKey)).

Definition currentVersion (claim : NodeClaim) : bool :=
  bool_decide (mapGet (Annotations (claim_Meta claim)) v1alpha2.NodeClassHashVersionAnnotationKey =
               v1alpha2.NodeClassHashVersion).

(** [claim.StatusConditions()] initialises the claim's conditions. *)
Definition initConditions (claim : NodeClaim) : NodeClaim :=
  let st := claim_Status claim in
  mkClaim (claim_Meta claim) (claim_Spec claim)
    (mkClaimStatus (ProviderID st) (NodeName st) (Capacity st) (Allocatable st)
       (NodeClaim_StatusConditions (Claim_Conditions st))).

Definition isDrifted (claim : NodeClaim) : bool :=
  match ConditionSet_Get ConditionTypeDrifted
          (Claim_Conditions (claim_Status (initConditions claim))) with
  | Some drifted => IsTrue drifted
  | None => false
  end.

(** The three reasons to leave a claim alone. *)
Definition skipClaim (claim : NodeClaim) : bool :=
  (negb (hasHash claim) && bool_decide (ProviderID (claim_Status claim) = "")) ||
  (hasHash claim && currentVersion claim) || isDrifted claim.

(** The two annotations written on the others. *)
Definition stampClaim (h : string) (claim : NodeClaim) : NodeClaim :=
  claim_with_Annotations
    (setAnnotation v1alpha2.NodeClassHashVersionAnnotationKey v1alpha2.NodeClassHashVersion
      (setAnnotation v1alpha2.NodeClassHashAnnotationKey h (Annotations (claim_Meta claim)))) claim.

Fixpoint rebaselineClaims (nodeClass : UpCloudNodeClass) (claims : list NodeClaim)
    : prog (option error) :=
  match claims with
  | [] => Ret None
  | claim :: rest =>
      if skipClaim claim then rebaselineClaims nodeClass rest else
      let stored := initConditions claim in
      let! r := call (PatchNodeClaim stored (stampClaim (Hash nodeClass) stored)) in
      match r with
      | Err err => Ret (Some (Wrapf ("re-baselining nodeclaim hash " +:+ Name (claim_Meta claim)) err))
      | Ok _ => rebaselineClaims nodeClass rest
      end
  end.

Definition rebaselineClaimHashes (nodeClass : UpCloudNodeClass) : prog (option error) :=
  let! r := call (ListNodeClaimsFor nodeClass) in
  match r with
  | Err err => Ret (Some (Wrapf "listing nodeclaims for hash re-baseline" err))
  | Ok claims => rebaselineClaims nodeClass claims
  end.

(** ** Reconcile *)

(** The end of a pass over a valid NodeClass. *)
Definition finishReconcile (nodeClass : UpCloudNodeClass) : prog (Result * option error) :=
  let! err := rebaselineClaimHashes nodeClass in
  match err with
  | Some err => Ret (emptyResult, Some err)
  | None => Ret (requeueAfter (5 * Minute), None)
  end.

(** The NodeClass a valid one becomes: ready, with its hash in the status. *)
Definition readyClass (nodeClass : UpCloudNodeClass) : UpCloudNodeClass :=
  let nodeClass := StatusConditions_SetTrue ConditionTypeReady nodeClass in
  setStatusHash (Hash nodeClass) nodeClass.

Definition invalidClass (err : error) (nodeClass : UpCloudNodeClass) : UpCloudNodeClass :=
  StatusConditions_SetFalse ConditionTypeReady "ValidationFailed"
    ("Validation failed: " +:+ ErrorText err) nodeClass.

Definition Reconcile (name : string) : prog (Result * option error) :=
  let! r := call (GetNodeClass name) in
  match r with
  | Err err => Ret (emptyResult, if IsNotFound err then None else Some err)
  | Ok nodeClass =>
    if Deleting (nc_Meta nodeClass) then handleDeletion nodeClass else
    let stored := nodeClass in
    if negb (hasFinalizer nodeClass) then
      let nodeClass := withFinalizers
        (Finalizers (nc_Meta nodeClass) ++ [v1alpha2.NodeClassFinalizer]) nodeClass in
      let! r := call (UpdateNodeClass nodeClass) in
      match r with
      | Err err => Ret (emptyResult, Some err)
      | Ok _ => Ret (requeueAfter Minute, None)
      end
    else
    match validateSpec nodeClass with
    | Some err =>
        let! r := call (StatusPatchNodeClass stored (invalidClass err nodeClass)) in
        match r with
        | Err _ => Ret (requeueNow, None)
        | Ok _ => Ret (requeueAfter (30 * Second), None)
        end
    | None =>
        let nodeClass := readyClass nodeClass in
        if negb (SemanticDeepEqual stored nodeClass) then
          let! r := call (StatusPatchNodeClass stored nodeClass) in
          match r with
          | Err err =>
              if IsConflict err then Ret (requeueNow, None)
              else Ret (requeueAfter (30 * Second), Some (Wrapf "failed to patch nodeclass status" err))
          | Ok patched => finishReconcile patched
          end
        else finishReconcile nodeClass
    end
  end.

(** SetupWithManager; [Complete] is the builder's last step.  Of the updates of a
    NodeClass only those that change its generation wake the controller. *)
Definition SetupWithManager (Complete : Registration -> option error) : option error :=
  Complete (mkRegistration "UpCloudNodeClass" 5 ["GenerationChangedPredicate"]).

(** ** What a trace shows *)

Definition claimPatch (e : event) : option (NodeClaim * NodeClaim) :=
  match e with Ev c _ => match c with PatchNodeClaim base obj => Some (base, obj) | _ => None end end.
Definition statusPatch (e : event) : option (UpCloudNodeClass * UpCloudNodeClass) :=
  match e with
  | Ev c _ => match c with StatusPatchNodeClass base obj => Some (base, obj) | _ => None end
  end.
Definition classUpdate (e : event) : option UpCloudNodeClass :=
  match e with Ev c _ => match c with UpdateNodeClass obj => Some obj | _ => None end end.

(** ** Lemmas *)

(** The claims a pass has to write, and what it writes. *)
Definition dueClaims (claims : list NodeClaim) : list NodeClaim :=
  List.filter (fun c => negb (skipClaim c)) claims.
Definition stampPatch (nodeClass : UpCloudNodeClass) (claim : NodeClaim) : NodeClaim * NodeClaim :=
  (initConditions claim, stampClaim (Hash nodeClass) (initConditions claim)).

Lemma dueClaims_cons claim claims :
  dueClaims (claim :: claims) =
  if skipClaim claim then dueClaims claims else claim :: dueClaims claims.
Proof. unfold dueClaims. simpl. by destruct (skipClaim claim). Qed.

Lemma rebaselineClaims_runs nodeClass claims tr o :
  runs (rebaselineClaims nodeClass claims) tr o ->
  exists err, o = Done err /\
    omap claimPatch tr = take (length tr) (stampPatch nodeClass <$> dueClaims claims) /\
    (err = None -> length tr = length (dueClaims claims)) /\
    omap statusPatch tr = [] /\ omap classUpdate tr = [].
Proof.
  revert tr. induction claims as [|claim claims IH]; intros tr H.
  - run_ret H. by exists None.
  - rewrite dueClaims_cons. cbn [rebaselineClaims] in H.
    destruct (skipClaim claim); [by apply IH|]. run_call H as [c|e].
    + apply IH in H as (err & -> & Hp & Hl & Hs & Hu). exists err. split; [done|].
      cbn [omap list_omap claimPatch statusPatch classUpdate length take fmap list_fmap].
      split_and!; [f_equal; exact Hp|intros He; simpl; by rewrite (Hl He)|exact Hs|exact Hu].
    + run_ret H. eexists. done.
Qed.

(** The claim after a pass that got to it. *)
Definition afterRebaseline (nodeClass : UpCloudNodeClass) (claim : NodeClaim) : NodeClaim :=
  if skipClaim claim then claim else stampClaim (Hash nodeClass) (initConditions claim).

Lemma stampClaim_annotations h claim :
  mapGet (Annotations (claim_Meta (stampClaim h claim))) v1alpha2.NodeClassHashAnnotationKey = h /\
  mapGet (Annotations (claim_Meta (stampClaim h claim))) v1alpha2.NodeClassHashVersionAnnotationKey =
    v1alpha2.NodeClassHashVersion.
Proof. unfold stampClaim. simpl. split; [by rewrite mapGet_set_ne, mapGet_set_eq|by rewrite mapGet_set_eq]. Qed.

(** A claim that is due has no verdict yet. *)
Lemma due_not_drifted nodeClass claim :
  skipClaim claim = false -> driftReason claim nodeClass = "".
Proof.
  unfold skipClaim, hasHash, currentVersion, driftReason. intros H. bool_hyps.
  destruct (decide (mapGet (Annotations (claim_Meta claim)) v1alpha2.NodeClassHashAnnotationKey = ""))
    as [|Hne]; [done|].
  destruct (decide (_ <> v1alpha2.NodeClassHashVersion)) as [|Hv]; [done|]. exfalso.
  apply dec_stable in Hv. rewrite (bool_decide_eq_true_2 _ Hv), andb_true_r in *. bool_hyps.
  apply Hne. unfold mapGet.
  destruct (entries _ !! v1alpha2.NodeClassHashAnnotationKey) eqn:E; [|done].
  exfalso. by destruct H1; eexists.
Qed.

(** A status that is as it should be: Ready true for the present generation, and
    the digest of the spec. *)
Definition StatusInPlace (nodeClass : UpCloudNodeClass) : Prop :=
  Status_Hash (nc_Status nodeClass) = Hash nodeClass /\
  exists c, StatusConditions_Get ConditionTypeReady nodeClass = Some c /\ IsTrue c = true /\
    cond_ObservedGeneration c = Generation (nc_Meta nodeClass).

Lemma readyClass_spec `{!StatusLaws L} nodeClass :
  nc_Meta (readyClass nodeClass) = nc_Meta nodeClass /\
  nc_Spec (readyClass nodeClass) = nc_Spec nodeClass /\ StatusInPlace (readyClass nodeClass).
Proof.
  unfold readyClass, StatusInPlace. destruct (SetTrue_ready ConditionTypeReady nodeClass) as (Hm & Hs & c & Hc).
  split; [exact Hm|]. split; [exact Hs|]. split; [done|]. exists c. simpl. by rewrite Hm.
Qed.

(** A status that equals what it should become is as it should be. *)
Lemma equal_in_place `{!StatusLaws L, !EqualityLaws L} nodeClass :
  SemanticDeepEqual nodeClass (readyClass nodeClass) = true -> StatusInPlace nodeClass.
Proof.
  intros [Hc Hh]%SemanticDeepEqual_status.
  destruct (readyClass_spec nodeClass) as (Hm & Hs & Hh' & c & Hg & Ht & Ho). split.
  - rewrite Hh, Hh'. unfold Hash. by rewrite Hs.
  - exists c. unfold StatusConditions_Get, GetConditions in *. by rewrite Hc, Hg, Ho, Hm.
Qed.

Lemma readyClass_idemp `{!StatusLaws L} nodeClass :
  readyClass (readyClass nodeClass) = readyClass nodeClass.
Proof.
  unfold readyClass. set (u := StatusConditions_SetTrue ConditionTypeReady nodeClass).
  assert (H : StatusConditions_SetTrue ConditionTypeReady (setStatusHash (Hash u) u) =
    setStatusHash (Hash u) (StatusConditions_SetTrue ConditionTypeReady u)).
  { unfold StatusConditions_SetTrue. change (GetConditions (setStatusHash (Hash u) u)) with (GetConditions u).
    by destruct (ConditionSet_SetTrue _ _). }
  rewrite H. unfold u at 2 4 5. rewrite SetTrue_twice. fold u. done.
Qed.

Lemma rebaseline_runs nodeClass tr o :
  runs (rebaselineClaimHashes nodeClass) tr o ->
  exists answer tr' err, tr = Ev (ListNodeClaimsFor nodeClass) answer :: tr' /\ o = Done err /\
    omap statusPatch tr' = [] /\ omap classUpdate tr' = [] /\
    match answer with
    | Err e => tr' = [] /\ err = Some (Wrapf "listing nodeclaims for hash re-baseline" e)
    | Ok claims =>
        omap claimPatch tr' = take (length tr') (stampPatch nodeClass <$> dueClaims claims) /\
        (err = None -> length tr' = length (dueClaims claims))
    end.
Proof.
  unfold rebaselineClaimHashes. intros H. run_call H as [claims|e].
  - apply rebaselineClaims_runs in H as (err & -> & Hp & Hl & Hs & Hu). by eexists (Ok claims), _, _.
  - run_ret H. by eexists (Err e), _, _.
Qed.

(** What a pass over a NodeClass does, by the state it finds it in. *)
Inductive Pass (nodeClass : UpCloudNodeClass) : list event -> outcome (Result * option error) -> Prop :=
| PassDeleted :
    Deleting (nc_Meta nodeClass) = true -> hasFinalizer nodeClass = false ->
    Pass nodeClass [] (Done (emptyResult, None))
| PassRemove answer :
    Deleting (nc_Meta nodeClass) = true -> hasFinalizer nodeClass = true ->
    Pass nodeClass [Ev (UpdateNodeClass (withFinalizers
        (List.filter (fun s => negb (isFinalizer s)) (Finalizers (nc_Meta nodeClass))) nodeClass)) answer]
      (Done (emptyResult, errOf answer))
| PassAdd answer :
    Deleting (nc_Meta nodeClass) = false -> hasFinalizer nodeClass = false ->
    Pass nodeClass [Ev (UpdateNodeClass (withFinalizers
        (Finalizers (nc_Meta nodeClass) ++ [v1alpha2.NodeClassFinalizer]) nodeClass)) answer]
      (Done match answer with Ok _ => (requeueAfter Minute, None) | Err e => (emptyResult, Some e) end)
| PassInvalid err answer :
    Deleting (nc_Meta nodeClass) = false -> hasFinalizer nodeClass = true ->
    validateSpec nodeClass = Some err ->
    Pass nodeClass [Ev (StatusPatchNodeClass nodeClass (invalidClass err nodeClass)) answer]
      (Done (if is_Ok answer then requeueAfter (30 * Second) else requeueNow, None))
| PassPatchFailed e :
    Deleting (nc_Meta nodeClass) = false -> hasFinalizer nodeClass = true ->
    validateSpec nodeClass = None ->
    SemanticDeepEqual nodeClass (readyClass nodeClass) = false ->
    Pass nodeClass [Ev (StatusPatchNodeClass nodeClass (readyClass nodeClass)) (Err e)]
      (Done (if IsConflict e then (requeueNow, None)
             else (requeueAfter (30 * Second), Some (Wrapf "failed to patch nodeclass status" e))))
| PassValid used pre tr err :
    Deleting (nc_Meta nodeClass) = false -> hasFinalizer nodeClass = true ->
    validateSpec nodeClass = None ->
    (if SemanticDeepEqual nodeClass (readyClass nodeClass)
     then pre = [] /\ used = readyClass nodeClass
     else pre = [Ev (StatusPatchNodeClass nodeClass (readyClass nodeClass)) (Ok used)]) ->
    runs (rebaselineClaimHashes used) tr (Done err) ->
    Pass nodeClass (pre ++ tr)
      (Done match err with Some e => (emptyResult, Some e) | None => (requeueAfter (5 * Minute), None) end).

Lemma finish_runs used tr o :
  runs (finishReconcile used) tr o ->
  exists err, runs (rebaselineClaimHashes used) tr (Done err) /\
    o = Done match err with
             | Some e => (emptyResult, Some e)
             | None => (requeueAfter (5 * Minute), None)
             end.
Proof.
  unfold finishReconcile. intros [(err & t1 & t2 & -> & H1 & H2)|(m & H1 & _)]%runs_bind.
  - exists err. destruct err; run_ret H2; by rewrite app_nil_r.
  - apply rebaseline_runs in H1 as (? & ? & ? & _ & [=] & _).
Qed.

(** Every pass does one of six things, decided by the NodeClass it reads, and
    a NodeClass that is gone is not an error. *)
Lemma Reconcile_runs name tr o :
  runs (Reconcile name) tr o ->
  exists answer tr', tr = Ev (GetNodeClass name) answer :: tr' /\
  match answer with
  | Err e => tr' = [] /\ o = Done (emptyResult, if IsNotFound e then None else Some e)
  | Ok nodeClass => Pass nodeClass tr' o
  end.
Proof.
  unfold Reconcile. intros H. run_call H as [nodeClass|e]; [|run_ret H; by eexists (Err e), _].
  eexists (Ok nodeClass), _. split; [done|].
  destruct (Deleting (nc_Meta nodeClass)) eqn:Ed.
  { unfold handleDeletion in H. destruct (hasFinalizer nodeClass) eqn:Ef; cbn [negb] in H.
    - run_call H as [u|e]; run_ret H; [exact (PassRemove _ (Ok u) Ed Ef)|exact (PassRemove _ (Err e) Ed Ef)].
    - run_ret H. by constructor. }
  destruct (hasFinalizer nodeClass) eqn:Ef; cbn [negb] in H.
  2: { run_call H as [u|e]; run_ret H; [exact (PassAdd _ (Ok u) Ed Ef)|exact (PassAdd _ (Err e) Ed Ef)]. }
  destruct (validateSpec nodeClass) as [err|] eqn:Ev.
  { run_call H as [u|e]; run_ret H;
      [exact (PassInvalid _ err (Ok u) Ed Ef Ev)|exact (PassInvalid _ err (Err e) Ed Ef Ev)]. }
  destruct (SemanticDeepEqual nodeClass (readyClass nodeClass)) eqn:Es; cbn [negb] in H.
  - apply finish_runs in H as (err & H & ->).
    apply (PassValid _ (readyClass nodeClass) []); try done. by rewrite Es.
  - run_call H as [u|e].
    + apply finish_runs in H as (err & H & ->).
      apply (PassValid _ u [_]); try done. by rewrite Es.
    + assert (G := PassPatchFailed nodeClass e Ed Ef Ev Es).
      destruct (IsConflict e); run_ret H; exact G.
Qed.

Lemma filter_sublist_of {A} (f : A -> bool) (l : list A) : List.filter f l `sublist_of` l.
Proof. induction l as [|x l IH]; simpl; [done|]. destruct (f x); by constructor. Qed.

(** ** Properties *)


(** C12: Re-baselining never changes a drift verdict: before and after a pass got
    to a claim, IsDrifted says the same about it against the NodeClass whose
    digest was written.  In particular no claim becomes drifted by it, genuine
    drift survives it, and afterwards every claim that is launched or has a hash,
    and is not flagged as drifted, takes part in drift detection. *)
Theorem rebaseline_keeps_drift `{!StatusLaws L} nodeClass claim :
  driftReason (afterRebaseline nodeClass claim) nodeClass = driftReason claim nodeClass /\
  (isDrifted claim = true -> afterRebaseline nodeClass claim = claim) /\
  (isDrifted claim = false -> hasHash claim = true \/ ProviderID (claim_Status claim) <> "" ->
   hasHash (afterRebaseline nodeClass claim) = true /\
   currentVersion (afterRebaseline nodeClass claim) = true).
Proof.
  unfold afterRebaseline. split_and!.
  - destruct (skipClaim claim) eqn:Es; [done|].
    destruct (stampClaim_annotations (Hash nodeClass) (initConditions claim)) as [Hh Hv].
    rewrite (driftReason_stamped _ _ nodeClass Hh Hv), (due_not_drifted _ _ Es).
    apply decide_True. by right.
  - intros Hd. unfold skipClaim. by rewrite Hd, orb_true_r.
  - intros Hd Hl. destruct (skipClaim claim) eqn:Es.
    + unfold skipClaim in Es. rewrite Hd, orb_false_r in Es. apply orb_true_iff in Es.
      destruct Es as [Es|Es]; bool_hyps; [|done]. destruct Hl; congruence.
    + unfold hasHash, currentVersion, stampClaim. simpl.
      split; apply bool_decide_eq_true_2; [|by rewrite mapGet_set_eq].
      unfold setAnnotation. simpl. rewrite lookup_insert_ne, lookup_insert_eq by done. eauto.
Qed.

(** C29: The finalizer: a NodeClass without it gets it appended, and nothing else
    happens in that pass; a NodeClass being deleted loses every occurrence of it,
    keeps its other finalizers in order, and is otherwise left alone; in no other
    pass is the object updated. *)
Theorem Reconcile_finalizer name nodeClass tr o :
  runs (Reconcile name) tr o -> omap classAnswer tr = [(name, Ok nodeClass)] ->
  let fs := Finalizers (nc_Meta nodeClass) in
  match Deleting (nc_Meta nodeClass), hasFinalizer nodeClass with
  | true, true => exists obj, omap classUpdate tr = [obj] /\ length tr = 2%nat /\
      nc_Spec obj = nc_Spec nodeClass /\ hasFinalizer obj = false /\
      Finalizers (nc_Meta obj) `sublist_of` fs /\
      forall f, f <> v1alpha2.NodeClassFinalizer -> f ∈ fs -> f ∈ Finalizers (nc_Meta obj)
  | true, false => length tr = 1%nat /\ o = Done (emptyResult, None)
  | false, true => omap classUpdate tr = []
  | false, false => exists obj, omap classUpdate tr = [obj] /\ length tr = 2%nat /\
      nc_Spec obj = nc_Spec nodeClass /\ hasFinalizer obj = true /\
      Finalizers (nc_Meta obj) = fs ++ [v1alpha2.NodeClassFinalizer]
  end.
Proof.
  intros (answer & tr' & -> & H)%Reconcile_runs Ha fs.
  destruct answer as [nodeClass'|e]; [|destruct H as [-> _]; done].
  assert (nodeClass' = nodeClass) as -> by (cbn [omap list_omap classAnswer] in Ha; congruence).
  destruct H as [Hd Hf|answer Hd Hf|answer Hd Hf|err answer Hd Hf Hv|e Hd Hf Hv Hs
                |used pre tr err Hd Hf Hv Hpre H]; rewrite Hd, Hf.
  - done.
  - eexists. split; [done|]. split; [done|]. split; [done|]. simpl. split_and!.
    + apply existsb_false. simpl. intros f. rewrite list_elem_of_In, filter_In.
      intros [_ Hn]. by apply negb_true_iff in Hn.
    + apply filter_sublist_of.
    + intros f Hf' Hin. rewrite list_elem_of_In, filter_In, <-list_elem_of_In. split; [done|].
      unfold isFinalizer. by rewrite bool_decide_eq_false_2.
  - eexists. split; [done|]. split_and!; try done. unfold hasFinalizer. simpl.
    apply existsb_true. exists v1alpha2.NodeClassFinalizer. split; [|done].
    apply elem_of_app. right. by left.
  - done.
  - done.
  - apply rebaseline_runs in H as (answer & tr' & err' & -> & _ & _ & Hu & _).
    change (omap classUpdate (pre ++ Ev (ListNodeClaimsFor used) answer :: tr') = []).
    rewrite omap_app. destruct (SemanticDeepEqual _ _);
      [destruct Hpre as [-> _]|subst pre]; exact Hu.
Qed.

(** C28: The status: a pass over a NodeClass that is not being deleted and has the
    finalizer sends exactly one status patch, based on the object read, that
    leaves metadata and spec alone: for an invalid spec Ready is turned false, with
    the reason, for this generation, and the digest kept; for a valid one Ready is
    turned true for this generation and the digest of the spec stored.  The patch
    for a valid spec is left out only when the status is that already, and is left
    out when it was made by such a patch.  Other passes patch no status. *)
Theorem Reconcile_status `{!StatusLaws L, !EqualityLaws L} name nodeClass tr o :
  runs (Reconcile name) tr o -> omap classAnswer tr = [(name, Ok nodeClass)] ->
  if Deleting (nc_Meta nodeClass) || negb (hasFinalizer nodeClass) then omap statusPatch tr = [] else
  match validateSpec nodeClass with
  | Some err => exists obj, omap statusPatch tr = [(nodeClass, obj)] /\
      nc_Meta obj = nc_Meta nodeClass /\ nc_Spec obj = nc_Spec nodeClass /\
      StatusConditions_Get ConditionTypeReady obj =
        Some (mkCondition ConditionTypeReady "False" "ValidationFailed"
                ("Validation failed: " +:+ ErrorText err) (Generation (nc_Meta nodeClass))) /\
      Status_Hash (nc_Status obj) = Status_Hash (nc_Status nodeClass)
  | None =>
      ((exists obj, omap statusPatch tr = [(nodeClass, obj)] /\
          nc_Meta obj = nc_Meta nodeClass /\ nc_Spec obj = nc_Spec nodeClass /\ StatusInPlace obj) \/
       (omap statusPatch tr = [] /\ StatusInPlace nodeClass)) /\
      (forall nodeClass0, nodeClass = readyClass nodeClass0 -> omap statusPatch tr = [])
  end.
Proof.
  intros (answer & tr' & -> & H)%Reconcile_runs Ha.
  destruct answer as [nodeClass'|e]; [|destruct H as [-> _]; done].
  assert (nodeClass' = nodeClass) as -> by (cbn [omap list_omap classAnswer] in Ha; congruence).
  change (omap statusPatch (Ev (GetNodeClass name) (Ok nodeClass) :: tr')) with (omap statusPatch tr').
  destruct (readyClass_spec nodeClass) as (Hm & Hs & Hin).
  assert (Hsame : forall n0, nodeClass = readyClass n0 ->
    SemanticDeepEqual nodeClass (readyClass nodeClass) = true).
  { intros n0 ->. rewrite readyClass_idemp. apply SemanticDeepEqual_refl. }
  destruct H as [Hd Hf|answer Hd Hf|answer Hd Hf|err answer Hd Hf Hv|e Hd Hf Hv Heq
                |used pre tr err Hd Hf Hv Hpre H].
  1-5: rewrite Hd, Hf; cbn [orb negb]; try done.
  - rewrite Hv. destruct (SetFalse_ready ConditionTypeReady "ValidationFailed"
      ("Validation failed: " +:+ ErrorText err) nodeClass) as (Hm' & Hs' & Hh' & Hc').
    eexists. split_and!; [reflexivity|done..].
  - rewrite Hv. split; [left; by eexists|]. intros n0 Hn0.
    rewrite (Hsame n0 Hn0) in Heq. done.
  - apply rebaseline_runs in H as (answer & tr' & err' & -> & _ & Hst & _ & _).
    rewrite Hd, Hf, Hv, omap_app. cbn [orb negb].
    change (omap statusPatch (Ev (ListNodeClaimsFor used) answer :: tr')) with (omap statusPatch tr').
    rewrite Hst, app_nil_r. destruct (SemanticDeepEqual _ _) eqn:Heq.
    + destruct Hpre as [-> _]. split; [right; split; [done|by apply equal_in_place]|done].
    + subst pre. split; [left; by eexists|]. intros n0 Hn0. discriminate (Hsame n0 Hn0).
Qed.
End NodeClassController.

(** ** Concrete runs *)

(** A valid class with the finalizer, a claim hashed by the old algorithm, one
    flagged as drifted and one that is not launched. *)
Definition managedClass : UpCloudNodeClass :=
  withFinalizers ["other"; v1alpha2.NodeClassFinalizer] sampleClass.
Definition claimWith (name providerID : string) (ann : gmap string string) (cs : list Condition)
    : NodeClaim :=
  mkClaim (mkMeta name "" None (Some ann) [] None zeroTime [] 0) (mkClaimSpec None [] [])
    (mkClaimStatus providerID "" ∅ ∅ cs).
Definition oldClaim : NodeClaim :=
  claimWith "old" "upcloud:////1" {[ v1alpha2.NodeClassHashAnnotationKey := "abc" ]} [].
Definition driftedClaim : NodeClaim :=
  claimWith "drifted" "upcloud:////2" {[ v1alpha2.NodeClassHashAnnotationKey := "abc" ]}
    [mkCondition ConditionTypeDrifted "True" "" "" 0].
Definition newClaim : NodeClaim := claimWith "new" "" ∅ [].

Definition classAPI (nodeClass : UpCloudNodeClass) : handler unit := answering (fun X c =>
  match c in api X return option X with
  | GetNodeClass _ => Some (Ok nodeClass)
  | UpdateNodeClass obj => Some (Ok obj)
  | StatusPatchNodeClass _ obj => Some (Ok obj)
  | ListNodeClaimsFor _ => Some (Ok [oldClaim; driftedClaim; newClaim])
  | PatchNodeClaim _ obj => Some (Ok obj)
  | _ => None
  end).

Definition passTrace (nodeClass : UpCloudNodeClass) : list event :=
  exec_trace (classAPI nodeClass) (Reconcile (L := refLibs) "default") tt.

Example pass_patches_old :
  omap claimPatch (passTrace managedClass) = [stampPatch (L := refLibs) managedClass oldClaim].
Proof. vm_compute. reflexivity. Qed.


Lemma rebaseline_keeps_drift_witness :
  driftReason (L := refLibs) (afterRebaseline (L := refLibs) sampleClass oldClaim) sampleClass = "" /\
  hasHash (afterRebaseline (L := refLibs) sampleClass oldClaim) = true.
Proof.
  destruct (rebaseline_keeps_drift (L := refLibs) sampleClass oldClaim) as (H1 & _ & H3). split.
  - rewrite H1. vm_compute. reflexivity.
  - destruct H3 as [H _]; [vm_compute; reflexivity|left; vm_compute; reflexivity|exact H].
Defined.

Lemma Reconcile_finalizer_witness :
  exists obj, omap classUpdate (passTrace sampleClass) = [obj] /\ hasFinalizer obj = true.
Proof.
  destruct (Reconcile_finalizer (L := refLibs) "default" sampleClass _ _
    (exec_runs (classAPI sampleClass) _ tt)) as (obj & H & _ & _ & Hf & _).
  - vm_compute. reflexivity.
  - exists obj. split; [exact H|exact Hf].
Defined.

(** A class without a plan, whose spec was edited three times. *)
Definition planless : UpCloudNodeClass :=
  let m := nc_Meta managedClass in
  mkNodeClass (mkMeta (Name m) (UID m) (Labels m) (Annotations m) (Finalizers m) (DeletionTimestamp m)
    (CreationTimestamp m) (OwnerReferences m) 4)
    (mkSpec "de-fra1" "" None None None None None "" None) (nc_Status managedClass).

(** One patch for the class that is not ready yet, none once it is, and the
    refusal of the class without a plan. *)
Lemma Reconcile_status_witness :
  (exists obj, omap statusPatch (passTrace managedClass) = [(managedClass, obj)] /\
     StatusInPlace (L := refLibs) obj) /\
  omap statusPatch (passTrace (readyClass (L := refLibs) managedClass)) = [] /\
  exists obj, omap statusPatch (passTrace planless) = [(planless, obj)] /\
    StatusConditions_Get (L := refLibs) ConditionTypeReady obj =
      Some (mkCondition "Ready" "False" "ValidationFailed" "Validation failed: plan is required" 4).
Proof.
  split; [|split].
  - destruct (Reconcile_status (L := refLibs) "default" managedClass _ _
      (exec_runs (classAPI managedClass) _ tt)) as [[(obj & H & _ & _ & Hin)|[H _]] _].
    + vm_compute. reflexivity.
    + exists obj. split; [exact H|exact Hin].
    + vm_compute in H. discriminate H.
  - refine (proj2 (Reconcile_status (L := refLibs) "default" (readyClass (L := refLibs) managedClass) _ _
      (exec_runs (classAPI (readyClass (L := refLibs) managedClass)) _ tt) _) managedClass _).
    + vm_compute. reflexivity.
    + reflexivity.
  - destruct (Reconcile_status (L := refLibs) "default" planless _ _
      (exec_runs (classAPI planless) _ tt)) as (obj & H & _ & _ & Hc & _).
    + vm_compute. reflexivity.
    + exists obj. split; [exact H|exact Hc].
Defined.
