(* ===== verification/NodeClaimTTL.v ===== *)
(** * pkg/controllers/nodeclaimttl: recycling NodeClaims of a certain age

    controller.go: when the TTL of a claim is over, a busy or reusable node has
    its timer reset, any other one is tainted and its claim deleted. *)

From S2P Require Import Prelude GoInt GoStrings GoTime Types Effects Libs.

Local Open Scope Z_scope.

Definition PodPending : string := "Pending".
Definition PodScheduled : string := "PodScheduled".
Definition TolerationOpExists : string := "Exists".
Definition TolerationOpEqual : string := "Equal".
Definition NodeSelectorOpIn : string := "In".
Definition NodeSelectorOpNotIn : string := "NotIn".
Definition NodeSelectorOpExists : string := "Exists".
Definition NodeSelectorOpDoesNotExist : string := "DoesNotExist".

(** ** Pods and their node *)

(** isDaemonSet *)
Definition isDaemonSet (pod : Pod) : bool :=
  existsb (fun ref => bool_decide (or_Kind ref = "DaemonSet")) (OwnerReferences (pod_Meta pod)).

(** hasNonDSPods *)
Definition hasNonDSPods (pods : list Pod) (nodeName : string) : bool :=
  existsb (fun p => bool_decide (pod_NodeName p = nodeName) && negb (isDaemonSet p) &&
                    negb (Deleting (pod_Meta p))) pods.

(** tolerationMatches: the loop over the tolerations. *)
Fixpoint tolerationMatches (taint : Taint) (tolerations : list Toleration) : bool :=
  match tolerations with
  | [] => false
  | t :: rest =>
      if decide (tol_Key t <> "" /\ tol_Key t <> Taint_Key taint) then tolerationMatches taint rest
      else if decide (tol_Effect t <> "" /\ tol_Effect t <> Taint_Effect taint)
      then tolerationMatches taint rest
      else if decide (tol_Operator t = TolerationOpExists) then true
      else if decide (tol_Value t = Taint_Value taint) then true
      else tolerationMatches taint rest
  end.

(** podToleratesNodeTaints: the loop over the taints. *)
Fixpoint podToleratesNodeTaints (pod : Pod) (taints : list Taint) : bool :=
  match taints with
  | [] => true
  | taint :: rest =>
      if decide (Taint_Effect taint <> TaintEffectNoSchedule /\
                 Taint_Effect taint <> TaintEffectNoExecute)
      then podToleratesNodeTaints pod rest
      else if tolerationMatches taint (pod_Tolerations pod)
      then podToleratesNodeTaints pod rest else false
  end.

(** The loop over one term's expressions: [found] and [failed] at its end. *)
Fixpoint scanTerm (plan : string) (exprs : list NodeSelectorRequirement) (found : bool)
    : bool * bool :=
  match exprs with
  | [] => (found, false)
  | expr :: rest =>
      if decide (req_Key expr <> LabelInstanceTypeStable) then scanTerm plan rest found
      else if decide (req_Operator expr = NodeSelectorOpIn \/
                      req_Operator expr = NodeSelectorOpExists) then
        if decide (req_Operator expr = NodeSelectorOpIn /\ plan ∉ req_Values expr)
        then (true, true) else scanTerm plan rest true
      else scanTerm plan rest found
  end.

(** The first loop over the terms: whether it returns true. *)
Fixpoint someTermFits (plan : string) (terms : list NodeSelectorTerm) : bool :=
  match terms with
  | [] => false
  | term :: rest =>
      let '(found, failed) := scanTerm plan (MatchExpressions term) false in
      if negb found then someTermFits plan rest
      else if negb failed then true else someTermFits plan rest
  end.

(** The second loop: hasConstrainingTerm. *)
Definition constrainingTerm (term : NodeSelectorTerm) : bool :=
  existsb (fun expr => bool_decide (req_Key expr = LabelInstanceTypeStable)) (MatchExpressions term).

(** The required node affinity, when every pointer on the way is set. *)
Definition requiredAffinity (pod : Pod) : option NodeSelector :=
  match pod_Affinity pod with
  | Some aff => match aff_NodeAffinity aff with
                | Some na => RequiredDuringSchedulingIgnoredDuringExecution na
                | None => None
                end
  | None => None
  end.

(** podFitsInstanceType *)
Definition podFitsInstanceType (pod : Pod) (plan : string) : bool :=
  match entries (pod_NodeSelector pod) !! LabelInstanceTypeStable with
  | Some v => bool_decide (v = plan)
  | None => true
  end &&
  match requiredAffinity pod with
  | None => true
  | Some selector =>
      if someTermFits plan (elems (NodeSelectorTerms selector)) then true else
      match NodeSelectorTerms selector with
      | Some terms => negb (existsb constrainingTerm terms)
      | None => true
      end
  end.

(** The loop over the conditions of a pending pod: false where it returns false. *)
Fixpoint waitsForNode (cs : list Condition) : bool :=
  match cs with
  | [] => true
  | c :: rest =>
      if decide (cond_Type c <> PodScheduled) then waitsForNode rest
      else if decide (cond_Status c = "True") then false
      else if decide (cond_Reason c <> "Unschedulable") then false
      else waitsForNode rest
  end.

(** isMatchingPending *)
Definition isMatchingPending (pod : Pod) (plan : string) (taints : list Taint) : bool :=
  if decide (pod_Phase pod <> PodPending \/ pod_NodeName pod <> "") then false
  else if negb (waitsForNode (pod_Conditions pod)) then false
  else if negb (podFitsInstanceType pod plan) then false
  else podToleratesNodeTaints pod taints.

(** instancePlan *)
Definition instancePlan (node : Node) : string := mapGet (Labels (node_Meta node)) LabelInstanceTypeStable.

(** hasMatchingPendingPod *)
Definition hasMatchingPendingPod (pods : list Pod) (node : Node) : bool :=
  let plan := instancePlan node in
  existsb (fun p => isMatchingPending p plan (node_Taints node)) pods.

(** ** The timer *)

(** ttlStart *)
Definition ttlStart (nc : NodeClaim) : Time :=
  match entries (Annotations (claim_Meta nc)) !! v1alpha2.NodeClaimTTLResetAnnotationKey with
  | Some v => match ParseRFC3339 v with
              | Some t => t
              | None => CreationTimestamp (claim_Meta nc)
              end
  | None => CreationTimestamp (claim_Meta nc)
  end.

Definition stampReset (now : Time) (nc : NodeClaim) : NodeClaim :=
  claim_with_Annotations (setAnnotation v1alpha2.NodeClaimTTLResetAnnotationKey
    (FormatRFC3339 now) (Annotations (claim_Meta nc))) nc.

(** resetTTL (the reason is only logged) *)
Definition resetTTL (TTL : Z) (nc : NodeClaim) : prog (Result * option error) :=
  let! now := call Now in
  let! r := call (PatchNodeClaim nc (stampReset now nc)) in
  match r with
  | Err err => Ret (emptyResult, Some (Wrapf "patching TTL reset" err))
  | Ok _ => Ret (requeueAfter TTL, None)
  end.

(** ** The taint *)

Definition decommissioning : Taint :=
  mkTaint v1alpha2.DecommissioningTaintKey "" TaintEffectNoSchedule.

Definition isDecommissioned (node : Node) : bool :=
  existsb (fun t => bool_decide (Taint_Key t = v1alpha2.DecommissioningTaintKey)) (node_Taints node).

Definition addTaint (node : Node) : Node := node_with_Taints (node_Taints node ++ [decommissioning]) node.

(** taintNode *)
Definition taintNode (node : Node) : prog (option error) :=
  if isDecommissioned node then Ret None else
  let! r := call (PatchNode node (addTaint node)) in
  match r with Err err => Ret (Some err) | Ok _ => Ret None end.

(** ** Reconcile *)

Section NodeClaimTTL.
Context `{L : Libs}.

(** The third path: taint, then delete. *)
Definition decommission (nc : NodeClaim) (node : Node) : prog (Result * option error) :=
  let! err := taintNode node in
  match err with
  | Some err => Ret (emptyResult, Some (Wrapf ("tainting node " +:+ NodeName (claim_Status nc)) err))
  | None =>
      let! r := call (DeleteNodeClaim nc) in
      match r with
      | Err err => Ret (emptyResult, Some (Wrapf "deleting NodeClaim" err))
      | Ok _ => Ret (emptyResult, None)
      end
  end.

(** From the expiry of the TTL on. *)
Definition expire (TTL : Z) (nc : NodeClaim) : prog (Result * option error) :=
  let! r := call ListPods in
  match r with
  | Err err => Ret (emptyResult, Some (Wrapf "listing pods" err))
  | Ok pods =>
      if hasNonDSPods pods (NodeName (claim_Status nc)) then resetTTL TTL nc else
      let! r := call (GetNode (NodeName (claim_Status nc))) in
      match r with
      | Err err => Ret (emptyResult, Some (Wrapf ("getting node " +:+ NodeName (claim_Status nc)) err))
      | Ok node =>
          if hasMatchingPendingPod pods node then resetTTL TTL nc else decommission nc node
      end
  end.

Definition Reconcile (TTL : Z) (name : string) : prog (Result * option error) :=
  let! r := call (GetNodeClaim name) in
  match r with
  | Err err => Ret (emptyResult, IgnoreNotFound err)
  | Ok nc =>
      if Deleting (claim_Meta nc) || bool_decide (NodeName (claim_Status nc) = "")
      then Ret (emptyResult, None) else
      let start := ttlStart nc in
      let! now := call Now in
      let elapsed := Sub now start in
      if elapsed <? TTL then Ret (requeueAfter (wrap64 (TTL - elapsed)), None)
      else expire TTL nc
  end.

(** SetupWithManager; [Complete] is the builder's last step. *)
Definition SetupWithManager (Complete : Registration -> option error) : option error :=
  Complete (mkRegistration "NodeClaim" 0 []).

(** ** What a trace shows *)

Definition claimDelete (e : event) : option NodeClaim :=
  match e with Ev c _ => match c with DeleteNodeClaim obj => Some obj | _ => None end end.
Definition claimPatched (e : event) : option (NodeClaim * NodeClaim) :=
  match e with Ev c _ => match c with PatchNodeClaim base obj => Some (base, obj) | _ => None end end.

Definition podsAnswer (e : event) : option (list Pod) :=
  match e with
  | Ev c r => match c in api X return X -> option (list Pod) with
              | ListPods => fun r => match r with Ok pods => Some pods | Err _ => None end
              | _ => fun _ => None
              end r
  end.

Definition claimAnswer (e : event) : option NodeClaim :=
  match e with
  | Ev c r => match c in api X return X -> option NodeClaim with
              | GetNodeClaim _ => fun r => match r with Ok nc => Some nc | Err _ => None end
              | _ => fun _ => None
              end r
  end.
Definition clockAnswer (e : event) : option Time :=
  match e with
  | Ev c r => match c in api X return X -> option Time with Now => Some | _ => fun _ => None end r
  end.

(** What an expired claim goes through. *)
Inductive Expired (TTL : Z) (nc : NodeClaim) : list event -> outcome (Result * option error) -> Prop :=
| ExpStopped tr e :                  (* a read or the taint failed *)
    omap claimDelete tr = [] -> omap claimPatched tr = [] ->
    Expired TTL nc tr (Done (emptyResult, Some e))
| ExpReset pods pre now answer :     (* kept: busy, or wanted by a pending pod *)
    hasNonDSPods pods (NodeName (claim_Status nc)) = true /\ pre = [Ev ListPods (Ok pods)] \/
    (exists node, hasNonDSPods pods (NodeName (claim_Status nc)) = false /\
       hasMatchingPendingPod pods node = true /\
       pre = [Ev ListPods (Ok pods); Ev (GetNode (NodeName (claim_Status nc))) (Ok node)]) ->
    Expired TTL nc
      (pre ++ [Ev Now now; Ev (PatchNodeClaim nc (stampReset now nc)) answer])
      (Done match answer with
            | Ok _ => (requeueAfter TTL, None)
            | Err e => (emptyResult, Some (Wrapf "patching TTL reset" e))
            end)
| ExpRecycled pods node pre answer : (* tainted, then deleted *)
    hasNonDSPods pods (NodeName (claim_Status nc)) = false ->
    hasMatchingPendingPod pods node = false ->
    (if isDecommissioned node then pre = []
     else exists node', pre = [Ev (PatchNode node (addTaint node)) (Ok node')]) ->
    Expired TTL nc
      ([Ev ListPods (Ok pods); Ev (GetNode (NodeName (claim_Status nc))) (Ok node)] ++ pre ++
       [Ev (DeleteNodeClaim nc) answer])
      (Done (emptyResult, Wrapf "deleting NodeClaim" <$> match answer with Ok _ => None | Err e => Some e end)).

Lemma resetTTL_runs TTL nc tr o :
  runs (resetTTL TTL nc) tr o ->
  exists now answer, tr = [Ev Now now; Ev (PatchNodeClaim nc (stampReset now nc)) answer] /\
    o = Done match answer with
             | Ok _ => (requeueAfter TTL, None)
             | Err e => (emptyResult, Some (Wrapf "patching TTL reset" e))
             end.
Proof.
  unfold resetTTL. intros H. run_call H as now. run_call H as [u|e]; run_ret H.
  - by exists now, (Ok u).
  - by exists now, (Err e).
Qed.

Lemma expire_runs TTL nc tr o : runs (expire TTL nc) tr o -> Expired TTL nc tr o.
Proof.
  unfold expire. intros H. run_call H as [pods|e]; [|run_ret H; by constructor].
  destruct (hasNonDSPods pods (NodeName (claim_Status nc))) eqn:Eb.
  { apply resetTTL_runs in H as (now & answer & -> & ->).
    apply (ExpReset TTL nc pods [Ev ListPods (Ok pods)]). by left. }
  run_call H as [node|e]; [|run_ret H; by constructor].
  destruct (hasMatchingPendingPod pods node) eqn:Em.
  { apply resetTTL_runs in H as (now & answer & -> & ->).
    apply (ExpReset TTL nc pods [Ev ListPods (Ok pods); Ev (GetNode _) (Ok node)]). right. eauto. }
  unfold decommission, taintNode in H. destruct (isDecommissioned node) eqn:Et.
  - run_call H as u. pose proof (ExpRecycled TTL nc pods node [] u Eb Em) as G. rewrite Et in G.
    specialize (G eq_refl). destruct u as [u|e]; run_ret H; exact G.
  - run_call H as [node'|e]; [|run_ret H; by constructor]. run_call H as u.
    pose proof (ExpRecycled TTL nc pods node [Ev (PatchNode node (addTaint node)) (Ok node')] u Eb Em)
      as G. rewrite Et in G.
    specialize (G (ex_intro _ node' eq_refl)). destruct u as [u|e]; run_ret H; exact G.
Qed.

(** A pass reads the claim, and the clock if there is something to time. *)
Lemma ttl_pass_runs TTL name tr o :
  runs (Reconcile TTL name) tr o ->
  exists answer tr', tr = Ev (GetNodeClaim name) answer :: tr' /\
  match answer with
  | Err e => tr' = [] /\ o = Done (emptyResult, IgnoreNotFound e)
  | Ok nc =>
      if Deleting (claim_Meta nc) || bool_decide (NodeName (claim_Status nc) = "")
      then tr' = [] /\ o = Done (emptyResult, None)
      else exists now rest, tr' = Ev Now now :: rest /\
        if Sub now (ttlStart nc) <? TTL
        then rest = [] /\ o = Done (requeueAfter (wrap64 (TTL - Sub now (ttlStart nc))), None)
        else Expired TTL nc rest o
  end.
Proof.
  unfold Reconcile. intros H. run_call H as [nc|e]; [|run_ret H; by eexists (Err e), _].
  eexists (Ok nc), _. split; [done|].
  destruct (Deleting (claim_Meta nc) || bool_decide (NodeName (claim_Status nc) = ""));
    [by run_ret H|].
  run_call H as now. eexists now, _. split; [done|].
  destruct (Sub now (ttlStart nc) <? TTL); [by run_ret H|by apply expire_runs].
Qed.

(** ** Reference semantics of the scheduler

    What Kubernetes means by a toleration and by a node selector term, as far as
    the instance-type label of a node that carries it is concerned. *)

Definition tolerates (t : Toleration) (taint : Taint) : bool :=
  bool_decide (tol_Effect t = "" \/ tol_Effect t = Taint_Effect taint) &&
  bool_decide (tol_Key t = "" \/ tol_Key t = Taint_Key taint) &&
  (if decide (tol_Operator t = TolerationOpExists) then true
   else if decide (tol_Operator t = "" \/ tol_Operator t = TolerationOpEqual)
   then bool_decide (tol_Value t = Taint_Value taint) else false).

Definition hardTaint (taint : Taint) : bool :=
  bool_decide (Taint_Effect taint = TaintEffectNoSchedule \/
               Taint_Effect taint = TaintEffectNoExecute).

Definition schedulable (pod : Pod) (taints : list Taint) : bool :=
  forallb (fun taint => existsb (fun t => tolerates t taint) (pod_Tolerations pod))
    (List.filter hardTaint taints).

(** An expression against a node labelled with [plan]; other keys are not judged. *)
Definition exprAdmits (plan : string) (expr : NodeSelectorRequirement) : bool :=
  if decide (req_Key expr <> LabelInstanceTypeStable) then true
  else if decide (req_Operator expr = NodeSelectorOpIn) then bool_decide (plan ∈ req_Values expr)
  else if decide (req_Operator expr = NodeSelectorOpNotIn) then bool_decide (plan ∉ req_Values expr)
  else bool_decide (req_Operator expr = NodeSelectorOpExists).

(** A term without expressions matches nothing. *)
Definition termAdmits (plan : string) (term : NodeSelectorTerm) : bool :=
  match MatchExpressions term with [] => false | exprs => forallb (exprAdmits plan) exprs end.

Definition podAdmits (pod : Pod) (plan : string) : bool :=
  bool_decide (default plan (entries (pod_NodeSelector pod) !! LabelInstanceTypeStable) = plan) &&
  match requiredAffinity pod with
  | None => true
  | Some selector => existsb (termAdmits plan) (elems (NodeSelectorTerms selector))
  end.

(** The affinities on which the code and the scheduler agree: terms that say
    something, all of them or none about the instance type, and that only with
    In and Exists. *)
Record plainAffinity (terms : list NodeSelectorTerm) : Prop := {
  plain_nonempty : terms <> [];
  plain_terms term : term ∈ terms -> MatchExpressions term <> [];
  plain_all_or_none :
    (forall term, term ∈ terms -> constrainingTerm term = true) \/
    (forall term, term ∈ terms -> constrainingTerm term = false);
  plain_ops term expr : term ∈ terms -> expr ∈ MatchExpressions term ->
    req_Key expr = LabelInstanceTypeStable ->
    req_Operator expr = NodeSelectorOpIn \/ req_Operator expr = NodeSelectorOpExists;
}.

Lemma tolerationMatches_tolerates taint ts :
  (forall t, t ∈ ts -> tol_Operator t ∈ [""; TolerationOpEqual; TolerationOpExists]) ->
  tolerationMatches taint ts = existsb (fun t => tolerates t taint) ts.
Proof.
  induction ts as [|t ts IH]; intros Hop; [done|]. cbn [tolerationMatches existsb].
  assert (Hrest : tolerationMatches taint ts = existsb (fun t => tolerates t taint) ts).
  { apply IH. intros t' Ht'. apply Hop. by right. }
  specialize (Hop t (list_elem_of_here _ _)). rewrite Hrest. unfold tolerates.
  destruct (decide (tol_Key t <> "" /\ tol_Key t <> Taint_Key taint)) as [Hk|Hk].
  { rewrite (bool_decide_eq_false_2 (tol_Key t = "" \/ _)) by naive_solver. by rewrite andb_false_r. }
  rewrite (bool_decide_eq_true_2 (tol_Key t = "" \/ _)), andb_true_r
    by (destruct (decide (tol_Key t = "")), (decide (tol_Key t = Taint_Key taint)); tauto).
  destruct (decide (tol_Effect t <> "" /\ tol_Effect t <> Taint_Effect taint)) as [He|He].
  { by rewrite bool_decide_eq_false_2 by naive_solver. }
  rewrite bool_decide_eq_true_2
    by (destruct (decide (tol_Effect t = "")), (decide (tol_Effect t = Taint_Effect taint)); tauto).
  destruct (decide (tol_Operator t = TolerationOpExists)); [done|].
  destruct (decide (tol_Operator t = "" \/ tol_Operator t = TolerationOpEqual)).
  - destruct (decide (tol_Value t = Taint_Value taint));
      [by rewrite bool_decide_eq_true_2|by rewrite bool_decide_eq_false_2].
  - exfalso. rewrite !elem_of_cons in Hop. destruct Hop as [?|[?|[?|?%not_elem_of_nil]]]; tauto.
Qed.

Lemma podTolerates_forallb pod taints :
  podToleratesNodeTaints pod taints =
  forallb (fun taint => tolerationMatches taint (pod_Tolerations pod)) (List.filter hardTaint taints).
Proof.
  induction taints as [|taint taints IH]; [done|]. simpl. unfold hardTaint at 1. rewrite IH.
  case_decide as Hd.
  - rewrite bool_decide_eq_false_2 by tauto. done.
  - rewrite bool_decide_eq_true_2; [simpl; by case_match|].
    destruct (decide (Taint_Effect taint = TaintEffectNoSchedule)),
      (decide (Taint_Effect taint = TaintEffectNoExecute)); tauto.
Qed.

(** One pass over a term: whether it speaks about the type, and against the plan. *)
Lemma scanTerm_spec plan exprs found :
  (forall expr, expr ∈ exprs -> req_Key expr = LabelInstanceTypeStable ->
    req_Operator expr = NodeSelectorOpIn \/ req_Operator expr = NodeSelectorOpExists) ->
  scanTerm plan exprs found =
  (found || existsb (fun expr => bool_decide (req_Key expr = LabelInstanceTypeStable)) exprs,
   negb (forallb (exprAdmits plan) exprs)).
Proof.
  revert found. induction exprs as [|expr exprs IH]; intros found Hop; [by rewrite orb_false_r|].
  assert (IH' := fun f => IH f (fun e H => Hop e (list_elem_of_further _ _ _ H))). clear IH.
  specialize (Hop expr (list_elem_of_here _ _)). cbn [scanTerm existsb forallb]. unfold exprAdmits at 1.
  destruct (decide (req_Key expr <> LabelInstanceTypeStable)) as [Hk|Hk].
  { rewrite IH', (bool_decide_eq_false_2 (req_Key expr = _)) by done. done. }
  apply dec_stable in Hk. specialize (Hop Hk). rewrite (bool_decide_eq_true_2 _ Hk), orb_true_r.
  rewrite decide_True by done. rewrite IH'. simpl.
  destruct (decide (req_Operator expr = NodeSelectorOpIn)) as [Hin|Hin].
  - destruct (decide (plan ∈ req_Values expr)) as [Hv|Hv].
    + rewrite decide_False, (bool_decide_eq_true_2 _ Hv) by tauto. done.
    + rewrite decide_True, (bool_decide_eq_false_2 _ Hv) by tauto. done.
  - rewrite decide_False by tauto. destruct Hop as [?|He]; [done|].
    rewrite decide_False, bool_decide_eq_true_2 by (rewrite ?He; done). done.
Qed.

Lemma someTermFits_spec plan terms :
  (forall term expr, term ∈ terms -> expr ∈ MatchExpressions term ->
    req_Key expr = LabelInstanceTypeStable ->
    req_Operator expr = NodeSelectorOpIn \/ req_Operator expr = NodeSelectorOpExists) ->
  someTermFits plan terms =
  existsb (fun term => constrainingTerm term && forallb (exprAdmits plan) (MatchExpressions term)) terms.
Proof.
  induction terms as [|term terms IH]; intros Hop; [done|]. cbn [someTermFits existsb].
  rewrite scanTerm_spec by (intros expr; apply Hop; by left).
  rewrite IH by (intros t e Ht; apply Hop; by right). 
  cbn [orb]. fold (constrainingTerm term).
  by destruct (constrainingTerm term), (forallb (exprAdmits plan) (MatchExpressions term)).
Qed.

Lemma unconstrained_admits plan term :
  constrainingTerm term = false -> forallb (exprAdmits plan) (MatchExpressions term) = true.
Proof.
  unfold constrainingTerm. rewrite existsb_false, forallb_true. intros H expr He.
  unfold exprAdmits. specialize (H expr He). bool_hyps. by rewrite decide_True.
Qed.

Lemma termAdmits_nonempty plan term :
  MatchExpressions term <> [] -> termAdmits plan term = forallb (exprAdmits plan) (MatchExpressions term).
Proof. unfold termAdmits. by destruct (MatchExpressions term). Qed.

Lemma affinity_admits plan terms :
  plainAffinity terms ->
  (if someTermFits plan terms then true else negb (existsb constrainingTerm terms)) =
  existsb (termAdmits plan) terms.
Proof.
  intros [Hne Hterms Hall Hops]. rewrite someTermFits_spec by done.
  destruct Hall as [Hall|Hnone].
  - assert (Hc : existsb constrainingTerm terms = true).
    { destruct terms as [|term terms]; [done|]. apply existsb_true. exists term.
      split; [by left|]. apply Hall. by left. }
    rewrite Hc. clear Hc. apply Bool.eq_iff_eq_true. rewrite (existsb_true (termAdmits plan)).
    set (fits := fun term => constrainingTerm term && forallb (exprAdmits plan) (MatchExpressions term)).
    destruct (existsb fits terms) eqn:E; unfold fits in E.
    + split; [intros _|done]. apply existsb_true in E as (term & Hin & Hf). bool_hyps.
      exists term. split; [done|]. by rewrite termAdmits_nonempty by auto.
    + split; [done|]. intros (term & Hin & Hf). rewrite existsb_false in E. specialize (E term Hin).
      rewrite termAdmits_nonempty in Hf by auto. rewrite (Hall term Hin), Hf in E. done.
  - assert (Hc : existsb constrainingTerm terms = false) by (by apply existsb_false).
    rewrite Hc. transitivity true; [by case_match|]. symmetry.
    destruct terms as [|term terms]; [done|]. apply existsb_true. exists term. split; [by left|].
    rewrite termAdmits_nonempty by (apply Hterms; by left).
    apply unconstrained_admits, Hnone. by left.
Qed.

(** ** Properties *)

(** C6: A NodeClaim is deleted only when all of this held in the same pass: it is
    not being deleted and has a node, its TTL is over, the pods listed show no
    live pod on the node but those of DaemonSets and none pending that would fit
    it, and the node carries the decommissioning taint, put there just now if it
    was missing.  It is the claim that was read, it is deleted at most once, and
    nothing follows. *)
Theorem Reconcile_delete_safe TTL name tr o :
  runs (Reconcile TTL name) tr o ->
  omap claimDelete tr = [] \/
  exists nc now pods node answer pre,
    Ev (GetNodeClaim name) (Ok nc) ∈ tr /\ Ev Now now ∈ tr /\ Ev ListPods (Ok pods) ∈ tr /\
    Ev (GetNode (NodeName (claim_Status nc))) (Ok node) ∈ tr /\
    tr = pre ++ [Ev (DeleteNodeClaim nc) answer] /\ omap claimDelete pre = [] /\
    Deleting (claim_Meta nc) = false /\ NodeName (claim_Status nc) <> "" /\
    TTL <= Sub now (ttlStart nc) /\
    (forall p, p ∈ pods -> pod_NodeName p = NodeName (claim_Status nc) ->
       isDaemonSet p = true \/ Deleting (pod_Meta p) = true) /\
    (forall p, p ∈ pods -> isMatchingPending p (instancePlan node) (node_Taints node) = false) /\
    (isDecommissioned node = true \/
     exists node', Ev (PatchNode node (addTaint node)) (Ok node') ∈ tr).
Proof.
  intros (answer & tr' & -> & H)%ttl_pass_runs.
  destruct answer as [nc|e]; [|destruct H as [-> _]; by left].
  destruct (Deleting (claim_Meta nc) || bool_decide (NodeName (claim_Status nc) = "")) eqn:Eg;
    [destruct H as [-> _]; by left|].
  destruct H as (now & rest & -> & H).
  destruct (Sub now (ttlStart nc) <? TTL) eqn:Et; [destruct H as [-> _]; by left|]. bool_hyps.
  destruct H as [tr e Hd _|pods pre now' answer Hpre|pods node pre answer Hb Hm Hpre].
  - by left.
  - left. by destruct Hpre as [[_ ->]|(node & _ & _ & ->)].
  - right. exists nc, now, pods, node, answer. eexists (_ :: Ev Now now :: _ :: _ :: pre).
    split; [by left|]. split; [right; by left|]. split; [do 2 right; by left|].
    split; [do 3 right; by left|]. split; [done|].
    split; [|split_and!; try done].
    + destruct (isDecommissioned node); [by subst|]. by destruct Hpre as [node' ->].
    + intros p Hp Hn. unfold hasNonDSPods in Hb. rewrite existsb_false in Hb. specialize (Hb p Hp).
      rewrite (bool_decide_eq_true_2 _ Hn) in Hb. simpl in Hb.
      destruct (isDaemonSet p), (Deleting (pod_Meta p)); auto.
    + unfold hasMatchingPendingPod in Hm. by rewrite existsb_false in Hm.
    + destruct (isDecommissioned node); [by left|right]. destruct Hpre as [node' ->].
      exists node'. do 4 right. by left.
Qed.

(** C20: The decision over an expired claim: in a pass that lists the pods and ends
    without an error, the claim is kept exactly when its node is busy or wanted,
    and then the only write is the reset annotation, with another full TTL to
    wait; otherwise it is deleted, and nothing is requeued. *)
Theorem Reconcile_decision TTL name tr res pods :
  runs (Reconcile TTL name) tr (Done (res, None)) -> omap podsAnswer tr = [pods] ->
  exists nc node,
    Ev (GetNodeClaim name) (Ok nc) ∈ tr /\
    let busy := hasNonDSPods pods (NodeName (claim_Status nc)) in
    (busy = false -> Ev (GetNode (NodeName (claim_Status nc))) (Ok node) ∈ tr) /\
    if busy || hasMatchingPendingPod pods node
    then res = requeueAfter TTL /\ omap claimDelete tr = [] /\
         exists now, Ev Now now ∈ tr /\ omap claimPatched tr = [(nc, stampReset now nc)]
    else res = emptyResult /\ omap claimDelete tr = [nc] /\ omap claimPatched tr = [].
Proof.
  intros (answer & tr' & -> & H)%ttl_pass_runs Hpods.
  destruct answer as [nc|e]; [|by destruct H as [-> _]].
  destruct (Deleting (claim_Meta nc) || bool_decide (NodeName (claim_Status nc) = "")) eqn:Eg;
    [by destruct H as [-> _]|].
  destruct H as (now & rest & -> & H).
  destruct (Sub now (ttlStart nc) <? TTL) eqn:Et; [by destruct H as [-> _]|].
  inversion H as [|pods' pre now' answer Hpre Etr Eo|pods' node pre answer Hb Hm Hpre Etr Eo];
    subst.
  - destruct answer as [nc'|e]; simplify_eq.
    destruct Hpre as [[Hb ->]|(node & Hb & Hm & ->)]; cbn [app omap list_omap podsAnswer] in Hpods;
      simplify_eq.
    + exists nc, (mkNode emptyMeta []). split; [by left|]. rewrite Hb. split; [done|].
      split_and!; [done|done|]. exists now'. split; [do 3 right; by left|done].
    + exists nc, node. split; [by left|]. rewrite Hb, Hm. split; [intros _; do 3 right; by left|].
      split_and!; [done|done|]. exists now'. split; [do 4 right; by left|done].
  - destruct answer as [u|e]; simplify_eq. cbn [app omap list_omap podsAnswer] in Hpods.
    assert (Hlists : omap claimDelete pre = [] /\ omap claimPatched pre = [] /\ omap podsAnswer pre = []).
    { destruct (isDecommissioned node); [by subst|]. by destruct Hpre as [node' ->]. }
    destruct Hlists as (Hd & Hpa & Hpo).
    assert (pods' = pods) as -> by congruence.
    exists nc, node. split; [by left|]. rewrite Hb, Hm. split; [intros _; do 3 right; by left|].
    cbn [orb]. split; [done|].
    change (omap claimDelete (pre ++ [Ev (DeleteNodeClaim nc) (Ok u)]) = [nc] /\
            omap claimPatched (pre ++ [Ev (DeleteNodeClaim nc) (Ok u)]) = []).
    by rewrite !omap_app, Hd, Hpa.
Qed.

(** C30: Before the TTL is over a pass reads the claim and the clock and does
    nothing else; it asks to come back exactly when the TTL will be over, later
    than now, provided the remaining time fits a Go duration, which it does
    whenever the start is not further in the future than the TTL leaves room. *)
Theorem Reconcile_early TTL name tr o nc now :
  runs (Reconcile TTL name) tr o ->
  omap claimAnswer tr = [nc] -> omap clockAnswer tr = [now] ->
  Deleting (claim_Meta nc) = false -> NodeName (claim_Status nc) <> "" ->
  int64_ok TTL -> int64_ok (instant now - instant (ttlStart nc)) ->
  instant now - instant (ttlStart nc) < TTL ->
  length tr = 2%nat /\ exists d, o = Done (requeueAfter d, None) /\ int64_ok d /\
  (TTL - MaxInt64 <= instant now - instant (ttlStart nc) ->
     0 < d /\ instant now + d = instant (ttlStart nc) + TTL) /\
  (instant now - instant (ttlStart nc) < TTL - MaxInt64 -> d < 0).
Proof.
  intros (answer & tr' & -> & H)%ttl_pass_runs Hnc Hnow Hd Hn Ht Hi Hlt.
  destruct answer as [nc'|e]; [|by destruct H as [-> _]].
  cbn [omap list_omap claimAnswer] in Hnc. injection Hnc as -> _.
  rewrite Hd, bool_decide_eq_false_2 in H by done. cbn [orb] in H.
  destruct H as (now' & rest & -> & H).
  cbn [omap list_omap clockAnswer] in Hnow. injection Hnow as -> _.
  rewrite Sub_exact in H by done. rewrite (proj2 (Z.ltb_lt _ _) Hlt) in H. destruct H as [-> ->].
  split; [done|]. eexists. split; [done|]. split; [apply wrap64_ok|]. split.
  - intros Hr. rewrite wrap64_id by (unfold int64_ok, MinInt64, MaxInt64 in *; lia). lia.
  - intros Hr. rewrite wrap64_over; unfold int64_ok, MinInt64, MaxInt64 in *; lia.
Qed.

(** A reset survives being written to the annotation and read back: the timer
    of a claim stamped at some time starts at that time, cut to the second, the
    latest stamp counts, the rest of the claim is untouched, and the claim is not
    expired again before a full TTL after the second of the stamp. *)
Lemma stampReset_start TTL now now' nc later :
  rfc3339_ok now -> rfc3339_ok now' -> int64_ok (instant later - t_unix now * Second) ->
  ttlStart (stampReset now nc) = truncSecond now /\
  ttlStart (stampReset now (stampReset now' nc)) = truncSecond now /\
  claim_Spec (stampReset now nc) = claim_Spec nc /\ claim_Status (stampReset now nc) = claim_Status nc /\
  (Sub later (ttlStart (stampReset now nc)) < TTL <-> instant later < t_unix now * Second + TTL).
Proof.
  intros Hn Hn' Hl.
  assert (Hs : forall c, ttlStart (stampReset now c) = truncSecond now).
  { intros c. unfold ttlStart, stampReset. simpl. by rewrite lookup_insert_eq, Parse_Format. }
  rewrite !Hs. split_and!; try done.
  assert (Hi : instant (truncSecond now) = t_unix now * Second) by (unfold instant; simpl; lia).
  rewrite Sub_exact by (by rewrite Hi). rewrite Hi. lia.
Qed.

(** taintNode is idempotent and only ever adds the decommissioning taint: a
    node that has it is not written; any other is patched once, keeping its
    taints in order, and then has it; and from then on only pods that tolerate it
    count as able to reuse the node. *)
Lemma taintNode_idempotent node tr o :
  runs (taintNode node) tr o ->
  (isDecommissioned node = true /\ tr = [] /\ o = Done None) \/
  (isDecommissioned node = false /\ exists answer, tr = [Ev (PatchNode node (addTaint node)) answer] /\
     o = Done match answer with Ok _ => None | Err e => Some e end /\
     isDecommissioned (addTaint node) = true /\
     node_Taints (addTaint node) = node_Taints node ++ [decommissioning] /\
     runs (taintNode (addTaint node)) [] (Done None) /\
     forall pod plan, isMatchingPending pod plan (node_Taints (addTaint node)) = true ->
       tolerationMatches decommissioning (pod_Tolerations pod) = true).
Proof.
  unfold taintNode. intros H. destruct (isDecommissioned node) eqn:E; [left; by run_ret H|right].
  split; [done|].
  assert (Ha : isDecommissioned (addTaint node) = true).
  { apply existsb_true. exists decommissioning. split; [|done]. simpl. apply elem_of_app. right. by left. }
  assert (Hp : forall pod plan, isMatchingPending pod plan (node_Taints (addTaint node)) = true ->
    tolerationMatches decommissioning (pod_Tolerations pod) = true).
  { intros pod plan. unfold isMatchingPending. repeat case_match; try done.
    rewrite podTolerates_forallb, forallb_true. intros Hf. apply Hf.
    rewrite list_elem_of_In, filter_In, <-list_elem_of_In. split; [|done].
    simpl. apply elem_of_app. right. by left. }
  rewrite Ha. run_call H as [u|e]; run_ret H; [exists (Ok u)|exists (Err e)]; by split_and!.
Qed.

(** C32: podToleratesNodeTaints is the scheduler's judgement on hard taints: every
    NoSchedule or NoExecute taint of the node is tolerated by some toleration of
    the pod, for tolerations with the operators Equal (or none) and Exists. *)
Theorem podTolerates_scheduler pod taints :
  (forall t, t ∈ pod_Tolerations pod -> tol_Operator t ∈ [""; TolerationOpEqual; TolerationOpExists]) ->
  podToleratesNodeTaints pod taints = schedulable pod taints.
Proof.
  intros Hop. rewrite podTolerates_forallb. unfold schedulable.
  apply Bool.eq_iff_eq_true. rewrite !forallb_true.
  split; intros H taint Ht; specialize (H taint Ht); by rewrite tolerationMatches_tolerates in *.
Qed.

(** C31: podFitsInstanceType is the scheduler's judgement on the instance type of a
    node labelled with the plan, by node selector and required node affinity, for
    affinities whose terms all speak, or all keep silent, about the instance type,
    and use In and Exists for it. *)
Theorem podFits_scheduler pod plan :
  (forall selector, requiredAffinity pod = Some selector ->
     exists terms, NodeSelectorTerms selector = Some terms /\ plainAffinity terms) ->
  podFitsInstanceType pod plan = podAdmits pod plan.
Proof.
  intros Haff. unfold podFitsInstanceType, podAdmits. f_equal.
  - destruct (entries (pod_NodeSelector pod) !! LabelInstanceTypeStable); simpl; [done|].
    by rewrite bool_decide_eq_true_2.
  - destruct (requiredAffinity pod) as [selector|]; [|done].
    destruct (Haff selector eq_refl) as (terms & Ht & Hplain). rewrite Ht. simpl.
    by apply affinity_admits.
Qed.
End NodeClaimTTL.

(** ** Concrete runs *)

Definition sampleNode : Node :=
  mkNode (mkMeta "node-1" "" (Some {[ LabelInstanceTypeStable := "2xCPU-4GB" ]}) None [] None zeroTime [] 0) [].
Definition agedClaim : NodeClaim :=
  mkClaim (mkMeta "claim-1" "" None None [] None (mkTime 1735689600 0 0) [] 0)
    (mkClaimSpec None [] []) (mkClaimStatus "upcloud:////1" "node-1" ∅ ∅ []).
Definition pendingPod : Pod :=
  mkPod (mkMeta "pod-1" "" None None [] None zeroTime [] 0) "" None [] None PodPending
    [mkCondition PodScheduled "False" "Unschedulable" "" 0].
Definition terms (l : list (list NodeSelectorRequirement)) : option Affinity :=
  Some (mkAffinity (Some (mkNodeAffinity (Some (mkSelector (Some (mkTerm <$> l))))))).
Definition withAffinity (a : option Affinity) (pod : Pod) : Pod :=
  mkPod (pod_Meta pod) (pod_NodeName pod) (pod_NodeSelector pod) (pod_Tolerations pod) a
    (pod_Phase pod) (pod_Conditions pod).

(** A cluster at a time, with some pods. *)
Definition ttlCluster (now : Time) (pods : list Pod) : handler unit := answering (fun X c =>
  match c in api X return option X with
  | GetNodeClaim _ => Some (Ok agedClaim)
  | Now => Some now
  | ListPods => Some (Ok pods)
  | GetNode _ => Some (Ok sampleNode)
  | PatchNode _ obj => Some (Ok obj)
  | PatchNodeClaim _ obj => Some (Ok obj)
  | DeleteNodeClaim _ => Some (Ok tt)
  | _ => None
  end).

Definition ttlPass (now : Time) (pods : list Pod) : outcome (Result * option error) * list event :=
  let h := ttlCluster now pods in
  let p := Reconcile (L := refLibs) Hour "claim-1" in
  (exec_outcome h p tt, exec_trace h p tt).

(** An hour and a second after its creation. *)
Definition lateTime : Time := mkTime 1735693201 0 0.

Example expired_idle_is_deleted :
  fst (ttlPass lateTime []) = Done (emptyResult, None) /\
  omap claimDelete (snd (ttlPass lateTime [])) = [agedClaim].
Proof. split; vm_compute; reflexivity. Qed.

Example expired_wanted_is_kept :
  fst (ttlPass lateTime [pendingPod]) = Done (requeueAfter Hour, None) /\
  omap claimDelete (snd (ttlPass lateTime [pendingPod])) = [].
Proof. split; vm_compute; reflexivity. Qed.

Lemma Reconcile_delete_safe_witness :
  exists nc now, Deleting (claim_Meta nc) = false /\ Hour <= Sub now (ttlStart nc).
Proof.
  destruct (Reconcile_delete_safe (L := refLibs) Hour "claim-1" _ _
    (exec_runs (ttlCluster lateTime []) _ tt))
    as [H|(nc & now & pods & node & answer & pre & H)].
  - vm_compute in H. discriminate H.
  - exists nc, now. destruct H as (_ & _ & _ & _ & _ & _ & Hd & _ & Ht & _).
    split; [exact Hd|exact Ht].
Defined.

Lemma Reconcile_decision_witness :
  exists nc, omap claimDelete (snd (ttlPass lateTime [])) = [nc] \/
             omap claimDelete (snd (ttlPass lateTime [])) = [].
Proof.
  destruct (Reconcile_decision (L := refLibs) Hour "claim-1"
    (exec_trace (ttlCluster lateTime []) (Reconcile (L := refLibs) Hour "claim-1") tt)
    emptyResult []) as (nc & node & _ & _ & H).
  - apply exec_done. vm_compute. reflexivity.
  - vm_compute. reflexivity.
  - exists nc. destruct (_ || _); [right|left]; apply H.
Defined.

Lemma Reconcile_early_witness :
  exists d, fst (ttlPass (mkTime 1735689660 0 0) []) = Done (requeueAfter d, None) /\ 0 < d.
Proof.
  destruct (Reconcile_early (L := refLibs) Hour "claim-1" _ _ agedClaim (mkTime 1735689660 0 0)
    (exec_runs (ttlCluster (mkTime 1735689660 0 0) []) _ tt)) as (_ & d & E & _ & H & _);
    try (vm_compute; reflexivity); try (apply (bool_decide_unpack _); vm_compute; reflexivity).
  exists d. split; [exact E|]. apply H. vm_compute. discriminate.
Defined.

Lemma stampReset_start_witness :
  ttlStart (stampReset lateTime agedClaim) = lateTime.
Proof.
  apply (stampReset_start Hour lateTime lateTime agedClaim lateTime);
    apply (bool_decide_unpack _); vm_compute; reflexivity.
Defined.

Lemma taintNode_idempotent_witness :
  isDecommissioned (addTaint sampleNode) = true.
Proof.
  destruct (taintNode_idempotent sampleNode _ _ (exec_runs (ttlCluster lateTime []) _ tt))
    as [(E & _)|(_ & answer & _ & _ & H & _)].
  - vm_compute in E. discriminate E.
  - exact H.
Defined.

Lemma podTolerates_scheduler_witness :
  podToleratesNodeTaints pendingPod [decommissioning] = schedulable pendingPod [decommissioning].
Proof. apply podTolerates_scheduler. intros t Ht. apply not_elem_of_nil in Ht. destruct Ht. Defined.

Lemma podFits_scheduler_witness :
  let pod := withAffinity (terms [[mkReq LabelInstanceTypeStable "In" ["2xCPU-4GB"]]]) pendingPod in
  podFitsInstanceType pod "2xCPU-4GB" = podAdmits pod "2xCPU-4GB".
Proof.
  apply podFits_scheduler. intros selector E. injection E as E. subst selector.
  eexists. split; [reflexivity|]. split.
  - discriminate.
  - intros term Ht. apply list_elem_of_singleton in Ht. subst. discriminate.
  - left. intros term Ht. apply list_elem_of_singleton in Ht. subst. reflexivity.
  - intros term expr Ht He _. apply list_elem_of_singleton in Ht. subst.
    apply list_elem_of_singleton in He. subst. left. reflexivity.
Defined.

(** A term without an instance-type constraint admits any plan, but next to one
    that excludes the plan the pod is taken not to fit. *)
Example mixed_terms_differ :
  let pod := withAffinity (terms [[mkReq "zone" "In" ["a"]];
    [mkReq LabelInstanceTypeStable "In" ["other"]]]) pendingPod in
  podFitsInstanceType pod "2xCPU-4GB" = false /\ podAdmits pod "2xCPU-4GB" = true.
Proof. split; vm_compute; reflexivity. Qed.

(** A NotIn that does not exclude the plan is taken to exclude it. *)
Example notin_differs :
  let pod := withAffinity (terms [[mkReq LabelInstanceTypeStable "NotIn" ["other"]]]) pendingPod in
  podFitsInstanceType pod "2xCPU-4GB" = false /\ podAdmits pod "2xCPU-4GB" = true.
Proof. split; vm_compute; reflexivity. Qed.

(** An operator the scheduler does not know is treated as Equal. *)
Example unknown_operator_differs :
  let pod := mkPod (pod_Meta pendingPod) "" None
    [mkToleration v1alpha2.DecommissioningTaintKey "Lt" "" ""] None PodPending [] in
  podToleratesNodeTaints pod [decommissioning] = true /\ schedulable pod [decommissioning] = false.
Proof. split; vm_compute; reflexivity. Qed.

(** A reset annotation centuries ahead: the remaining time does not
    fit a duration, and the pass asks to come back in the past. *)
Example far_future_reset_overflows :
  let nc := claim_with_Annotations
    (Some {[ v1alpha2.NodeClaimTTLResetAnnotationKey := "2400-01-01T00:00:00Z" ]}) agedClaim in
  wrap64 (Hour - Sub lateTime (ttlStart nc)) < 0.
Proof. vm_compute. reflexivity. Qed.
