(* ===== verification/Operator.v ===== *)
(** * pkg/providers/options.go and cmd/karpenter-upcloud: starting the operator

    The options from the environment, the cluster endpoint, [run] and [main].
    Karpenter's operator and its manager are calls, the manager's set-up results
    parameters; what runs inside the manager is in the other files. *)

From S2P Require Import Prelude GoInt GoStrings GoTime GoDuration Types Effects Libs.
From S2P Require Import NodeClassController NodeClaimTTL.
From S2P Require Import InstanceTypes Instance CloudProvider.

Local Open Scope Z_scope.

(** ** Options *)

Record OperatorOptions := mkOperatorOptions {
  Token : string;
  ClusterUUID : string;
  RepairToleration : Z;
}.

(** getRequiredEnv *)
Definition getRequiredEnv (key : string) : prog (result string) :=
  let! value := call (Getenv key) in
  if decide (value = "") then Ret (Err (Errorf (key +:+ " environment variable is required")))
  else Ret (Ok value).

(** requireEnv of main.go. *)
Definition requireEnv (key : string) : prog (result string) :=
  let! value := call (Getenv key) in
  if decide (value = "") then Ret (Err (Errorf (key +:+ " environment variable is required")))
  else Ret (Ok value).

Section Operator.
Context `{L : Libs}.
(** The error [time.ParseDuration] returns for a text it rejects, and the
    result of registering a controller with the manager. *)
Context (ParseDurationError : string -> error).
Context (Complete : Registration -> option error).

(** A duration from the variable [key]. *)
Definition parseDurationOf (key value : string) : result Z :=
  match ParseDuration value with
  | Some d => Ok d
  | None => Err (Wrapf ("parsing " +:+ key +:+ " " +:+ Quote value) (ParseDurationError value))
  end.

Definition NewOptionsFromEnvironment : prog (result OperatorOptions) :=
  let? token := getRequiredEnv "UPCLOUD_TOKEN" or id in
  let? clusterUUID := getRequiredEnv "UPCLOUD_KUBERNETES_CLUSTER_ID" or id in
  let? repairTolerationStr := getRequiredEnv "UPCLOUD_REPAIR_TOLERATION" or id in
  match parseDurationOf "UPCLOUD_REPAIR_TOLERATION" repairTolerationStr with
  | Err err => Ret (Err err)
  | Ok repairToleration => Ret (Ok (mkOperatorOptions token clusterUUID repairToleration))
  end.

(** ** The endpoint *)

Definition resolveClusterEndpoint (clusterUUID : string) : prog (result string) :=
  let! endpoint := call (Getenv "CLUSTER_ENDPOINT") in
  if decide (endpoint <> "") then Ret (Ok endpoint) else
  let? kubeconfig := call (GetKubernetesKubeconfig clusterUUID) or Wrapf "getting kubeconfig" in
  match yaml_KubeconfigServers kubeconfig with
  | Err err => Ret (Err (Wrapf "parsing kubeconfig" err))
  | Ok servers =>
      match servers with
      | [] => Ret (Err (Errorf "no server endpoint found in kubeconfig"))
      | server :: _ =>
          if decide (server = "") then Ret (Err (Errorf "no server endpoint found in kubeconfig"))
          else Ret (Ok server)
      end
  end.

(** ** run *)

(** What [run] hands to the manager: the cloud provider, and the TTL of the TTL
    controller if that is registered. *)
Record Started := mkStarted { started_provider : UpCloudCloudProvider; started_TTL : option Z }.

(** The TTL controller is registered only when the variable is set. *)
Definition setupTTLController : prog (result (option Z)) :=
  let! v := call (Getenv "UPCLOUD_NODECLAIM_TTL") in
  if decide (v = "") then Ret (Ok None) else
  match parseDurationOf "UPCLOUD_NODECLAIM_TTL" v with
  | Err err => Ret (Err err)
  | Ok d =>
      match NodeClaimTTL.SetupWithManager Complete with
      | Some err => Ret (Err (Wrapf "setting up nodeclaim TTL controller" err))
      | None => Ret (Ok (Some d))
      end
  end.

(** [run] up to the point where the manager takes over. *)
Definition prepare : prog (result Started) :=
  let? opts := NewOptionsFromEnvironment or Wrapf "parsing options" in
  let? cluster := call (GetKubernetesCluster (ClusterUUID opts)) or Wrapf "fetching cluster details" in
  let? clusterEndpoint := resolveClusterEndpoint (ClusterUUID opts)
    or Wrapf "resolving cluster endpoint" in
  let zone := cluster_Zone cluster in
  let? storageUUID := requireEnv "UPCLOUD_TEMPLATE_UUID" or id in
  let! refreshed := Refresh (InstanceTypes.NewProvider zone) in
  let '(itProvider, err) := refreshed in
  match err with
  | Some err => Ret (Err (Wrapf "refreshing instance types" err))
  | None =>
      let instanceProvider := Instance.mkProvider storageUUID (cluster_Network cluster)
        (ClusterUUID opts) (cluster_Name cluster) in
      let cp := NewCloudProvider instanceProvider itProvider zone clusterEndpoint
        (RepairToleration opts) in
      match NodeClassController.SetupWithManager Complete with
      | Some err => Ret (Err (Wrapf "setting up nodeclass controller" err))
      | None =>
          let? ttl := setupTTLController or id in
          Ret (Ok (mkStarted cp ttl))
      end
  end.

(** run: the manager is started with what was prepared, and blocks. *)
Definition run : prog (result Started) :=
  let? started := prepare or id in
  do! call StartManager in
  Ret (Ok started).

(** main: the exit status of the process. *)
Definition main : prog Z :=
  do! call NewOperator in
  let! r := run in
  match r with
  | Err _ => Ret 1
  | Ok _ => Ret 0
  end.

(** ** Lemmas *)

(** The environment a trace has seen. *)
Definition envRead (e : event) : option (string * string) :=
  match e with
  | Ev c r => match c in api X return X -> option (string * string) with
              | Getenv k => fun v => Some (k, v)
              | _ => fun _ => None
              end r
  end.

Lemma getRequiredEnv_runs key tr o :
  runs (getRequiredEnv key) tr o ->
  exists v, tr = [Ev (Getenv key) v] /\
    o = Done (if decide (v = "") then Err (Errorf (key +:+ " environment variable is required"))
              else Ok v).
Proof.
  unfold getRequiredEnv. intros H. run_call H as v. exists v. case_decide; by run_ret H.
Qed.

Lemma parseDurationOf_ok key v d : parseDurationOf key v = Ok d <-> ParseDuration v = Some d.
Proof. unfold parseDurationOf. destruct (ParseDuration v); naive_solver. Qed.

Lemma resolveClusterEndpoint_runs uuid tr o :
  runs (resolveClusterEndpoint uuid) tr o ->
  exists env rest r, tr = Ev (Getenv "CLUSTER_ENDPOINT") env :: rest /\ o = Done r /\
    (env <> "" -> rest = [] /\ r = Ok env) /\
    (env = "" -> exists answer, rest = [Ev (GetKubernetesKubeconfig uuid) answer] /\
       forall endpoint, r = Ok endpoint -> endpoint <> "" /\
         exists kubeconfig others, answer = Ok kubeconfig /\
           yaml_KubeconfigServers kubeconfig = Ok (endpoint :: others)).
Proof.
  unfold resolveClusterEndpoint. intros H. run_call H as env. eexists env, _.
  destruct (decide (env <> "")) as [He|He].
  - run_ret H. by eexists.
  - apply dec_stable in He. subst. run_call H as [kc|e].
    + destruct (yaml_KubeconfigServers kc) as [[|server others]|e] eqn:E;
        [| destruct (decide (server = ""))|]; run_ret H; eexists; (split; [done|]); (split; [done|]);
        (split; [done|]); intros _; exists (Ok kc); (split; [done|]); try done.
      intros endpoint [= <-]. split; [done|]. eauto.
    + run_ret H. eexists. split; [done|]. split; [done|]. split; [done|]. intros _.
      by exists (Err e).
Qed.

(** The calls start-up may make: none of them changes anything outside. *)
Definition readOnly X (c : api X) : Prop :=
  match c with
  | Getenv _ | GetKubernetesCluster _ | GetKubernetesKubeconfig _ | GetPlans | GetPricesByZone | Now => True
  | _ => False
  end.

Lemma getRequiredEnv_calls key : calls_ok readOnly (getRequiredEnv key).
Proof. split; [done|]. intros v. simpl. by case_decide. Qed.

Lemma NewOptions_calls : calls_ok readOnly NewOptionsFromEnvironment.
Proof.
  unfold NewOptionsFromEnvironment. do 3 (apply calls_ok_bindE; [apply getRequiredEnv_calls|intros ?]).
  by case_match.
Qed.

Lemma resolveClusterEndpoint_calls uuid : calls_ok readOnly (resolveClusterEndpoint uuid).
Proof.
  split; [done|]. intros env. simpl. case_decide; [done|]. split; [done|].
  intros [kc|e]; simpl; [|done]. repeat case_match; done.
Qed.

Lemma Refresh_calls p : calls_ok readOnly (Refresh p).
Proof.
  split; [done|]. intros [plans|e]; [|done]. apply (calls_ok_bind _ (refreshPrices p)).
  - unfold refreshPrices. split; [done|]. intros now. simpl. case_match; [done|]. split; [done|].
    by intros [pbz|e].
  - intros [p1 e]. cbv zeta. by destruct (buildCatalogue _ _ plans).
Qed.

Lemma prepare_calls : calls_ok readOnly prepare.
Proof.
  unfold prepare. apply calls_ok_bindE; [apply NewOptions_calls|intros opts].
  apply calls_ok_bindE; [done|intros cluster].
  apply calls_ok_bindE; [apply resolveClusterEndpoint_calls|intros endpoint].
  apply calls_ok_bindE; [apply getRequiredEnv_calls|intros storageUUID].
  apply calls_ok_bind; [apply Refresh_calls|]. intros [itp [e|]]; [done|].
  case_match; [done|]. apply calls_ok_bindE; [|done].
  split; [done|]. intros v. simpl. repeat case_match; done.
Qed.

Lemma setupTTLController_runs tr o :
  runs setupTTLController tr o ->
  exists v, tr = [Ev (Getenv "UPCLOUD_NODECLAIM_TTL") v] /\
    forall r, o = Done (Ok r) ->
      (v = "" /\ r = None) \/
      (v <> "" /\ NodeClaimTTL.SetupWithManager Complete = None /\ exists d, r = Some d /\ ParseDuration v = Some d).
Proof.
  unfold setupTTLController. intros H. run_call H as v. exists v.
  destruct (decide (v = "")) as [Hv|Hv]; [run_ret H; naive_solver|].
  destruct (parseDurationOf _ v) as [d|e] eqn:E; [|by run_ret H].
  apply parseDurationOf_ok in E. destruct (NodeClaimTTL.SetupWithManager Complete); run_ret H; [done|].
  split; [done|]. intros r [= <-]. right. eauto.
Qed.

(** Start-up makes a bounded number of calls and does not panic. *)
Lemma getRequiredEnv_within key : within false 1 (getRequiredEnv key).
Proof. intros v. cbn. by case_match. Qed.

Lemma Refresh_within p : within false 4 (Refresh p).
Proof.
  intros [plans|e]; [|done]. apply (within_bind false 3 0 (refreshPrices p)).
  - unfold refreshPrices. intros now. cbn. case_match; [done|]. intros [pbz|e]; by cbn.
  - intros [p1 e]. cbv zeta. by destruct (buildCatalogue _ _ plans).
Qed.

Lemma prepare_within : within false 12 prepare.
Proof.
  unfold prepare. apply (within_bindE false 3 9).
  { unfold NewOptionsFromEnvironment.
    apply (within_bindE false 1 2); [apply getRequiredEnv_within|intros token].
    apply (within_bindE false 1 1); [apply getRequiredEnv_within|intros uuid].
    apply (within_bindE false 1 0); [apply getRequiredEnv_within|intros tol]. by case_match. }
  intros opts. apply (within_bindE false 1 8); [apply within_call|intros cluster].
  apply (within_bindE false 2 6).
  { intros endpoint. cbn. case_match; [done|]. intros [kc|e]; cbn; [|done]. repeat case_match; done. }
  intros endpoint. apply (within_bindE false 1 5); [apply getRequiredEnv_within|intros template].
  apply (within_bind false 4 1); [apply Refresh_within|]. intros [itp [e|]]; [done|].
  case_match; [done|]. apply (within_bindE false 1 0); [|done].
  intros v. cbn. repeat case_match; done.
Qed.

(** A program bound with an error check, on success. *)
Lemma bindE_Ok {A B} w (p : prog (result A)) (k : A -> prog (result B)) tr b :
  runs (bindE w p k) tr (Done (Ok b)) ->
  exists a t1 t2, tr = t1 ++ t2 /\ runs p t1 (Done (Ok a)) /\ runs (k a) t2 (Done (Ok b)).
Proof.
  unfold bindE. intros [(r & t1 & t2 & -> & H1 & H2)|(m & _ & [=])]%runs_bind.
  destruct r as [a|e]; [eauto 10|run_ret H2].
Qed.

Lemma getRequiredEnv_Ok key tr v :
  runs (getRequiredEnv key) tr (Done (Ok v)) -> v <> "" /\ tr = [Ev (Getenv key) v].
Proof. intros (v' & -> & [= E])%getRequiredEnv_runs. case_decide; simplify_eq. done. Qed.

(** ** Properties *)

(** The options are read from three variables, in order and once each; they
    are accepted only if all are set and the third is a duration, and then they
    hold the values read; the tolerated time fits a Go duration. *)
Lemma NewOptions_Ok tr opts :
  runs NewOptionsFromEnvironment tr (Done (Ok opts)) ->
  exists toleration,
    tr = [Ev (Getenv "UPCLOUD_TOKEN") (Token opts);
          Ev (Getenv "UPCLOUD_KUBERNETES_CLUSTER_ID") (ClusterUUID opts);
          Ev (Getenv "UPCLOUD_REPAIR_TOLERATION") toleration] /\
    Token opts <> "" /\ ClusterUUID opts <> "" /\
    ParseDuration toleration = Some (RepairToleration opts) /\ int64_ok (RepairToleration opts).
Proof.
  intros (token & t1 & t' & -> & [Ht ->]%getRequiredEnv_Ok & H)%bindE_Ok.
  apply bindE_Ok in H as (uuid & t2 & t'' & -> & [Hu ->]%getRequiredEnv_Ok & H).
  apply bindE_Ok in H as (tol & t3 & t4 & -> & [Hl ->]%getRequiredEnv_Ok & H).
  destruct (parseDurationOf _ tol) as [d|e] eqn:E; run_ret H.
  apply parseDurationOf_ok in E. exists tol. simpl. split_and!; try done. by eapply ParseDuration_ok.
Qed.

(** Reading the cluster answers one [GetKubernetesCluster]. *)
Definition clusterRead (e : event) : option (string * result KubernetesCluster) :=
  match e with
  | Ev c r => match c in api X return X -> option (string * result KubernetesCluster) with
              | GetKubernetesCluster uuid => fun r => Some (uuid, r)
              | _ => fun _ => None
              end r
  end.

(** A trace that reads no variable and no cluster. *)
Definition quiet X (c : api X) : Prop :=
  match c with Getenv _ | GetKubernetesCluster _ => False | _ => True end.

Lemma quiet_trace tr : Forall (ev_ok quiet) tr -> omap envRead tr = [] /\ omap clusterRead tr = [].
Proof. induction 1 as [|[X c r] tr H _ IH]; [done|]. by destruct c. Qed.

Lemma Refresh_quiet p : calls_ok quiet (Refresh p).
Proof.
  split; [done|]. intros [plans|e]; [|done]. apply (calls_ok_bind _ (refreshPrices p)).
  - unfold refreshPrices. split; [done|]. intros now. simpl. case_match; [done|]. split; [done|].
    by intros [pbz|e].
  - intros [p1 e]. cbv zeta. by destruct (buildCatalogue _ _ plans).
Qed.

(** The endpoint is the variable's, or the first server of the kubeconfig. *)
Definition endpointFrom (env endpoint : string) (tr : list event) (uuid : string) : Prop :=
  endpoint <> "" /\
  (env <> "" -> endpoint = env) /\
  (env = "" -> exists kubeconfig others, Ev (GetKubernetesKubeconfig uuid) (Ok kubeconfig) ∈ tr /\
     yaml_KubeconfigServers kubeconfig = Ok (endpoint :: others)).

(** What [s] was prepared from. *)
Definition PreparedFrom (s : Started) (tr : list event) : Prop :=
  exists token toleration endpointVar ttlVar cluster,
    let cp := started_provider s in
    let ip := cp_instanceProvider cp in
    omap envRead tr = [("UPCLOUD_TOKEN", token); ("UPCLOUD_KUBERNETES_CLUSTER_ID", clusterID ip);
      ("UPCLOUD_REPAIR_TOLERATION", toleration); ("CLUSTER_ENDPOINT", endpointVar);
      ("UPCLOUD_TEMPLATE_UUID", templateUUID ip); ("UPCLOUD_NODECLAIM_TTL", ttlVar)] /\
    token <> "" /\ clusterID ip <> "" /\ templateUUID ip <> "" /\
    ParseDuration toleration = Some (cp_repairToleration cp) /\
    omap clusterRead tr = [(clusterID ip, Ok cluster)] /\
    cp_zone cp = cluster_Zone cluster /\ networkUUID ip = cluster_Network cluster /\
    clusterName ip = cluster_Name cluster /\
    endpointFrom endpointVar (cp_clusterEndpoint cp) tr (clusterID ip) /\
    Consistent (cp_instanceTypeProvider cp) /\
    (if decide (ttlVar = "") then started_TTL s = None
     else is_Some (started_TTL s) /\ started_TTL s = ParseDuration ttlVar).

Lemma prepare_Ok `{!RangeLaws L} tr s : runs prepare tr (Done (Ok s)) -> PreparedFrom s tr.
Proof.
  intros H. apply bindE_Ok in H as (opts & t1 & t' & -> & (tol & -> & Htok & Hu & Hp & _)%NewOptions_Ok & H).
  apply bindE_Ok in H as (cluster & t2 & t'' & -> & H2 & H).
  apply bindE_Ok in H as (endpoint & t3 & t3' & -> & H3 & H).
  apply bindE_Ok in H as (template & t4 & t4' & -> & [Htpl ->]%getRequiredEnv_Ok & H).
  apply runs_bind in H as [([itp err] & t5 & t5' & -> & H5 & H)|(m & _ & [=])].
  destruct err as [e|]; [run_ret H|]. destruct (NodeClassController.SetupWithManager Complete); [run_ret H|].
  apply bindE_Ok in H as (ttl & t6 & t6' & -> & H6 & H). run_ret H. run_call H2 as c. run_ret H2.
  apply resolveClusterEndpoint_runs in H3 as (env & rest & r & -> & [= <-] & He1 & He2).
  apply setupTTLController_runs in H6 as (v & -> & Hv). specialize (Hv _ eq_refl).
  destruct (quiet_trace _ (calls_ok_runs _ _ _ _ (Refresh_quiet _) H5)) as [Hq1 Hq2].
  assert (Hc : Consistent itp).
  { apply Refresh_runs in H5 as [(e & _ & [=])|(plans & tr' & p1 & perr & _ & _ & [= ->])].
    apply Consistent_catalogue. }
  assert (Hrest : omap envRead rest = [] /\ omap clusterRead rest = []).
  { destruct (decide (env = "")) as [E|E]; [|by destruct (He1 E) as [-> _]].
    by destruct (He2 E) as (answer & -> & _). }
  destruct Hrest as [Hr1 Hr2]. exists (Token opts), tol, env, v, cluster. cbv zeta.
  rewrite !omap_app. cbn [omap list_omap envRead clusterRead app].
  rewrite Hq1, Hq2, Hr1, Hr2. split_and!; try done.
  - split_and!.
    + destruct (decide (env = "")) as [E|E]; [|by destruct (He1 E) as [_ [= ->]]].
      destruct (He2 E) as (answer & _ & Ha). by destruct (Ha endpoint eq_refl).
    + intros E. by destruct (He1 E) as [_ [= ->]].
    + intros E. destruct (He2 E) as (answer & -> & Ha).
      destruct (Ha endpoint eq_refl) as (_ & kc & others & -> & Hy). exists kc, others.
      split; [set_solver+|done].
  - destruct Hv as [[-> ->]|(Hne & _ & d' & -> & Hd)]; [done|]. rewrite decide_False by done. by split.
Qed.

(** C39: Start-up reads, and changes nothing outside, until it starts the manager,
    which it does last and only when everything succeeded.  The provider it then
    has was assembled from what was read: six variables, each once and in order;
    the cluster the second names, whose zone, network and name are used; the
    tolerated time the third writes; the endpoint of the fourth or, when that is
    empty, of the cluster's kubeconfig; the template of the fifth; a catalogue
    whose two maps agree.  The TTL controller is registered exactly when the sixth
    is set, with the duration written there. *)
Theorem run_started `{!RangeLaws L} tr o :
  runs run tr o ->
  (exists e, o = Done (Err e) /\ Forall (ev_ok readOnly) tr) \/
  (exists s pre, o = Done (Ok s) /\ tr = pre ++ [Ev StartManager tt] /\
     Forall (ev_ok readOnly) pre /\ PreparedFrom s pre).
Proof.
  intros [(r & t1 & t2 & -> & H1 & H2)|(m & H1 & ->)]%runs_bind.
  - pose proof (calls_ok_runs _ _ _ _ prepare_calls H1) as Hro. destruct r as [s|e].
    + run_call H2 as u. run_ret H2. right. exists s, t1. destruct u. split_and!; try done.
      by apply prepare_Ok.
    + run_ret H2. left. exists e. by rewrite app_nil_r.
  - by destruct (within_runs _ _ _ _ prepare_within H1) as [_ [a [=]]].
Qed.
End Operator.

(** ** Concrete runs *)

Definition sampleEnv (key : string) : string :=
  default "" ((list_to_map [
    ("UPCLOUD_TOKEN", "t"); ("UPCLOUD_KUBERNETES_CLUSTER_ID", "c-1");
    ("UPCLOUD_REPAIR_TOLERATION", "10m"); ("UPCLOUD_TEMPLATE_UUID", "tmpl");
    ("UPCLOUD_NODECLAIM_TTL", "2h") ] : gmap string string) !! key).

Definition startCluster : handler unit := answering (fun X c =>
  match c in api X return option X with
  | Getenv k => Some (sampleEnv k)
  | GetKubernetesCluster _ => Some (Ok (mkCluster "fi-hel1" "net" "prod"))
  | GetKubernetesKubeconfig _ => Some (Ok "https://10.0.0.1:6443")
  | GetPlans => Some (Ok [samplePlan])
  | Now => Some sampleNow
  | _ => None
  end).

Definition sampleRun : prog (result Started) :=
  run (L := refLibs) (fun s => Errorf ("time: invalid duration " +:+ s)) (fun _ => None).
Definition sampleStarted : Started :=
  match exec_outcome startCluster sampleRun tt with
  | Done (Ok s) => s
  | _ => mkStarted sampleCloud None
  end.

Lemma sampleRun_done : exec_outcome startCluster sampleRun tt = Done (Ok sampleStarted).
Proof. vm_compute. reflexivity. Qed.

Example sampleStarted_TTL : started_TTL sampleStarted = Some (2 * Hour).
Proof. vm_compute. reflexivity. Qed.

Lemma run_started_witness :
  PreparedFrom (L := refLibs) sampleStarted
    (removelast (exec_trace startCluster sampleRun tt)) /\
  cp_repairToleration (started_provider sampleStarted) = 10 * Minute.
Proof.
  split; [|vm_compute; reflexivity].
  destruct (run_started (L := refLibs) _ (fun _ => None) _ _ (exec_done _ _ _ _ sampleRun_done))
    as [(e & E & _)|(s & pre & E & -> & _ & H)]; [discriminate E|].
  injection E as <-. rewrite removelast_last. exact H.
Defined.

Definition sampleOperatorOptions : OperatorOptions := mkOperatorOptions "t" "c-1" (10 * Minute).

Lemma NewOptions_Ok_witness : int64_ok (RepairToleration sampleOperatorOptions).
Proof.
  destruct (NewOptions_Ok (L := refLibs) (fun s => Errorf s)
    (exec_trace startCluster (NewOptionsFromEnvironment (L := refLibs) (fun s => Errorf s)) tt)
    sampleOperatorOptions) as (toleration & _ & _ & _ & _ & H).
  - apply exec_done. vm_compute. reflexivity.
  - exact H.
Defined.
