(* ===== verification/DeepCopy.v ===== *)
(** * apis/v1alpha2/zz_generated.deepcopy.go: what a copy shares with its original

    The other models copy values.  Here the pointers, slices and maps of an
    UpCloudNodeClass are cells of a heap, and the generated methods allocate and
    copy cells.  Metadata is copied by apimachinery's own method and is a value
    here; a slice is its backing array, seen from the start. *)

From S2P Require Import Prelude Types.

Notation loc := positive.

(** ** Structs with pointers *)

Record GStorage := mkGStorage { gs_Size : Z; gs_Tier : string; gs_Encrypted : option loc }.

Record GSpec := mkGSpec {
  g_Zone : string;
  g_Plan : string;
  g_Storage : option loc;
  g_SSHKeys : option loc;
  g_KubeletArgs : option loc;
  g_Labels : option loc;
  g_Taints : option loc;
  g_ServerGroupUUID : string;
  g_UtilityNetworkAccess : option loc;
}.

Record GStatus := mkGStatus { g_Conditions : option loc; g_Hash : string }.
Record GNodeClass := mkGNodeClass { g_Meta : ObjectMeta; g_Spec : GSpec; g_Status : GStatus }.

Inductive cell :=
| CStorage (s : GStorage)
| CStrings (l : list string)
| CArgs (l : list KubernetesKubeletArg)
| CMap (m : gmap string string)
| CTaints (l : list KubernetesTaint)
| CBool (b : bool)
| CConditions (l : list Condition)
| CItems (l : list GNodeClass).

Notation heap := (gmap loc cell).

(** ** The generated methods

    [new] and [make] allocate a cell no pointer refers to.  The body of each
    [if in.X != nil] allocates and copies the contents; a nil stays nil. *)
Definition new (c : cell) (h : heap) : loc * heap :=
  let l := fresh (dom h) in (l, <[l := c]> h).

Definition copyCell (p : option loc) (h : heap) : option loc * heap :=
  match p with
  | None => (None, h)
  | Some l => match h !! l with
              | Some c => let '(l', h) := new c h in (Some l', h)
              | None => (Some l, h)
              end
  end.

Definition Spec_DeepCopyInto (s : GSpec) (h : heap) : GSpec * heap :=
  let '(keys, h) := copyCell (g_SSHKeys s) h in
  let '(args, h) := copyCell (g_KubeletArgs s) h in
  let '(labels, h) := copyCell (g_Labels s) h in
  let '(taints, h) := copyCell (g_Taints s) h in
  let '(access, h) := copyCell (g_UtilityNetworkAccess s) h in
  (mkGSpec (g_Zone s) (g_Plan s) (g_Storage s) keys args labels taints
     (g_ServerGroupUUID s) access, h).

Definition Status_DeepCopyInto (s : GStatus) (h : heap) : GStatus * heap :=
  let '(conditions, h) := copyCell (g_Conditions s) h in
  (mkGStatus conditions (g_Hash s), h).

Definition NodeClass_DeepCopyInto (n : GNodeClass) (h : heap) : GNodeClass * heap :=
  let '(spec, h) := Spec_DeepCopyInto (g_Spec n) h in
  let '(status, h) := Status_DeepCopyInto (g_Status n) h in
  (mkGNodeClass (g_Meta n) spec status, h).

(** The loop over the items of a list. *)
Fixpoint Items_DeepCopyInto (items : list GNodeClass) (h : heap) : list GNodeClass * heap :=
  match items with
  | [] => ([], h)
  | item :: rest =>
      let '(item, h) := NodeClass_DeepCopyInto item h in
      let '(rest, h) := Items_DeepCopyInto rest h in
      (item :: rest, h)
  end.

(** An UpCloudNodeClassList: the slice of its items.  Go makes the new slice
    first and fills it; its cell gets its contents at the end here. *)
Definition List_DeepCopyInto (p : option loc) (h : heap) : option loc * heap :=
  match p with
  | Some l => match h !! l with
              | Some (CItems items) =>
                  let '(items, h) := Items_DeepCopyInto items h in
                  let '(l', h) := new (CItems items) h in (Some l', h)
              | _ => (Some l, h)
              end
  | None => (None, h)
  end.

(** DeepCopy, and DeepCopyObject of a NodeClass: a nil receiver gives nil. *)
Definition Spec_DeepCopy (s : option GSpec) (h : heap) : option GSpec * heap :=
  match s with
  | None => (None, h)
  | Some s => let '(out, h) := Spec_DeepCopyInto s h in (Some out, h)
  end.

Definition Status_DeepCopy (s : option GStatus) (h : heap) : option GStatus * heap :=
  match s with
  | None => (None, h)
  | Some s => let '(out, h) := Status_DeepCopyInto s h in (Some out, h)
  end.

(** A list is the pointer to its items; its own metadata is a value. *)
Definition List_DeepCopy (l : option (option loc)) (h : heap) : option (option loc) * heap :=
  match l with
  | None => (None, h)
  | Some items => let '(out, h) := List_DeepCopyInto items h in (Some out, h)
  end.

Definition NodeClass_DeepCopy (n : option GNodeClass) (h : heap) : option GNodeClass * heap :=
  match n with
  | None => (None, h)
  | Some n => let '(out, h) := NodeClass_DeepCopyInto n h in (Some out, h)
  end.

(** ** What a struct means in a heap

    The value of Types that it stands for; nothing when a pointer is dangling or
    of another type. *)
Definition deref {A} (as_A : cell -> option A) (p : option loc) (h : heap) : option (option A) :=
  match p with
  | None => Some None
  | Some l => match h !! l ≫= as_A with Some a => Some (Some a) | None => None end
  end.

Definition as_storage (c : cell) : option GStorage := match c with CStorage s => Some s | _ => None end.
Definition as_strings (c : cell) : option (list string) := match c with CStrings l => Some l | _ => None end.
Definition as_args (c : cell) : option (list KubernetesKubeletArg) :=
  match c with CArgs l => Some l | _ => None end.
Definition as_map (c : cell) : option (gmap string string) := match c with CMap m => Some m | _ => None end.
Definition as_taints (c : cell) : option (list KubernetesTaint) :=
  match c with CTaints l => Some l | _ => None end.
Definition as_bool (c : cell) : option bool := match c with CBool b => Some b | _ => None end.
Definition as_conditions (c : cell) : option (list Condition) :=
  match c with CConditions l => Some l | _ => None end.

Definition readStorage (p : option loc) (h : heap) : option (option StorageSpec) :=
  st ← deref as_storage p h;
  match st with
  | None => Some None
  | Some st => enc ← deref as_bool (gs_Encrypted st) h;
               Some (Some (mkStorage (gs_Size st) (gs_Tier st) enc))
  end.

Definition readSpec (s : GSpec) (h : heap) : option UpCloudNodeClassSpec :=
  storage ← readStorage (g_Storage s) h;
  keys ← deref as_strings (g_SSHKeys s) h;
  args ← deref as_args (g_KubeletArgs s) h;
  labels ← deref as_map (g_Labels s) h;
  taints ← deref as_taints (g_Taints s) h;
  access ← deref as_bool (g_UtilityNetworkAccess s) h;
  Some (mkSpec (g_Zone s) (g_Plan s) storage keys args labels taints (g_ServerGroupUUID s) access).

Definition readNodeClass (n : GNodeClass) (h : heap) : option UpCloudNodeClass :=
  spec ← readSpec (g_Spec n) h;
  conditions ← deref as_conditions (g_Conditions (g_Status n)) h;
  Some (mkNodeClass (g_Meta n) spec (mkStatus conditions (g_Hash (g_Status n)))).

(** The pointers of a NodeClass but Storage. *)
Definition pointers (n : GNodeClass) : list loc :=
  omap id [g_SSHKeys (g_Spec n); g_KubeletArgs (g_Spec n); g_Labels (g_Spec n);
           g_Taints (g_Spec n); g_UtilityNetworkAccess (g_Spec n); g_Conditions (g_Status n)].

(** ** Lemmas *)

Lemma deref_mono {A} (f : cell -> option A) p h h' v :
  h ⊆ h' -> deref f p h = Some v -> deref f p h' = Some v.
Proof.
  unfold deref. intros Hsub. destruct p as [l|]; [|done].
  destruct (h !! l) as [c|] eqn:E; simpl; [|done].
  assert (E' : h' !! l = Some c) by (by eapply lookup_weaken). by rewrite E'.
Qed.

(** One copied field: a cell of its own with the contents of the original's. *)
Lemma copyCell_spec {A} (f : cell -> option A) p h p' h' v :
  deref f p h = Some v -> copyCell p h = (p', h') ->
  h ⊆ h' /\ deref f p' h' = Some v /\
  (forall l, p' = Some l -> h !! l = None /\ is_Some (h' !! l)).
Proof.
  unfold copyCell, new, deref. destruct p as [l|]; [|by intros [= <-] [= <- <-]].
  destruct (h !! l) as [c|] eqn:E; [|done]. intros Hv [= <- <-].
  assert (Hf : h !! fresh (dom h) = None) by apply not_elem_of_dom, is_fresh.
  set (l' := fresh (dom h)) in *. clearbody l'.
  split; [by apply insert_subseteq|]. split.
  - simpl. rewrite (lookup_insert_eq h l' c). by destruct (f c).
  - intros l2 [= <-]. split; [done|]. rewrite (lookup_insert_eq h l' c). by eexists.
Qed.

Lemma readStorage_mono p h h' v : h ⊆ h' -> readStorage p h = Some v -> readStorage p h' = Some v.
Proof.
  unfold readStorage. intros Hsub.
  destruct (deref as_storage p h) as [st|] eqn:E; [|done].
  rewrite (deref_mono _ _ _ _ _ Hsub E). simpl. destruct st as [st|]; [|done].
  destruct (deref as_bool (gs_Encrypted st) h) as [e|] eqn:Ee; [|done].
  by rewrite (deref_mono _ _ _ _ _ Hsub Ee).
Qed.

(** What a readable NodeClass consists of. *)
Lemma readNodeClass_Some n h v :
  readNodeClass n h = Some v <->
  nc_Meta v = g_Meta n /\
  Spec_Zone (nc_Spec v) = g_Zone (g_Spec n) /\ Spec_Plan (nc_Spec v) = g_Plan (g_Spec n) /\
  Spec_ServerGroupUUID (nc_Spec v) = g_ServerGroupUUID (g_Spec n) /\
  Status_Hash (nc_Status v) = g_Hash (g_Status n) /\
  readStorage (g_Storage (g_Spec n)) h = Some (Spec_Storage (nc_Spec v)) /\
  deref as_strings (g_SSHKeys (g_Spec n)) h = Some (Spec_SSHKeys (nc_Spec v)) /\
  deref as_args (g_KubeletArgs (g_Spec n)) h = Some (Spec_KubeletArgs (nc_Spec v)) /\
  deref as_map (g_Labels (g_Spec n)) h = Some (Spec_Labels (nc_Spec v)) /\
  deref as_taints (g_Taints (g_Spec n)) h = Some (Spec_Taints (nc_Spec v)) /\
  deref as_bool (g_UtilityNetworkAccess (g_Spec n)) h = Some (Spec_UtilityNetworkAccess (nc_Spec v)) /\
  deref as_conditions (g_Conditions (g_Status n)) h = Some (Status_Conditions (nc_Status v)).
Proof.
  unfold readNodeClass, readSpec. split.
  - intros H. repeat (apply bind_Some in H as (? & ? & H)). simplify_eq.
    repeat match goal with Hb : (_ ≫= _) = Some _ |- _ => apply bind_Some in Hb as (? & ? & Hb) end.
    simplify_eq. done.
  - destruct v as [m [] []]. simpl. intros (-> & -> & -> & -> & -> & H1 & H2 & H3 & H4 & H5 & H6 & H7).
    by rewrite H1, H2, H3, H4, H5, H6, H7.
Qed.

Lemma readNodeClass_mono n h h' v :
  h ⊆ h' -> readNodeClass n h = Some v -> readNodeClass n h' = Some v.
Proof.
  rewrite !readNodeClass_Some. intros Hsub H. destruct_and!.
  split_and!; try done; (eapply deref_mono || eapply readStorage_mono); done.
Qed.

(** A cell of one type is not what a pointer of another type refers to. *)
Lemma deref_other {A} (f : cell -> option A) p l c0 c h h' v :
  deref f p h = Some v -> h !! l = Some c0 -> f c0 = None -> h ⊆ h' ->
  deref f p (<[l := c]> h') = Some v.
Proof.
  unfold deref. destruct p as [l'|]; [|done]. intros Hv Hl Hc Hsub.
  destruct (decide (l' = l)) as [->|Hne]; [rewrite Hl in Hv; simpl in Hv; by rewrite Hc in Hv|].
  rewrite lookup_insert_ne by done. apply (deref_mono f (Some l') h h' v Hsub Hv).
Qed.

(** A sequence of copies: each pointer is new when it is made and stays. *)
Inductive Chain : heap -> list (option loc) -> heap -> Prop :=
| ChainNil h : Chain h [] h
| ChainCons h p h1 ps h2 :
    h ⊆ h1 -> (forall l, p = Some l -> h !! l = None /\ is_Some (h1 !! l)) ->
    Chain h1 ps h2 -> Chain h (p :: ps) h2.

Lemma Chain_fresh h ps h' :
  Chain h ps h' ->
  h ⊆ h' /\ (forall l, l ∈ omap id ps -> h !! l = None) /\ NoDup (omap id ps).
Proof.
  induction 1 as [h|h p h1 ps h2 Hsub Hp _ (IHs & IHf & IHd)].
  - split_and!; [done|by intros l []%not_elem_of_nil|constructor].
  - assert (Hf : forall l, l ∈ omap id ps -> h !! l = None).
    { intros l Hl. eapply lookup_weaken_None; [by apply IHf|done]. }
    split; [by transitivity h1|]. destruct p as [l|]; simpl; [|by split].
    destruct (Hp l eq_refl) as [Hn [c Hc]]. split.
    + intros l' [->|Hl']%elem_of_cons; [done|by apply Hf].
    + constructor; [|done]. intros Hl. rewrite (IHf l Hl) in Hc. done.
Qed.

(** The copies made for one NodeClass, read back field by field. *)
Lemma NodeClass_DeepCopyInto_chain n h t h' v :
  readNodeClass n h = Some v -> NodeClass_DeepCopyInto n h = (t, h') ->
  Chain h [g_SSHKeys (g_Spec t); g_KubeletArgs (g_Spec t); g_Labels (g_Spec t);
           g_Taints (g_Spec t); g_UtilityNetworkAccess (g_Spec t); g_Conditions (g_Status t)] h' /\
  g_Storage (g_Spec t) = g_Storage (g_Spec n) /\ readNodeClass t h' = Some v.
Proof.
  rewrite readNodeClass_Some. intros (Hm & Hz & Hpl & Hg & Hh & Hst & H1 & H2 & H3 & H4 & H5 & H6).
  unfold NodeClass_DeepCopyInto, Spec_DeepCopyInto, Status_DeepCopyInto.
  destruct (copyCell (g_SSHKeys _) h) as [p1 h1] eqn:E1.
  destruct (copyCell_spec _ _ _ _ _ _ H1 E1) as (S1 & R1 & F1).
  destruct (copyCell (g_KubeletArgs _) h1) as [p2 h2] eqn:E2.
  destruct (copyCell_spec _ _ _ _ _ _ (deref_mono _ _ _ _ _ S1 H2) E2) as (S2 & R2 & F2).
  assert (S02 : h ⊆ h2) by (by transitivity h1).
  destruct (copyCell (g_Labels _) h2) as [p3 h3] eqn:E3.
  destruct (copyCell_spec _ _ _ _ _ _ (deref_mono _ _ _ _ _ S02 H3) E3) as (S3 & R3 & F3).
  assert (S03 : h ⊆ h3) by (by transitivity h2).
  destruct (copyCell (g_Taints _) h3) as [p4 h4] eqn:E4.
  destruct (copyCell_spec _ _ _ _ _ _ (deref_mono _ _ _ _ _ S03 H4) E4) as (S4 & R4 & F4).
  assert (S04 : h ⊆ h4) by (by transitivity h3).
  destruct (copyCell (g_UtilityNetworkAccess _) h4) as [p5 h5] eqn:E5.
  destruct (copyCell_spec _ _ _ _ _ _ (deref_mono _ _ _ _ _ S04 H5) E5) as (S5 & R5 & F5).
  assert (S05 : h ⊆ h5) by (by transitivity h4).
  destruct (copyCell (g_Conditions _) h5) as [p6 h6] eqn:E6.
  destruct (copyCell_spec _ _ _ _ _ _ (deref_mono _ _ _ _ _ S05 H6) E6) as (S6 & R6 & F6).
  intros [= <- <-]. cbn [g_Spec g_Status g_SSHKeys g_KubeletArgs g_Labels g_Taints
    g_UtilityNetworkAccess g_Conditions g_Storage].
  assert (Q5 : h5 ⊆ h6) by done. assert (Q4 : h4 ⊆ h6) by (by transitivity h5).
  assert (Q3 : h3 ⊆ h6) by (by transitivity h4). assert (Q2 : h2 ⊆ h6) by (by transitivity h3).
  assert (Q1 : h1 ⊆ h6) by (by transitivity h2).
  split.
  { apply (ChainCons _ _ h1), (ChainCons _ _ h2), (ChainCons _ _ h3), (ChainCons _ _ h4),
      (ChainCons _ _ h5), (ChainCons _ _ h6), ChainNil; done. }
  split; [done|].
  apply readNodeClass_Some. simpl.
  split_and!; try done; [eapply readStorage_mono; [|done]; by transitivity h5|..];
    (eapply deref_mono; [|eassumption]; assumption).
Qed.

(** ** Properties *)

(** C27: A deep copy of a NodeClass means what the original means, leaves the
    original's meaning alone, and is isolated from it but for the root disk:
    every cell behind another pointer of the copy is new, no two of them are the
    same, and whatever is written there is not seen through the original.
    Storage is not copied: the copy has the original's pointer, and a StorageSpec
    written through it is read through both. *)
Theorem DeepCopy_isolated n h t h' v :
  readNodeClass n h = Some v -> NodeClass_DeepCopy (Some n) h = (Some t, h') ->
  readNodeClass t h' = Some v /\ readNodeClass n h' = Some v /\
  NoDup (pointers t) /\
  (forall l c, l ∈ pointers t -> h !! l = None /\ readNodeClass n (<[l := c]> h') = Some v) /\
  (forall l st, g_Storage (g_Spec t) = Some l -> gs_Encrypted st = None ->
     g_Storage (g_Spec n) = Some l /\
     exists v', readNodeClass n (<[l := CStorage st]> h') = Some v' /\
       Spec_Storage (nc_Spec v') = Some (mkStorage (gs_Size st) (gs_Tier st) None)).
Proof.
  intros Hr Hc. unfold NodeClass_DeepCopy in Hc.
  destruct (NodeClass_DeepCopyInto n h) as [t' h1] eqn:E. simplify_eq.
  destruct (NodeClass_DeepCopyInto_chain _ _ _ _ _ Hr E) as (Hch & Hs & Ht).
  apply Chain_fresh in Hch as (Hsub & Hf & Hd). split_and!; try done.
  - by eapply readNodeClass_mono.
  - intros l c Hl. specialize (Hf l Hl). split; [done|].
    apply (readNodeClass_mono _ h); [|done]. by apply insert_subseteq_r.
  - intros l st Hl He. rewrite Hs in Hl. split; [done|].
    apply readNodeClass_Some in Hr as (Hm & Hz & Hpl & Hg & Hh & Hst & H1 & H2 & H3 & H4 & H5 & H6).
    rewrite Hl in Hst. unfold readStorage, deref in Hst.
    destruct (h !! l) as [c0|] eqn:El; [|done]. destruct c0; try done.
    exists (mkNodeClass (nc_Meta v) (mkSpec (Spec_Zone (nc_Spec v)) (Spec_Plan (nc_Spec v))
      (Some (mkStorage (gs_Size st) (gs_Tier st) None)) (Spec_SSHKeys (nc_Spec v))
      (Spec_KubeletArgs (nc_Spec v)) (Spec_Labels (nc_Spec v)) (Spec_Taints (nc_Spec v))
      (Spec_ServerGroupUUID (nc_Spec v)) (Spec_UtilityNetworkAccess (nc_Spec v))) (nc_Status v)).
    split; [|done]. apply readNodeClass_Some. simpl.
    split_and!; try done; try (by eapply deref_other).
    rewrite Hl. unfold readStorage, deref. rewrite lookup_insert_eq. simpl. by rewrite He.
Qed.

(** A list is copied item by item, into a slice of its own. *)
Lemma Items_DeepCopyInto_read items h items' h' vs :
  Forall2 (fun n v => readNodeClass n h = Some v) items vs ->
  Items_DeepCopyInto items h = (items', h') ->
  h ⊆ h' /\ Forall2 (fun n v => readNodeClass n h' = Some v) items' vs.
Proof.
  revert vs h items' h'. induction items as [|n items IH]; intros vs h items' h' Hr.
  - apply Forall2_nil_inv_l in Hr as ->. intros [= <- <-]. split; [done|constructor].
  - apply Forall2_cons_inv_l in Hr as (v & vs' & Hv & Hr & ->). cbn [Items_DeepCopyInto].
    destruct (NodeClass_DeepCopyInto n h) as [t h1] eqn:E.
    destruct (NodeClass_DeepCopyInto_chain _ _ _ _ _ Hv E) as (Hch & _ & Ht).
    apply Chain_fresh in Hch as (Hsub & _ & _).
    destruct (Items_DeepCopyInto items h1) as [rest h2] eqn:E2.
    destruct (IH vs' h1 rest h2) as [Hsub2 Hrest]; [|done|].
    { eapply Forall2_impl; [exact Hr|]. intros n' v' Hn'. by apply (readNodeClass_mono _ h). }
    intros [= <- <-]. split; [by transitivity h1|].
    constructor; [by apply (readNodeClass_mono _ h1)|done].
Qed.

(** ** Concrete runs *)

Definition sampleHeap : heap :=
  <[1%positive := CStorage (mkGStorage 20 "maxiops" (Some 3%positive))]>
  (<[2%positive := CStrings ["key"]]> {[ 3%positive := CBool true ]}).
Definition sampleStruct : GNodeClass :=
  mkGNodeClass emptyMeta
    (mkGSpec "fi-hel1" "2xCPU-4GB" (Some 1%positive) (Some 2%positive) None None None "" None)
    (mkGStatus None "").
Definition sampleCopy : GNodeClass * heap := NodeClass_DeepCopyInto sampleStruct sampleHeap.

Lemma DeepCopy_isolated_witness :
  exists v, readNodeClass (fst sampleCopy) (snd sampleCopy) = Some v /\
  exists v', readNodeClass sampleStruct
      (<[1%positive := CStorage (mkGStorage 99 "hdd" None)]> (snd sampleCopy)) = Some v' /\
    Spec_Storage (nc_Spec v') = Some (mkStorage 99 "hdd" None).
Proof.
  destruct (DeepCopy_isolated sampleStruct sampleHeap (fst sampleCopy) (snd sampleCopy)
    (mkNodeClass emptyMeta (mkSpec "fi-hel1" "2xCPU-4GB" (Some (mkStorage 20 "maxiops" (Some true)))
       (Some ["key"]) None None None "" None) (mkStatus None ""))) as (H1 & _ & _ & _ & H2).
  - vm_compute. reflexivity.
  - vm_compute. reflexivity.
  - eexists. split; [exact H1|].
    apply (H2 1%positive (mkGStorage 99 "hdd" None)); reflexivity.
Defined.
