(* ===== verification/Convergence.v ===== *)
(** * The NodeClass controller over a stored state

    NodeClassController.v shows what one pass does whatever the API server
    answers.  Here the server is one that works: an interface says how its stored
    objects answer reads and take writes, and the passes of the controller are
    shown to come to rest. *)

From S2P Require Import Prelude GoTime Types Effects Libs NodeClass CloudProvider NodeClassController.

Local Open Scope Z_scope.

(** ** The interface

    One NodeClass and its NodeClaims, in any state [W].  Reads answer with what
    is stored and change nothing; an update stores the object; a status patch
    made from the stored object stores the status of the new one; a patch of a
    claim that only differs in its annotations stores those, under its name. *)
Definition storeAnnotations (obj : NodeClaim) (c : NodeClaim) : NodeClaim :=
  if decide (Name (claim_Meta c) = Name (claim_Meta obj))
  then claim_with_Annotations (Annotations (claim_Meta obj)) c else c.

Class ApiServer {W : Type} (h : handler W) (name : string) := {
  storedClass : W -> UpCloudNodeClass;
  storedClaims : W -> list NodeClaim;
  api_get w : h _ (GetNodeClass name) w = (Ok (storedClass w), w);
  api_list w n : h _ (ListNodeClaimsFor n) w = (Ok (storedClaims w), w);
  api_update w obj : exists w', h _ (UpdateNodeClass obj) w = (Ok obj, w') /\
    storedClass w' = obj /\ storedClaims w' = storedClaims w;
  api_status w obj : exists w',
    h _ (StatusPatchNodeClass (storedClass w) obj) w =
      (Ok (nc_with_Status (nc_Status obj) (storedClass w)), w') /\
    storedClass w' = nc_with_Status (nc_Status obj) (storedClass w) /\
    storedClaims w' = storedClaims w;
  api_patch w base obj :
    (exists a, obj = claim_with_Annotations a base) ->
    exists r w', h _ (PatchNodeClaim base obj) w = (Ok r, w') /\
      storedClass w' = storedClass w /\
      storedClaims w' = storeAnnotations obj <$> storedClaims w;
}.

(** The state after one pass of the controller. *)
Definition pass `{L : Libs} {W} (h : handler W) (name : string) (w : W) : W :=
  exec_world h (NodeClassController.Reconcile name) w.

Section Convergence.
Context `{L : Libs} `{!StatusLaws L, !EqualityLaws L}.
Context {W : Type} (h : handler W) (name : string) `{!ApiServer h name}.

(** ** Lemmas *)

(** A stored claim after the controller has got to it: only its annotations. *)
Definition settledClaim (nodeClass : UpCloudNodeClass) (c : NodeClaim) : NodeClaim :=
  if skipClaim c then c else stampClaim (Hash nodeClass) c.

Lemma settledClaim_name n c : Name (claim_Meta (settledClaim n c)) = Name (claim_Meta c).
Proof. unfold settledClaim. by destruct (skipClaim c). Qed.

Lemma settledClaim_skipped n c : skipClaim (settledClaim n c) = true.
Proof.
  unfold settledClaim. destruct (skipClaim c) eqn:E; [done|].
  unfold skipClaim, hasHash, currentVersion, stampClaim. simpl.
  rewrite mapGet_set_eq, (bool_decide_eq_true_2 (v1alpha2.NodeClassHashVersion = _)) by done.
  rewrite (bool_decide_eq_true_2 (is_Some _)); [done|].
  unfold setAnnotation. simpl. rewrite lookup_insert_ne, lookup_insert_eq by done. eauto.
Qed.

Lemma settled_all_skipped n claims : Forall (fun c => skipClaim c = true) (settledClaim n <$> claims).
Proof. apply Forall_fmap, Forall_forall. intros c _. apply settledClaim_skipped. Qed.

(** Claims that are all to be skipped cost no call. *)
Lemma rebaseline_skips n claims :
  Forall (fun c => skipClaim c = true) claims -> rebaselineClaims n claims = Ret None.
Proof. induction 1 as [|c claims Hc _ IH]; [done|]. cbn [rebaselineClaims]. by rewrite Hc. Qed.

(** A patch reaches the one claim of its name. *)
Lemma store_stamp n pre c rest :
  NoDup ((fun c => Name (claim_Meta c)) <$> pre ++ c :: rest) ->
  storeAnnotations (stampClaim (Hash n) (initConditions c)) <$> pre ++ c :: rest =
  pre ++ stampClaim (Hash n) c :: rest.
Proof.
  rewrite fmap_app, fmap_cons. intros (_ & Hpre & Hnd)%NoDup_app.
  apply NoDup_cons in Hnd as [Hc _].
  assert (Hother : forall l : list NodeClaim, (forall d, d ∈ l -> Name (claim_Meta d) <> Name (claim_Meta c)) ->
    storeAnnotations (stampClaim (Hash n) (initConditions c)) <$> l = l).
  { intros l Hl. rewrite <-(list_fmap_id l) at 2. apply list_fmap_ext. intros i d Hd.
    apply list_elem_of_lookup_2 in Hd. unfold storeAnnotations. simpl.
    by rewrite decide_False by (by apply Hl). }
  rewrite fmap_app, fmap_cons. f_equal; [|f_equal].
  - apply Hother. intros d Hd E. apply (Hpre (Name (claim_Meta c))); [|by left].
    rewrite <-E. by apply (list_elem_of_fmap_2 (fun c => Name (claim_Meta c))).
  - unfold storeAnnotations. simpl. by rewrite decide_True.
  - apply Hother. intros d Hd E. apply Hc. rewrite <-E.
    by apply (list_elem_of_fmap_2 (fun c => Name (claim_Meta c))).
Qed.

(** The loop settles the rest of the stored claims. *)
Lemma rebaselineClaims_exec n claims pre w :
  storedClaims w = pre ++ claims ->
  NoDup ((fun c => Name (claim_Meta c)) <$> storedClaims w) ->
  exists w' tr, exec h (rebaselineClaims n claims) w = (Done None, w', tr) /\
    storedClass w' = storedClass w /\ storedClaims w' = pre ++ (settledClaim n <$> claims).
Proof.
  revert pre w. induction claims as [|c claims IH]; intros pre w Hw Hnd.
  - exists w, []. by rewrite app_nil_r in *.
  - cbn [rebaselineClaims]. rewrite fmap_cons. unfold settledClaim at 1.
    destruct (skipClaim c) eqn:Es.
    + destruct (IH (pre ++ [c]) w) as (w' & tr & E & Hc & Hcl); [by rewrite <-app_assoc|done|].
      exists w', tr. by rewrite E, Hcl, <-app_assoc.
    + destruct (api_patch w (initConditions c) (stampClaim (Hash n) (initConditions c)))
        as (r & w1 & E1 & Hc1 & Hcl1); [by eexists|].
      rewrite Hw in Hcl1, Hnd. rewrite (store_stamp n pre c claims Hnd) in Hcl1.
      destruct (IH (pre ++ [stampClaim (Hash n) c]) w1) as (w' & tr & E & Hc & Hcl).
      { by rewrite Hcl1, <-app_assoc. }
      { rewrite Hcl1. rewrite !fmap_app, !fmap_cons in *. exact Hnd. }
      eexists w', _. split.
      * unfold call. cbn [bind exec]. rewrite E1. cbn [bind]. rewrite E. reflexivity.
      * split; [congruence|]. by rewrite Hcl, <-app_assoc.
Qed.

(** At rest: everything a pass checks is in place. *)
Definition Settled (w : W) : Prop :=
  Deleting (nc_Meta (storedClass w)) = false /\ hasFinalizer (storedClass w) = true /\
  validateSpec (storedClass w) = None /\
  SemanticDeepEqual (storedClass w) (readyClass (storedClass w)) = true /\
  Forall (fun c => skipClaim c = true) (storedClaims w).

Lemma Settled_pass w :
  Settled w -> exists tr,
    exec h (NodeClassController.Reconcile name) w = (Done (requeueAfter (5 * Minute), None), w, tr) /\
    omap claimPatch tr = [] /\ omap statusPatch tr = [] /\ omap classUpdate tr = [].
Proof.
  intros (Hd & Hf & Hv & Hs & Hc). unfold NodeClassController.Reconcile, call. cbn [bind exec].
  rewrite api_get. rewrite Hd, Hf, Hv, Hs. cbn [negb].
  unfold finishReconcile, rebaselineClaimHashes, call. cbn [bind exec].
  rewrite api_list, rebaseline_skips by done. cbn [bind exec]. by eexists.
Qed.

(** A pass over a valid NodeClass that has its finalizer settles everything. *)
Lemma pass_settles w :
  Deleting (nc_Meta (storedClass w)) = false -> hasFinalizer (storedClass w) = true ->
  validateSpec (storedClass w) = None ->
  NoDup ((fun c => Name (claim_Meta c)) <$> storedClaims w) ->
  let w' := pass h name w in
  Settled w' /\ nc_Spec (storedClass w') = nc_Spec (storedClass w) /\
  nc_Meta (storedClass w') = nc_Meta (storedClass w) /\
  storedClaims w' = settledClaim (storedClass w) <$> storedClaims w.
Proof.
  intros Hd Hf Hv Hnd. unfold pass, exec_world, NodeClassController.Reconcile, call. cbn [bind exec].
  rewrite api_get. rewrite Hd, Hf, Hv. cbn [negb].
  destruct (readyClass_spec (storedClass w)) as (Hm & Hsp & _).
  assert (Hset : forall n, nc_Spec n = nc_Spec (storedClass w) ->
    settledClaim n <$> storedClaims w = settledClaim (storedClass w) <$> storedClaims w).
  { intros n Hn. apply list_fmap_ext. intros i c _. unfold settledClaim, Hash. by rewrite Hn. }
  destruct (SemanticDeepEqual (storedClass w) (readyClass (storedClass w))) eqn:Es; cbn [negb].
  - unfold finishReconcile, rebaselineClaimHashes, call. cbn [bind exec]. rewrite api_list.
    destruct (rebaselineClaims_exec (readyClass (storedClass w)) (storedClaims w) [] w eq_refl Hnd)
      as (w' & tr & E & Hc & Hcl).
    rewrite exec_bind, E. cbn [bind exec fst snd app] in *. rewrite Hset in Hcl by done. rewrite Hc.
    split_and!; try done. unfold Settled. rewrite Hc, Hcl. split_and!; try done.
    apply settled_all_skipped.
  - destruct (api_status w (readyClass (storedClass w))) as (w1 & E1 & Hc1 & Hcl1).
    assert (Hready : nc_with_Status (nc_Status (readyClass (storedClass w))) (storedClass w) =
      readyClass (storedClass w)).
    { destruct (readyClass (storedClass w)) as [m s st] eqn:Er. unfold nc_with_Status. simpl in *. by subst. }
    rewrite Hready in E1, Hc1. unfold call. cbn [bind exec]. rewrite E1.
    unfold finishReconcile, rebaselineClaimHashes, call. cbn [bind exec]. rewrite api_list.
    destruct (rebaselineClaims_exec (readyClass (storedClass w)) (storedClaims w1) [] w1 eq_refl)
      as (w' & tr & E & Hc & Hcl); [by rewrite Hcl1|].
    rewrite exec_bind, E. cbn [bind exec fst snd app] in *. rewrite Hcl1, Hset in Hcl by done. rewrite Hc, Hc1.
    split_and!; try done. unfold Settled. rewrite Hc, Hc1, Hcl, Hm.
    unfold hasFinalizer, validateSpec in *. rewrite Hm, Hsp. split_and!; try done.
    + rewrite readyClass_idemp. apply SemanticDeepEqual_refl.
    + apply settled_all_skipped.
Qed.

(** The first pass over a NodeClass without the finalizer only adds it. *)
Lemma pass_adds_finalizer w :
  Deleting (nc_Meta (storedClass w)) = false -> hasFinalizer (storedClass w) = false ->
  storedClass (pass h name w) = withFinalizers
    (Finalizers (nc_Meta (storedClass w)) ++ [v1alpha2.NodeClassFinalizer]) (storedClass w) /\
  storedClaims (pass h name w) = storedClaims w.
Proof.
  intros Hd Hf. unfold pass, exec_world, NodeClassController.Reconcile, call. cbn [bind exec].
  rewrite api_get. rewrite Hd, Hf. cbn [negb].
  destruct (api_update w (withFinalizers
    (Finalizers (nc_Meta (storedClass w)) ++ [v1alpha2.NodeClassFinalizer]) (storedClass w)))
    as (w1 & E1 & Hc1 & Hcl1).
  unfold call. cbn [bind exec]. rewrite E1. done.
Qed.

Lemma hasFinalizer_appended fs n :
  hasFinalizer (withFinalizers (fs ++ [v1alpha2.NodeClassFinalizer]) n) = true.
Proof.
  apply existsb_true. exists v1alpha2.NodeClassFinalizer. split; [|done].
  apply elem_of_app. right. by left.
Qed.

Lemma Settled_in_place w : Settled w -> StatusInPlace (storedClass w).
Proof. intros (_ & _ & _ & Hs & _). by apply equal_in_place. Qed.

Lemma Settled_idle w : Settled w -> pass h name w = w.
Proof. intros (tr & E & _)%Settled_pass. unfold pass, exec_world. by rewrite E. Qed.

(** ** Properties *)

(** C26: Convergence: over a server that works, two passes over a valid NodeClass
    that is not being deleted bring it and its claims to rest, whatever state
    they were in.  The spec is untouched, the finalizer was appended where it was
    missing, the stored status has Ready true for the present generation and the
    digest of the spec, every claim that was due carries that digest at the
    current version and no other claim changed; from then on a pass writes
    nothing, leaves the state as it is and asks to be run again in five minutes. *)
Theorem Reconcile_converges w :
  Deleting (nc_Meta (storedClass w)) = false ->
  validateSpec (storedClass w) = None ->
  NoDup ((fun c => Name (claim_Meta c)) <$> storedClaims w) ->
  let w2 := pass h name (pass h name w) in
  StatusInPlace (storedClass w2) /\ nc_Spec (storedClass w2) = nc_Spec (storedClass w) /\
  Finalizers (nc_Meta (storedClass w2)) = Finalizers (nc_Meta (storedClass w)) ++
    (if hasFinalizer (storedClass w) then [] else [v1alpha2.NodeClassFinalizer]) /\
  storedClaims w2 = settledClaim (storedClass w) <$> storedClaims w /\
  exists tr,
    exec h (NodeClassController.Reconcile name) w2 = (Done (requeueAfter (5 * Minute), None), w2, tr) /\
    omap claimPatch tr = [] /\ omap statusPatch tr = [] /\ omap classUpdate tr = [].
Proof.
  intros Hd Hv Hnd w2. unfold w2. clear w2. destruct (hasFinalizer (storedClass w)) eqn:Hf.
  - destruct (pass_settles w Hd Hf Hv Hnd) as (Hs & Hsp & Hm & Hcl).
    rewrite (Settled_idle _ Hs), app_nil_r, Hm.
    split_and!; [by apply Settled_in_place|done..|by apply Settled_pass].
  - destruct (pass_adds_finalizer w Hd Hf) as [Hc1 Hcl1].
    destruct (pass_settles (pass h name w)) as (Hs & Hsp & Hm & Hcl).
    { by rewrite Hc1. }
    { rewrite Hc1. apply hasFinalizer_appended. }
    { by rewrite Hc1. }
    { by rewrite Hcl1. }
    rewrite Hc1, Hcl1 in Hcl. rewrite Hc1 in Hsp, Hm. rewrite Hm.
    split_and!; [by apply Settled_in_place|done..|by apply Settled_pass].
Qed.
End Convergence.

(** ** A server in memory *)

Definition memServer : handler (UpCloudNodeClass * list NodeClaim) := fun X c w =>
  let '(n, claims) := w in
  match c in api X return X * (UpCloudNodeClass * list NodeClaim) with
  | GetNodeClass _ => (Ok n, w)
  | ListNodeClaimsFor _ => (Ok claims, w)
  | UpdateNodeClass obj => (Ok obj, (obj, claims))
  | StatusPatchNodeClass _ obj =>
      (Ok (nc_with_Status (nc_Status obj) n), (nc_with_Status (nc_Status obj) n, claims))
  | PatchNodeClaim _ obj => (Ok obj, (n, storeAnnotations obj <$> claims))
  | c => (unavailable c, w)
  end.

#[export] Instance memServer_ApiServer name : ApiServer memServer name.
Proof.
  refine {| storedClass := fst; storedClaims := snd |}.
  - by intros [n claims].
  - by intros [n claims].
  - intros [n claims] obj. by eexists.
  - intros [n claims] obj. by eexists.
  - intros [n claims] base obj _. by eexists _, _.
Defined.

(** The valid class without the finalizer, and the claims of the controller's
    own runs. *)
Definition memStart : UpCloudNodeClass * list NodeClaim :=
  (sampleClass, [oldClaim; driftedClaim; newClaim]).
Definition memRest : UpCloudNodeClass * list NodeClaim :=
  pass (L := refLibs) memServer "default" (pass (L := refLibs) memServer "default" memStart).

Lemma Reconcile_converges_witness :
  pass (L := refLibs) memServer "default" memRest = memRest /\
  StatusInPlace (L := refLibs) (fst memRest) /\
  snd memRest = [stampClaim (Hash (L := refLibs) sampleClass) oldClaim; driftedClaim; newClaim].
Proof.
  destruct (Reconcile_converges (L := refLibs) memServer "default" memStart)
    as (Hf & _ & _ & Hcl & tr & E & _).
  - reflexivity.
  - vm_compute. reflexivity.
  - vm_compute. repeat constructor; set_solver.
  - split; [|split; [exact Hf|]].
    + unfold pass at 1, exec_world. fold memRest in E. rewrite E. reflexivity.
    + etransitivity; [exact Hcl|]. vm_compute. reflexivity.
Defined.
