(* ===== verification/Fleet.v ===== *)
(** * The servers of the account over time

    What the cloud provider promises about servers, without calls and errors: a
    fleet of machines that are launched, halted, settled and removed.  The
    UpCloud service is an interface over it, whose calls may fail before or after
    they took effect, and the provider's methods are shown to refine the fleet. *)

From S2P Require Import Prelude GoStrings GoTime Types Effects Libs NodeClass InstanceTypes.
From S2P Require Import UserData Instance KubeletCert CloudProvider.

(** ** The specification *)

Inductive ServerState := Started | Stopping | Stopped.

Record Machine := mkMachine { m_server : ServerDetails; m_state : ServerState }.

(** The machines by UUID. *)
Notation Fleet := (gmap string Machine).

Inductive FleetOp :=
| Launch (s : ServerDetails)
| Halt (uuid : string)
| Settle (uuid : string)
| Remove (uuid : string).

(** Only a new UUID is launched, and only a stopped machine removed. *)
Inductive FleetStep : Fleet -> FleetOp -> Fleet -> Prop :=
| StepLaunch f s :
    f !! srv_UUID s = None -> FleetStep f (Launch s) (<[srv_UUID s := mkMachine s Started]> f)
| StepHalt f uuid s :
    f !! uuid = Some (mkMachine s Started) ->
    FleetStep f (Halt uuid) (<[uuid := mkMachine s Stopping]> f)
| StepSettle f uuid s :
    f !! uuid = Some (mkMachine s Stopping) ->
    FleetStep f (Settle uuid) (<[uuid := mkMachine s Stopped]> f)
| StepRemove f uuid s :
    f !! uuid = Some (mkMachine s Stopped) -> FleetStep f (Remove uuid) (delete uuid f).

Inductive FleetSteps : Fleet -> list FleetOp -> Fleet -> Prop :=
| StepsNil f : FleetSteps f [] f
| StepsCons f op f1 ops f2 :
    FleetStep f op f1 -> FleetSteps f1 ops f2 -> FleetSteps f (op :: ops) f2.

(** [Worked uuid work f f']: the machine [uuid] was worked on and no other, and what
    was done to it, apart from its settling, is [work]. *)
Definition isSettle (op : FleetOp) : bool := match op with Settle _ => true | _ => false end.
Definition isLaunch (op : FleetOp) : bool := match op with Launch _ => true | _ => false end.
Definition opUUID (op : FleetOp) : string :=
  match op with
  | Launch s => srv_UUID s
  | Halt uuid | Settle uuid | Remove uuid => uuid
  end.

Definition Worked (uuid : string) (work : list FleetOp) (f f' : Fleet) : Prop :=
  exists ops, FleetSteps f ops f' /\
    Forall (fun op => opUUID op = uuid /\ isLaunch op = false) ops /\
    List.filter (fun op => negb (isSettle op)) ops = work.

(** ** The service as an interface

    Any call may fail at any time, and a call that fails may have done its work all
    the same: a request can time out after it was carried out.  A machine that is
    stopping settles by itself at any time; since no other call shows the state of
    a machine, this is recorded at the next one that depends on it.  The service
    says SERVER_NOT_FOUND only of servers it does not have. *)
Definition SERVER_NOT_FOUND (e : error) : bool := Contains (ErrorText e) "SERVER_NOT_FOUND".
Definition SERVER_STATE_ILLEGAL (e : error) : bool := Contains (ErrorText e) "SERVER_STATE_ILLEGAL".

Definition Settling (f : Fleet) (uuid : string) (f1 : Fleet) : Prop :=
  f1 = f \/ FleetStep f (Settle uuid) f1.

(** A call that does [op], or fails. *)
Definition Attempt {A} (f : Fleet) (op : FleetOp) (r : result A) (f' : Fleet) : Prop :=
  exists f1, Settling f (opUUID op) f1 /\
  match r with
  | Ok _ => FleetStep f1 op f'
  | Err e => (f' = f1 \/ FleetStep f1 op f') /\ (SERVER_NOT_FOUND e = true -> f' !! opUUID op = None)
  end.

Class ServerCloud {W : Type} (h : handler W) := {
  fleet : W -> Fleet;
  fleet_uuid w uuid m : fleet w !! uuid = Some m -> srv_UUID (m_server m) = uuid;
  cloud_other X (c : api X) w : notServer X c -> fleet (snd (h X c w)) = fleet w;
  cloud_details w uuid s :
    fst (h _ (GetServerDetails uuid) w) = Ok s ->
    exists st, fleet w !! uuid = Some (mkMachine s st);
  cloud_list w uuids :
    fst (h _ GetServers w) = Ok uuids ->
    NoDup uuids /\ forall uuid, uuid ∈ uuids <-> is_Some (fleet w !! uuid);
  cloud_create w req :
    let f' := fleet (snd (h _ (CreateServer req) w)) in
    match fst (h _ (CreateServer req) w) with
    | Ok s => srv_Labels s ≡ₚ cs_Labels req /\ FleetStep (fleet w) (Launch s) f'
    | Err _ => f' = fleet w \/
        exists s, srv_Labels s ≡ₚ cs_Labels req /\ FleetStep (fleet w) (Launch s) f'
    end;
  cloud_stop w uuid timeout :
    Attempt (fleet w) (Halt uuid) (fst (h _ (StopServer uuid ServerStopTypeHard timeout) w))
      (fleet (snd (h _ (StopServer uuid ServerStopTypeHard timeout) w)));
  cloud_wait w uuid :
    let f' := fleet (snd (h _ (WaitForServerState uuid ServerStateStopped) w)) in
    Settling (fleet w) uuid f' /\
    (is_Ok (fst (h _ (WaitForServerState uuid ServerStateStopped) w)) = true ->
     exists s, f' !! uuid = Some (mkMachine s Stopped));
  cloud_delete w uuid :
    Attempt (fleet w) (Remove uuid) (fst (h _ (DeleteServerAndStorages uuid) w))
      (fleet (snd (h _ (DeleteServerAndStorages uuid) w)));
}.

(** The errors of the service, wrapped or not, are not of Karpenter's own type. *)
Class ForeignErrors {L : Libs} {W : Type} (h : handler W) : Prop := {
  foreign_stop w uuid timeout e :
    fst (h _ (StopServer uuid ServerStopTypeHard timeout) w) = Err e -> IsNodeClaimNotFoundError e = false;
  foreign_wait w uuid m e :
    fst (h _ (WaitForServerState uuid ServerStateStopped) w) = Err e ->
    IsNodeClaimNotFoundError (Wrapf m e) = false;
  foreign_delete w uuid e :
    fst (h _ (DeleteServerAndStorages uuid) w) = Err e -> IsNodeClaimNotFoundError e = false;
}.

(** [ReliableCloud]: moreover a call does its work whenever it can, and says why
    when it cannot. *)
Class ReliableCloud {W : Type} (h : handler W) `{!ServerCloud h} : Prop := {
  rel_details w uuid m :
    fleet w !! uuid = Some m -> fst (h _ (GetServerDetails uuid) w) = Ok (m_server m);
  rel_list w : exists uuids, fst (h _ GetServers w) = Ok uuids;
  rel_stop w uuid timeout :
    match fleet w !! uuid with
    | Some (mkMachine _ Started) =>
        exists s, fst (h _ (StopServer uuid ServerStopTypeHard timeout) w) = Ok s
    | Some _ => exists e, fst (h _ (StopServer uuid ServerStopTypeHard timeout) w) = Err e /\
        SERVER_STATE_ILLEGAL e = true /\ SERVER_NOT_FOUND e = false
    | None => exists e, fst (h _ (StopServer uuid ServerStopTypeHard timeout) w) = Err e /\
        SERVER_NOT_FOUND e = true
    end;
  rel_wait w uuid s :
    fleet w !! uuid = Some (mkMachine s Stopping) ->
    fst (h _ (WaitForServerState uuid ServerStateStopped) w) = Ok s /\
    FleetStep (fleet w) (Settle uuid) (fleet (snd (h _ (WaitForServerState uuid ServerStateStopped) w)));
  rel_delete w uuid s :
    fleet w !! uuid = Some (mkMachine s Stopped) ->
    fst (h _ (DeleteServerAndStorages uuid) w) = Ok tt;
}.

Section Fleet.
Context `{L : Libs} `{!PollLaws L, !RangeLaws L, !LoLaws L, !KarpenterErrorLaws L}.
Context {W : Type} (h : handler W) `{!ServerCloud h}.

(** ** Lemmas *)

Lemma other_keeps {A} (p : prog A) w :
  calls_ok notServer p -> fleet (exec_world h p w) = fleet w.
Proof. apply exec_keeps. apply cloud_other. Qed.

(** What an execution of Create has done to the fleet: nothing, without a claim;
    a launch, of the claim's server; or a launch that was reported as a failure. *)
Definition Launched (w : W) (p : prog (result NodeClaim)) : Prop :=
  let f' := fleet (exec_world h p w) in
  (f' = fleet w /\ forall claim, exec_outcome h p w <> Done (Ok claim)) \/
  exists s, FleetStep (fleet w) (Launch s) f' /\ isManaged s = true /\
    ((exists claim, exec_outcome h p w = Done (Ok claim) /\
        ProviderID (claim_Status claim) = v1alpha2.ProviderIDPrefix +:+ srv_UUID s) \/
     (exists e, exec_outcome h p w = Done (Err e) /\ IsInsufficientCapacityError e = true)).

(** Steps without server calls in front of it do not matter. *)
Lemma Launched_bindE {A} wrap (q : prog (result A)) k w :
  calls_ok notServer q ->
  (forall a w1, fleet w1 = fleet w -> Launched w1 (k a)) -> Launched w (bindE wrap q k).
Proof.
  intros Hq Hk. pose proof (other_keeps q w Hq) as Hw. unfold Launched, bindE. autorewrite with exec.
  destruct (exec_outcome h q w) as [[a|e]|m].
  - specialize (Hk a _ Hw). unfold Launched in Hk. by rewrite Hw in Hk.
  - left. by split.
  - left. by split.
Qed.

Lemma Launched_failed e w : Launched w (Ret (Err e)).
Proof. left. by split. Qed.

(** A server with the labels Create asks for is managed. *)
Lemma requested_managed s ip name plan zone ud group labels storage :
  srv_Labels s ≡ₚ cs_Labels (createRequest ip name plan zone ud group (markLabels ip name labels) storage) ->
  isManaged s = true.
Proof. intros Hl. apply isManaged_elem. rewrite Hl. apply labelSlice_elem, markLabels_managed. Qed.

Lemma provision_Launched p nodeClass nodeClaim refName w :
  Launched w (provision p nodeClass nodeClaim refName).
Proof.
  unfold provision. unfold Launched. autorewrite with exec.
  pose proof (cloud_other (h := h) _ NewUUID w I) as Hw. set (w1 := snd (h _ NewUUID w)) in *.
  rewrite <-Hw. match goal with |- context [exec_outcome h ?q w1] => change (Launched w1 q) end.
  clearbody w1. clear Hw. destruct (slice16 _) as [short|]; [|left; by split].
  apply Launched_bindE; [apply getCABundle_calls|]. intros ca w2 _.
  apply Launched_bindE; [apply generateKubeletCert_calls|]. intros certs w3 _.
  destruct (Generate _) as [ud|e]; [|apply Launched_failed].
  unfold Launched, Instance.Create. autorewrite with exec.
  match goal with |- context [CreateServer ?req] => pose proof (cloud_create w3 req) as Hc end.
  cbn zeta in Hc.
  destruct (fst (h _ (CreateServer _) w3)) as [s|e].
  - destruct Hc as [Hl Hs]. right. exists s. split; [exact Hs|]. split; [by eapply requested_managed|].
    left. eexists. by split.
  - destruct Hc as [Hc|(s & Hl & Hs)]; [left; by split|]. right. exists s. split; [exact Hs|].
    split; [by eapply requested_managed|]. right. eexists. split; [reflexivity|]. apply IsInsufficientCapacity_new.
Qed.

Lemma Create_Launched p nodeClaim w : Launched w (CloudProvider.Create p nodeClaim).
Proof.
  unfold CloudProvider.Create, resolveNodeClass.
  destruct (Claim_NodeClassRef _) as [ref|]; [|apply Launched_failed].
  apply Launched_bindE; [by split|]. intros nodeClass w1 _. apply provision_Launched.
Qed.
(** Machines other than the one of an operation are left alone. *)
Lemma FleetStep_other f op f' uuid :
  FleetStep f op f' -> uuid <> opUUID op -> f' !! uuid = f !! uuid.
Proof.
  intros [] Hne; simpl in *; by rewrite ?lookup_insert_ne, ?lookup_delete_ne.
Qed.

Lemma FleetSteps_other f ops f' uuid :
  FleetSteps f ops f' -> Forall (fun op => uuid <> opUUID op) ops -> f' !! uuid = f !! uuid.
Proof.
  induction 1 as [|f op f1 ops f2 H _ IH]; [done|]. intros [Ho Hos]%Forall_cons.
  rewrite IH by done. by eapply FleetStep_other.
Qed.

Lemma Worked_other uuid work f f' u : Worked uuid work f f' -> u <> uuid -> f' !! u = f !! u.
Proof.
  intros (ops & Hs & Ho & _) Hu. eapply FleetSteps_other; [exact Hs|].
  eapply Forall_impl; [exact Ho|]. intros op [E _]. congruence.
Qed.

(** A worked-on machine that is gone was removed, and nothing else happened. *)
Lemma Worked_gone uuid work f f' : Worked uuid work f f' -> f' !! uuid = None -> f' = delete uuid f.
Proof.
  intros Hw Hg. apply map_eq. intros u. destruct (decide (u = uuid)) as [->|Hu].
  - by rewrite lookup_delete_eq.
  - rewrite lookup_delete_ne by done. by apply (Worked_other _ _ _ _ _ Hw).
Qed.

Lemma FleetSteps_app f ops1 f1 ops2 f2 :
  FleetSteps f ops1 f1 -> FleetSteps f1 ops2 f2 -> FleetSteps f (ops1 ++ ops2) f2.
Proof. induction 1; [done|]. intros. econstructor; [done|by auto]. Qed.

Lemma Worked_app uuid w1 w2 f f1 f2 :
  Worked uuid w1 f f1 -> Worked uuid w2 f1 f2 -> Worked uuid (w1 ++ w2) f f2.
Proof.
  intros (o1 & S1 & F1 & <-) (o2 & S2 & F2 & <-). exists (o1 ++ o2).
  split; [by eapply FleetSteps_app|]. split; [by apply Forall_app|]. by rewrite List.filter_app.
Qed.

Lemma Worked_one op f f' :
  FleetStep f op f' -> isLaunch op = false -> Worked (opUUID op) (if isSettle op then [] else [op]) f f'.
Proof.
  intros Hs Hl. exists [op]. split; [econstructor; [exact Hs|constructor]|].
  split; [by apply Forall_singleton|]. cbn. by destruct (isSettle op).
Qed.

Lemma Worked_settling uuid f f' : Settling f uuid f' -> Worked uuid [] f f'.
Proof.
  intros [->|Hs]; [exists []; split; [constructor|by split]|]. exact (Worked_one (Settle uuid) _ _ Hs eq_refl).
Qed.

(** What a call that may fail has done. *)
Lemma Attempt_worked {A} f op (r : result A) f' :
  Attempt f op r f' -> isLaunch op = false -> isSettle op = false ->
  match r with
  | Ok _ => Worked (opUUID op) [op] f f'
  | Err e => exists work, (work = [] \/ work = [op]) /\ Worked (opUUID op) work f f' /\
      (SERVER_NOT_FOUND e = true -> f' !! opUUID op = None)
  end.
Proof.
  intros (f1 & Hs%Worked_settling & Hr) Hl Hset.
  assert (Ho : FleetStep f1 op f' -> Worked (opUUID op) [op] f f').
  { intros H. pose proof (Worked_one _ _ _ H Hl) as H1. rewrite Hset in H1.
    exact (Worked_app _ _ _ _ _ _ Hs H1). }
  destruct r as [a|e]; [by apply Ho|]. destruct Hr as [[->|H] Hn].
  - exists []. split; [by left|done].
  - exists [op]. split; [by right|]. by split; [apply Ho|].
Qed.

Lemma Remove_gone f uuid f' : FleetStep f (Remove uuid) f' -> f' !! uuid = None.
Proof. inversion 1; subst. apply lookup_delete_eq. Qed.

(** What Delete may do to its machine, by its result. *)
Definition Retired (uuid : string) (r : option error) (f f' : Fleet) : Prop :=
  match r with
  | None => (Worked uuid [Halt uuid; Remove uuid] f f' \/ Worked uuid [Remove uuid] f f') /\
            f' !! uuid = None
  | Some e => (exists work, work `sublist_of` [Halt uuid; Remove uuid] /\ Worked uuid work f f') /\
      (ForeignErrors h -> IsNodeClaimNotFoundError e = true -> f' !! uuid = None)
  end.

Lemma deleteStopped_exec p uuid w f work :
  Worked uuid work f (fleet w) -> work = [] \/ work = [Halt uuid] ->
  exists r, exec_outcome h (deleteStopped p uuid) w = Done r /\
    Retired uuid r f (fleet (exec_world h (deleteStopped p uuid) w)).
Proof.
  intros Hw Hwork. unfold deleteStopped, Instance.Delete. autorewrite with exec.
  pose proof (cloud_delete w uuid) as Ha.
  pose proof (fun F : ForeignErrors h => foreign_delete (ForeignErrors := F) w uuid) as Hf.
  destruct (fst (h _ (DeleteServerAndStorages uuid) w)) as [u|e]; cbn [errOf].
  - exists None. split; [done|]. split.
    + pose proof (Attempt_worked _ _ _ _ Ha eq_refl eq_refl) as H. pose proof (Worked_app _ _ _ _ _ _ Hw H) as H1.
      destruct Hwork as [-> | ->]; [by right|by left].
    + destruct Ha as (f1 & _ & H). by eapply Remove_gone.
  - pose proof (Attempt_worked _ _ _ _ Ha eq_refl eq_refl) as (wk & Hs & Hd & Hn).
    assert (Hsub : (work ++ wk) `sublist_of` [Halt uuid; Remove uuid]).
    { destruct Hwork as [-> | ->], Hs as [-> | ->]; by repeat constructor. }
    pose proof (Worked_app _ _ _ _ _ _ Hw Hd) as Hall.
    unfold SERVER_NOT_FOUND in Hn. cbn [exec_outcome exec_world exec fst snd errOf].
    destruct (Contains (ErrorText e) "SERVER_NOT_FOUND"); (eexists; split; [done|]).
    + split; [by eexists|]. intros _ _. by apply Hn.
    + split; [by eexists|]. intros F Hnf. by rewrite (Hf F e eq_refl) in Hnf.
Qed.

Lemma Halt_stopping f uuid f' :
  FleetStep f (Halt uuid) f' -> exists s, f' !! uuid = Some (mkMachine s Stopping).
Proof. inversion 1; subst. eexists. apply lookup_insert_eq. Qed.

Lemma Delete_Retired p nodeClaim w :
  let uuid := serverUUIDOf (ProviderID (claim_Status nodeClaim)) in
  exists r, exec_outcome h (CloudProvider.Delete p nodeClaim) w = Done r /\
    Retired uuid r (fleet w) (fleet (exec_world h (CloudProvider.Delete p nodeClaim) w)).
Proof.
  intros uuid. unfold CloudProvider.Delete, Stop, WaitForStop. fold uuid. exec_steps.
  pose proof (Attempt_worked _ _ _ _ (cloud_stop w uuid (30 * Second)) eq_refl eq_refl) as Hs.
  pose proof (fun F : ForeignErrors h => foreign_stop (ForeignErrors := F) w uuid (30 * Second)) as Hf.
  set (w1 := snd (h _ (StopServer _ _ _) w)) in *. clearbody w1.
  destruct (fst (h _ (StopServer _ _ _) w)) as [s|e]; cbn [errOf]; exec_steps.
  - destruct (cloud_wait w1 uuid) as [Hw _].
    pose proof (fun F : ForeignErrors h => foreign_wait (ForeignErrors := F) w1 uuid "waiting for server to stop") as Hfw.
    pose proof (Worked_app _ _ _ _ _ _ Hs (Worked_settling _ _ _ Hw)) as H2.
    set (w2 := snd (h _ (WaitForServerState _ _) w1)) in *. clearbody w2.
    destruct (fst (h _ (WaitForServerState _ _) w1)) as [s'|e]; cbn [errOf]; exec_steps.
    + eapply deleteStopped_exec; [exact H2|by right].
    + eexists. split; [done|]. split.
      * exists [Halt uuid]. split; [by repeat constructor|done].
      * intros F Hnf. by rewrite (Hfw F e eq_refl) in Hnf.
  - destruct Hs as (work & Hsub & Hw & Hn). unfold SERVER_NOT_FOUND in Hn.
    assert (Hsub2 : work `sublist_of` [Halt uuid; Remove uuid]).
    { destruct Hsub as [-> | ->]; by repeat constructor. }
    destruct (Contains (ErrorText e) "SERVER_NOT_FOUND"); exec_steps.
    { eexists. split; [done|]. split; [by eexists|]. intros _ _. by apply Hn. }
    destruct (negb _); exec_steps.
    { eexists. split; [done|]. split; [by eexists|]. intros F Hnf. by rewrite (Hf F e eq_refl) in Hnf. }
    eapply deleteStopped_exec; [exact Hw|exact Hsub].
Qed.

(** What List answers with is in the fleet. *)
Lemma collectManaged_exec uuids acc w :
  exists servers, exec_outcome h (collectManaged uuids acc) w = Done (acc ++ servers) /\
    fleet (exec_world h (collectManaged uuids acc) w) = fleet w /\
    forall s, s ∈ servers -> isManaged s = true /\
      exists st, fleet w !! srv_UUID s = Some (mkMachine s st).
Proof.
  revert acc w. induction uuids as [|uuid uuids IH]; intros acc w; cbn [collectManaged].
  - exists []. rewrite app_nil_r. split_and!; try done. by intros s []%not_elem_of_nil.
  - exec_steps. pose proof (cloud_other (h := h) _ (GetServerDetails uuid) w I) as Hw.
    set (w1 := snd (h _ _ w)) in *. clearbody w1. rewrite <-Hw.
    destruct (fst (h _ (GetServerDetails uuid) w)) as [d|e] eqn:Ed; [|apply IH].
    apply cloud_details in Ed as [st Hd]. rewrite <-Hw in Hd.
    destruct (isManaged d) eqn:Em; [|apply IH].
    destruct (IH (acc ++ [d]) w1) as (servers & -> & -> & Hs). exists (d :: servers).
    rewrite <-app_assoc. split_and!; try done.
    intros s [->|Hin]%elem_of_cons; [|by apply Hs]. split; [done|]. exists st.
    pose proof (fleet_uuid _ _ _ Hd) as Hu. simpl in Hu. by rewrite Hu.
Qed.

Lemma List_exec p w :
  fleet (exec_world h (CloudProvider.List p) w) = fleet w /\
  forall claims, exec_outcome h (CloudProvider.List p) w = Done (Ok claims) ->
    forall c, c ∈ claims -> exists s st, c = buildNodeClaim s (cp_zone p) /\ isManaged s = true /\
      fleet w !! srv_UUID s = Some (mkMachine s st).
Proof.
  unfold CloudProvider.List, Instance.List, bindE. exec_steps.
  pose proof (cloud_other (h := h) _ GetServers w I) as Hw. set (w1 := snd (h _ _ w)) in *. clearbody w1.
  destruct (fst (h _ GetServers w)) as [uuids|e]; exec_steps; [|by split].
  destruct (collectManaged_exec uuids [] w1) as (servers & E & Hf & Hs). rewrite E. exec_steps.
  split; [congruence|]. intros claims [= <-] c.
  rewrite lo_Map_fmap. intros (s & -> & Hin)%list_elem_of_fmap.
  destruct (Hs s Hin) as [Hm [st Hl]]. rewrite Hw in Hl. eauto.
Qed.

(** No operation but a launch brings a machine or changes its server. *)
Lemma FleetStep_server f op f' uuid m' :
  FleetStep f op f' -> isLaunch op = false -> f' !! uuid = Some m' ->
  exists m, f !! uuid = Some m /\ m_server m = m_server m'.
Proof.
  intros [f0 s H|f0 u s H|f0 u s H|f0 u s H] Hl Hm; [done|..];
    (destruct (decide (uuid = u)) as [->|Hne];
      [|rewrite ?lookup_insert_ne, ?lookup_delete_ne in Hm by done; by eexists]).
  - rewrite lookup_insert_eq in Hm. simplify_eq. by eexists.
  - rewrite lookup_insert_eq in Hm. simplify_eq. by eexists.
  - by rewrite lookup_delete_eq in Hm.
Qed.

Lemma FleetSteps_server f ops f' uuid m' :
  FleetSteps f ops f' -> Forall (fun op => isLaunch op = false) ops -> f' !! uuid = Some m' ->
  exists m, f !! uuid = Some m /\ m_server m = m_server m'.
Proof.
  induction 1 as [|f op f1 ops f2 H _ IH]; [by eexists|]. intros [Ho Hos]%Forall_cons Hm.
  destruct (IH Hos Hm) as (m1 & H1 & E1).
  destruct (FleetStep_server _ _ _ _ _ H Ho H1) as (m0 & H0 & E0). exists m0. split; congruence.
Qed.

Lemma Worked_server uuid work f f' u m' :
  Worked uuid work f f' -> f' !! u = Some m' -> exists m, f !! u = Some m /\ m_server m = m_server m'.
Proof.
  intros (ops & Hs & Ho & _). eapply FleetSteps_server; [exact Hs|].
  eapply Forall_impl; [exact Ho|]. by intros op [_ E].
Qed.

Lemma Retired_worked uuid r f f' : Retired uuid r f f' -> exists work, Worked uuid work f f'.
Proof. destruct r; simpl; naive_solver. Qed.

(** What Delete leaves as it is. *)
Lemma Delete_keeps p nodeClaim w :
  let f' := fleet (exec_world h (CloudProvider.Delete p nodeClaim) w) in
  (forall uuid, uuid <> serverUUIDOf (ProviderID (claim_Status nodeClaim)) ->
     f' !! uuid = fleet w !! uuid) /\
  (forall uuid m', f' !! uuid = Some m' -> exists m, fleet w !! uuid = Some m /\ m_server m = m_server m').
Proof.
  intros f'. destruct (Delete_Retired p nodeClaim w) as (r & _ & [work Hw]%Retired_worked). split.
  - intros uuid Hne. by apply (Worked_other _ _ _ _ _ Hw).
  - intros uuid m' Hm. by apply (Worked_server _ _ _ _ _ _ Hw).
Qed.

(** ** Karpenter over time

    Karpenter knows the provider IDs of the claims it got from Create and List,
    and deletes no others; it asks for whatever it likes.  Meanwhile others may
    launch servers of their own, and anything but the servers may change. *)
Definition createdIDs (o : outcome (result NodeClaim)) : gset string :=
  match o with Done (Ok claim) => {[ProviderID (claim_Status claim)]} | _ => ∅ end.
Definition listedIDs (o : outcome (result (list NodeClaim))) : gset string :=
  match o with
  | Done (Ok claims) => list_to_set ((fun c => ProviderID (claim_Status c)) <$> claims)
  | _ => ∅
  end.

Inductive KarpenterStep (p : UpCloudCloudProvider) : W * gset string -> W * gset string -> Prop :=
| KCreate nodeClaim w ids :
    KarpenterStep p (w, ids) (exec_world h (CloudProvider.Create p nodeClaim) w,
      createdIDs (exec_outcome h (CloudProvider.Create p nodeClaim) w) ∪ ids)
| KList w ids :
    KarpenterStep p (w, ids) (exec_world h (CloudProvider.List p) w,
      listedIDs (exec_outcome h (CloudProvider.List p) w) ∪ ids)
| KDelete nodeClaim w ids :
    ProviderID (claim_Status nodeClaim) ∈ ids ->
    KarpenterStep p (w, ids) (exec_world h (CloudProvider.Delete p nodeClaim) w, ids)
| KGet providerID w ids :
    KarpenterStep p (w, ids) (exec_world h (CloudProvider.Get p providerID) w, ids)
| KIsDrifted nodeClaim w ids :
    KarpenterStep p (w, ids) (exec_world h (IsDrifted p nodeClaim) w, ids)
| KOtherLaunch s w w' ids :
    v1alpha2.ProviderIDPrefix +:+ srv_UUID s ∉ ids ->
    FleetStep (fleet w) (Launch s) (fleet w') -> KarpenterStep p (w, ids) (w', ids)
| KElse w w' ids :
    fleet w' = fleet w -> KarpenterStep p (w, ids) (w', ids).

(** The IDs Karpenter knows are of managed servers, or of none. *)
Definition Owned (st : W * gset string) : Prop :=
  (forall id, id ∈ st.2 -> id = v1alpha2.ProviderIDPrefix +:+ serverUUIDOf id) /\
  (forall uuid m, fleet st.1 !! uuid = Some m ->
     v1alpha2.ProviderIDPrefix +:+ uuid ∈ st.2 -> isManaged (m_server m) = true).

Definition unmanagedKept (f f' : Fleet) : Prop :=
  forall uuid m, f !! uuid = Some m -> isManaged (m_server m) = false -> f' !! uuid = Some m.

Lemma Owned_step p st st' :
  KarpenterStep p st st' -> Owned st -> Owned st' /\ unmanagedKept (fleet st.1) (fleet st'.1).
Proof.
  intros [nodeClaim w ids|w ids|nodeClaim w ids Hin|providerID w ids|nodeClaim w ids
         |s w w' ids Hid Hs|w w' ids Hw] [Hp Ho]; cbn [fst snd] in *.
  - destruct (Create_Launched p nodeClaim w) as [[Hf Hn]|(s & Hs & Hm & Ho')].
    + rewrite Hf. assert (createdIDs (exec_outcome h (CloudProvider.Create p nodeClaim) w) = ∅) as ->.
      { destruct (exec_outcome _ _ _) as [[claim|e]|m] eqn:E; try done. by destruct (Hn claim). }
      unfold Owned. cbn [fst snd]. rewrite union_empty_l_L, Hf. split; [by split|by intros uuid m].
    + assert (Hids : forall id, id ∈ createdIDs (exec_outcome h (CloudProvider.Create p nodeClaim) w) ->
        id = v1alpha2.ProviderIDPrefix +:+ srv_UUID s).
      { destruct Ho' as [(claim & -> & <-)|(e & -> & _)]; cbn [createdIDs]; set_solver. }
      inversion Hs as [f s0 Hnone Ef E2 Ef'| | |]; subst.
      unfold Owned, unmanagedKept. cbn [fst snd]. rewrite <-Ef'. split; [split|].
      * intros id [->%Hids|Hi]%elem_of_union; [by rewrite serverUUIDOf_prefix|by apply Hp].
      * intros uuid m Hl Hi. destruct (decide (uuid = srv_UUID s)) as [->|Hne].
        { rewrite lookup_insert_eq in Hl. by simplify_eq. }
        rewrite lookup_insert_ne in Hl by done. apply (Ho uuid m Hl).
        apply elem_of_union in Hi as [Hi%Hids|Hi]; [|done]. by apply sapp_inj_l in Hi.
      * intros uuid m Hl Hm'. rewrite lookup_insert_ne; [done|]. intros <-. congruence.
  - destruct (List_exec p w) as [Hf Hl]. unfold Owned. cbn [fst snd]. rewrite Hf. split; [|by intros uuid m].
    assert (Hids : forall id, id ∈ listedIDs (exec_outcome h (CloudProvider.List p) w) ->
      exists s sst, id = v1alpha2.ProviderIDPrefix +:+ srv_UUID s /\ isManaged s = true /\
        fleet w !! srv_UUID s = Some (mkMachine s sst)).
    { intros id Hi. unfold listedIDs in Hi.
      destruct (exec_outcome _ _ _) as [[claims|e]|m]; [|by apply not_elem_of_empty in Hi..].
      apply elem_of_list_to_set, list_elem_of_fmap in Hi as (c & -> & Hc).
      destruct (Hl claims eq_refl c Hc) as (s & sst & -> & Hm & Hs). eauto. }
    split.
    + intros id [(s & sst & -> & _)%Hids|Hi]%elem_of_union; [by rewrite serverUUIDOf_prefix|by apply Hp].
    + intros uuid m Hu [(s & sst & Hi & Hm & Hs)%Hids|Hi]%elem_of_union; [|by apply (Ho uuid m)].
      apply sapp_inj_l in Hi as ->. by simplify_eq.
  - destruct (Delete_keeps p nodeClaim w) as [Hother Hsame]. split; [split; cbn [fst snd]; [done|]|].
    + intros uuid m' Hm' Hi. destruct (Hsame uuid m' Hm') as (m & Hm & <-). by apply (Ho uuid m).
    + intros uuid m Hm Hun. rewrite Hother; [done|]. intros ->.
      rewrite (Ho _ m Hm) in Hun; [done|]. by rewrite <-(Hp _ Hin).
  - assert (Hf : fleet (exec_world h (CloudProvider.Get p providerID) w) = fleet w).
    { apply other_keeps. split; [done|]. by intros [s|e]. }
    unfold Owned. cbn [fst snd]. rewrite Hf. split; [by split|by intros uuid m].
  - assert (Hf : fleet (exec_world h (IsDrifted p nodeClaim) w) = fleet w).
    { apply other_keeps. unfold IsDrifted, resolveNodeClass.
      destruct (Claim_NodeClassRef _); [split; [done|]; intros [s|e]; simpl; [done|]|simpl];
        by case_match. }
    unfold Owned. cbn [fst snd]. rewrite Hf. split; [by split|by intros uuid m].
  - inversion Hs as [f s0 Hnone Ef E2 Ef'| | |]; subst.
    unfold Owned, unmanagedKept. cbn [fst snd]. rewrite <-Ef'. split; [split; [done|]|].
    + intros uuid m Hl Hi. destruct (decide (uuid = srv_UUID s)) as [->|Hne]; [done|].
      rewrite lookup_insert_ne in Hl by done. by apply (Ho uuid m).
    + intros uuid m Hl Hm'. rewrite lookup_insert_ne; [done|]. intros <-. congruence.
  - unfold Owned. cbn [fst snd]. rewrite Hw. split; [by split|by intros uuid m].
Qed.

Lemma Owned_steps p st st' :
  rtc (KarpenterStep p) st st' -> Owned st -> Owned st' /\ unmanagedKept (fleet st.1) (fleet st'.1).
Proof.
  induction 1 as [st|st st1 st' H _ IH]; intros Ho; [by split; [|intros uuid m]|].
  destruct (Owned_step _ _ _ H Ho) as [Ho1 Hk1]. destruct (IH Ho1) as [Ho' Hk']. split; [done|].
  intros uuid m Hm Hun. by apply (Hk' uuid m (Hk1 uuid m Hm Hun) Hun).
Qed.

(** ** Lemmas about a reliable cloud *)

Lemma collectManaged_reliable `{!ReliableCloud h} uuids acc w :
  (forall uuid, uuid ∈ uuids -> is_Some (fleet w !! uuid)) ->
  exists servers, exec_outcome h (collectManaged uuids acc) w = Done (acc ++ servers) /\
    forall s, s ∈ servers <-> isManaged s = true /\
      exists uuid m, uuid ∈ uuids /\ fleet w !! uuid = Some m /\ s = m_server m.
Proof.
  revert acc w. induction uuids as [|uuid uuids IH]; intros acc w Hin; cbn [collectManaged].
  - exists []. rewrite app_nil_r. split; [done|]. intros s. split; [by intros []%not_elem_of_nil|].
    by intros (_ & uuid & m & []%not_elem_of_nil & _).
  - exec_steps. destruct (Hin uuid) as [m Hm]; [by left|]. rewrite (rel_details w uuid m Hm).
    pose proof (cloud_other (h := h) _ (GetServerDetails uuid) w I) as Hw.
    set (w1 := snd (h _ _ w)) in *. clearbody w1.
    destruct (IH (if isManaged (m_server m) then acc ++ [m_server m] else acc) w1) as (servers & E & Hs).
    { intros u Hu. rewrite Hw. apply Hin. by right. }
    rewrite Hw in Hs. rewrite E. clear E.
    assert (Hall : forall s, (isManaged s = true /\ exists u m', u ∈ uuid :: uuids /\
        fleet w !! u = Some m' /\ s = m_server m') <->
      (isManaged (m_server m) = true /\ s = m_server m) \/ s ∈ servers).
    { intros s. rewrite Hs. split.
      - intros (Hms & u & m' & [->|Hu]%elem_of_cons & Hl & ->); [|by right; eauto 10].
        left. simplify_eq. done.
      - intros [[Hms ->]|(Hms & u & m' & Hu & Hl & ->)]; split; try done.
        + exists uuid, m. split; [by left|done].
        + exists u, m'. split; [by right|done]. }
    destruct (isManaged (m_server m)); [exists (m_server m :: servers)|exists servers];
      rewrite <-?app_assoc; (split; [done|]); intros s; rewrite Hall, ?elem_of_cons; intuition congruence.
Qed.

Lemma List_reliable `{!ReliableCloud h} p w :
  exists claims, exec_outcome h (CloudProvider.List p) w = Done (Ok claims) /\
    forall c, c ∈ claims <-> exists uuid m, fleet w !! uuid = Some m /\
      isManaged (m_server m) = true /\ c = buildNodeClaim (m_server m) (cp_zone p).
Proof.
  unfold CloudProvider.List, Instance.List, bindE. exec_steps.
  destruct (rel_list w) as [uuids Eu]. rewrite Eu. destruct (cloud_list w uuids Eu) as [_ Hu].
  pose proof (cloud_other (h := h) _ GetServers w I) as Hw. set (w1 := snd (h _ _ w)) in *. clearbody w1.
  exec_steps. destruct (collectManaged_reliable uuids [] w1) as (servers & E & Hs).
  { intros u. rewrite Hw. by intros H%Hu. }
  rewrite E. exec_steps. eexists. split; [done|]. rewrite Hw in Hs. intros c.
  rewrite lo_Map_fmap, list_elem_of_fmap. setoid_rewrite Hs. split.
  - intros (s & -> & Hm & uuid & m & _ & Hl & ->). eauto.
  - intros (uuid & m & Hl & Hm & ->). exists (m_server m). split; [done|]. split; [done|].
    exists uuid, m. split; [|done]. apply Hu. by eexists.
Qed.

Lemma Get_reliable `{!ReliableCloud h} p uuid w m :
  fleet w !! uuid = Some m ->
  exec_outcome h (CloudProvider.Get p (v1alpha2.ProviderIDPrefix +:+ uuid)) w =
  Done (Ok (buildNodeClaim (m_server m) (cp_zone p))).
Proof.
  intros Hm. unfold CloudProvider.Get, Instance.Get. rewrite serverUUIDOf_prefix. exec_steps.
  by rewrite (rel_details w uuid m Hm).
Qed.

(** Without reliability: an absent server is never found. *)
Lemma Get_absent p uuid w :
  fleet w !! uuid = None ->
  exists e, exec_outcome h (CloudProvider.Get p (v1alpha2.ProviderIDPrefix +:+ uuid)) w = Done (Err e) /\
    IsNodeClaimNotFoundError e = true.
Proof.
  intros Hm. unfold CloudProvider.Get, Instance.Get. rewrite serverUUIDOf_prefix. exec_steps.
  destruct (fst (h _ (GetServerDetails uuid) w)) as [s|e] eqn:E.
  - apply cloud_details in E as [st E]. congruence.
  - exec_steps. eexists. split; [done|]. apply IsNodeClaimNotFound_new.
Qed.

Lemma Delete_absent `{!ReliableCloud h} p nodeClaim w :
  fleet w !! serverUUIDOf (ProviderID (claim_Status nodeClaim)) = None ->
  exists e, exec_outcome h (CloudProvider.Delete p nodeClaim) w = Done (Some e) /\
    IsNodeClaimNotFoundError e = true.
Proof.
  intros Hm. unfold CloudProvider.Delete, Stop. set (uuid := serverUUIDOf _) in *. exec_steps.
  pose proof (rel_stop w uuid (30 * Second)) as Hs. rewrite Hm in Hs. destruct Hs as (e & E & Hn).
  rewrite E. cbn [errOf]. exec_steps. unfold SERVER_NOT_FOUND in Hn. rewrite Hn. exec_steps.
  eexists. split; [done|]. apply IsNodeClaimNotFound_new.
Qed.

Lemma Delete_reliable `{!ReliableCloud h} p nodeClaim w s :
  fleet w !! serverUUIDOf (ProviderID (claim_Status nodeClaim)) = Some (mkMachine s Started) ->
  exec_outcome h (CloudProvider.Delete p nodeClaim) w = Done None.
Proof.
  intros Hm. unfold CloudProvider.Delete, Stop, WaitForStop. set (uuid := serverUUIDOf _) in *.
  exec_steps. pose proof (rel_stop w uuid (30 * Second)) as Hs. rewrite Hm in Hs. destruct Hs as [s1 E].
  pose proof (cloud_stop w uuid (30 * Second)) as Hc. rewrite E in *.
  set (w1 := snd (h _ (StopServer _ _ _) w)) in *. clearbody w1. cbn [errOf]. exec_steps.
  destruct Hc as (f1 & _ & [s2 Hc]%Halt_stopping). destruct (rel_wait w1 uuid s2 Hc) as [E2 Hw]. rewrite E2.
  set (w2 := snd (h _ (WaitForServerState _ _) w1)) in *. clearbody w2. cbn [errOf]. exec_steps.
  assert (H2 : exists s3, fleet w2 !! uuid = Some (mkMachine s3 Stopped)).
  { inversion Hw. eexists. apply lookup_insert_eq. }
  destruct H2 as [s3 H2]. unfold deleteStopped, Instance.Delete. exec_steps.
  by rewrite (rel_delete w2 uuid s3 H2).
Qed.

(** ** Properties *)

(** C3: The provider refines the fleet, whichever calls fail, before or after they
    took effect.  A claim returned by Create comes with exactly one launch, of a
    managed machine its provider ID leads to; without a claim nothing was launched,
    but for one managed machine when the service itself failed to say that it
    created it, which Create reports as insufficient capacity.  Delete works on the
    claim's machine only, halting it at most once before removing it at most once,
    and only when it has stopped; when it succeeds the machine is gone and the rest
    of the fleet as it was, and it says that the claim is gone only if the machine
    is.  Get and List change nothing, and the claims of List are of managed
    machines. *)
Theorem provider_refines_fleet p nodeClaim w :
  (let f' := fleet (exec_world h (CloudProvider.Create p nodeClaim) w) in
   match exec_outcome h (CloudProvider.Create p nodeClaim) w with
   | Done (Ok claim) => exists s, FleetStep (fleet w) (Launch s) f' /\ isManaged s = true /\
       serverUUIDOf (ProviderID (claim_Status claim)) = srv_UUID s
   | Done (Err e) => f' = fleet w \/
       (IsInsufficientCapacityError e = true /\
        exists s, FleetStep (fleet w) (Launch s) f' /\ isManaged s = true)
   | Panicked _ => f' = fleet w
   end) /\
  (let uuid := serverUUIDOf (ProviderID (claim_Status nodeClaim)) in
   let f' := fleet (exec_world h (CloudProvider.Delete p nodeClaim) w) in
   exists r work, exec_outcome h (CloudProvider.Delete p nodeClaim) w = Done r /\
     Worked uuid work (fleet w) f' /\
     match r with
     | None => (work = [Halt uuid; Remove uuid] \/ work = [Remove uuid]) /\ f' = delete uuid (fleet w)
     | Some e => work `sublist_of` [Halt uuid; Remove uuid] /\
         (ForeignErrors h -> IsNodeClaimNotFoundError e = true -> f' !! uuid = None)
     end) /\
  (forall providerID, fleet (exec_world h (CloudProvider.Get p providerID) w) = fleet w) /\
  fleet (exec_world h (CloudProvider.List p) w) = fleet w /\
  (forall claims c, exec_outcome h (CloudProvider.List p) w = Done (Ok claims) -> c ∈ claims ->
     exists s st, c = buildNodeClaim s (cp_zone p) /\ isManaged s = true /\
       fleet w !! serverUUIDOf (ProviderID (claim_Status c)) = Some (mkMachine s st)).
Proof.
  split_and!.
  - cbn zeta. destruct (Create_Launched p nodeClaim w)
      as [[Hf Hn]|(s & Hs & Hm & [(claim & Eo & Hid)|(e & Eo & He)])].
    + destruct (exec_outcome _ _ _) as [[claim|e]|m]; [by destruct (Hn claim)|by left|done].
    + rewrite Eo. exists s. rewrite Hid, serverUUIDOf_prefix. done.
    + rewrite Eo. right. split; [done|]. by exists s.
  - cbn zeta. destruct (Delete_Retired p nodeClaim w) as (r & E & Hr). exists r.
    destruct r as [e|]; [destruct Hr as [(work & Hsub & Hw) Hn]; by exists work|].
    destruct Hr as [[Hw|Hw] Hg]; eexists; (split; [exact E|]); (split; [exact Hw|]);
      (split; [auto|by eapply Worked_gone]).
  - intros providerID. apply other_keeps. split; [done|]. by intros [s|e].
  - apply List_exec.
  - intros claims c E Hc. destruct (List_exec p w) as [_ Hl].
    destruct (Hl claims E c Hc) as (s & st & -> & Hm & Hs). exists s, st.
    cbn [ProviderID claim_Status buildNodeClaim]. by rewrite serverUUIDOf_prefix.
Qed.

(** C4: Karpenter never touches a server that is not its own: whatever it asks
    for, in whatever order, with whatever failures and with others launching
    servers meanwhile, as long as it deletes only claims it got from Create or
    List, every unmanaged machine stays as it is, and the provider IDs Karpenter
    holds never come to mean an unmanaged one. *)
Theorem unmanaged_untouched p w w' ids :
  rtc (KarpenterStep p) (w, ∅) (w', ids) ->
  (forall uuid m, fleet w !! uuid = Some m -> isManaged (m_server m) = false ->
     fleet w' !! uuid = Some m) /\
  (forall id m, id ∈ ids -> fleet w' !! serverUUIDOf id = Some m -> isManaged (m_server m) = true).
Proof.
  intros H. destruct (Owned_steps _ _ _ H) as [[Hp Ho] Hk]; [by split; [intros ? []%not_elem_of_empty|]|].
  split; [exact Hk|]. intros id m Hid Hm. apply (Ho _ m Hm). cbn [snd]. by rewrite <-(Hp id Hid).
Qed.

(** C5: The life of a node, over a cloud that works: the server Create launched
    is the one Get finds under the claim's provider ID and one of those List
    answers with, which are exactly the managed machines; Delete then removes it
    and leaves the fleet as it was before; after that both Get and another Delete
    say that the claim is gone. *)
Theorem lifecycle `{!ReliableCloud h} p nodeClaim w claim :
  exec_outcome h (CloudProvider.Create p nodeClaim) w = Done (Ok claim) ->
  let id := ProviderID (claim_Status claim) in
  let w1 := exec_world h (CloudProvider.Create p nodeClaim) w in
  let w2 := exec_world h (CloudProvider.Delete p claim) w1 in
  exists s claims,
    fleet w1 = <[serverUUIDOf id := mkMachine s Started]> (fleet w) /\
    exec_outcome h (CloudProvider.Get p id) w1 = Done (Ok (buildNodeClaim s (cp_zone p))) /\
    exec_outcome h (CloudProvider.List p) w1 = Done (Ok claims) /\
    buildNodeClaim s (cp_zone p) ∈ claims /\
    (forall c, c ∈ claims <-> exists uuid m, fleet w1 !! uuid = Some m /\
       isManaged (m_server m) = true /\ c = buildNodeClaim (m_server m) (cp_zone p)) /\
    exec_outcome h (CloudProvider.Delete p claim) w1 = Done None /\ fleet w2 = fleet w /\
    (exists e, exec_outcome h (CloudProvider.Get p id) w2 = Done (Err e) /\
       IsNodeClaimNotFoundError e = true) /\
    (exists e, exec_outcome h (CloudProvider.Delete p claim) w2 = Done (Some e) /\
       IsNodeClaimNotFoundError e = true).
Proof.
  intros E id w1 w2.
  destruct (Create_Launched p nodeClaim w) as [[_ Hn]|(s & Hs & Hm & [(claim' & Eo & Hid)|(e & Eo & _)])];
    [by destruct (Hn claim)| |congruence].
  assert (claim' = claim) as -> by congruence. fold w1 in Hs. fold id in Hid.
  assert (Hnone : fleet w !! srv_UUID s = None /\
    fleet w1 = <[srv_UUID s := mkMachine s Started]> (fleet w)) by (by inversion Hs).
  destruct Hnone as [Hnone Hf1].
  assert (Hl : fleet w1 !! srv_UUID s = Some (mkMachine s Started)) by (rewrite Hf1; apply lookup_insert_eq).
  assert (Hu : serverUUIDOf id = srv_UUID s) by (rewrite Hid; apply serverUUIDOf_prefix).
  destruct (List_reliable p w1) as (claims & El & Hc).
  assert (Hf2 : fleet w2 = fleet w).
  { destruct (Delete_Retired p claim w1) as (r & Er & Hr).
    rewrite (Delete_reliable p claim w1 s) in Er by (fold id; by rewrite Hu). injection Er as <-.
    pose proof (Retired_worked _ _ _ _ Hr) as [work Hw]. destruct Hr as [_ Hg].
    rewrite (Worked_gone _ _ _ _ Hw Hg : fleet w2 = _). fold id. by rewrite Hu, Hf1, delete_insert_id. }
  exists s, claims. rewrite Hu. split_and!; try done.
  - rewrite Hid. by apply (Get_reliable p _ w1 (mkMachine s Started)).
  - apply Hc. by exists (srv_UUID s), (mkMachine s Started).
  - apply (Delete_reliable p claim w1 s). fold id. by rewrite Hu.
  - rewrite Hid. apply Get_absent. by rewrite Hf2.
  - apply Delete_absent. fold id. by rewrite Hu, Hf2.
Qed.
End Fleet.

(** ** A cloud in memory

    Machines under their UUIDs, and the cluster of CloudProvider.v that signs
    certificate requests. *)
Definition MemState : Type := gmap string Machine * option CertificateSigningRequest.

(** The machines; one stored under a foreign UUID would not be one. *)
Definition memFleet (w : MemState) : Fleet :=
  filter (fun um : string * Machine => srv_UUID (m_server um.2) = um.1) w.1.

(** A UUID longer than every other. *)
Definition concat (l : list string) : string := foldr (fun s t => s +:+ t) "" l.
Definition nextUUID (f : gmap string Machine) : string := "u" +:+ concat (map_to_list f).*1.

Lemma concat_length l s : s ∈ l -> (String.length s <= String.length (concat l))%nat.
Proof. induction 1; simpl; rewrite slen_app; lia. Qed.

Lemma nextUUID_fresh f : f !! nextUUID f = None.
Proof.
  destruct (f !! nextUUID f) as [m|] eqn:E; [|done]. exfalso.
  assert (H : nextUUID f ∈ (map_to_list f).*1).
  { apply list_elem_of_fmap. exists (nextUUID f, m). split; [done|]. by apply elem_of_map_to_list. }
  apply concat_length in H. unfold nextUUID in H at 1. rewrite slen_app in H. simpl in H. lia.
Qed.

Definition missing {A} : result A := Err (LibError "Problem" "SERVER_NOT_FOUND" "SERVER_NOT_FOUND").
Definition wrongState {A} : result A :=
  Err (LibError "Problem" "SERVER_STATE_ILLEGAL" "SERVER_STATE_ILLEGAL").

Definition memCloud : handler MemState := fun X c w =>
  let f := memFleet w in
  match c in api X return X * MemState with
  | GetServerDetails uuid => (match f !! uuid with Some m => Ok (m_server m) | None => missing end, w)
  | GetServers => (Ok (map_to_list f).*1, w)
  | CreateServer req =>
      let s := mkServer (nextUUID w.1) (cs_Hostname req) (cs_Plan req) 2 4096 (cs_Zone req) (cs_Labels req) in
      (Ok s, (<[srv_UUID s := mkMachine s Started]> w.1, w.2))
  | StopServer uuid _ _ =>
      match f !! uuid with
      | Some (mkMachine s Started) => (Ok s, (<[uuid := mkMachine s Stopping]> w.1, w.2))
      | Some _ => (wrongState, w)
      | None => (missing, w)
      end
  | WaitForServerState uuid _ =>
      match f !! uuid with
      | Some (mkMachine s Stopping) => (Ok s, (<[uuid := mkMachine s Stopped]> w.1, w.2))
      | Some (mkMachine s Stopped) => (Ok s, w)
      | Some _ => (Err (Errorf "timeout"), w)
      | None => (missing, w)
      end
  | DeleteServerAndStorages uuid =>
      match f !! uuid with
      | Some (mkMachine s Stopped) => (Ok tt, (delete uuid w.1, w.2))
      | Some _ => (wrongState, w)
      | None => (missing, w)
      end
  | c => let '(r, csr) := workingCloud _ c w.2 in (r, (w.1, csr))
  end.

Lemma memFleet_lookup w uuid m :
  memFleet w !! uuid = Some m -> w.1 !! uuid = Some m /\ srv_UUID (m_server m) = uuid.
Proof. unfold memFleet. by intros [H1 H2]%map_lookup_filter_Some. Qed.

Lemma memFleet_insert f csr s st :
  memFleet (<[srv_UUID s := mkMachine s st]> f, csr) =
  <[srv_UUID s := mkMachine s st]> (memFleet (f, csr)).
Proof. unfold memFleet. simpl. by rewrite map_filter_insert_True. Qed.

Lemma memFleet_delete f csr uuid : memFleet (delete uuid f, csr) = delete uuid (memFleet (f, csr)).
Proof. unfold memFleet. simpl. by rewrite map_filter_delete. Qed.

Lemma Attempt_done {A} f op (a : A) f' : FleetStep f op f' -> Attempt f op (Ok a) f'.
Proof. exists f. split; [by left|done]. Qed.

Lemma Attempt_refused {A} f op e :
  (SERVER_NOT_FOUND e = true -> f !! opUUID op = None) -> Attempt (A := A) f op (Err e) f.
Proof. exists f. split; [by left|]. split; [by left|done]. Qed.

(** A call whose answer got lost. *)
Lemma Attempt_lost {A} f op (r : result A) e f' :
  Attempt f op r f' -> SERVER_NOT_FOUND e = false -> Attempt (A := A) f op (Err e) f'.
Proof.
  intros (f1 & Hs & Hr) He. exists f1. split; [done|]. split; [|congruence].
  destruct r as [a|e']; [by right|by destruct Hr].
Qed.

#[export] Instance memCloud_ServerCloud : ServerCloud memCloud.
Proof.
  refine {| fleet := memFleet |}.
  - intros w uuid m H. apply (memFleet_lookup _ _ _ H).
  - intros X c [f csr] Hc. unfold memCloud. destruct c; try done; by case_match.
  - intros w uuid s H. unfold memCloud in H. simpl in H.
    destruct (memFleet w !! uuid) as [[s' st]|] eqn:E; [|done]. simplify_eq/=. by exists st.
  - intros w uuids [= <-]. split; [apply NoDup_fst_map_to_list|]. intros uuid.
    rewrite list_elem_of_fmap. split.
    + intros ([u m] & -> & H%elem_of_map_to_list). by exists m.
    + intros [m H]. exists (uuid, m). split; [done|]. by apply elem_of_map_to_list.
  - intros [f csr] req. cbn. split; [done|].
    set (s := mkServer (nextUUID f) _ _ _ _ _ _). change (nextUUID f) with (srv_UUID s).
    rewrite memFleet_insert. apply StepLaunch. change (srv_UUID s) with (nextUUID f).
    destruct (memFleet (f, csr) !! nextUUID f) as [m|] eqn:E; [|done].
    apply memFleet_lookup in E as [E _]. simpl in E. by rewrite nextUUID_fresh in E.
  - intros [f csr] uuid timeout. cbn. destruct (memFleet (f, csr) !! uuid) as [[s []]|] eqn:E;
      try (by apply Attempt_refused).
    destruct (memFleet_lookup _ _ _ E) as [_ <-]. cbn. rewrite memFleet_insert.
    by apply Attempt_done, StepHalt.
  - intros [f csr] uuid. cbn. destruct (memFleet (f, csr) !! uuid) as [[s []]|] eqn:E; cbn;
      try (split; [by left|done]).
    + destruct (memFleet_lookup _ _ _ E) as [_ <-]. cbn. rewrite memFleet_insert.
      split; [right; by apply StepSettle|]. intros _. eexists. apply lookup_insert_eq.
    + split; [by left|]. intros _. by eexists.
  - intros [f csr] uuid. cbn. destruct (memFleet (f, csr) !! uuid) as [[s []]|] eqn:E;
      try (by apply Attempt_refused).
    cbn. rewrite memFleet_delete. eapply Attempt_done, StepRemove, E.
Defined.

#[export] Instance memCloud_ReliableCloud : ReliableCloud memCloud.
Proof.
  constructor.
  - intros w uuid m H. cbn. unfold fleet in H. simpl in H. by rewrite H.
  - intros w. by eexists.
  - intros w uuid timeout. cbn. destruct (memFleet w !! uuid) as [[s []]|]; cbn; eauto.
  - intros [f csr] uuid s H. cbn in *. rewrite H. cbn. split; [done|].
    destruct (memFleet_lookup _ _ _ H) as [_ <-]. cbn. rewrite memFleet_insert. by apply StepSettle.
  - intros w uuid s H. cbn in *. by rewrite H.
Qed.

(** A fleet with one machine of somebody else. *)
Definition foreign : ServerDetails := mkServer "theirs" "db-1" "4xCPU-8GB" 4 8192 "fi-hel1" [].
Definition memBefore : MemState := ({[ "theirs" := mkMachine foreign Started ]}, None).
Definition memCreate : prog (result NodeClaim) := CloudProvider.Create (L := refLibs) sampleCloud sampleRequest.
Definition memCreated : MemState := exec_world memCloud memCreate memBefore.
Definition memClaim : NodeClaim :=
  match exec_outcome memCloud memCreate memBefore with Done (Ok c) => c | _ => sampleRequest end.

Lemma memCreate_done : exec_outcome memCloud memCreate memBefore = Done (Ok memClaim).
Proof. vm_compute. reflexivity. Qed.

Example memCreated_two : length (map_to_list (memFleet memCreated)) = 2%nat.
Proof. vm_compute. reflexivity. Qed.

(** Create, then Delete of the new claim. *)
Definition memAfter : MemState :=
  exec_world memCloud (CloudProvider.Delete (L := refLibs) sampleCloud memClaim) memCreated.
Definition memIDs : gset string := createdIDs (exec_outcome memCloud memCreate memBefore) ∪ ∅.

Lemma memAfter_reached :
  rtc (KarpenterStep (L := refLibs) memCloud sampleCloud) (memBefore, ∅) (memAfter, memIDs).
Proof.
  apply (rtc_l _ _ (memCreated, memIDs)); [apply KCreate|]. apply rtc_once. apply KDelete.
  unfold memIDs. rewrite memCreate_done. cbn [createdIDs]. set_solver.
Qed.

Lemma unmanaged_untouched_witness :
  fleet (h := memCloud) memAfter !! "theirs" = Some (mkMachine foreign Started).
Proof.
  refine (proj1 (unmanaged_untouched (L := refLibs) memCloud sampleCloud memBefore memAfter memIDs
    memAfter_reached) "theirs" (mkMachine foreign Started) _ _).
  - reflexivity.
  - reflexivity.
Defined.

Lemma lifecycle_witness :
  exec_outcome memCloud (CloudProvider.Delete (L := refLibs) sampleCloud memClaim) memCreated = Done None /\
  fleet (h := memCloud) memAfter = fleet (h := memCloud) memBefore.
Proof.
  destruct (lifecycle (L := refLibs) memCloud sampleCloud sampleRequest memBefore memClaim memCreate_done)
    as (s & claims & _ & _ & _ & _ & _ & H1 & H2 & _).
  split; [exact H1|exact H2].
Defined.

(** The same cloud behind a network that loses the answers to creations and stops
    after they were carried out. *)
Definition timedOut : error := Errorf "request timed out".
Definition lossyCloud : handler MemState := fun X c w =>
  match c in api X return X * MemState with
  | CreateServer req => (Err timedOut, snd (memCloud _ (CreateServer req) w))
  | StopServer uuid ty timeout => (Err timedOut, snd (memCloud _ (StopServer uuid ty timeout) w))
  | c => memCloud _ c w
  end.

#[export] Instance lossyCloud_ServerCloud : ServerCloud lossyCloud.
Proof.
  refine {| fleet := memFleet |}.
  - exact (fleet_uuid (h := memCloud)).
  - intros X c w Hc. destruct c; try done; by apply (cloud_other (h := memCloud)).
  - exact (cloud_details (h := memCloud)).
  - exact (cloud_list (h := memCloud)).
  - intros w req. right. eexists. exact (cloud_create (h := memCloud) w req).
  - intros w uuid timeout. eapply Attempt_lost; [|reflexivity].
    exact (cloud_stop (h := memCloud) w uuid timeout).
  - exact (cloud_wait (h := memCloud)).
  - exact (cloud_delete (h := memCloud)).
Defined.

#[export] Instance lossyCloud_ForeignErrors : ForeignErrors (L := refLibs) lossyCloud.
Proof.
  split.
  - by intros w uuid timeout e [= <-].
  - intros [f csr] uuid m e. cbn. destruct (memFleet (f, csr) !! uuid) as [[s []]|]; cbn; by intros [= <-].
  - intros [f csr] uuid e. cbn. destruct (memFleet (f, csr) !! uuid) as [[s []]|]; cbn; by intros [= <-].
Qed.

Definition lossyCreated : MemState := exec_world lossyCloud memCreate memBefore.

(** Create over both clouds, and a Delete that gives up after its stop got lost. *)
Example lossy_orphan : length (map_to_list (memFleet lossyCreated)) = 2%nat.
Proof. vm_compute. reflexivity. Qed.

Lemma memCreate_lost :
  exec_outcome lossyCloud memCreate memBefore =
  Done (Err (NewInsufficientCapacityError (Libs := refLibs) (Wrapf "creating server" timedOut))).
Proof. vm_compute. reflexivity. Qed.

Definition lossyDelete : prog (option error) := CloudProvider.Delete (L := refLibs) sampleCloud memClaim.

Lemma lossyDelete_fails : exec_outcome lossyCloud lossyDelete memCreated = Done (Some timedOut).
Proof. vm_compute. reflexivity. Qed.

Lemma provider_refines_fleet_witness :
  (exists s, FleetStep (fleet (h := memCloud) memBefore) (Launch s) (fleet (h := memCloud) memCreated) /\
    isManaged s = true) /\
  (fleet (h := lossyCloud) lossyCreated = fleet (h := lossyCloud) memBefore \/
   exists s, FleetStep (fleet (h := lossyCloud) memBefore) (Launch s) (fleet (h := lossyCloud) lossyCreated) /\
     isManaged s = true) /\
  exists uuid work, Worked uuid work (fleet (h := lossyCloud) memCreated)
      (fleet (h := lossyCloud) (exec_world lossyCloud lossyDelete memCreated)) /\
    work `sublist_of` [Halt uuid; Remove uuid].
Proof.
  split; [|split].
  - pose proof (proj1 (provider_refines_fleet (L := refLibs) memCloud sampleCloud sampleRequest memBefore)) as H.
    cbn zeta in H. pose proof memCreate_done as E. unfold memCreate in E. rewrite E in H.
    destruct H as (s & H1 & H2 & _). exists s. split; [exact H1|exact H2].
  - pose proof (proj1 (provider_refines_fleet (L := refLibs) lossyCloud sampleCloud sampleRequest memBefore)) as H.
    cbn zeta in H. pose proof memCreate_lost as E. unfold memCreate in E. rewrite E in H.
    destruct H as [H|[_ H]]; [left; exact H|right; exact H].
  - pose proof (proj1 (proj2 (provider_refines_fleet (L := refLibs) lossyCloud sampleCloud memClaim memCreated)))
      as H. cbn zeta in H. destruct H as (r & work & Er & Hw & H).
    pose proof lossyDelete_fails as E. unfold lossyDelete in E. rewrite E in Er. injection Er as <-.
    eexists _, work. split; [exact Hw|exact (proj1 H)].
Defined.
