(* ===== verification/Recycling.v ===== *)
(** * The TTL controller over time

    NodeClaimTTL.v shows what one pass does whatever the API server answers.
    Here a claim, its node and the pods are stored, the clock goes on and pods
    come and go between the passes: when is a node recycled, and is it at all? *)

From S2P Require Import Prelude GoInt GoTime Types Effects Libs NodeClaimTTL.

Local Open Scope Z_scope.

(** ** The interface

    A cluster with one claim of interest.  Reads answer with what is stored and
    change nothing; the three writes of the controller change what they name.
    The claim has the finalizer of Karpenter, so deleting it marks it. *)
Class TTLServer {W : Type} (h : handler W) (name : string) := {
  storedClaim : W -> NodeClaim;
  storedNode : W -> Node;
  storedPods : W -> list Pod;
  clock : W -> Time;
  ttl_get w : h _ (GetNodeClaim name) w = (Ok (storedClaim w), w);
  ttl_now w : h _ Now w = (clock w, w);
  ttl_pods w : h _ ListPods w = (Ok (storedPods w), w);
  ttl_node w :
    h _ (GetNode (NodeName (claim_Status (storedClaim w)))) w = (Ok (storedNode w), w);
  ttl_patch w : exists r w',
    h _ (PatchNodeClaim (storedClaim w) (stampReset (clock w) (storedClaim w))) w = (Ok r, w') /\
    storedClaim w' = stampReset (clock w) (storedClaim w) /\ storedNode w' = storedNode w /\
    clock w' = clock w;
  ttl_taint w : exists r w',
    h _ (PatchNode (storedNode w) (addTaint (storedNode w))) w = (Ok r, w') /\
    storedClaim w' = storedClaim w /\ storedNode w' = addTaint (storedNode w) /\ clock w' = clock w;
  ttl_delete w : exists w',
    h _ (DeleteNodeClaim (storedClaim w)) w = (Ok tt, w') /\
    Deleting (claim_Meta (storedClaim w')) = true /\ storedNode w' = storedNode w /\ clock w' = clock w;
}.

Section Recycling.
Context `{L : Libs} {W : Type} (h : handler W) (name : string) `{!TTLServer h name} (TTL : Z).

(** ** What a pass sees and does *)

Definition live (w : W) : Prop :=
  Deleting (claim_Meta (storedClaim w)) = false /\ NodeName (claim_Status (storedClaim w)) <> "".
Definition start (w : W) : Time := ttlStart (storedClaim w).
Definition expired (w : W) : bool := TTL <=? Sub (clock w) (start w).
Definition busy (w : W) : bool := hasNonDSPods (storedPods w) (NodeName (claim_Status (storedClaim w))).
Definition wanted (w : W) : bool := hasMatchingPendingPod (storedPods w) (storedNode w).
Definition idle (w : W) : bool := negb (busy w || wanted w).

Definition ttlPassed (w : W) : W := exec_world h (Reconcile TTL name) w.
Definition ttlResult (w : W) : outcome (Result * option error) := exec_outcome h (Reconcile TTL name) w.

(** Marked for deletion, on a node nothing new is scheduled to. *)
Definition recycled (w : W) : Prop :=
  Deleting (claim_Meta (storedClaim w)) = true /\ isDecommissioned (storedNode w) = true.

(** ** Lemmas *)

Lemma resetTTL_stored w :
  exec_outcome h (resetTTL TTL (storedClaim w)) w = Done (requeueAfter TTL, None) /\
  let w' := exec_world h (resetTTL TTL (storedClaim w)) w in
  storedClaim w' = stampReset (clock w) (storedClaim w) /\ storedNode w' = storedNode w /\
  clock w' = clock w.
Proof.
  unfold resetTTL. destruct (ttl_patch w) as (r & w' & E & Hc & Hn & Ht).
  exec_steps. rewrite ttl_now. cbn [fst snd]. exec_steps. rewrite E. exec_steps. done.
Qed.

Lemma isDecommissioned_added node : isDecommissioned (addTaint node) = true.
Proof.
  apply existsb_true. exists decommissioning. split; [|done]. apply elem_of_app. right. by left.
Qed.

Lemma decommission_stored w :
  exec_outcome h (decommission (storedClaim w) (storedNode w)) w = Done (emptyResult, None) /\
  recycled (exec_world h (decommission (storedClaim w) (storedNode w)) w).
Proof.
  unfold decommission, taintNode. destruct (isDecommissioned (storedNode w)) eqn:Ed.
  - destruct (ttl_delete w) as (w' & E & Hd & Hn & _). exec_steps. rewrite E. cbn [fst snd].
    exec_steps. unfold recycled. rewrite Hn. done.
  - destruct (ttl_taint w) as (r & w1 & E1 & Hc1 & Hn1 & _).
    destruct (ttl_delete w1) as (w' & E & Hd & Hn & _). exec_steps. rewrite E1. cbn [fst snd].
    exec_steps. rewrite <-Hc1, E. cbn [fst snd]. exec_steps. unfold recycled.
    rewrite Hn, Hn1. split; [done|]. by split; [|apply isDecommissioned_added].
Qed.

(** One pass, by what is stored. *)
Lemma ttl_pass_stored w :
  live w ->
  if expired w then
    if idle w then ttlResult w = Done (emptyResult, None) /\ recycled (ttlPassed w)
    else ttlResult w = Done (requeueAfter TTL, None) /\
      storedClaim (ttlPassed w) = stampReset (clock w) (storedClaim w) /\
      storedNode (ttlPassed w) = storedNode w /\ clock (ttlPassed w) = clock w
  else ttlResult w = Done (requeueAfter (wrap64 (TTL - Sub (clock w) (start w))), None) /\
    ttlPassed w = w.
Proof.
  intros [Hd Hn]. unfold ttlResult, ttlPassed, Reconcile. exec_steps. rewrite ttl_get. cbn [fst snd].
  rewrite Hd, bool_decide_eq_false_2 by done. cbn [orb]. exec_steps. rewrite ttl_now. cbn [fst snd].
  unfold expired. fold (start w). destruct (Z.ltb_spec (Sub (clock w) (start w)) TTL) as [Hlt|Hle].
  - rewrite (proj2 (Z.leb_gt _ _)) by done. by exec_steps.
  - rewrite (proj2 (Z.leb_le _ _)) by done. unfold expire, idle. exec_steps. rewrite ttl_pods.
    cbn [fst snd]. fold (busy w). destruct (busy w); cbn [orb negb].
    + destruct (resetTTL_stored w) as (E & Hc). by rewrite E.
    + exec_steps. rewrite ttl_node. cbn [fst snd]. fold (wanted w). destruct (wanted w); cbn [negb].
      * destruct (resetTTL_stored w) as (E & Hc). by rewrite E.
      * apply decommission_stored.
Qed.

(** ** Time *)

(** A claim on its node whose timer has been started, at a time that can be written. *)
Definition Running (w : W) : Prop :=
  live w /\ instant (start w) <= instant (clock w) /\ timely (clock w).

(** The controller is run again as long after a pass as that pass asked for;
    pods come and go in the meantime. *)
Inductive Cycle : W -> W -> Prop :=
| NextPass w w' d :
    ttlResult w = Done (requeueAfter d, None) -> 0 < d ->
    storedClaim w' = storedClaim (ttlPassed w) -> storedNode w' = storedNode (ttlPassed w) ->
    instant (clock w') = instant (clock (ttlPassed w)) + d -> timely (clock w') -> Cycle w w'.

(** Any passes, at any times. *)
Inductive TTLStep : W -> W -> Prop :=
| StepPass w : TTLStep w (ttlPassed w)
| StepTime w w' :
    storedClaim w' = storedClaim w -> storedNode w' = storedNode w ->
    instant (clock w) <= instant (clock w') -> timely (clock w') -> TTLStep w w'.

Context (HTTL : 0 < TTL <= MaxInt64).

Lemma expired_iff w : expired w = true <-> instant (start w) + TTL <= instant (clock w).
Proof. unfold expired, Sub, MinInt64, MaxInt64 in *. rewrite Z.leb_le. lia. Qed.

(** Not expired: what is left of the TTL is computed exactly. *)
Lemma remaining_exact w :
  instant (start w) <= instant (clock w) -> expired w = false ->
  wrap64 (TTL - Sub (clock w) (start w)) = instant (start w) + TTL - instant (clock w) /\
  0 < instant (start w) + TTL - instant (clock w) <= TTL.
Proof.
  unfold expired. intros Hs He%Z.leb_gt.
  assert (Hsub : Sub (clock w) (start w) = instant (clock w) - instant (start w)).
  { unfold Sub, MinInt64, MaxInt64 in *. lia. }
  rewrite Hsub in *. split; [|lia].
  rewrite wrap64_id by (unfold int64_ok, MinInt64, MaxInt64 in *; lia). lia.
Qed.

Lemma reset_start t nc :
  timely t -> ttlStart (stampReset t nc) = truncSecond t /\
  instant (truncSecond t) <= instant t < instant (truncSecond t) + Second.
Proof.
  intros [Hr Hn]. split.
  - unfold ttlStart, stampReset. simpl. by rewrite lookup_insert_eq, Parse_Format.
  - unfold instant. simpl. lia.
Qed.

(** The next pass of a running claim finds it running and expired, at most a
    TTL later. *)
Lemma Cycle_Running w w' :
  Running w -> Cycle w w' ->
  Running w' /\ expired w' = true /\ instant (clock w') <= instant (clock w) + TTL.
Proof.
  intros Hr Hcy. destruct Hcy as [w0 w1 d Er Hd Hc _ Hi Ht']. destruct Hr as (Hl & Hs & Ht).
  pose proof (ttl_pass_stored w0 Hl) as Hp. destruct (expired w0) eqn:Ee.
  - destruct (idle w0); [rewrite (proj1 Hp) in Er; injection Er as E; lia|].
    destruct Hp as (E & Hpc & _ & Hpt). rewrite E in Er. injection Er as <-.
    destruct (reset_start (clock w0) (storedClaim w0) Ht) as [Hstart Hsec].
    assert (Hs1 : start w1 = truncSecond (clock w0)) by (unfold start; by rewrite Hc, Hpc).
    rewrite expired_iff. unfold Running. rewrite Hs1, Hi, Hpt. split_and!; try done; try lia.
    destruct Hl. unfold live. by rewrite Hc, Hpc.
  - destruct Hp as (E & Hpw). rewrite E in Er. injection Er as <-. rewrite Hpw in *.
    destruct (remaining_exact w0 Hs Ee) as [Hrem Hpos]. rewrite Hrem in Hi.
    assert (Hs1 : start w1 = start w0) by (unfold start; by rewrite Hc).
    rewrite expired_iff. unfold Running. rewrite Hs1, Hi. split_and!; try done; try lia.
    unfold live. by rewrite Hc.
Qed.

(** A pass over an expired claim. *)
Lemma examined w :
  live w -> timely (clock w) -> expired w = true ->
  (if idle w then ttlResult w = Done (emptyResult, None) /\ recycled (ttlPassed w)
   else ttlResult w = Done (requeueAfter TTL, None) /\ live (ttlPassed w) /\
     start (ttlPassed w) = truncSecond (clock w)) /\
  (forall w', Cycle w w' -> idle w = false /\ instant (clock w') = instant (clock w) + TTL).
Proof.
  intros Hl Ht He. pose proof (ttl_pass_stored w Hl) as Hp. rewrite He in Hp. split.
  - destruct (idle w); [done|]. destruct Hp as (E & Hpc & _ & _). split; [done|].
    destruct Hl as [Hl1 Hl2]. unfold live, start. rewrite Hpc. split; [by split|].
    by apply reset_start.
  - intros w' Hcy. destruct Hcy as [w w' d Er Hd _ _ Hi _].
    destruct (idle w); destruct Hp as (E & Hp); rewrite E in Er; injection Er as E'; [lia|].
    split; [done|]. destruct Hp as (_ & _ & Hck). by rewrite Hi, Hck, <-E'.
Qed.

(** What the passes keep about the age of a claim. *)
Definition Aged (w : W) : Prop :=
  live w /\ timely (clock w) /\
  instant (CreationTimestamp (claim_Meta (storedClaim w))) <= instant (start w).

Lemma ttlPassed_live w :
  Aged w -> t_nsec (CreationTimestamp (claim_Meta (storedClaim w))) = 0 ->
  (Aged (ttlPassed w) /\ CreationTimestamp (claim_Meta (storedClaim (ttlPassed w))) =
                          CreationTimestamp (claim_Meta (storedClaim w))) \/
  (idle w = true /\ recycled (ttlPassed w) /\
   instant (CreationTimestamp (claim_Meta (storedClaim w))) + TTL <= instant (clock w)).
Proof.
  intros (Hl & Ht & Ha) Hn. pose proof (ttl_pass_stored w Hl) as Hp. destruct (expired w) eqn:Ee.
  - apply expired_iff in Ee. destruct (idle w); [right; destruct Hp; split_and!; [done|done|lia]|].
    left. destruct Hp as (_ & Hc & _ & Hck). unfold Aged, live, start. rewrite Hc, Hck.
    destruct (reset_start (clock w) (storedClaim w) Ht) as [Hs Hsec]. rewrite Hs.
    destruct Hl as [Hl1 Hl2]. split; [|done]. split_and!; try done.
    change (instant (CreationTimestamp (claim_Meta (storedClaim w))) <= instant (truncSecond (clock w))).
    revert Ha Ee. unfold instant, truncSecond, start, Second, instant. simpl. rewrite Hn.
    destruct Ht as [_ Ht]. unfold Second in Ht. lia.
  - left. destruct Hp as [_ ->]. done.
Qed.

(** ** Properties *)

(** C7: Nodes are recycled, as long as the controller is run when it asks to be.
    Every pass over a running claim whose TTL is not over leaves everything as it
    is and asks to be run again exactly when it is over, which is later than now;
    so the next pass finds the claim expired.  At that and every later examination
    the claim is expired; if the node is idle then, the claim is deleted and the
    node tainted, otherwise the timer starts anew at that time, cut to the second,
    and the pass asks for the next examination a TTL later. *)
Theorem recycled_when_idle w0 :
  Running w0 ->
  (expired w0 = false -> exists d,
     ttlResult w0 = Done (requeueAfter d, None) /\ 0 < d <= TTL /\
     instant (clock w0) + d = instant (start w0) + TTL /\ ttlPassed w0 = w0) /\
  (forall w1, Cycle w0 w1 -> expired w0 = false ->
     start w1 = start w0 /\ instant (clock w1) = instant (start w1) + TTL) /\
  (forall w, tc Cycle w0 w \/ (w = w0 /\ expired w0 = true) ->
     expired w = true /\
     (if idle w then ttlResult w = Done (emptyResult, None) /\ recycled (ttlPassed w)
      else ttlResult w = Done (requeueAfter TTL, None) /\ live (ttlPassed w) /\
        start (ttlPassed w) = truncSecond (clock w)) /\
     (forall w', Cycle w w' -> idle w = false /\ instant (clock w') = instant (clock w) + TTL)).
Proof.
  intros Hr. split_and!.
  - intros He. destruct Hr as (Hl & Hs & _). pose proof (ttl_pass_stored w0 Hl) as Hp. rewrite He in Hp.
    destruct (remaining_exact w0 Hs He) as [E Hpos]. rewrite E in Hp. eexists. split; [apply Hp|].
    split; [exact Hpos|]. split; [lia|apply Hp].
  - intros w1 Hcy He. destruct Hr as (Hl & Hs & _). destruct Hcy as [w0 w1 d Er _ Hc _ Hi _].
    pose proof (ttl_pass_stored w0 Hl) as Hp. rewrite He in Hp. destruct Hp as [E Hw].
    rewrite E in Er. injection Er as <-. rewrite Hw in Hc, Hi.
    rewrite (proj1 (remaining_exact w0 Hs He)) in Hi. unfold start in *. rewrite Hc. split; [done|lia].
  - intros w Hc. assert (H : Running w /\ expired w = true).
    { destruct Hc as [Hc|[-> He]]; [|done]. induction Hc as [x y Hxy|x y z Hxy _ IH].
      - by destruct (Cycle_Running _ _ Hr Hxy) as (? & ? & _).
      - apply IH. by destruct (Cycle_Running _ _ Hr Hxy) as (? & _). }
    destruct H as [(Hl & _ & Ht) He]. split; [done|]. by apply examined.
Qed.

(** C8: And not before: whatever passes are made at whatever times, with pods
    coming and going, the claim stays alive until a pass finds it idle at the age
    of a TTL or more, and that pass recycles it.  The timer never runs from before
    the creation of the claim, however often it was reset. *)
Theorem recycled_in_time w0 w :
  rtc TTLStep w0 w -> Aged w0 -> t_nsec (CreationTimestamp (claim_Meta (storedClaim w0))) = 0 ->
  Aged w \/
  exists w1, rtc TTLStep w0 w1 /\ live w1 /\ idle w1 = true /\
    instant (CreationTimestamp (claim_Meta (storedClaim w0))) + TTL <= instant (clock w1) /\
    recycled (ttlPassed w1) /\ rtc TTLStep (ttlPassed w1) w.
Proof.
  intros Hr Ha Hn. set (born := CreationTimestamp (claim_Meta (storedClaim w0))) in *.
  cut ((Aged w /\ CreationTimestamp (claim_Meta (storedClaim w)) = born) \/
    exists w1, rtc TTLStep w0 w1 /\ live w1 /\ idle w1 = true /\ instant born + TTL <= instant (clock w1) /\
      recycled (ttlPassed w1) /\ rtc TTLStep (ttlPassed w1) w); [naive_solver|].
  pattern w. refine (rtc_ind_r _ w0 _ _ w Hr); clear w Hr; [by left|intros y z Hry Hyz IH].
  destruct IH as [[Hay Hby]|(w1 & H1 & H2 & H3 & H4 & H5 & H6)].
  - destruct Hyz as [y|y z Hc _ Hi Ht].
    + destruct (ttlPassed_live y Hay) as [[Hp Hpb]|(Hid & Hrec & Hage)]; [by rewrite Hby| |].
      * left. by rewrite Hpb.
      * right. exists y. rewrite <-Hby. destruct Hay as [Hl _]. by split_and!.
    + left. destruct Hay as ([Hl1 Hl2] & _ & Hage). rewrite Hc. split; [|done].
      unfold Aged, live, start. rewrite Hc. done.
  - right. exists w1. split_and!; try done. by eapply rtc_r.
Qed.
End Recycling.

(** ** A cluster in memory *)

Record MemCluster := mkMemCluster {
  mc_claim : NodeClaim; mc_node : Node; mc_pods : list Pod; mc_clock : Time }.

Definition marked (c : NodeClaim) : NodeClaim :=
  let m := claim_Meta c in
  mkClaim (mkMeta (Name m) (UID m) (Labels m) (Annotations m) (Finalizers m) (Some (mkTime 0 0 0))
             (CreationTimestamp m) (OwnerReferences m) (Generation m)) (claim_Spec c) (claim_Status c).

Definition memCluster : handler MemCluster := fun X c w =>
  match c in api X return X * MemCluster with
  | GetNodeClaim _ => (Ok (mc_claim w), w)
  | Now => (mc_clock w, w)
  | ListPods => (Ok (mc_pods w), w)
  | GetNode _ => (Ok (mc_node w), w)
  | PatchNodeClaim _ obj => (Ok obj, mkMemCluster obj (mc_node w) (mc_pods w) (mc_clock w))
  | PatchNode _ obj => (Ok obj, mkMemCluster (mc_claim w) obj (mc_pods w) (mc_clock w))
  | DeleteNodeClaim obj => (Ok tt, mkMemCluster (marked obj) (mc_node w) (mc_pods w) (mc_clock w))
  | c => (unavailable c, w)
  end.

#[export] Instance memCluster_TTLServer name : TTLServer memCluster name.
Proof.
  refine {| storedClaim := mc_claim; storedNode := mc_node; storedPods := mc_pods; clock := mc_clock |};
    try done; intros w; by repeat eexists.
Defined.

(** A minute after the claim's creation; an hour after it; an hour later still,
    when the pending pod has gone. *)
Definition young : MemCluster := mkMemCluster agedClaim sampleNode [pendingPod] (mkTime 1735689660 0 0).
Definition aged : MemCluster := mkMemCluster agedClaim sampleNode [pendingPod] (mkTime 1735693200 0 0).
Definition renewed : MemCluster :=
  mkMemCluster (stampReset (mkTime 1735693200 0 0) agedClaim) sampleNode [] (mkTime 1735696800 0 0).

Lemma hour_ok : 0 < Hour <= MaxInt64.
Proof. split; [reflexivity|discriminate]. Qed.

Lemma young_to_renewed : tc (Cycle (L := refLibs) memCluster "claim-1" Hour) young renewed.
Proof.
  apply (tc_l _ _ aged).
  - apply (NextPass memCluster "claim-1" Hour young aged (59 * Minute)); try (vm_compute; reflexivity).
    apply (bool_decide_unpack _). vm_compute. reflexivity.
  - apply tc_once.
    apply (NextPass memCluster "claim-1" Hour aged renewed Hour); try (vm_compute; reflexivity).
    apply (bool_decide_unpack _). vm_compute. reflexivity.
Qed.

Lemma recycled_when_idle_witness :
  (exists d, ttlResult (L := refLibs) memCluster "claim-1" Hour young = Done (requeueAfter d, None) /\
     0 < d) /\
  recycled memCluster "claim-1" (ttlPassed (L := refLibs) memCluster "claim-1" Hour renewed).
Proof.
  destruct (recycled_when_idle (L := refLibs) memCluster "claim-1" Hour hour_ok young)
    as (H1 & _ & H2).
  - split; [split; [reflexivity|discriminate]|]. split; [discriminate|].
    apply (bool_decide_unpack _). vm_compute. reflexivity.
  - split.
    + destruct H1 as (d & E & Hd & _); [vm_compute; reflexivity|]. exists d. split; [exact E|apply Hd].
    + destruct (H2 renewed (or_introl young_to_renewed)) as (_ & [_ H] & _). exact H.
Defined.

Lemma recycled_in_time_witness :
  Aged memCluster "claim-1" (ttlPassed (L := refLibs) memCluster "claim-1" Hour young).
Proof.
  destruct (recycled_in_time (L := refLibs) memCluster "claim-1" Hour hour_ok young
    (ttlPassed (L := refLibs) memCluster "claim-1" Hour young))
    as [H|(w1 & _ & _ & _ & _ & _ & H)].
  - apply rtc_once. apply StepPass.
  - split; [split; [reflexivity|discriminate]|]. split; [|discriminate].
    apply (bool_decide_unpack _). vm_compute. reflexivity.
  - reflexivity.
  - exact H.
  - split; [split; [reflexivity|discriminate]|]. split; [|discriminate].
    apply (bool_decide_unpack _). vm_compute. reflexivity.
Defined.

(** A scheduler that binds a pod to the node after the pods were listed and before
    the node is tainted: the pass does not look again, and recycles a busy node. *)
Definition boundPod : Pod :=
  mkPod (mkMeta "pod-2" "" None None [] None zeroTime [] 0) "node-1" None [] None "Running" [].
Definition racingCluster : handler MemCluster := fun X c w =>
  match c in api X return X * MemCluster with
  | ListPods => (Ok (mc_pods w), mkMemCluster (mc_claim w) (mc_node w) [boundPod] (mc_clock w))
  | c => memCluster _ c w
  end.

Example bound_meanwhile :
  let w := mkMemCluster agedClaim sampleNode [] (mkTime 1735693200 0 0) in
  let w' := exec_world racingCluster (Reconcile (L := refLibs) Hour "claim-1") w in
  hasNonDSPods (mc_pods w) "node-1" = false /\ hasNonDSPods (mc_pods w') "node-1" = true /\
  Deleting (claim_Meta (mc_claim w')) = true.
Proof. vm_compute. repeat split. Qed.
