(* ===== verification/Drift.v ===== *)
(** * Drift over the life of a claim

    Create stamps a claim with the digest of its NodeClass, the NodeClass
    controller re-stamps claims of an older version, users edit the spec, and
    IsDrifted compares.  Here these are steps of one system over a server that
    works, and a verdict is traced back to where its stamp came from. *)

From S2P Require Import Prelude GoTime Types Effects Libs NodeClass CloudProvider NodeClassController Convergence.

Section Drift.
Context `{L : Libs} `{!StatusLaws L, !EqualityLaws L}.
Context {W : Type} (h : handler W) (name : string) `{!ApiServer h name}.

Definition claimNames (w : W) : list string := (fun c => Name (claim_Meta c)) <$> storedClaims w.

(** Others leave name and annotations of a claim alone; they change its status. *)
Definition sameStamp (c c' : NodeClaim) : Prop :=
  Name (claim_Meta c') = Name (claim_Meta c) /\ Annotations (claim_Meta c') = Annotations (claim_Meta c).

(** A pass of the controller; or an edit of the NodeClass, claims that make
    progress, and new claims. *)
Inductive DriftStep : W -> W -> Prop :=
| DriftPass w : DriftStep w (pass h name w)
| DriftOthers w w' claims new :
    Forall2 sameStamp (storedClaims w) claims -> storedClaims w' = claims ++ new ->
    NoDup (claimNames w') -> DriftStep w w'.

(** ** Lemmas *)

(** A claim that takes part in drift detection. *)
Definition stamped (c : NodeClaim) : bool := hasHash c && currentVersion c.

Lemma stamped_annotations c c' :
  Annotations (claim_Meta c') = Annotations (claim_Meta c) -> stamped c' = stamped c.
Proof. unfold stamped, hasHash, currentVersion. by intros ->. Qed.

Lemma driftReason_annotations c c' n :
  Annotations (claim_Meta c') = Annotations (claim_Meta c) -> driftReason c' n = driftReason c n.
Proof. unfold driftReason. by intros ->. Qed.

Lemma unstamped_never_drifts c n : stamped c = false -> driftReason c n = "".
Proof.
  unfold stamped, hasHash, currentVersion, driftReason. intros H.
  destruct (decide (mapGet (Annotations (claim_Meta c)) v1alpha2.NodeClassHashAnnotationKey = ""))
    as [|Hh]; [done|].
  destruct (decide (_ <> v1alpha2.NodeClassHashVersion)) as [|Hv]; [done|]. exfalso. apply dec_stable in Hv.
  rewrite (bool_decide_eq_true_2 _ Hv), andb_true_r in H. bool_hyps. apply H. unfold mapGet in Hh.
  destruct (entries _ !! v1alpha2.NodeClassHashAnnotationKey); [by eexists|done].
Qed.

Lemma stamped_skip c : stamped c = true -> skipClaim c = true.
Proof. unfold stamped, skipClaim. intros ->. by rewrite orb_true_r. Qed.

(** What a pass does to the claims, whatever the state of the NodeClass. *)
Lemma pass_claims w :
  NoDup (claimNames w) ->
  storedClaims (pass h name w) = storedClaims w \/
  (validateSpec (storedClass w) = None /\
   storedClaims (pass h name w) = settledClaim (storedClass w) <$> storedClaims w).
Proof.
  intros Hnd.
  destruct (Deleting (nc_Meta (storedClass w))) eqn:Hd.
  { left. unfold pass, exec_world, NodeClassController.Reconcile, call. cbn [bind exec].
    rewrite api_get, Hd. unfold handleDeletion. destruct (negb (hasFinalizer _)); [done|].
    set (obj := withFinalizers _ _). destruct (api_update w obj) as (w1 & E1 & _ & Hcl).
    unfold call. cbn [bind exec]. by rewrite E1. }
  destruct (hasFinalizer (storedClass w)) eqn:Hf; [|left; by apply pass_adds_finalizer].
  destruct (validateSpec (storedClass w)) as [e|] eqn:Hv.
  - left. unfold pass, exec_world, NodeClassController.Reconcile, call. cbn [bind exec].
    rewrite api_get, Hd, Hf, Hv. cbn [negb].
    destruct (api_status w (invalidClass e (storedClass w))) as (w1 & E1 & _ & Hcl).
    unfold call. cbn [bind exec]. by rewrite E1.
  - right. split; [done|]. by destruct (pass_settles h name w Hd Hf Hv Hnd) as (_ & _ & _ & H).
Qed.

Lemma settled_names n (claims : list NodeClaim) :
  (fun c => Name (claim_Meta c)) <$> (settledClaim n <$> claims) = (fun c => Name (claim_Meta c)) <$> claims.
Proof. rewrite <-list_fmap_compose. apply list_fmap_ext. intros i c _. apply settledClaim_name. Qed.

Lemma DriftStep_names w w' : DriftStep w w' -> NoDup (claimNames w) -> NoDup (claimNames w').
Proof.
  intros [w1|w1 w2 claims new _ _ Hnd] H; [|done]. unfold claimNames in *.
  destruct (pass_claims w1 H) as [-> | [_ ->]]; [done|]. by rewrite settled_names.
Qed.

(** Where the stamp of a claim comes from: it is the one it had at first, or, if
    that did not count, the one a pass on the way gave it, from the NodeClass that
    pass found. *)
Inductive Stamp (w0 w : W) (i : nat) (c0 c : NodeClaim) : Prop :=
| StampOld : Annotations (claim_Meta c) = Annotations (claim_Meta c0) -> Stamp w0 w i c0 c
| StampNew w1 c1 :
    rtc DriftStep w0 w1 -> storedClaims w1 !! i = Some c1 -> stamped c0 = false -> skipClaim c1 = false ->
    validateSpec (storedClass w1) = None ->
    storedClaims (pass h name w1) !! i = Some (settledClaim (storedClass w1) c1) ->
    rtc DriftStep (pass h name w1) w ->
    Annotations (claim_Meta c) = Annotations (claim_Meta (settledClaim (storedClass w1) c1)) ->
    Stamp w0 w i c0 c.

(** What a pass gives a claim that is due. *)
Lemma settled_stamp n c :
  skipClaim c = false ->
  stamped (settledClaim n c) = true /\
  mapGet (Annotations (claim_Meta (settledClaim n c))) v1alpha2.NodeClassHashAnnotationKey = Hash n /\
  mapGet (Annotations (claim_Meta (settledClaim n c))) v1alpha2.NodeClassHashVersionAnnotationKey =
    v1alpha2.NodeClassHashVersion.
Proof.
  intros Hs. unfold settledClaim. rewrite Hs. destruct (stampClaim_annotations (Hash n) c) as [Hh Hv].
  split; [|done]. unfold stamped, hasHash, currentVersion. rewrite Hv.
  rewrite (bool_decide_eq_true_2 (v1alpha2.NodeClassHashVersion = _)), andb_true_r by done.
  apply bool_decide_eq_true_2. unfold stampClaim, setAnnotation. simpl.
  rewrite lookup_insert_ne, lookup_insert_eq by done. eauto.
Qed.

(** A stamp outlives steps that leave the annotations alone. *)
Lemma Stamp_kept w0 w w' i c0 c c' :
  DriftStep w w' -> Annotations (claim_Meta c') = Annotations (claim_Meta c) ->
  Stamp w0 w i c0 c -> Stamp w0 w' i c0 c'.
Proof.
  intros Hs Ha [H|w1 c1 H1 H2 H3 H4 H5 H6 H7 H8].
  - apply StampOld. congruence.
  - apply (StampNew _ _ _ _ _ w1 c1); try done; [by eapply rtc_r|congruence].
Qed.

Lemma Stamp_settled w0 w i c0 c :
  rtc DriftStep w0 w -> storedClaims w !! i = Some c -> validateSpec (storedClass w) = None ->
  storedClaims (pass h name w) !! i = Some (settledClaim (storedClass w) c) ->
  Stamp w0 w i c0 c -> Stamp w0 (pass h name w) i c0 (settledClaim (storedClass w) c).
Proof.
  intros Hr Hi Hv Hp Hs. destruct (skipClaim c) eqn:Es.
  - apply (Stamp_kept w0 w _ i c0 c); [apply DriftPass| |done]. unfold settledClaim. by rewrite Es.
  - apply (StampNew _ _ _ _ _ w c); try done. destruct Hs as [Ha|w1 c1 _ _ H _ _ _ _ _]; [|done].
    destruct (stamped c0) eqn:E; [|done]. rewrite stamped_skip in Es; [done|].
    by rewrite (stamped_annotations c0 c Ha).
Qed.

Lemma Stamp_steps w0 w i c0 :
  rtc DriftStep w0 w -> NoDup (claimNames w0) -> storedClaims w0 !! i = Some c0 ->
  NoDup (claimNames w) /\ exists c, storedClaims w !! i = Some c /\ Stamp w0 w i c0 c.
Proof.
  intros Hr Hnd Hi. pattern w. refine (rtc_ind_r _ w0 _ _ w Hr); clear w Hr.
  - split; [done|]. exists c0. split; [done|]. by apply StampOld.
  - intros w w' Hr Hs (Hnd' & c & Hc & Hst). split; [by eapply DriftStep_names|].
    destruct Hs as [w|w w' claims new Hf Hcl Hn].
    + destruct (pass_claims w Hnd') as [E|[Hv E]].
      * rewrite E. exists c. split; [done|]. apply (Stamp_kept w0 w _ i c0 c); [apply DriftPass|done|done].
      * assert (Hp : storedClaims (pass h name w) !! i = Some (settledClaim (storedClass w) c)).
        { by rewrite E, list_lookup_fmap, Hc. }
        eexists. split; [exact Hp|]. by apply Stamp_settled.
    + destruct (Forall2_lookup_l _ _ _ _ _ Hf Hc) as (c' & Hc' & _ & Ha). exists c'. split.
      * rewrite Hcl. by apply lookup_app_l_Some.
      * apply (Stamp_kept w0 w _ i c0 c); [by eapply DriftOthers|done|done].
Qed.

(** ** Properties *)

(** C14: Drift verdicts have a history: after any sequence of passes of the
    controller, edits of the NodeClass and progress of claims, a claim that took
    part in drift detection at first is judged by the stamp it had, against the
    NodeClass as it is now, so that undoing an edit undoes the drift; any other
    claim never drifts until a pass on the way, over a valid NodeClass, finds it
    due and adopts it; from then on it has the annotations that pass gave it, and
    drifts exactly when the NodeClass differs from the one that pass found. *)
Theorem drift_history w0 w i c0 :
  rtc DriftStep w0 w -> NoDup (claimNames w0) -> storedClaims w0 !! i = Some c0 ->
  exists c, storedClaims w !! i = Some c /\
    (stamped c0 = true -> forall n, driftReason c n = driftReason c0 n) /\
    (stamped c0 = false ->
       (forall n, driftReason c n = "") \/
       exists w1 c1 c2,
         rtc DriftStep w0 w1 /\ storedClaims w1 !! i = Some c1 /\ stamped c1 = false /\
         validateSpec (storedClass w1) = None /\
         storedClaims (pass h name w1) !! i = Some c2 /\ stamped c2 = true /\
         rtc DriftStep (pass h name w1) w /\
         Annotations (claim_Meta c) = Annotations (claim_Meta c2) /\
         forall n, driftReason c n =
           if decide (Hash (storedClass w1) = "" \/ Hash (storedClass w1) = Hash n)
           then "" else v1alpha2.NodeClassDrifted).
Proof.
  intros Hr Hnd Hi. destruct (Stamp_steps w0 w i c0 Hr Hnd Hi) as (_ & c & Hc & Hs).
  exists c. split; [done|]. destruct Hs as [Ha|w1 c1 Hr1 Hi1 Hu Hsk Hv1 Hp Hr2 Ha].
  - split; [intros _ n; by apply driftReason_annotations|]. intros Hu. left. intros n.
    apply unstamped_never_drifts. by rewrite (stamped_annotations c0 c).
  - split; [congruence|]. intros _. right.
    destruct (settled_stamp (storedClass w1) c1 Hsk) as (Hst & Hh & Hver).
    exists w1, c1, (settledClaim (storedClass w1) c1). split_and!; try done.
    + destruct (stamped c1) eqn:E; [|done]. by rewrite (stamped_skip _ E) in Hsk.
    + intros n. rewrite (driftReason_annotations _ c n Ha). by apply driftReason_stamped.
Qed.
End Drift.

(** ** A concrete history

    An old claim is adopted, the plan is edited, the controller passes again, and
    the edit is undone. *)
Definition editedClass (n : UpCloudNodeClass) : UpCloudNodeClass :=
  let s := nc_Spec n in
  mkNodeClass (nc_Meta n) (mkSpec (Spec_Zone s) "DEV-1xCPU-1GB" (Spec_Storage s) (Spec_SSHKeys s)
    (Spec_KubeletArgs s) (Spec_Labels s) (Spec_Taints s) (Spec_ServerGroupUUID s)
    (Spec_UtilityNetworkAccess s)) (nc_Status n).
Definition day0 : UpCloudNodeClass * list NodeClaim := (managedClass, [oldClaim; driftedClaim; newClaim]).
Definition day1 : UpCloudNodeClass * list NodeClaim := pass (L := refLibs) memServer "default" day0.
Definition day2 : UpCloudNodeClass * list NodeClaim := (editedClass (fst day1), snd day1).
Definition day3 : UpCloudNodeClass * list NodeClaim := pass (L := refLibs) memServer "default" day2.

Example adopted_then_edited_then_undone :
  match snd day3 with
  | c :: _ => driftReason (L := refLibs) c (fst day3) = v1alpha2.NodeClassDrifted /\
              driftReason (L := refLibs) c (fst day1) = ""
  | [] => False
  end.
Proof. vm_compute. split; reflexivity. Qed.

Lemma day0_to_day3 : rtc (DriftStep (L := refLibs) memServer "default") day0 day3.
Proof.
  apply (rtc_l _ _ day1); [apply DriftPass|]. apply (rtc_l _ _ day2); [|apply rtc_once, DriftPass].
  apply (DriftOthers memServer "default" day1 day2 (snd day1) []).
  - apply Forall2_same_length_lookup_2; [done|]. intros i c c' Hc Hc'.
    unfold storedClaims in Hc. simpl in Hc. rewrite Hc in Hc'. by simplify_eq.
  - by rewrite app_nil_r.
  - vm_compute. repeat constructor; set_solver.
Qed.

Lemma drift_history_witness :
  exists c : NodeClaim, head (snd day3) = Some c /\
    ((forall n : UpCloudNodeClass, driftReason (L := refLibs) c n = "") \/
     exists w1 : UpCloudNodeClass * list NodeClaim, validateSpec (fst w1) = None /\
       rtc (DriftStep (L := refLibs) memServer "default") (pass (L := refLibs) memServer "default" w1) day3).
Proof.
  destruct (drift_history (L := refLibs) memServer "default" day0 day3 0 oldClaim day0_to_day3)
    as (c & Hc & _ & H).
  - vm_compute. repeat constructor; set_solver.
  - reflexivity.
  - exists c. split; [exact Hc|]. destruct (H eq_refl) as [H1|(w1 & c1 & c2 & _ & _ & _ & Hv & _ & _ & Hr & _)];
      [left; exact H1|right; exists w1; split; [exact Hv|exact Hr]].
Defined.
