(* ===== verification/Interference.v ===== *)
(** * Two controllers on one claim

    The NodeClass controller and the TTL controller both read a NodeClaim from
    their cache, change annotations in their copy, and patch: nothing stops the
    other one, Karpenter or a user from writing in between, and a cache may be
    behind.  A patch made with [client.MergeFrom] carries no lock and only sends
    what the controller changed.  What the passes send is [stampPatch] for the
    claims that are not skipped ([rebaselineClaims_runs]), and [stampReset]
    ([resetTTL]). *)

From S2P Require Import Prelude GoTime Types Effects Libs NodeClass CloudProvider NodeClaimTTL NodeClassController.

Local Open Scope Z_scope.

Definition annotation (c : NodeClaim) (k : string) : option string :=
  entries (Annotations (claim_Meta c)) !! k.

(** The server's side of a merge patch: [base] and [obj] are the controller's
    copies before and after, [stored] is what is stored when the patch arrives. *)
Class MergePatch (patch : NodeClaim -> NodeClaim -> NodeClaim -> NodeClaim) : Prop :=
  patch_annotation base obj stored k :
    annotation (patch base obj stored) k =
    if decide (annotation base k = annotation obj k) then annotation stored k else annotation obj k.

Section Interference.
Context `{L : Libs} (patch : NodeClaim -> NodeClaim -> NodeClaim -> NodeClaim) `{!MergePatch patch}.

(** ** The shared claim

    What is stored, every version that was stored so far, and the copies the
    controllers hold; and, for the statements, the last stamps they sent, and
    whether every hash stamp was [Sound]. *)
Record Shared := mkShared {
  sh_claim : NodeClaim;
  sh_past : list NodeClaim;
  sh_class : option NodeClaim;
  sh_ttl : option NodeClaim;
  sh_hash : option string;
  sh_reset : option Time;
  sh_sound : bool;
}.

Definition hashKey : string := v1alpha2.NodeClassHashAnnotationKey.
Definition versionKey : string := v1alpha2.NodeClassHashVersionAnnotationKey.
Definition ttlKey : string := v1alpha2.NodeClaimTTLResetAnnotationKey.

Definition classPatched (n : UpCloudNodeClass) (c stored : NodeClaim) : NodeClaim :=
  patch (stampPatch n c).1 (stampPatch n c).2 stored.
Definition ttlPatched (now : Time) (c stored : NodeClaim) : NodeClaim :=
  patch c (stampReset now c) stored.

(** A hash stamp made from the copy [c] is sound when the copy has the stored hash
    and version, or neither of those about to be written, so that both are sent. *)
Definition Sound (n : UpCloudNodeClass) (c stored : NodeClaim) : bool :=
  (bool_decide (annotation c hashKey = annotation stored hashKey) &&
   bool_decide (annotation c versionKey = annotation stored versionKey)) ||
  (bool_decide (annotation c hashKey <> Some (Hash n)) &&
   bool_decide (annotation c versionKey <> Some v1alpha2.NodeClassHashVersion)).

(** The reads and patches of the two controllers, a pass that ends without a
    patch, and writes of others, which leave these three annotations alone.  A read
    yields any version that was ever stored.  The clock of the TTL controller does
    not go back. *)
Inductive SharedStep : Shared -> Shared -> Prop :=
| ClassRead c past c0 oc ot g r b :
    c0 ∈ past ->
    SharedStep (mkShared c past oc ot g r b) (mkShared c past (Some c0) ot g r b)
| ClassPatch c past c0 n ot g r b :
    skipClaim c0 = false ->
    SharedStep (mkShared c past (Some c0) ot g r b)
      (mkShared (classPatched n c0 c) (classPatched n c0 c :: past) None ot (Some (Hash n)) r
         (b && Sound n c0 c))
| ClassDone c past oc ot g r b :
    SharedStep (mkShared c past oc ot g r b) (mkShared c past None ot g r b)
| TTLRead c past c0 oc ot g r b :
    c0 ∈ past ->
    SharedStep (mkShared c past oc ot g r b) (mkShared c past oc (Some c0) g r b)
| TTLPatch c past c0 now oc g r b :
    timely now -> (forall t, r = Some t -> instant t <= instant now) ->
    SharedStep (mkShared c past oc (Some c0) g r b)
      (mkShared (ttlPatched now c0 c) (ttlPatched now c0 c :: past) oc None g (Some now) b)
| TTLDone c past oc ot g r b :
    SharedStep (mkShared c past oc ot g r b) (mkShared c past oc None g r b)
| OthersWrite c past c' oc ot g r b :
    (forall k, k ∈ [ttlKey; hashKey; versionKey] -> annotation c' k = annotation c k) ->
    SharedStep (mkShared c past oc ot g r b) (mkShared c' (c' :: past) oc ot g r b).

(** ** Lemmas *)

Lemma lookup_insert_if (m : gmap string string) k v k' :
  <[k := v]> m !! k' = if decide (k' = k) then Some v else m !! k'.
Proof. case_decide; subst; [by rewrite lookup_insert_eq|by rewrite lookup_insert_ne]. Qed.

Lemma stamp_annotation n c k :
  annotation (stampPatch n c).2 k =
  if decide (k = v1alpha2.NodeClassHashVersionAnnotationKey) then Some v1alpha2.NodeClassHashVersion
  else if decide (k = v1alpha2.NodeClassHashAnnotationKey) then Some (Hash n) else annotation c k.
Proof.
  unfold annotation, stampPatch, stampClaim, setAnnotation. simpl.
  by rewrite !lookup_insert_if.
Qed.

Lemma base_annotation n c k : annotation (stampPatch n c).1 k = annotation c k.
Proof. done. Qed.

Lemma reset_annotation now c k :
  annotation (stampReset now c) k = if decide (k = ttlKey) then Some (FormatRFC3339 now) else annotation c k.
Proof.
  unfold annotation, stampReset, setAnnotation. simpl. by rewrite lookup_insert_if.
Qed.

(** What the patches leave of the stored claim: everything but their own keys. *)
Lemma classPatched_other n c stored k :
  k <> hashKey -> k <> versionKey -> annotation (classPatched n c stored) k = annotation stored k.
Proof.
  intros Hh Hv. unfold classPatched. rewrite patch_annotation, base_annotation, stamp_annotation.
  rewrite (decide_False (P := k = versionKey)), (decide_False (P := k = hashKey)) by done.
  by rewrite decide_True.
Qed.

Lemma ttlPatched_other now c stored k :
  k <> ttlKey -> annotation (ttlPatched now c stored) k = annotation stored k.
Proof.
  intros Hk. unfold ttlPatched. rewrite patch_annotation, reset_annotation.
  rewrite (decide_False (P := k = ttlKey)) by done. by rewrite decide_True.
Qed.

(** A sound stamp gets through. *)
Lemma classPatched_sound n c stored :
  Sound n c stored = true ->
  annotation (classPatched n c stored) hashKey = Some (Hash n) /\
  annotation (classPatched n c stored) versionKey = Some v1alpha2.NodeClassHashVersion.
Proof.
  intros Hs. unfold classPatched. rewrite !patch_annotation, !base_annotation, !stamp_annotation.
  rewrite (decide_False (P := hashKey = versionKey)) by done.
  rewrite (decide_True (P := hashKey = hashKey)), (decide_True (P := versionKey = versionKey)) by done.
  apply orb_true_iff in Hs as [Hs|Hs]; bool_hyps; [|by rewrite !decide_False].
  split; case_decide; congruence.
Qed.

Lemma ttlPatched_own now c stored :
  annotation (ttlPatched now c stored) ttlKey =
  if decide (annotation c ttlKey = Some (FormatRFC3339 now)) then annotation stored ttlKey
  else Some (FormatRFC3339 now).
Proof.
  unfold ttlPatched. rewrite patch_annotation, reset_annotation.
  by rewrite (decide_True (P := ttlKey = ttlKey)).
Qed.

(** A version that was stored when the last reset was [r]: its own is no later. *)
Definition Dated (r : option Time) (c : NodeClaim) : Prop :=
  annotation c ttlKey = None \/
  exists t last, annotation c ttlKey = Some (FormatRFC3339 t) /\ timely t /\ r = Some last /\
    instant t <= instant last.

(** The stored reset is the last one, as far as seconds tell. *)
Definition Recorded (last : Time) (c : NodeClaim) : Prop :=
  exists t, annotation c ttlKey = Some (FormatRFC3339 t) /\ timely t /\
    instant (truncSecond t) = instant (truncSecond last).

Record Coherent (s : Shared) : Prop := {
  coh_past c : c ∈ sh_past s -> Dated (sh_reset s) c;
  coh_stored : Dated (sh_reset s) (sh_claim s);
  coh_ttl c : sh_ttl s = Some c -> Dated (sh_reset s) c;
  coh_reset t : sh_reset s = Some t -> timely t /\ Recorded t (sh_claim s);
  coh_hash h : sh_sound s = true -> sh_hash s = Some h ->
    annotation (sh_claim s) hashKey = Some h /\
    annotation (sh_claim s) versionKey = Some v1alpha2.NodeClassHashVersion;
}.

Lemma Dated_same r c c' : annotation c' ttlKey = annotation c ttlKey -> Dated r c -> Dated r c'.
Proof. unfold Dated. by intros ->. Qed.

Lemma Recorded_same t c c' : annotation c' ttlKey = annotation c ttlKey -> Recorded t c -> Recorded t c'.
Proof. unfold Recorded. by intros ->. Qed.

Lemma Dated_later r now c :
  (forall t, r = Some t -> instant t <= instant now) -> Dated r c -> Dated (Some now) c.
Proof.
  intros Hr [H|(t & last & H1 & H2 & H3 & H4)]; [by left|]. right. exists t, now.
  split_and!; try done. specialize (Hr last H3). lia.
Qed.

(** A reset is recorded, even when the copy it was made from is old: the one case
    in which it is not sent is that the copy has it, and then it is in the same
    second as the one that is stored. *)
Lemma reset_Recorded c past c0 now oc g r b :
  Coherent (mkShared c past oc (Some c0) g r b) -> timely now ->
  (forall t, r = Some t -> instant t <= instant now) -> Recorded now (ttlPatched now c0 c).
Proof.
  intros [_ _ Ht Hr _] Hn Hle. unfold Recorded. rewrite ttlPatched_own.
  case_decide as E; [|by exists now]. cbn [sh_ttl sh_reset sh_claim] in *.
  destruct (Ht c0 eq_refl) as [H|(t & last & H & Htt & -> & Htl)]; [congruence|].
  destruct (Hr last eq_refl) as [Hlt (t' & H' & Ht' & Hsec)]. exists t'. split_and!; try done.
  rewrite H in E. assert (Ef : FormatRFC3339 t = FormatRFC3339 now) by congruence. clear E.
  apply Format_inj in Ef; [|apply Htt|apply Hn].
  pose proof (truncSecond_mono _ _ Htt Hlt Htl). pose proof (truncSecond_mono _ _ Hlt Hn (Hle last eq_refl)).
  rewrite Hsec. rewrite Ef in *. lia.
Qed.

Ltac shared := cbn [sh_claim sh_past sh_class sh_ttl sh_hash sh_reset sh_sound] in *.

(** Writes that leave the reset annotation alone. *)
Lemma Coherent_write c past oc ot g r b c' oc' ot' g' b' :
  annotation c' ttlKey = annotation c ttlKey ->
  (forall d, ot' = Some d -> ot = Some d) ->
  (forall h, b' = true -> g' = Some h ->
     annotation c' hashKey = Some h /\ annotation c' versionKey = Some v1alpha2.NodeClassHashVersion) ->
  Coherent (mkShared c past oc ot g r b) -> Coherent (mkShared c' (c' :: past) oc' ot' g' r b').
Proof.
  intros Ha Ho Hh [H1 H2 H3 H4 H5]. shared. assert (H2' : Dated r c') by (by apply (Dated_same r c)).
  split; shared; [|done| |intros t E|done].
  - intros d [->|Hd]%elem_of_cons; [done|by apply H1].
  - intros d E. apply H3. by apply Ho.
  - destruct (H4 t E) as [? ?]. split; [done|]. by apply (Recorded_same t c).
Qed.

Lemma Coherent_step s s' : SharedStep s s' -> Coherent s -> Coherent s'.
Proof.
  intros Hstep Hc. destruct Hstep as [c past c0 oc ot g r b Hin|c past c0 n ot g r b Hs|c past oc ot g r b
    |c past c0 oc ot g r b Hin|c past c0 now oc g r b Hn Hle|c past oc ot g r b|c past c' oc ot g r b Hk].
  - destruct Hc. by split.
  - apply (Coherent_write c past (Some c0) ot g r b); try done; [by apply classPatched_other|].
    intros h Hb [= <-]. apply andb_true_iff in Hb as [_ Hb]. by apply classPatched_sound.
  - destruct Hc. by split.
  - destruct Hc as [H1 H2 H3 H4 H5]. split; shared; try done. intros d [= <-]. by apply H1.
  - pose proof (reset_Recorded _ _ _ _ _ _ _ _ Hc Hn Hle) as Hrec. destruct Hc as [H1 H2 H3 H4 H5]. shared.
    assert (H2' : Dated (Some now) (ttlPatched now c0 c)).
    { unfold Dated. rewrite ttlPatched_own. case_decide; [by apply (Dated_later r)|].
      right. by exists now, now. }
    split; shared; [|done|done| |].
    + intros d [->|Hd]%elem_of_cons; [done|]. by apply (Dated_later r), H1.
    + intros t [= <-]. by split.
    + intros h Hb Hg. rewrite !ttlPatched_other by done. by apply H5.
  - destruct Hc. by split.
  - apply (Coherent_write c past oc ot g r b); try done; [apply Hk; by left|].
    intros h Hb Hg. destruct Hc as [_ _ _ _ H5]. shared.
    rewrite (Hk hashKey) by (right; by left). rewrite (Hk versionKey) by (right; right; by left).
    by apply H5.
Qed.

Lemma Coherent_steps s s' : rtc SharedStep s s' -> Coherent s -> Coherent s'.
Proof. induction 1 as [|x y z Hxy _ IH]; [done|]. intros H. by eapply IH, Coherent_step. Qed.

(** A claim as it was created: no reset yet. *)
Definition created (c : NodeClaim) : Shared := mkShared c [c] None None None None true.

(** ** The stamps survive *)

(** C15: However the passes of the two controllers on a claim interleave, with each
    other and with other writers, and however old the copies are that they work on:
    the age of the claim counts from the second of the reset recorded last; and, as
    long as every hash stamp was sound, made that is from a copy with the stored
    hash and version or with none of what it writes, drift is judged by the hash
    stamped last. *)
Theorem stamps_survive c0 s :
  annotation c0 ttlKey = None -> rtc SharedStep (created c0) s ->
  (forall t, sh_reset s = Some t -> instant (ttlStart (sh_claim s)) = instant (truncSecond t)) /\
  (forall h n, sh_sound s = true -> sh_hash s = Some h ->
     driftReason (sh_claim s) n = if decide (h = "" \/ h = Hash n) then "" else v1alpha2.NodeClassDrifted).
Proof.
  intros Hc0 Hr. assert (Coherent s) as [_ _ _ Ht Hh].
  { apply (Coherent_steps _ _ Hr). split; shared; try done; [|by left].
    intros c ->%list_elem_of_singleton. by left. }
  split.
  - intros t E. destruct (Ht t E) as (_ & t' & Ha & [Hok _] & Hsec). unfold annotation, ttlKey in Ha.
    unfold ttlStart. by rewrite Ha, Parse_Format.
  - intros h n Hs E. destruct (Hh h Hs E) as [H1 H2].
    unfold annotation, hashKey, versionKey in H1, H2. apply driftReason_stamped; unfold mapGet; [by rewrite H1|by rewrite H2].
Qed.
End Interference.

(** ** An example *)

(** The merge patch of annotations: what differs between the copies, sent to the
    stored map. *)
Definition mergeAnnotations (base obj stored : gmap string string) : gmap string string :=
  merge (fun d s => match d with Some o => o | None => s end)
    (merge (fun a b => if decide (a = b) then None else Some b) base obj) stored.

Definition annotationPatch (base obj stored : NodeClaim) : NodeClaim :=
  claim_with_Annotations (Some (mergeAnnotations (entries (Annotations (claim_Meta base)))
    (entries (Annotations (claim_Meta obj))) (entries (Annotations (claim_Meta stored))))) stored.

#[export] Instance annotationPatch_merges : MergePatch annotationPatch.
Proof.
  intros base obj stored k. unfold annotation, annotationPatch. simpl.
  unfold mergeAnnotations. rewrite !lookup_merge. unfold diag_None.
  destruct (entries (Annotations (claim_Meta base)) !! k) as [a|],
    (entries (Annotations (claim_Meta obj)) !! k) as [b|],
    (entries (Annotations (claim_Meta stored)) !! k) as [c|]; simpl; repeat case_decide; simplify_eq; done.
Qed.

(** Both controllers read the claim, the TTL controller patches first, and the
    NodeClass controller then patches from its older copy. *)
Definition resetAt : Time := mkTime 1700000000 0 0.
Definition reset1 : NodeClaim := ttlPatched annotationPatch resetAt oldClaim oldClaim.
Definition stamped1 : NodeClaim := classPatched (L := refLibs) annotationPatch sampleClass oldClaim reset1.
Definition both : Shared :=
  mkShared stamped1 [stamped1; reset1; oldClaim] None None
    (Some (Hash (L := refLibs) sampleClass)) (Some resetAt) true.

Lemma both_reachable : rtc (SharedStep (L := refLibs) annotationPatch) (created oldClaim) both.
Proof.
  eapply rtc_l; [apply (ClassRead _ oldClaim [oldClaim] oldClaim); by left|].
  eapply rtc_l; [apply (TTLRead _ oldClaim [oldClaim] oldClaim); by left|].
  eapply rtc_l; [apply (TTLPatch _ oldClaim [oldClaim] oldClaim resetAt); [|done];
    apply (bool_decide_unpack _); vm_compute; reflexivity|].
  eapply rtc_l; [apply (ClassPatch _ reset1 [reset1; oldClaim] oldClaim sampleClass); reflexivity|].
  apply rtc_refl.
Qed.

Lemma stamps_survive_witness :
  instant (ttlStart stamped1) = instant (truncSecond resetAt) /\
  driftReason (L := refLibs) stamped1 sampleClass = "".
Proof.
  destruct (stamps_survive (L := refLibs) annotationPatch oldClaim both) as [Ht Hd].
  - reflexivity.
  - exact both_reachable.
  - split; [exact (Ht resetAt eq_refl)|].
    etransitivity; [exact (Hd (Hash (L := refLibs) sampleClass) sampleClass eq_refl eq_refl)|].
    reflexivity.
Defined.

(** Why soundness is needed.  The claim carries, under an older version, the very
    digest of [sampleClass]; a pass stamps it with another one; the next pass still
    sees the older claim, sends the version only, and leaves the claim drifted from
    the NodeClass it was just stamped for. *)
Definition revertedClaim : NodeClaim :=
  claimWith "old" "upcloud:////1" {[ hashKey := Hash (L := refLibs) sampleClass ]} [].
Definition stampedOther : NodeClaim :=
  classPatched (L := refLibs) annotationPatch otherClass revertedClaim revertedClaim.
Definition stampedBack : NodeClaim :=
  classPatched (L := refLibs) annotationPatch sampleClass revertedClaim stampedOther.
Definition unsound : Shared :=
  mkShared stampedBack [stampedBack; stampedOther; revertedClaim] None None
    (Some (Hash (L := refLibs) sampleClass)) None false.

Example stale_copy_loses_stamp :
  rtc (SharedStep (L := refLibs) annotationPatch) (created revertedClaim) unsound /\
  driftReason (L := refLibs) stampedBack sampleClass = v1alpha2.NodeClassDrifted.
Proof.
  split; [|vm_compute; reflexivity].
  eapply rtc_l; [apply (ClassRead _ revertedClaim [revertedClaim] revertedClaim); by left|].
  eapply rtc_l; [apply (ClassPatch _ revertedClaim [revertedClaim] revertedClaim otherClass); reflexivity|].
  eapply rtc_l; [apply (ClassRead _ stampedOther [stampedOther; revertedClaim] revertedClaim); right; by left|].
  eapply rtc_l; [apply (ClassPatch _ stampedOther [stampedOther; revertedClaim] revertedClaim sampleClass);
    reflexivity|]. apply rtc_refl.
Qed.
