(* ===== verification/EntryPoints.v ===== *)
(** * What every entry point has in common

    Karpenter, the manager and the process call the operations of this program;
    whatever they are given and whatever the calls answer, an operation ends
    after a bounded number of calls and does not panic. *)

From S2P Require Import Prelude GoInt GoStrings GoTime Types Effects Libs.
From S2P Require Import NodeClaimTTL NodeClassController Operator.
From S2P Require Import UserData InstanceTypes Instance KubeletCert CloudProvider.

Section EntryPoints.
Context `{L : Libs}.

(** ** Lemmas *)

Lemma within_poll {S} b n m timeout (cond : S -> prog (result bool * S)) s :
  (forall s, within b m (cond s)) -> within b (n * m) (poll_n n timeout cond s).
Proof.
  intros Hc. revert s. induction n as [|n IH]; intros s; [done|]. cbn [poll_n].
  apply (within_bind b m (n * m)); [apply Hc|]. by intros [[[]|e] s'].
Qed.

Lemma getCABundle_within b : within b 1 getCABundle.
Proof. intros [cm|e]; simpl; [by case_match|done]. Qed.

Lemma certIssued_within b name s : within b 1 (certIssued name s).
Proof. unfold certIssued. apply (within_bind b 1 0); [apply within_call|]. intros [csr|e]; [by case_match|done]. Qed.

Lemma generateKubeletCert_within `{!PollTimeLaws L} b name : within b 51 (generateKubeletCert name).
Proof.
  unfold generateKubeletCert.
  apply (within_bindE b 1 50); [apply within_call|intros key].
  apply (within_bindE b 1 49); [apply within_call|intros der].
  apply (within_bindE b 1 48); [apply within_call|intros csr].
  apply (within_bindE b 1 47); [apply within_call|intros fresh].
  case_match; [done|]. apply (within_bindE b 1 46).
  - unfold approve. case_match; [done|]. apply (within_bindE b 1 0); [apply within_call|done].
  - intros _. unfold awaitCert. apply (within_bind b 46 0); [|by intros [[e|] c]].
    destruct (Poll_bound _ (2 * Second) (90 * Second) (certIssued (csrNameOf name)) "")
      as (n & timeout & Hn & ->).
    apply (within_mono b (Datatypes.S n * 1)); [change (Z.to_nat _) with 45%nat in Hn; lia|].
    apply within_poll. intros s. apply certIssued_within.
Qed.

Lemma provision_within `{!PollTimeLaws L} p nodeClass nodeClaim refName :
  within true 54 (provision p nodeClass nodeClaim refName).
Proof.
  unfold provision. apply (within_bind true 1 53); [apply within_call|intros uuid].
  case_match; [|done]. apply (within_bindE true 1 52); [apply getCABundle_within|intros ca].
  apply (within_bindE true 51 1); [apply generateKubeletCert_within|intros certs].
  case_match; [|done]. unfold Instance.Create. intros answer. by destruct answer.
Qed.

Lemma Create_within `{!PollTimeLaws L} p nodeClaim : within true 55 (CloudProvider.Create p nodeClaim).
Proof.
  unfold CloudProvider.Create, resolveNodeClass. destruct (Claim_NodeClassRef _) as [ref|]; [|done].
  apply (within_bindE true 1 54); [apply within_call|intros nodeClass]. apply provision_within.
Qed.

Lemma Delete_within p nodeClaim : within false 3 (CloudProvider.Delete p nodeClaim).
Proof.
  assert (Hd : forall uuid, within false 1 (deleteStopped p uuid)).
  { intros uuid [u|e]; cbn; [done|by case_match]. }
  intros [s|e]; cbn [errOf bind].
  - intros [w|e]; cbn [errOf bind]; [apply Hd|done].
  - repeat case_match; try done. apply (within_mono false 1); [lia|apply Hd].
Qed.

Lemma IsDrifted_within p nodeClaim : within false 2 (IsDrifted p nodeClaim).
Proof.
  unfold IsDrifted, resolveNodeClass. destruct (Claim_NodeClassRef _) as [ref|].
  - intros [n|e]; cbn; [done|]. by case_match.
  - cbn. by case_match.
Qed.

Lemma collectManaged_within uuids acc : within false (length uuids) (collectManaged uuids acc).
Proof.
  revert acc. induction uuids as [|uuid uuids IH]; intros acc; [done|].
  intros [d|e]; cbn [bind]; apply IH.
Qed.

Lemma rebaselineClaims_within n claims : within false (length claims) (rebaselineClaims n claims).
Proof.
  induction claims as [|c claims IH]; [done|]. cbn [rebaselineClaims length].
  case_match; [by apply (within_mono false (length claims)); [lia|]|]. intros [u|e]; cbn [bind]; done.
Qed.

Lemma taintNode_within node : within false 1 (taintNode node).
Proof. unfold taintNode. case_match; [done|]. by intros [u|e]. Qed.

Lemma resetTTL_within TTL nc : within false 2 (resetTTL TTL nc).
Proof. intros now. by intros [u|e]. Qed.

Lemma ttl_within TTL name : within false 6 (NodeClaimTTL.Reconcile TTL name).
Proof.
  intros [nc|e]; cbn; [|done]. case_match; [done|]. intros now. cbn. case_match; [done|].
  intros [pods|e]; cbn; [|done].
  case_match; [apply (within_mono false 2); [lia|apply resetTTL_within]|].
  intros [node|e]; cbn; [|done]. case_match; [apply resetTTL_within|].
  unfold decommission. apply (within_bind false 1 1); [apply taintNode_within|].
  intros [e|]; [done|]. by intros [u|e].
Qed.

(** The lists answered to a trace, which its operation then works through. *)
Definition listed (e : event) : nat :=
  match e with
  | Ev c r => match c in api X return X -> nat with
              | GetServers => fun r => match r with Ok uuids => length uuids | Err _ => 0 end
              | ListNodeClaimsFor _ => fun r => match r with Ok claims => length claims | Err _ => 0 end
              | _ => fun _ => 0
              end r
  end.
Definition listedIn (tr : list event) : nat := foldr (fun e n => listed e + n)%nat 0%nat tr.

Lemma listedIn_app t1 t2 : listedIn (t1 ++ t2) = (listedIn t1 + listedIn t2)%nat.
Proof. unfold listedIn. induction t1 as [|e t1 IH]; simpl; lia. Qed.

Lemma List_length p tr o :
  runs (CloudProvider.List p) tr o -> (length tr <= 1 + listedIn tr)%nat /\ exists a, o = Done a.
Proof.
  unfold CloudProvider.List, Instance.List. intros H. run_call H as [uuids|e].
  - assert (Hw : within false (length uuids) (bindE (Wrapf "listing servers")
        (bind (collectManaged uuids []) (fun servers => Ret (Ok servers)))
        (fun servers => Ret (Ok (lo_Map servers (fun s _ => buildNodeClaim s (cp_zone p))))))).
    { rewrite <-(Nat.add_0_r (length uuids)). apply within_bindE; [|done].
      rewrite <-(Nat.add_0_r (length uuids)). apply within_bind; [apply collectManaged_within|done]. }
    destruct (within_runs _ _ _ _ Hw H) as [Hl Ho]. split; [|done]. simpl. lia.
  - run_ret H. split; [simpl; lia|eauto].
Qed.

Lemma class_pass_length name tr o :
  runs (NodeClassController.Reconcile name) tr o ->
  (length tr <= 3 + listedIn tr)%nat /\ exists a, o = Done a.
Proof.
  intros (answer & tr' & -> & H)%Reconcile_runs.
  destruct answer as [n|e]; [|destruct H as [-> ->]; split; [simpl; lia|eauto]].
  destruct H as [| | | | |used pre tr err Hd Hf Hv Hpre H]; try (split; [simpl; lia|eauto]).
  split; [|by destruct err; eauto].
  assert (Hp : (length pre <= 1)%nat) by (destruct (SemanticDeepEqual _ _); [by destruct Hpre as [-> _]; simpl; lia|by subst]).
  unfold rebaselineClaimHashes in H. run_call H as [claims|e].
  - pose proof (within_length _ _ _ _ _ (rebaselineClaims_within used claims) H) as Hl.
    cbn [length]. rewrite length_app. cbn [length]. 
    change (listedIn (_ :: pre ++ ?e :: rest)) with (listedIn (pre ++ e :: rest)).
    rewrite listedIn_app. simpl. lia.
  - run_ret H. cbn [length]. rewrite length_app. simpl. lia.
Qed.

(** Create panics on a short UUID, before it has done anything but read. *)
Lemma Create_panics `{!PollTimeLaws L} p nodeClaim tr o :
  runs (CloudProvider.Create p nodeClaim) tr o ->
  (exists r, o = Done r) \/
  (exists msg ref nodeClass uuid, o = Panicked msg /\
     tr = [Ev (GetNodeClass (ref_Name ref)) (Ok nodeClass); Ev NewUUID uuid] /\
     (String.length (ReplaceAll uuid "-" "") < 16)%nat).
Proof.
  pose proof (PollTime_Poll L _). intros [(e & -> & _)|(ref & n & tr' & _ & -> & Hp)]%Create_runs; [eauto|].
  destruct Hp as [uuid Hu|tr1 e _|uuid short ca certs ud t1 t2 answer _ _ _ _]; [|by left; eexists..].
  right. eexists _, ref, n, uuid. split_and!; [done|done|].
  unfold slice16 in Hu. case_match eqn:E; [done|]. by apply Nat.leb_gt.
Qed.

(** ** Properties *)

(** C16: Every operation ends: whatever it is given and whatever its calls answer,
    it makes a bounded number of calls and then returns, without a panic but for
    one: Create panics when the UUID it draws is shorter than sixteen bytes without
    its dashes, having only read the NodeClass.  Create makes at most fifty-five
    calls, forty-six of them its wait for the certificate; List and the NodeClass
    controller one per server or claim they were answered, and a few; every other
    operation a fixed number.  The process itself makes at most fourteen, one of
    which runs the manager and lasts until that is told to stop. *)
Theorem operations_end `{!PollTimeLaws L} p itp nodeClaim providerID name TTL pde Complete :
  (forall tr o, runs (CloudProvider.Create p nodeClaim) tr o ->
     (length tr <= 55)%nat /\
     ((exists r, o = Done r) \/
      (exists msg ref nodeClass uuid, o = Panicked msg /\
         tr = [Ev (GetNodeClass (ref_Name ref)) (Ok nodeClass); Ev NewUUID uuid] /\
         (String.length (ReplaceAll uuid "-" "") < 16)%nat))) /\
  (forall tr o, runs (CloudProvider.Delete p nodeClaim) tr o ->
     (length tr <= 3)%nat /\ exists r, o = Done r) /\
  (forall tr o, runs (CloudProvider.Get p providerID) tr o ->
     (length tr <= 1)%nat /\ exists r, o = Done r) /\
  (forall tr o, runs (CloudProvider.List p) tr o ->
     (length tr <= 1 + listedIn tr)%nat /\ exists r, o = Done r) /\
  (forall tr o, runs (IsDrifted p nodeClaim) tr o -> (length tr <= 2)%nat /\ exists r, o = Done r) /\
  (forall tr o, runs (NodeClassController.Reconcile name) tr o ->
     (length tr <= 3 + listedIn tr)%nat /\ exists r, o = Done r) /\
  (forall tr o, runs (NodeClaimTTL.Reconcile TTL name) tr o ->
     (length tr <= 6)%nat /\ exists r, o = Done r) /\
  (forall tr o, runs (Refresh itp) tr o -> (length tr <= 4)%nat /\ exists r, o = Done r) /\
  (forall tr o, runs (main pde Complete) tr o -> (length tr <= 14)%nat /\ exists r, o = Done r).
Proof.
  split_and!; intros tr o H.
  - split; [exact (within_length _ _ _ _ _ (Create_within p nodeClaim) H)|exact (Create_panics _ _ _ _ H)].
  - exact (within_runs _ _ _ _ (Delete_within p nodeClaim) H).
  - refine (within_runs 1 _ _ _ _ H). by intros [s|e].
  - exact (List_length p tr o H).
  - exact (within_runs _ _ _ _ (IsDrifted_within p nodeClaim) H).
  - exact (class_pass_length name tr o H).
  - exact (within_runs _ _ _ _ (ttl_within TTL name) H).
  - exact (within_runs _ _ _ _ (Refresh_within itp) H).
  - refine (within_runs 14 _ _ _ _ H). apply (within_bind false 1 13); [apply within_call|intros _].
    apply (within_bind false 13 0); [|by intros [s|e]].
    apply (within_bindE false 12 1); [apply prepare_within|]. intros s. by apply (within_bind false 1 0).
Qed.
End EntryPoints.

(** ** Concrete runs *)

Lemma operations_end_witness :
  (length (exec_trace workingCloud sampleCreate None) <= 55)%nat /\
  exists r, exec_outcome startCluster (main (L := refLibs) Errorf (fun _ => None)) tt = Done r.
Proof.
  pose proof (operations_end (L := refLibs) sampleCloud refreshed sampleRequest "upcloud:////1" "default" Hour
    Errorf (fun _ => None)) as H. split.
  - exact (proj1 (proj1 H _ _ (exec_runs workingCloud sampleCreate None))).
  - do 8 apply proj2 in H.
    exact (proj2 (H _ _ (exec_runs startCluster (main (L := refLibs) Errorf (fun _ => None)) tt))).
Defined.
